(** * MicroDrop: the versioned document model and its serialization

    A shallow embedding of [microdrop/protocol.py] and
    [microdrop/experiment_log.py].

    Conventions.
    - Python values are terms of [pyobj]; a [dict] is an association list
      with unique keys, kept in the iteration order of the dictionary.
    - A call that may raise returns a [result]; a method that mutates its
      receiver is a function from the state before the call to the pair of
      its result and the state after it, so that the state a raised
      exception leaves behind can be observed.
    - [Step] objects live in a heap and are named by references: the
      protocol holds a list of references, as the Python list of objects.
    - Libraries that are not part of the repository ([pickle], [yaml],
      [json], [uuid], [path_helpers]) are parameters of the sections that
      use them. *)

From Stdlib Require Import ZArith String Ascii Lia Permutation DecimalString
  DecimalNat.
From stdpp Require Import gmap strings list.

Local Open Scope string_scope.
Local Open Scope list_scope.
Local Open Scope Z_scope.

(** ** Python values *)

#[local] Unset Elimination Schemes.
Inductive pyobj : Type :=
| PyNone
| PyBool (b : bool)
| PyInt (n : Z)
| PyStr (s : string)
| PyList (xs : list pyobj)
| PyDict (kvs : list (string * pyobj))
| PyObj (cls : string) (attrs : list (string * pyobj)).
#[local] Set Elimination Schemes.

(** A dictionary with string keys. *)
Abbreviation pydict := (list (string * pyobj)).

(** ** Exceptions and results *)

Inductive exn_kind :=
| KeyError | IndexError | TypeError | ValueError | AttributeError
| AssertionError | ImportError | ValidationError | FutureVersionError
| OSError | IOError | RuntimeError | Exception.

(** One entry of [SerializationError.exceptions]: the dictionary
    [{'step': .., 'error': .., 'plugin': .., 'data': ..}].  The last two keys
    are absent until [serialize_protocol] updates the entry. *)
Record exception_record := ExceptionRecord {
  ex_step : Z;
  ex_error : string;
  ex_plugin : option string;
  ex_data : option pyobj
}.

Inductive exn : Type :=
| Exn (kind : exn_kind) (msg : string)
| SerializationError (msg : string) (exceptions : list exception_record).

(** [str(exception)] *)
Definition exn_str (e : exn) : string :=
  match e with
  | Exn _ msg => msg
  | SerializationError msg _ => msg
  end.

Inductive result (A : Type) : Type :=
| Ok (a : A)
| Raise (e : exn).
Arguments Ok {A} a.
Arguments Raise {A} e.

Definition bind {A B} (m : result A) (k : A -> result B) : result B :=
  match m with
  | Ok a => k a
  | Raise e => Raise e
  end.

Declare Scope result_scope.
Delimit Scope result_scope with result.
Notation "'let*' x ':=' m 'in' k" := (bind m (fun x => k))
  (at level 10, x pattern, m at level 100, k at level 200)
  : result_scope.

Definition fails {A} (r : result A) : Prop := exists e, r = Raise e.
Definition succeeds {A} (r : result A) : Prop := exists a, r = Ok a.

Definition is_ok {A} (r : result A) : bool :=
  match r with Ok _ => true | Raise _ => false end.

(** ** Dictionaries *)

Section Dict.
Context {V : Type}.

Fixpoint dict_get (k : string) (d : list (string * V)) : option V :=
  match d with
  | [] => None
  | (k', v) :: d' => if String.eqb k k' then Some v else dict_get k d'
  end.

Definition dict_mem (k : string) (d : list (string * V)) : bool :=
  match dict_get k d with Some _ => true | None => false end.

(** [d[k] = v]: an existing key keeps its place, a new key goes last. *)
Fixpoint dict_set (k : string) (v : V) (d : list (string * V))
  : list (string * V) :=
  match d with
  | [] => [(k, v)]
  | (k', v') :: d' =>
      if String.eqb k k' then (k, v) :: d' else (k', v') :: dict_set k v d'
  end.

(** The entries left by [del d[k]] (the caller raises [KeyError] when the
    key is absent). *)
Fixpoint dict_remove (k : string) (d : list (string * V))
  : list (string * V) :=
  match d with
  | [] => []
  | (k', v') :: d' =>
      if String.eqb k k' then d' else (k', v') :: dict_remove k d'
  end.

Definition dict_keys (d : list (string * V)) : list string := map fst d.
Definition dict_values (d : list (string * V)) : list V := map snd d.
End Dict.

(** [del d[k]] *)
Definition dict_del {V} (k : string) (d : list (string * V))
  : result (list (string * V)) :=
  if dict_mem k d then Ok (dict_remove k d) else Raise (Exn KeyError k).

(** [d[k]] on a dictionary *)
Definition dict_getitem {V} (k : string) (d : list (string * V)) : result V :=
  match dict_get k d with
  | Some v => Ok v
  | None => Raise (Exn KeyError k)
  end.

(** ** Sequences: Python indexing *)

(** The position an index denotes in a sequence of length [len]: negative
    indices count from the end; [None] stands for [IndexError]. *)
Definition py_index (len : nat) (i : Z) : option nat :=
  if (0 <=? i) && (i <? Z.of_nat len) then Some (Z.to_nat i)
  else if (i <? 0) && (- Z.of_nat len <=? i) then Some (Z.to_nat (Z.of_nat len + i))
  else None.

(** [l[i]] *)
Definition list_getitem {A} (l : list A) (i : Z) : result A :=
  match py_index (length l) i with
  | Some n =>
      match l !! n with
      | Some x => Ok x
      | None => Raise (Exn IndexError "list index out of range")
      end
  | None => Raise (Exn IndexError "list index out of range")
  end.

(** [l[i] = x] (the list after the assignment) *)
Definition list_setitem {A} (l : list A) (i : Z) (x : A) : result (list A) :=
  match py_index (length l) i with
  | Some n => Ok (<[n := x]> l)
  | None => Raise (Exn IndexError "list assignment index out of range")
  end.

(** [del l[i]] (the list after the deletion) *)
Definition list_delitem {A} (l : list A) (i : Z) : result (list A) :=
  match py_index (length l) i with
  | Some n => Ok (take n l ++ drop (S n) l)
  | None => Raise (Exn IndexError "list assignment index out of range")
  end.

(** [l.insert(i, x)]: the index is clamped, never out of range. *)
Definition list_insert_at {A} (l : list A) (i : Z) (x : A) : list A :=
  let len := Z.of_nat (length l) in
  let j := if i <? 0 then Z.max 0 (len + i) else Z.min i len in
  take (Z.to_nat j) l ++ x :: drop (Z.to_nat j) l.

(** ** Subscripting, iterating and membership on arbitrary values *)

Fixpoint chars (s : string) : list pyobj :=
  match s with
  | EmptyString => []
  | String c s' => PyStr (String c EmptyString) :: chars s'
  end.

(** [obj[key]] with a string key *)
Definition py_getitem (obj : pyobj) (k : string) : result pyobj :=
  match obj with
  | PyDict kvs => dict_getitem k kvs
  | PyList _ | PyStr _ =>
      Raise (Exn TypeError "indices must be integers")
  | _ => Raise (Exn TypeError "object has no attribute '__getitem__'")
  end.

(** [obj[i]] with an integer index *)
Definition py_getitem_int (obj : pyobj) (i : Z) : result pyobj :=
  match obj with
  | PyList xs => list_getitem xs i
  | PyStr s => list_getitem (chars s) i
  | PyDict _ => Raise (Exn KeyError "")
  | _ => Raise (Exn TypeError "object has no attribute '__getitem__'")
  end.

(** [iter(obj)] run to the end *)
Definition py_iter (obj : pyobj) : result (list pyobj) :=
  match obj with
  | PyList xs => Ok xs
  | PyDict kvs => Ok (map PyStr (dict_keys kvs))
  | PyStr s => Ok (chars s)
  | _ => Raise (Exn TypeError "object is not iterable")
  end.

(** [obj.iteritems()] run to the end *)
Definition py_iteritems (obj : pyobj) : result (list (string * pyobj)) :=
  match obj with
  | PyDict kvs => Ok kvs
  | _ => Raise (Exn AttributeError "object has no attribute 'iteritems'")
  end.

(** [enumerate(l)] *)
Definition enumerate {A} (l : list A) : list (Z * A) :=
  imap (fun i x => (Z.of_nat i, x)) l.

(** ** protocol.py: the fault-isolating serializer *)

Section SerializeProtocol.
Context {R : Type}.
(** The serialization function handed to [serialize_protocol]. *)
Variable serialize_func : pyobj -> result R.

(** First loop: the steps that do not serialize on their own. *)
Definition find_exception_steps (steps : list pyobj) : list exception_record :=
  omap (fun '(i, step_i) =>
          match serialize_func step_i with
          | Ok _ => None
          | Raise e => Some (ExceptionRecord i (exn_str e) None None)
          end) (enumerate steps).

(** Inner loop over the plugins of one failing step.  [store] holds the
    entries of [exception_steps], [idx] is the position of the entry of the
    step at hand; every failure updates that one entry in place and appends
    a reference to it to [exceptions]. *)
Fixpoint scan_plugins (idx : nat) (items : list (string * pyobj))
    (store : list exception_record) (exceptions : list nat)
  : list exception_record * list nat :=
  match items with
  | [] => (store, exceptions)
  | (plugin_name_ij, plugin_data_ij) :: items' =>
      match serialize_func plugin_data_ij with
      | Ok _ => scan_plugins idx items' store exceptions
      | Raise e =>
          let store' :=
            alter (fun r => ExceptionRecord (ex_step r) (exn_str e)
                               (Some plugin_name_ij) (Some plugin_data_ij))
                  idx store in
          scan_plugins idx items' store' (exceptions ++ [idx])
      end
  end.

(** Second loop, over the entries of [exception_steps] by position. *)
Fixpoint scan_steps (protocol_dict : pyobj) (idxs : list nat)
    (store : list exception_record) (exceptions : list nat)
  : result (list exception_record * list nat) :=
  match idxs with
  | [] => Ok (store, exceptions)
  | idx :: idxs' =>
      match store !! idx with
      | None => Raise (Exn IndexError "list index out of range")
      | Some exception_step_i =>
          (let* steps := py_getitem protocol_dict "steps" in
           let* step_i := py_getitem_int steps (ex_step exception_step_i) in
           let* items := py_iteritems step_i in
           let '(store', exceptions') :=
             scan_plugins idx items store exceptions in
           scan_steps protocol_dict idxs' store' exceptions')%result
      end
  end.

Definition serialize_protocol (protocol_dict : pyobj) : result R :=
  match serialize_func protocol_dict with
  | Ok r => Ok r
  | Raise _ =>
      (let* steps := py_getitem protocol_dict "steps" in
       let* steps_l := py_iter steps in
       let exception_steps := find_exception_steps steps_l in
       let* found := scan_steps protocol_dict
                       (seq 0 (length exception_steps))
                       exception_steps [] in
       Raise (SerializationError "Error serializing protocol."
                (omap (fun i => found.1 !! i) found.2)))%result
  end.
End SerializeProtocol.

(** ** protocol.py: the repair operation *)

Section RemoveExceptions.
(** [T] is the kind of protocol (a dictionary or a [Protocol] object), [S]
    the kind of step that [step_getter] returns.  The two [_putback]
    functions say where the object that the getters reach is stored, so that
    deleting a key of the plugin data reached through them changes the
    protocol itself. *)
Context {T S : Type}.
Variable step_getter : T -> Z -> result S.
Variable plugin_data_getter : S -> result pydict.
Variable plugin_data_putback : S -> pydict -> S.
Variable step_putback : T -> Z -> S -> T.

(** One turn of the loop. *)
Definition remove_exception (protocol : T) (exception_i : exception_record)
  : result T :=
  (let* step_i := step_getter protocol (ex_step exception_i) in
   let* plugin_data_i := plugin_data_getter step_i in
   let* plugin :=
     match ex_plugin exception_i with
     | Some p => Ok p
     | None => Raise (Exn KeyError "plugin")
     end in
   let* plugin_data_i' := dict_del plugin plugin_data_i in
   Ok (step_putback protocol (ex_step exception_i)
         (plugin_data_putback step_i plugin_data_i')))%result.

(** The loop: the protocol as the loop leaves it, and the exception that
    ended it early, if any. *)
Fixpoint remove_exceptions_loop (protocol : T)
    (exceptions : list exception_record) : T * option exn :=
  match exceptions with
  | [] => (protocol, None)
  | exception_i :: rest =>
      match remove_exception protocol exception_i with
      | Ok protocol' => remove_exceptions_loop protocol' rest
      | Raise e => (protocol, Some e)
      end
  end.

(** [deepcopy] is a parameter: the identity on a dictionary of plain
    values, an allocation of fresh steps on a [Protocol].

    The result is the value returned (or the exception raised) together
    with the state of the argument after the call. *)
Variable deepcopy : T -> T.

Definition _protocol_remove_exceptions (protocol : T)
    (exceptions : list exception_record) (inplace : bool)
  : result (option T) * T :=
  if inplace then
    match remove_exceptions_loop protocol exceptions with
    | (protocol', None) => (Ok None, protocol')
    | (protocol', Some e) => (Raise e, protocol')
    end
  else
    match remove_exceptions_loop (deepcopy protocol) exceptions with
    | (copy', None) => (Ok (Some copy'), protocol)
    | (_, Some e) => (Raise e, protocol)
    end.
End RemoveExceptions.

(** [protocol_i['steps'][step_i]] *)
Definition dict_step_getter (protocol_i : pyobj) (step_i : Z) : result pyobj :=
  (let* steps := py_getitem protocol_i "steps" in
   py_getitem_int steps step_i)%result.

(** The plugin data of a step of a protocol dictionary is the step itself;
    [del] needs a dictionary. *)
Definition dict_plugin_data_getter (step_i : pyobj) : result pydict :=
  match step_i with
  | PyDict kvs => Ok kvs
  | _ => Raise (Exn TypeError "object doesn't support item deletion")
  end.

Definition dict_plugin_data_putback (step_i : pyobj) (kvs : pydict) : pyobj :=
  PyDict kvs.

Definition dict_step_putback (protocol_i : pyobj) (step_i : Z) (step : pyobj)
  : pyobj :=
  match protocol_i with
  | PyDict top =>
      match dict_get "steps" top with
      | Some (PyList steps) =>
          match py_index (length steps) step_i with
          | Some n => PyDict (dict_set "steps" (PyList (<[n := step]> steps)) top)
          | None => protocol_i
          end
      | _ => protocol_i
      end
  | _ => protocol_i
  end.

Definition protocol_dict_remove_exceptions (protocol_dict : pyobj)
    (exceptions : list exception_record) (inplace : bool)
  : result (option pyobj) * pyobj :=
  _protocol_remove_exceptions dict_step_getter dict_plugin_data_getter
    dict_plugin_data_putback dict_step_putback (fun d => d)
    protocol_dict exceptions inplace.

(** ** Versions *)

(** Modelled from the spec: [microdrop_utility.Version] is not part of the
    sources at hand.  A version is a triple (major, minor, patch) of
    non-negative integers, ordered by major, then minor, then patch.
    [Version_str] prints the three components separated by dots;
    [Version_fromstring] reads one to three components and takes the
    missing ones as zero (version tags are left out). *)
Record Version := mkVersion { major : nat; minor : nat; micro : nat }.

Definition Version_compare (a b : Version) : comparison :=
  match Nat.compare (major a) (major b) with
  | Eq =>
      match Nat.compare (minor a) (minor b) with
      | Eq => Nat.compare (micro a) (micro b)
      | c => c
      end
  | c => c
  end.

Definition Version_ltb (a b : Version) : bool :=
  match Version_compare a b with Lt => true | _ => false end.

Definition Version_gtb (a b : Version) : bool :=
  match Version_compare a b with Gt => true | _ => false end.

Definition Version_eqb (a b : Version) : bool :=
  match Version_compare a b with Eq => true | _ => false end.

Definition nat_str (n : nat) : string :=
  NilEmpty.string_of_uint (Nat.to_uint n).

Definition Version_str (v : Version) : string :=
  nat_str (major v) +:+ "." +:+ nat_str (minor v) +:+ "." +:+ nat_str (micro v).

(** [s.split(c)] for a one-character separator *)
Fixpoint split_on (c : ascii) (s : string) : list string :=
  match s with
  | EmptyString => [EmptyString]
  | String a s' =>
      if Ascii.eqb a c then EmptyString :: split_on c s'
      else match split_on c s' with
           | [] => [String a EmptyString]
           | w :: ws => String a w :: ws
           end
  end.

Definition parse_nat (s : string) : option nat :=
  match s with
  | EmptyString => None
  | _ => Nat.of_uint <$> NilEmpty.uint_of_string s
  end.

Definition Version_fromstring (s : string) : result Version :=
  let invalid := Raise (Exn ValueError "invalid version string") in
  match split_on "." s with
  | [a] =>
      match parse_nat a with
      | Some a => Ok (mkVersion a 0 0)
      | None => invalid
      end
  | [a; b] =>
      match parse_nat a, parse_nat b with
      | Some a, Some b => Ok (mkVersion a b 0)
      | _, _ => invalid
      end
  | [a; b; c] =>
      match parse_nat a, parse_nat b, parse_nat c with
      | Some a, Some b, Some c => Ok (mkVersion a b c)
      | _, _, _ => invalid
      end
  | _ => invalid
  end.

(** ** Strings *)

(** [s.replace(old, new)] for a non-empty [old]: [skip] counts the
    characters of a match that are still to be dropped. *)
Fixpoint str_replace_from (old new : string) (skip : nat) (s : string)
  : string :=
  match s with
  | EmptyString => EmptyString
  | String c s' =>
      match skip with
      | S k => str_replace_from old new k s'
      | O =>
          if String.prefix old s
          then new +:+ str_replace_from old new (String.length old - 1) s'
          else String c (str_replace_from old new O s')
      end
  end.

Definition str_replace (old new s : string) : string :=
  str_replace_from old new O s.

(** [sub in s] *)
Definition str_contains (sub s : string) : bool :=
  match String.index 0 sub s with Some _ => true | None => false end.

(** [sorted] on strings, by insertion. *)
Fixpoint insert_sorted_str (x : string) (l : list string) : list string :=
  match l with
  | [] => [x]
  | y :: l' => if String.leb x y then x :: l else y :: insert_sorted_str x l'
  end.

Definition sorted_str (l : list string) : list string :=
  foldr insert_sorted_str [] l.

(** Truth value of an object ([if val:]); an instance of a class is taken
    to be true. *)
Definition py_truthy (v : pyobj) : bool :=
  match v with
  | PyNone => false
  | PyBool b => b
  | PyInt n => negb (n =? 0)
  | PyStr s => negb (String.eqb s "")
  | PyList xs => match xs with [] => false | _ => true end
  | PyDict kvs => match kvs with [] => false | _ => true end
  | PyObj _ _ => true
  end.

(** ** Methods: state and exceptions

    A method is a function from the state before the call to its result and
    the state after it.  A raised exception keeps the state reached so far. *)

Definition M (St A : Type) : Type := St -> result A * St.

Definition ret {St A} (a : A) : M St A := fun s => (Ok a, s).
Definition raise {St A} (e : exn) : M St A := fun s => (Raise e, s).
Definition mbind {St A B} (m : M St A) (k : A -> M St B) : M St B :=
  fun s => match m s with
           | (Ok a, s') => k a s'
           | (Raise e, s') => (Raise e, s')
           end.
Definition get_state {St} : M St St := fun s => (Ok s, s).
Definition put_state {St} (s : St) : M St unit := fun _ => (Ok tt, s).
Definition lift {St A} (r : result A) : M St A := fun s => (r, s).

Declare Scope method_scope.
Delimit Scope method_scope with method.
Notation "'let!' x ':=' m 'in' k" := (mbind m (fun x => k))
  (at level 10, x pattern, m at level 100, k at level 200)
  : method_scope.
Notation "m ';;' k" := (mbind m (fun _ => k))
  (at level 100, k at level 200, right associativity) : method_scope.

(** [for x in l: body x] *)
Fixpoint for_each {St A} (l : list A) (body : A -> M St unit) : M St unit :=
  match l with
  | [] => ret tt
  | x :: l' => (body x ;; for_each l' body)%method
  end.

(** ** protocol.py: [Step] *)

Record Step := mkStep { step_plugin_data : pydict }.

(** A reference to a [Step] object: its position in the heap.  Objects are
    allocated at the end of the heap and never freed. *)
Abbreviation ref := nat.

(** ** Signals

    [emit_signal] belongs to the plugin manager; the model records the
    signals in the order they are emitted. *)

Inductive sigarg :=
| ArgInt (n : Z)
| ArgStep (r : ref).

Record signal := mkSignal { sig_name : string; sig_args : list sigarg }.

(** ** protocol.py: [Protocol] *)

Record Protocol := mkProtocol {
  steps : list ref;
  name : pyobj;
  plugin_data : pydict;
  plugin_fields : pydict;
  n_repeats : Z;
  current_step_attempt : Z;
  current_step_number : Z;
  current_repetition : Z;
  (** [None]: an object unpickled from a file written before the attribute
      existed *)
  version : option string;
  (** set by [load] *)
  filename : option string
}.

(** The objects a method of [Protocol] can reach: the receiver, the [Step]
    objects, and the signals emitted so far. *)
Record pstate := mkPstate {
  self : Protocol;
  heap : list Step;
  signals : list signal
}.

Definition set_self (f : Protocol -> Protocol) : M pstate unit :=
  fun s => (Ok tt, mkPstate (f (self s)) (heap s) (signals s)).

Definition set_steps (l : list ref) (p : Protocol) : Protocol :=
  mkProtocol l (name p) (plugin_data p) (plugin_fields p) (n_repeats p)
    (current_step_attempt p) (current_step_number p) (current_repetition p)
    (version p) (filename p).

Definition set_plugin_data (d : pydict) (p : Protocol) : Protocol :=
  mkProtocol (steps p) (name p) d (plugin_fields p) (n_repeats p)
    (current_step_attempt p) (current_step_number p) (current_repetition p)
    (version p) (filename p).

Definition set_current_step_attempt (n : Z) (p : Protocol) : Protocol :=
  mkProtocol (steps p) (name p) (plugin_data p) (plugin_fields p) (n_repeats p)
    n (current_step_number p) (current_repetition p)
    (version p) (filename p).

Definition set_current_step_number (n : Z) (p : Protocol) : Protocol :=
  mkProtocol (steps p) (name p) (plugin_data p) (plugin_fields p) (n_repeats p)
    (current_step_attempt p) n (current_repetition p)
    (version p) (filename p).

Definition set_current_repetition (n : Z) (p : Protocol) : Protocol :=
  mkProtocol (steps p) (name p) (plugin_data p) (plugin_fields p) (n_repeats p)
    (current_step_attempt p) (current_step_number p) n
    (version p) (filename p).

Definition set_version (v : option string) (p : Protocol) : Protocol :=
  mkProtocol (steps p) (name p) (plugin_data p) (plugin_fields p) (n_repeats p)
    (current_step_attempt p) (current_step_number p) (current_repetition p)
    v (filename p).

Definition set_filename (f : option string) (p : Protocol) : Protocol :=
  mkProtocol (steps p) (name p) (plugin_data p) (plugin_fields p) (n_repeats p)
    (current_step_attempt p) (current_step_number p) (current_repetition p)
    (version p) f.

Definition emit_signal (signal_name : string) (args : list sigarg)
  : M pstate unit :=
  fun s => (Ok tt, mkPstate (self s) (heap s)
                     (signals s ++ [mkSignal signal_name args])).

(** [Step(plugin_data)]: the plugin data is deep-copied; [None] stands for
    the default argument.  The new object goes to the end of the heap. *)
Definition Step_new (plugin_data : option pydict) : M pstate ref :=
  fun s =>
    let d := match plugin_data with Some d => d | None => [] end in
    (Ok (length (heap s)),
     mkPstate (self s) (heap s ++ [mkStep d]) (signals s)).

(** Reading the object a reference names. *)
Definition deref (r : ref) : M pstate Step :=
  fun s => match heap s !! r with
           | Some st => (Ok st, s)
           | None => (Raise (Exn RuntimeError "dangling reference"), s)
           end.

(** [Step.copy] *)
Definition Step_copy (r : ref) : M pstate ref :=
  (let! st := deref r in
   Step_new (Some (step_plugin_data st)))%method.

(** [Step.plugins] *)
Definition Step_plugins (st : Step) : list string :=
  dict_keys (step_plugin_data st).

(** [Step.get_data]: [dict.get], so [None] for a missing plugin. *)
Definition Step_get_data (st : Step) (plugin_name : string) : pyobj :=
  match dict_get plugin_name (step_plugin_data st) with
  | Some v => v
  | None => PyNone
  end.

(** [Step.set_data] on the object [r] names *)
Definition Step_set_data (r : ref) (plugin_name : string) (data : pyobj)
  : M pstate unit :=
  (let! st := deref r in
   fun s => (Ok tt,
             mkPstate (self s)
               (<[r := mkStep (dict_set plugin_name data (step_plugin_data st))]>
                  (heap s))
               (signals s)))%method.

(** [str(Version(0, 2))] *)
Definition class_version : string := Version_str (mkVersion 0 2 0).

(** [Protocol.__init__], in a state whose receiver is about to be replaced. *)
Definition Protocol_init (name : pyobj) : M pstate unit :=
  (let! r := Step_new None in
   set_self (fun _ =>
     mkProtocol [r] name [] [] 1 0 0 0 (Some class_version) None))%method.

(** *** Plugin data of the protocol *)

Definition Protocol_plugins (p : Protocol) : list string :=
  dict_keys (plugin_data p).

Definition Protocol_get_data (p : Protocol) (plugin_name : string) : pyobj :=
  match dict_get plugin_name (plugin_data p) with
  | Some v => v
  | None => PyNone
  end.

Definition Protocol_set_data (plugin_name : string) (data : pyobj)
  : M pstate unit :=
  set_self (fun p => set_plugin_data (dict_set plugin_name data (plugin_data p)) p).

(** *** Execution state *)

Definition Protocol_len (p : Protocol) : Z := Z.of_nat (length (steps p)).

Definition Protocol_getitem (i : Z) : M pstate ref :=
  fun s => (list_getitem (steps (self s)) i, s).

Definition get_step_number (default : option Z) : M pstate Z :=
  fun s => match default with
           | None => (Ok (current_step_number (self s)), s)
           | Some n => (Ok n, s)
           end.

Definition get_step (step_number : option Z) : M pstate ref :=
  (let! step_number := get_step_number step_number in
   Protocol_getitem step_number)%method.

Definition current_step : M pstate ref :=
  fun s => (list_getitem (steps (self s)) (current_step_number (self s)), s).

Definition goto_step (step_number : Z) : M pstate unit :=
  (let! s := get_state in
   let original_step_number := current_step_number (self s) in
   set_self (set_current_step_number step_number) ;;
   emit_signal "on_step_swapped"
     [ArgInt original_step_number; ArgInt step_number])%method.

Definition insert_step (step_number : option Z) (value : option ref)
    (notify : bool) : M pstate unit :=
  (let! s := get_state in
   let step_number :=
     match step_number with
     | None => current_step_number (self s)
     | Some n => n
     end in
   let! value :=
     match value with
     | None => Step_new None
     | Some r => ret r
     end in
   set_self (fun p => set_steps (list_insert_at (steps p) step_number value) p) ;;
   let! s := get_state in
   emit_signal "on_step_created" [ArgInt (current_step_number (self s))] ;;
   if notify
   then emit_signal "on_step_inserted" [ArgInt (current_step_number (self s))]
   else ret tt)%method.

(** [range(a, b)] *)
Definition range (a b : Z) : list Z :=
  map (fun i => a + Z.of_nat i) (seq 0 (Z.to_nat (b - a))).

Definition insert_steps (step_number : option Z) (count : option Z)
    (values : option (list ref)) : M pstate unit :=
  (let! values :=
     match values, count with
     | None, None =>
         raise (Exn ValueError "Either count or values must be specified")
     | None, Some count =>
         (** [[Step()] * count]: one object, [count] references to it *)
         let! r := Step_new None in
         ret (replicate (Z.to_nat count) r)
     | Some values, _ => ret values
     end in
   for_each (rev values)
     (fun value => insert_step step_number (Some value) false) ;;
   match step_number with
   | None =>
       raise (Exn TypeError
                "unsupported operand type(s) for +: 'NoneType' and 'int'")
   | Some n =>
       emit_signal "on_steps_inserted"
         (map ArgInt (range n (n + Z.of_nat (length values))))
   end)%method.

Definition delete_step (step_number : Z) : M pstate unit :=
  (let! s := get_state in
   let! step_to_remove := lift (list_getitem (steps (self s)) step_number) in
   let! steps' := lift (list_delitem (steps (self s)) step_number) in
   set_self (set_steps steps') ;;
   emit_signal "on_step_removed" [ArgInt step_number; ArgStep step_to_remove] ;;
   let! s := get_state in
   if Protocol_len (self s) =? 0 then
     let! r := Step_new None in
     insert_step (Some 0) (Some r) true ;;
     goto_step 0
   else if current_step_number (self s) =? Protocol_len (self s) then
     goto_step (step_number - 1)
   else
     goto_step (current_step_number (self s)))%method.

(** [sorted] on integers, by insertion. *)
Fixpoint insert_sorted (x : Z) (l : list Z) : list Z :=
  match l with
  | [] => [x]
  | y :: l' => if x <=? y then x :: l else y :: insert_sorted x l'
  end.

Definition sorted (l : list Z) : list Z := foldr insert_sorted [] l.

Definition delete_steps (step_ids : list Z) : M pstate unit :=
  let sorted_ids := rev (sorted step_ids) in
  for_each sorted_ids delete_step.

(** [next_step] calls itself once after it has appended a copy; [fuel]
    bounds the depth of the calls, as the interpreter's recursion limit
    does. *)
Fixpoint next_step (fuel : nat) : M pstate unit :=
  match fuel with
  | O => raise (Exn RuntimeError "maximum recursion depth exceeded")
  | S fuel' =>
      (let! s := get_state in
       if current_step_number (self s) =? Protocol_len (self s) - 1 then
         let! cur := current_step in
         let! value := Step_copy cur in
         insert_step (Some (current_step_number (self s))) (Some value) false ;;
         next_step fuel' ;;
         let! s := get_state in
         emit_signal "on_step_inserted" [ArgInt (current_step_number (self s))]
       else
         goto_step (current_step_number (self s) + 1))%method
  end.

Definition next_repetition : M pstate unit :=
  (let! s := get_state in
   if current_repetition (self s) <? n_repeats (self s) - 1 then
     set_self (fun p => set_current_repetition (current_repetition p + 1) p) ;;
     goto_step 0
   else ret tt)%method.

Definition prev_step : M pstate unit :=
  (let! s := get_state in
   if 0 <? current_step_number (self s)
   then goto_step (current_step_number (self s) - 1)
   else ret tt)%method.

Definition first_step : M pstate unit :=
  (set_self (set_current_repetition 0) ;;
   goto_step 0)%method.

Definition last_step : M pstate unit :=
  (let! s := get_state in
   goto_step (Protocol_len (self s) - 1))%method.

(** ** experiment_log.py: [ExperimentLog] *)

Record ExperimentLog := mkExperimentLog {
  directory : option string;
  experiment_id : option Z;
  (** [uuid] and [metadata] are absent ([None]) in objects unpickled from
      files written before the attributes existed *)
  uuid : option string;
  el_version : option string;
  data : list pydict;
  metadata : option pydict;
  el_filename : option string
}.

Definition el_set_data (d : list pydict) (l : ExperimentLog) : ExperimentLog :=
  mkExperimentLog (directory l) (experiment_id l) (uuid l) (el_version l) d
    (metadata l) (el_filename l).

Definition el_set_version (v : option string) (l : ExperimentLog)
  : ExperimentLog :=
  mkExperimentLog (directory l) (experiment_id l) (uuid l) v (data l)
    (metadata l) (el_filename l).

Definition el_set_uuid (u : option string) (l : ExperimentLog) : ExperimentLog :=
  mkExperimentLog (directory l) (experiment_id l) u (el_version l) (data l)
    (metadata l) (el_filename l).

Definition el_set_metadata (m : option pydict) (l : ExperimentLog)
  : ExperimentLog :=
  mkExperimentLog (directory l) (experiment_id l) (uuid l) (el_version l)
    (data l) m (el_filename l).

Definition el_set_filename (f : option string) (l : ExperimentLog)
  : ExperimentLog :=
  mkExperimentLog (directory l) (experiment_id l) (uuid l) (el_version l)
    (data l) (metadata l) f.

Definition el_set_experiment_id (i : option Z) (l : ExperimentLog)
  : ExperimentLog :=
  mkExperimentLog (directory l) i (uuid l) (el_version l)
    (data l) (metadata l) (el_filename l).

(** [str(Version(0, 3, 0))] *)
Definition el_class_version : string := Version_str (mkVersion 0 3 0).

(** ** Files *)

(** What unpickling (or YAML-loading) a file can give: a [Protocol] with the
    [Step] objects it refers to ([legacy_class] when the class was pickled
    under its old relative name [protocol.Protocol]), an [ExperimentLog],
    or anything else. *)
Inductive file_object :=
| FProtocol (legacy_class : bool) (p : Protocol) (hp : list Step)
| FExperimentLog (l : ExperimentLog)
| FOther (v : pyobj).

(** The files, by path. *)
Abbreviation files := (list (string * string)).

(** [open(filename, 'rb')] and reading it whole *)
Definition read_file (fs : files) (filename : string) : result string :=
  match dict_get filename fs with
  | Some content => Ok content
  | None => Raise (Exn IOError "No such file or directory")
  end.

Section Persistence.
(** [pickle.loads], [pickle.dumps], [yaml.load] and [yaml.dump] on the
    payload of one plugin, given as a string *)
Variable pickle_loads : string -> result pyobj.
Variable pickle_dumps : pyobj -> result string.
Variable yaml_load : string -> result pyobj.
Variable yaml_dump : pyobj -> result string.
(** [pickle.load], [pickle.dump], [yaml.load] and [yaml.dump] on a whole
    document *)
Variable pickle_load_file : string -> result file_object.
Variable pickle_dump_file : file_object -> result string.
Variable yaml_load_file : string -> result file_object.
Variable yaml_dump_file : file_object -> result string.

(** [pickle.loads(v)] on any object: only a string can be unpickled. *)
Definition pickle_loads_obj (v : pyobj) : result pyobj :=
  match v with
  | PyStr s => pickle_loads s
  | _ => Raise (Exn TypeError "must be string")
  end.

(** [yaml.load(v)] on any object *)
Definition yaml_load_obj (v : pyobj) : result pyobj :=
  match v with
  | PyStr s => yaml_load s
  | _ => Raise (Exn AttributeError "object has no attribute 'read'")
  end.

(** *** [Protocol._upgrade] *)

Definition Protocol_upgrade : M pstate unit :=
  (let! s := get_state in
   let! vstr :=
     match version (self s) with
     | Some v => ret v
     | None => raise (Exn AttributeError "version")
     end in
   let! version := lift (Version_fromstring vstr) in
   let! cv := lift (Version_fromstring class_version) in
   if Version_gtb version cv then
     raise (Exn FutureVersionError "")
   else if Version_ltb version cv then
     (if Version_ltb version (mkVersion 0 1 0) then
        for_each (plugin_data (self s))
          (fun kv =>
             let! y := lift (yaml_dump kv.2) in
             Protocol_set_data kv.1 (PyStr y)) ;;
        for_each (steps (self s))
          (fun step =>
             let! st := deref step in
             for_each (step_plugin_data st)
               (fun kv =>
                  let! y := lift (yaml_dump kv.2) in
                  Step_set_data step kv.1 (PyStr y))) ;;
        set_self (set_version (Some (Version_str (mkVersion 0 1 0))))
      else ret tt) ;;
     (if Version_ltb version (mkVersion 0 2 0) then
        set_self (set_current_step_attempt 0) ;;
        set_self (set_version (Some (Version_str (mkVersion 0 2 0))))
      else ret tt)
   else ret tt)%method.

(** *** [Protocol.load] *)

(** The two attempts at decoding the payload of a protocol-wide plugin;
    [None] when both fail (the error is logged). *)
Definition decode_payload (v : pyobj) : option pyobj :=
  match pickle_loads_obj v with
  | Ok x => Some x
  | Raise _ =>
      match yaml_load_obj v with
      | Ok x => Some x
      | Raise _ => None
      end
  end.

(** The same for the payload of a plugin of a step, where the old relative
    name of the device controller package is rewritten before the second
    attempt. *)
Definition decode_step_payload (v : pyobj) : option pyobj :=
  match pickle_loads_obj v with
  | Ok x => Some x
  | Raise _ =>
      match v with
      | PyStr s =>
          match yaml_load
                  (str_replace "!!python/object:gui.dmf_device_controller."
                     "!!python/object:microdrop.gui.dmf_device_controller."
                     s) with
          | Ok x => Some x
          | Raise _ => None
          end
      | _ => None
      end
  end.

(** The loops of [load] that turn the stored strings back into objects. *)
Definition Protocol_load_payloads : M pstate unit :=
  (let! s := get_state in
   for_each (plugin_data (self s))
     (fun kv =>
        match decode_payload kv.2 with
        | Some x => Protocol_set_data kv.1 x
        | None => ret tt
        end) ;;
   let! s := get_state in
   for_each (range 0 (Protocol_len (self s)))
     (fun i =>
        let! step := Protocol_getitem i in
        let! st := deref step in
        for_each (step_plugin_data st)
          (fun kv =>
             match decode_step_payload kv.2 with
             | Some x => Step_set_data step kv.1 x
             | None => ret tt
             end)))%method.

(** The object read from a file that is not JSON: the pickle first, then
    the YAML, [None] when neither reads. *)
Definition load_file_object (content : string) : pyobj + file_object :=
  match pickle_load_file content with
  | Ok (FOther PyNone) | Raise _ =>
      match yaml_load_file content with
      | Ok o => inr o
      | Raise _ => inl PyNone
      end
  | Ok o => inr o
  end.

(** The protocol read from the file as [load] hands it to [_upgrade]: the
    file name is set, and a protocol without the attribute [version] is
    given the version 0.0.0. *)
Definition Protocol_before_upgrade (filename : string) (p : Protocol)
  : Protocol :=
  let out := set_filename (Some filename) p in
  match version out with
  | None => set_version (Some (Version_str (mkVersion 0 0 0))) out
  | Some _ => out
  end.

(** [Protocol.load] past its first branch, for a file whose extension is
    not [.json]: the protocol read, with its steps. *)
Definition Protocol_load_serialized (fs : files) (filename : string)
  : result (Protocol * list Step) :=
  (let* content := read_file fs filename in
   match load_file_object content with
   | inl _ | inr (FOther PyNone) => Raise (Exn TypeError "")
   | inr (FOther (PyObj _ _)) | inr (FExperimentLog _) =>
       Raise (Exn TypeError "File is wrong type")
   | inr (FOther _) =>
       Raise (Exn AttributeError "object has no attribute 'filename'")
   | inr (FProtocol _ p hp) =>
       match (Protocol_upgrade ;; Protocol_load_payloads)%method
               (mkPstate (Protocol_before_upgrade filename p) hp []) with
       | (Ok _, s) => Ok (self s, heap s)
       | (Raise e, _) => Raise e
       end
   end)%result.

(** *** [Protocol.save] *)

(** The loops of [save] that turn the payloads of the copy into strings. *)
Definition Protocol_save_payloads : M pstate unit :=
  (let! s := get_state in
   for_each (plugin_data (self s))
     (fun kv =>
        let! y := lift (pickle_dumps kv.2) in
        Protocol_set_data kv.1 (PyStr y)) ;;
   for_each (steps (self s))
     (fun step =>
        let! st := deref step in
        for_each (step_plugin_data st)
          (fun kv =>
             let! y := lift (pickle_dumps kv.2) in
             Step_set_data step kv.1 (PyStr y))))%method.

(** [Protocol.save]: the receiver is [p] with the steps in [hp]; it is
    copied, so only the files change.  The file is opened for writing,
    hence emptied, before the format is looked at. *)
Definition Protocol_save (p : Protocol) (hp : list Step) (filename : string)
    (format : string) : M files unit :=
  fun fs =>
    let out := set_filename None p in
    match Protocol_save_payloads (mkPstate out hp []) with
    | (Raise e, _) => (Raise e, fs)
    | (Ok _, s) =>
        let fs' := dict_set filename "" fs in
        let written :=
          if String.eqb format "pickle"
          then pickle_dump_file (FProtocol false (self s) (heap s))
          else if String.eqb format "yaml"
          then yaml_dump_file (FProtocol false (self s) (heap s))
          else Raise (Exn TypeError "") in
        match written with
        | Ok content => (Ok tt, dict_set filename content fs)
        | Raise e => (Raise e, fs')
        end
    end.
End Persistence.

(** ** protocol.py: the schema of a protocol dictionary *)

(** [VALIDATORS['step']] on one item of [steps].  The schema constrains the
    keys [plugin_data] and [version] of a step; its [additionalProperties]
    entry is written inside [properties], where it is the (unsatisfiable)
    schema [False] of a key of that name. *)
Definition validate_step (step : pyobj) : bool :=
  match step with
  | PyDict kvs =>
      match dict_get "plugin_data" kvs with
      | None | Some (PyDict _) => true
      | Some _ => false
      end
      && match dict_get "version" kvs with
         | None => true
         | Some (PyStr v) => String.eqb v "0.2.0"
         | Some _ => false
         end
      && negb (dict_mem "additionalProperties" kvs)
  | _ => false
  end.

(** [VALIDATORS['protocol'].validate]: [true] when no [ValidationError] is
    raised. *)
Definition validate_protocol (protocol_dict : pyobj) : bool :=
  match protocol_dict with
  | PyDict top =>
      match dict_get "name" top with
      | Some (PyStr _) => true
      | _ => false
      end
      && match dict_get "uuid" top with
         | None | Some (PyStr _) => true
         | Some _ => false
         end
      && match dict_get "version" top with
         | Some (PyStr v) => String.eqb v "0.2.0"
         | _ => false
         end
      && match dict_get "steps" top with
         | None => true
         | Some (PyList steps) => forallb validate_step steps
         | Some _ => false
         end
  | _ => false
  end.

(** ** protocol.py: conversion to and from a dictionary *)

(** The methods that a class of plugin payloads may have.  The first two
    are the dictionary contract; [to_dict] is given the attributes of the
    instance.  [cls_contains] is the test [key in obj] on an instance, which
    a class supports through [__contains__], [__iter__] or [__getitem__] (a
    tuple, an array, a data series), and [cls_pop] is [obj.pop(key)], which
    gives the value and the instance after the call. *)
Record pyclass := mkClass {
  cls_to_dict : option (pydict -> result pyobj);
  cls_from_dict : option (pyobj -> result pyobj);
  cls_contains : option (pydict -> string -> result bool);
  cls_pop : option (pydict -> string -> result (pyobj * pyobj))
}.

(** [sep.join(l)] *)
Fixpoint str_join (sep : string) (l : list string) : string :=
  match l with
  | [] => ""
  | [x] => x
  | x :: l' => x +:+ sep +:+ str_join sep l'
  end.

(** [key in obj] for a string [key]: [None], a boolean and a number are
    not iterable, and an instance answers as its class does. *)
Definition py_contains (class_of : string -> pyclass) (key : string)
    (obj : pyobj) : result bool :=
  match obj with
  | PyDict kvs => Ok (dict_mem key kvs)
  | PyList xs =>
      Ok (existsb (fun x => match x with
                            | PyStr s => String.eqb s key
                            | _ => false
                            end) xs)
  | PyStr s => Ok (str_contains key s)
  | PyObj cls attrs =>
      match cls_contains (class_of cls) with
      | Some contains => contains attrs key
      | None => Raise (Exn TypeError "argument is not iterable")
      end
  | PyNone | PyBool _ | PyInt _ =>
      Raise (Exn TypeError "argument is not iterable")
  end.

(** [obj.pop(key)] for a string [key], where [key in obj] holds: the value
    popped and the object after the call *)
Definition py_pop (class_of : string -> pyclass) (key : string)
    (obj : pyobj) : result (pyobj * pyobj) :=
  match obj with
  | PyDict kvs =>
      match dict_get key kvs with
      | Some v => Ok (v, PyDict (dict_remove key kvs))
      | None => Raise (Exn KeyError key)
      end
  | PyList _ => Raise (Exn TypeError "an integer is required")
  | PyObj cls attrs =>
      match cls_pop (class_of cls) with
      | Some pop => pop attrs key
      | None => Raise (Exn AttributeError "object has no attribute 'pop'")
      end
  | PyNone | PyBool _ | PyInt _ | PyStr _ =>
      Raise (Exn AttributeError "object has no attribute 'pop'")
  end.

Section Classes.
(** The class of an instance, by the name the instance carries. *)
Variable class_of : string -> pyclass.
(** [importlib.import_module]: the classes of a module by name, [None]
    when the module cannot be imported. *)
Variable import_module : string -> option (string -> option pyclass).
Variable pickle_loads : string -> result pyobj.

Definition safe_pickle_loads (data : pyobj) : pyobj :=
  match pickle_loads_obj pickle_loads data with
  | Ok v => v
  | Raise _ => PyNone
  end.

(** [hasattr(obj, 'to_dict')], with the method *)
Definition to_dict_method (obj : pyobj) : option (result pyobj) :=
  match obj with
  | PyObj cls attrs =>
      match cls_to_dict (class_of cls) with
      | Some f => Some (f attrs)
      | None => None
      end
  | _ => None
  end.

(** The plugin data of one step, keyed in sorted order. *)
Definition step_to_dict (loaded : bool) (st : Step) : pydict :=
  map (fun plugin_ij =>
         (plugin_ij,
          if loaded then Step_get_data st plugin_ij
          else safe_pickle_loads (Step_get_data st plugin_ij)))
      (sorted_str (Step_plugins st)).

(** The pairs collected in [to_update_i]. *)
Fixpoint collect_to_dict (items : pydict) : result pydict :=
  match items with
  | [] => Ok []
  | (plugin_name_ij, plugin_data_ij) :: items' =>
      match to_dict_method plugin_data_ij with
      | Some r =>
          (let* d := r in
           let* rest := collect_to_dict items' in
           Ok ((plugin_name_ij, d) :: rest))%result
      | None => collect_to_dict items'
      end
  end.

Definition apply_updates (updates : pydict) (d : pydict) : pydict :=
  fold_left (fun acc kv => dict_set kv.1 kv.2 acc) updates d.

Fixpoint map_result {A B} (f : A -> result B) (l : list A) : result (list B) :=
  match l with
  | [] => Ok []
  | x :: l' =>
      (let* y := f x in
       let* ys := map_result f l' in
       Ok (y :: ys))%result
  end.

Definition protocol_to_dict (protocol : Protocol) (hp : list Step)
    (loaded : bool) : result pyobj :=
  (let* step_data :=
     map_result
       (fun r => match hp !! r with
                 | Some st => Ok (step_to_dict loaded st)
                 | None => Raise (Exn RuntimeError "dangling reference")
                 end)
       (steps protocol) in
   let* step_data :=
     map_result
       (fun step_i =>
          let* to_update_i := collect_to_dict step_i in
          Ok (apply_updates to_update_i step_i))
       step_data in
   let* v :=
     match version protocol with
     | Some v => Ok v
     | None => Raise (Exn AttributeError "version")
     end in
   Ok (PyDict [("name", name protocol);
               ("version", PyStr v);
               ("steps", PyList (map PyDict step_data));
               ("plugin_data", PyDict (plugin_data protocol))]))%result.

(** [class_str.split('.')] into the module path and the class name, then
    the import and the [getattr]. *)
Definition lookup_class (class_str : pyobj) : result pyclass :=
  match class_str with
  | PyStr s =>
      let parts := split_on "." s in
      let module_str := str_join "." (removelast parts) in
      let class_name_str := List.last parts "" in
      if String.eqb module_str "" then
        Raise (Exn ValueError "Empty module name")
      else
        match import_module module_str with
        | None => Raise (Exn ImportError module_str)
        | Some module_ij =>
            match module_ij class_name_str with
            | Some class_ => Ok class_
            | None => Raise (Exn AttributeError class_name_str)
            end
        end
  | _ => Raise (Exn AttributeError "object has no attribute 'split'")
  end.

Definition heap_alloc (st : Step) : M (list Step) ref :=
  fun hp => (Ok (length hp), hp ++ [st]).

(** The first loop over the plugins of one step of the new protocol: a
    payload that holds the key [__class__] loses it, and is converted when
    the class it names has a [from_dict].  The result is the plugin data
    after the loop and the pairs collected in [to_update_i]. *)
Fixpoint collect_from_dict (items : pydict) (plugin_data : pydict)
  : result (pydict * pydict) :=
  match items with
  | [] => Ok (plugin_data, [])
  | (plugin_name_ij, plugin_data_ij) :: items' =>
      (let* has_class := py_contains class_of "__class__" plugin_data_ij in
       if has_class : bool then
         let* popped := py_pop class_of "__class__" plugin_data_ij in
         let plugin_data' := dict_set plugin_name_ij popped.2 plugin_data in
         let* class_ := lookup_class popped.1 in
         match cls_from_dict class_ with
         | Some from_dict =>
             let* obj := from_dict popped.2 in
             let* rest := collect_from_dict items' plugin_data' in
             Ok (rest.1, (plugin_name_ij, obj) :: rest.2)
         | None => collect_from_dict items' plugin_data'
         end
       else collect_from_dict items' plugin_data)%result
  end.

(** [[Step(plugin_data={...}) for step_i in protocol_dict['steps']]] *)
Fixpoint alloc_steps (l : list pyobj) : M (list Step) (list ref) :=
  match l with
  | [] => ret []
  | step_i :: l' =>
      (let! items := lift (py_iteritems step_i) in
       let! r := heap_alloc (mkStep items) in
       let! rs := alloc_steps l' in
       ret (r :: rs))%method
  end.

(** The loop over the steps of the new protocol. *)
Fixpoint convert_steps (l : list ref) : M (list Step) unit :=
  match l with
  | [] => ret tt
  | r :: l' =>
      (let! hp := get_state in
       match hp !! r with
       | None => raise (Exn RuntimeError "dangling reference")
       | Some st =>
           let! found :=
             lift (collect_from_dict (step_plugin_data st)
                     (step_plugin_data st)) in
           put_state (<[r := mkStep (apply_updates found.2 found.1)]> hp) ;;
           convert_steps l'
       end)%method
  end.

(** [protocol_from_dict]: the state is the heap of steps. *)
Definition protocol_from_dict (protocol_dict : pyobj)
  : M (list Step) Protocol :=
  (if negb (validate_protocol protocol_dict) then
     raise (Exn ValidationError "")
   else
     let! name_ := lift (py_getitem protocol_dict "name") in
     let! r0 := heap_alloc (mkStep []) in
     let! version_ := lift (py_getitem protocol_dict "version") in
     if negb (match version_ with
              | PyStr v => String.eqb class_version v
              | _ => false
              end)
     then raise (Exn AssertionError "")
     else
       let! steps_obj := lift (py_getitem protocol_dict "steps") in
       let! steps_l := lift (py_iter steps_obj) in
       let! new_steps := alloc_steps steps_l in
       convert_steps new_steps ;;
       ret (mkProtocol new_steps name_ [] [] 1 0 0 0
              (Some class_version) None))%method.
End Classes.

(** ** protocol.py: [Protocol.from_json] and [Protocol.load] *)

(** [s.lower()] *)
Definition ascii_lower (c : ascii) : ascii :=
  let n := nat_of_ascii c in
  if ((65 <=? n) && (n <=? 90))%nat then ascii_of_nat (n + 32) else c.

Fixpoint str_lower (s : string) : string :=
  match s with
  | EmptyString => EmptyString
  | String c s' => String (ascii_lower c) (str_lower s')
  end.

Section ProtocolLoad.
Variable pickle_loads : string -> result pyobj.
Variable yaml_load : string -> result pyobj.
Variable yaml_dump : pyobj -> result string.
Variable pickle_load_file : string -> result file_object.
Variable yaml_load_file : string -> result file_object.
(** [ph.path(filename).ext]: the extension of a file name, with its dot *)
Variable path_ext : string -> string.
(** [json.load] or [json.loads] with the object hook, on the text read *)
Variable json_load : string -> result pyobj.
Variable class_of : string -> pyclass.
Variable import_module : string -> option (string -> option pyclass).

(** [Protocol.from_json] on the text of the input: the protocol with the
    steps made for it. *)
Definition Protocol_from_json (istream : string)
  : result (Protocol * list Step) :=
  (let* protocol_dict := json_load istream in
   match protocol_from_dict class_of import_module protocol_dict [] with
   | (Ok protocol, hp) => Ok (protocol, hp)
   | (Raise e, _) => Raise e
   end)%result.

(** [Protocol.load]: a file whose extension is [.json], in any case of the
    letters, is read as JSON; any other file as a pickle or as YAML. *)
Definition Protocol_load (fs : files) (filename : string)
  : result (Protocol * list Step) :=
  if String.eqb (str_lower (path_ext filename)) ".json" then
    (let* input_ := read_file fs filename in
     Protocol_from_json input_)%result
  else
    Protocol_load_serialized pickle_loads yaml_load yaml_dump pickle_load_file
      yaml_load_file fs filename.
End ProtocolLoad.

(** ** protocol.py: the repair operation on a [Protocol] *)

(** A protocol with its steps. *)
Abbreviation protocol_graph := (Protocol * list Step)%type.

(** [protocol_i.steps[step_i]]: the reference and the object it names *)
Definition Protocol_step_getter (protocol_i : protocol_graph) (step_i : Z)
  : result (ref * Step) :=
  (let* r := list_getitem (steps protocol_i.1) step_i in
   match protocol_i.2 !! r with
   | Some st => Ok (r, st)
   | None => Raise (Exn RuntimeError "dangling reference")
   end)%result.

Definition Protocol_plugin_data_getter (step_i : ref * Step) : result pydict :=
  Ok (step_plugin_data step_i.2).

Definition Protocol_plugin_data_putback (step_i : ref * Step) (d : pydict)
  : ref * Step :=
  (step_i.1, mkStep d).

Definition Protocol_step_putback (protocol_i : protocol_graph) (step_i : Z)
    (step : ref * Step) : protocol_graph :=
  (protocol_i.1, <[step.1 := step.2]> protocol_i.2).

(** [deepcopy] gives a graph of new objects of the same shape: the same
    pair, read as the copy. *)
Definition protocol_remove_exceptions (protocol : protocol_graph)
    (exceptions : list exception_record) (inplace : bool)
  : result (option protocol_graph) * protocol_graph :=
  _protocol_remove_exceptions Protocol_step_getter Protocol_plugin_data_getter
    Protocol_plugin_data_putback Protocol_step_putback (fun g => g)
    protocol exceptions inplace.

(** ** protocol.py: newline-delimited JSON *)

Section Ndjson.
Variable class_of : string -> pyclass.
Variable pickle_loads : string -> result pyobj.
(** [json.dumps(obj, cls=zp.schema.PandasJsonEncoder)] *)
Variable json_dumps : pyobj -> result string.

(** The plugins of one step that do not serialize, as fresh entries. *)
Definition ndjson_step_exceptions (i : Z) (items : pydict)
  : list exception_record :=
  omap (fun kv =>
          match json_dumps kv.2 with
          | Ok _ => None
          | Raise e =>
              Some (ExceptionRecord i (exn_str e) (Some kv.1) (Some kv.2))
          end) items.

(** The loop over the steps: the state is the output stream, a list of
    lines; the result is the list [exceptions]. *)
Fixpoint ndjson_steps (steps : list (Z * pyobj))
    (exceptions : list exception_record)
  : M (list string) (list exception_record) :=
  match steps with
  | [] => ret exceptions
  | (i, step_i) :: steps' =>
      match json_dumps step_i with
      | Ok line =>
          (fun out => (Ok tt, out ++ [line])) ;;
          ndjson_steps steps' exceptions
      | Raise _ =>
          let! items := lift (py_iteritems step_i) in
          ndjson_steps steps'
            (exceptions ++ ndjson_step_exceptions i items)
      end%method
  end.

(** [protocol_to_ndjson] on a stream: the lines are appended to it. *)
Definition protocol_to_ndjson_stream (protocol : protocol_graph)
  : M (list string) unit :=
  (let! protocol_dict :=
     lift (protocol_to_dict class_of pickle_loads protocol.1 protocol.2 true) in
   let! steps := lift (py_getitem protocol_dict "steps") in
   let header :=
     match protocol_dict with
     | PyDict top => PyDict (dict_remove "steps" top)
     | _ => protocol_dict
     end in
   let! header_line := lift (json_dumps header) in
   (fun out => (Ok tt, out ++ [header_line])) ;;
   let! steps_l := lift (py_iter steps) in
   let! exceptions := ndjson_steps (enumerate steps_l) [] in
   match exceptions with
   | [] => ret tt
   | _ => raise (SerializationError "Error serializing protocol." exceptions)
   end)%method.

(** The text of a stream: every line is followed by a newline. *)
Definition getvalue (out : list string) : string :=
  fold_right (fun line acc => line +:+ String "010"%char acc) "" out.

(** [protocol_to_ndjson]: [ostream] is the caller's stream, [None] when
    the text is to be returned.  The result comes with the caller's stream
    after the call. *)
Definition protocol_to_ndjson (protocol : protocol_graph)
    (ostream : option (list string))
  : result (option string) * option (list string) :=
  match ostream with
  | None =>
      match protocol_to_ndjson_stream protocol [] with
      | (Ok _, out) => (Ok (Some (getvalue out)), None)
      | (Raise e, _) => (Raise e, None)
      end
  | Some stream =>
      match protocol_to_ndjson_stream protocol stream with
      | (Ok _, out) => (Ok None, Some out)
      | (Raise e, out) => (Raise e, Some out)
      end
  end.

(** [Protocol.to_ndjson] *)
Definition to_ndjson (protocol : protocol_graph)
    (ostream : option (list string)) (ignore_errors : bool)
  : result (option string) * option (list string) :=
  match protocol_to_ndjson protocol ostream with
  | (Raise (SerializationError msg exceptions), ostream') =>
      if negb ignore_errors then
        (Raise (SerializationError msg exceptions), ostream')
      else
        match protocol_remove_exceptions protocol exceptions false with
        | (Ok (Some protocol_clean), _) =>
            protocol_to_ndjson protocol_clean ostream'
        | (Ok None, _) =>
            (Raise (Exn AttributeError "'NoneType' object"), ostream')
        | (Raise e, _) => (Raise e, ostream')
        end
  | r => r
  end.
End Ndjson.

(** ** experiment_log.py: in-memory records *)

(** [ExperimentLog.get] *)
Fixpoint ExperimentLog_get_from (data : list pydict) (name plugin_name : string)
  : result (list pyobj) :=
  match data with
  | [] => Ok []
  | d :: data' =>
      (let* x :=
         match dict_get plugin_name d with
         | Some (PyDict fields) =>
             match dict_get name fields with
             | Some v => Ok v
             | None => Ok PyNone
             end
         | Some _ => Raise (Exn AttributeError "object has no attribute 'keys'")
         | None => Ok PyNone
         end in
       let* var := ExperimentLog_get_from data' name plugin_name in
       Ok (x :: var))%result
  end.

Definition ExperimentLog_get (self : ExperimentLog) (name plugin_name : string)
  : result (list pyobj) :=
  ExperimentLog_get_from (data self) name plugin_name.

(** [self.data[-1][plugin_name][k] = v] for every item of [data], on the
    last record [last] *)
Fixpoint add_items (plugin_name : string) (items : pydict) (last : pydict)
  : result pydict :=
  match items with
  | [] => Ok last
  | (k, v) :: items' =>
      match dict_get plugin_name last with
      | Some (PyDict fields) =>
          add_items plugin_name items'
            (dict_set plugin_name (PyDict (dict_set k v fields)) last)
      | Some _ =>
          Raise (Exn TypeError "object does not support item assignment")
      | None => Raise (Exn KeyError plugin_name)
      end
  end.

(** [ExperimentLog.add_data]: each assignment is kept, also when a later
    one raises. *)
Definition ExperimentLog_add_data (items : pydict) (plugin_name : string)
  : M ExperimentLog unit :=
  fun self =>
    let data0 := match data self with [] => [[]] | d => d end in
    let last := List.last data0 [] in
    let last1 :=
      if dict_mem plugin_name last then last
      else dict_set plugin_name (PyDict []) last in
    match add_items plugin_name items last1 with
    | Ok last2 => (Ok tt, el_set_data (removelast data0 ++ [last2]) self)
    | Raise e => (Raise e, el_set_data (removelast data0 ++ [last1]) self)
    end.

Section Clock.
(** [a - b] on the numbers the clock gives *)
Variable py_sub : pyobj -> pyobj -> result pyobj.

(** [ExperimentLog.start_time]; [now] is what [time.time()] returns if it
    comes to be called. *)
Definition ExperimentLog_start_time (now : pyobj) : M ExperimentLog pyobj :=
  (let! self := get_state in
   let! data := lift (ExperimentLog_get self "start time" "core") in
   match List.find py_truthy data with
   | Some val => ret val
   | None =>
       ExperimentLog_add_data [("start time", now)] "core" ;;
       ret now
   end)%method.

(** [ExperimentLog.add_step]; [now] is the time read for the new record,
    [now'] the one read by [start_time] after it. *)
Definition ExperimentLog_add_step (now now' : pyobj) (step_number : pyobj)
    (attempt : pyobj) : M ExperimentLog unit :=
  (let! start := ExperimentLog_start_time now' in
   let! elapsed := lift (py_sub now start) in
   fun self =>
     (Ok tt,
      el_set_data
        (data self ++ [[("core", PyDict [("step", step_number);
                                        ("time", elapsed);
                                        ("attempt", attempt)])]])
        self))%method.
End Clock.

(** ** experiment_log.py: allocation of the experiment id *)

(** An entry of the log directory, as far as the scan looks at it: a file,
    or a directory with the names of its entries. *)
Inductive node :=
| File
| Dir (children : list string).

(** The entries of the log directory, in the order [listdir] gives them. *)
Abbreviation listing := (list (string * node)).

Section NextId.
(** [is_int] and [int] on a name: [None] when the name is not an integer *)
Variable int_of_name : string -> option Z.
(** [str] on an integer *)
Variable str_of_int : Z -> string.

(** The loop of [_get_next_id] over [logs]. *)
Fixpoint scan_logs (logs : listing) (experiment_id : Z) : result Z :=
  match logs with
  | [] => Ok experiment_id
  | (d_name, d) :: logs' =>
      match int_of_name d_name with
      | Some i =>
          if experiment_id <=? i then
            match d with
            | Dir children =>
                scan_logs logs'
                  (match children with [] => i | _ => i + 1 end)
            | File => Raise (Exn OSError "Not a directory")
            end
          else scan_logs logs' experiment_id
      | None => scan_logs logs' experiment_id
      end
  end.

(** [_get_next_id] for a log with a directory.  The state is the log
    directory: [None] when it does not exist yet. *)
Definition _get_next_id : M (option listing) Z :=
  fun dir =>
    let logs := match dir with Some l => l | None => [] end in
    match scan_logs logs 0 with
    | Raise e => (Raise e, Some logs)
    | Ok experiment_id =>
        let log_name := str_of_int experiment_id in
        (Ok experiment_id,
         Some (if dict_mem log_name logs then logs
               else logs ++ [(log_name, Dir [])]))
    end.

(** [ExperimentLog.__init__]; [fresh_uuid] is what [uuid.uuid4()]
    returns. *)
Definition ExperimentLog_init (directory : option string)
    (fresh_uuid : string) : M (option listing) ExperimentLog :=
  match directory with
  | None =>
      ret (mkExperimentLog None None (Some fresh_uuid)
             (Some el_class_version) [] (Some []) None)
  | Some dir =>
      (let! experiment_id := _get_next_id in
       ret (mkExperimentLog (Some dir) (Some experiment_id)
              (Some fresh_uuid) (Some el_class_version) [] (Some []) None))
        %method
  end.
End NextId.

(** ** experiment_log.py: upgrade, load and save *)

Section LogPersistence.
Variable pickle_loads : string -> result pyobj.
Variable pickle_dumps : pyobj -> result string.
Variable yaml_load : string -> result pyobj.
Variable yaml_dump : pyobj -> result string.
Variable pickle_load_file : string -> result file_object.
Variable pickle_dump_file : file_object -> result string.
Variable yaml_load_file : string -> result file_object.
Variable yaml_dump_file : file_object -> result string.

(** The first loop of the upgrade from below 0.1.0: the name of the
    control board plugin, from the last record that tells the hardware
    version. *)
Fixpoint legacy_plugin_name (data : list pydict) (plugin_name : option string)
  : result (option string) :=
  match data with
  | [] => Ok plugin_name
  | step_data :: data' =>
      match dict_get "control board hardware version" step_data with
      | Some (PyStr hw) =>
          legacy_plugin_name data'
            (Some ("wheelerlab.dmf_control_board_" +:+ hw))
      | Some _ => Raise (Exn TypeError "cannot concatenate")
      | None => legacy_plugin_name data' plugin_name
      end
  end.

Definition is_results_key (k : string) : bool :=
  String.eqb k "FeedbackResults" || String.eqb k "SweepFrequencyResults"
  || String.eqb k "SweepVoltageResults".

(** The reshaping of one flat record under the plugin names. *)
Fixpoint reshape_record (plugin_name : option string) (items : pydict)
    (new_data_i : pydict) : pydict :=
  match items with
  | [] => new_data_i
  | (k, v) :: items' =>
      let legacy :=
        match plugin_name with
        | Some p => if negb (String.eqb p "") && is_results_key k
                    then Some p else None
        | None => None
        end in
      match legacy with
      | Some p =>
          match pickle_loads_obj pickle_loads v with
          | Ok x =>
              reshape_record plugin_name items'
                (dict_set p (PyDict [(k, x)]) new_data_i)
          | Raise _ => reshape_record plugin_name items' new_data_i
          end
      | None =>
          let new_data_i :=
            if dict_mem "core" new_data_i then new_data_i
            else dict_set "core" (PyDict []) new_data_i in
          match dict_get "core" new_data_i with
          | Some (PyDict core) =>
              reshape_record plugin_name items'
                (dict_set "core" (PyDict (dict_set k v core)) new_data_i)
          | _ => reshape_record plugin_name items' new_data_i
          end
      end
  end.

(** The serialization of the plugins of one reshaped record. *)
Fixpoint dump_record (items : pydict) (new_data_i : pydict) : result pydict :=
  match items with
  | [] => Ok new_data_i
  | (plugin_name, plugin_data) :: items' =>
      (let* y := yaml_dump plugin_data in
       dump_record items' (dict_set plugin_name (PyStr y) new_data_i))%result
  end.

(** [ExperimentLog._upgrade]; [fresh_uuid] is what [uuid.uuid4()] returns
    if it comes to be called. *)
Definition ExperimentLog_upgrade (fresh_uuid : string)
  : M ExperimentLog unit :=
  (let! self := get_state in
   let! vstr :=
     match el_version self with
     | Some v => ret v
     | None => raise (Exn AttributeError "version")
     end in
   let! version := lift (Version_fromstring vstr) in
   let! cv := lift (Version_fromstring el_class_version) in
   if Version_gtb version cv then
     raise (Exn FutureVersionError "")
   else
     (if Version_ltb version (mkVersion 0 1 0) then
        let! plugin_name := lift (legacy_plugin_name (data self) None) in
        let new_data :=
          map (fun step_data => reshape_record plugin_name step_data [])
              (data self) in
        let! new_data :=
          lift (map_result (fun new_data_i => dump_record new_data_i new_data_i)
                  new_data) in
        fun self => (Ok tt,
                     el_set_version (Some (Version_str (mkVersion 0 1 0)))
                       (el_set_data new_data self))
      else ret tt) ;;
     (if Version_ltb version (mkVersion 0 2 0) then
        fun self => (Ok tt,
                     el_set_version (Some (Version_str (mkVersion 0 2 0)))
                       (el_set_uuid (Some fresh_uuid) self))
      else ret tt) ;;
     (if Version_ltb version (mkVersion 0 3 0) then
        fun self => (Ok tt,
                     el_set_version (Some (Version_str (mkVersion 0 3 0)))
                       (el_set_metadata (Some []) self))
      else ret tt))%method.

(** The loop of [load] over the plugins of one record: a payload that
    neither decoder reads keeps its place and its value. *)
Definition load_record (record : pydict) : pydict :=
  fold_left
    (fun acc kv =>
       match decode_payload pickle_loads yaml_load kv.2 with
       | Some x => dict_set kv.1 x acc
       | None => acc
       end)
    record record.

(** The log read from the file as [load] hands it to [_upgrade]: the file
    name is set, and a log without the attribute [version] is given the
    version 0.0.0. *)
Definition ExperimentLog_before_upgrade (filename : string)
    (l : ExperimentLog) : ExperimentLog :=
  let out := el_set_filename (Some filename) l in
  match el_version out with
  | None => el_set_version (Some (Version_str (mkVersion 0 0 0))) out
  | Some _ => out
  end.

(** [ExperimentLog.load] *)
Definition ExperimentLog_load (fresh_uuid : string) (fs : files)
    (filename : string) : result ExperimentLog :=
  (let* content := read_file fs filename in
   match load_file_object pickle_load_file yaml_load_file content with
   | inl _ | inr (FOther PyNone) => Raise (Exn TypeError "")
   | inr (FOther (PyObj _ _)) | inr (FProtocol _ _ _) =>
       Raise (Exn TypeError "")
   | inr (FOther _) =>
       Raise (Exn AttributeError "object has no attribute 'filename'")
   | inr (FExperimentLog l) =>
       let out := ExperimentLog_before_upgrade filename l in
       match ExperimentLog_upgrade fresh_uuid out with
       | (Ok _, out) => Ok (el_set_data (map load_record (data out)) out)
       | (Raise e, _) => Raise e
       end
   end)%result.
End LogPersistence.

Section LogSave.
Variable pickle_dumps : pyobj -> result string.
Variable yaml_dump : pyobj -> result string.
Variable pickle_dump_file : file_object -> result string.
Variable yaml_dump_file : file_object -> result string.
(** [os.path.join], the parent of a path, and [str] on an integer *)
Variable path_join : string -> string -> string.
Variable path_parent : string -> string.
Variable str_of_id : option Z -> string.

(** [ExperimentLog.get_log_path] *)
Definition get_log_path (self : ExperimentLog) : result string :=
  match directory self with
  | Some dir => Ok (path_join dir (str_of_id (experiment_id self)))
  | None => Raise (Exn TypeError "Invalid initial value for path: None")
  end.

(** The serialization of the plugins of one record of the copy. *)
Fixpoint save_record (format : string) (items : pydict) (record : pydict)
  : result pydict :=
  match items with
  | [] => Ok record
  | (plugin_name, plugin_data) :: items' =>
      (let* y :=
         if String.eqb format "pickle" then pickle_dumps plugin_data
         else if String.eqb format "yaml" then yaml_dump plugin_data
         else Raise (Exn TypeError "") in
       save_record format items' (dict_set plugin_name (PyStr y) record))
        %result
  end.

(** [ExperimentLog.save]: the state is the files; the result is the path
    of the log directory.  The receiver is copied, so it does not change;
    a log without records writes no file. *)
Definition ExperimentLog_save (self : ExperimentLog)
    (filename : option string) (format : string) : M files string :=
  fun fs =>
    match
      match filename with
      | None =>
          (let* log_path := get_log_path self in
           Ok (path_join log_path "data", log_path))%result
      | Some f => Ok (f, path_parent f)
      end
    with
    | Raise e => (Raise e, fs)
    | Ok (filename, log_path) =>
        match data self with
        | [] => (Ok log_path, fs)
        | _ =>
            match map_result (fun r => save_record format r r) (data self) with
            | Raise e => (Raise e, fs)
            | Ok out_data =>
                let out := FExperimentLog (el_set_data out_data self) in
                let written :=
                  if String.eqb format "pickle" then pickle_dump_file out
                  else if String.eqb format "yaml" then yaml_dump_file out
                  else Raise (Exn TypeError "") in
                match written with
                | Ok content => (Ok log_path, dict_set filename content fs)
                | Raise e => (Raise e, dict_set filename "" fs)
                end
            end
        end
    end.
End LogSave.

(** ** Statements about the fault-isolating serializer *)

(** A serialization function is structural when it fails on a dictionary or
    a list exactly when it fails on one of the values held: the behaviour of
    an encoder that walks the document. *)
Definition structural {R} (f : pyobj -> result R) : Prop :=
  (forall kvs, fails (f (PyDict kvs)) <->
               exists k v, In (k, v) kvs /\ fails (f v))
  /\ (forall xs, fails (f (PyList xs)) <-> exists v, In v xs /\ fails (f v)).

(** [protocol_dict] is a dictionary whose [steps] are dictionaries, and the
    payload of plugin [p] of step [s] is the one payload of a step on which
    [f] fails. *)
Definition one_bad_payload {R} (f : pyobj -> result R) (protocol_dict : pyobj)
    (s : nat) (p : string) : Prop :=
  exists top steps,
    protocol_dict = PyDict top
    /\ NoDup (dict_keys top)
    /\ dict_get "steps" top = Some (PyList steps)
    /\ (forall i step_i, steps !! i = Some step_i ->
          exists kvs, step_i = PyDict kvs /\ NoDup (dict_keys kvs))
    /\ (exists kvs v, steps !! s = Some (PyDict kvs)
                      /\ dict_get p kvs = Some v /\ fails (f v))
    /\ (forall i kvs q v, steps !! i = Some (PyDict kvs) ->
          dict_get q kvs = Some v -> fails (f v) -> i = s /\ q = p).

(** Everything of the dictionary outside [steps] serializes. *)
Definition header_serializes {R} (f : pyobj -> result R) (protocol_dict : pyobj)
  : Prop :=
  forall top k v, protocol_dict = PyDict top -> In (k, v) top ->
                  k <> "steps" -> succeeds (f v).

(** The error names the pair [(s, p)] alone, and the document repaired with
    the list of the error serializes. *)
Definition isolated_and_repaired {R} (f : pyobj -> result R)
    (protocol_dict : pyobj) (s : nat) (p : string) : Prop :=
  exists msg exceptions repaired,
    serialize_protocol f protocol_dict
    = Raise (SerializationError msg exceptions)
    /\ map (fun r => (ex_step r, ex_plugin r)) exceptions
       = [(Z.of_nat s, Some p)]
    /\ protocol_dict_remove_exceptions protocol_dict exceptions false
       = (Ok (Some repaired), protocol_dict)
    /\ succeeds (serialize_protocol f repaired).

(** An encoder in the manner of [json.dumps]: it walks lists and
    dictionaries and refuses the instances of classes. *)
Fixpoint encodable (v : pyobj) : bool :=
  match v with
  | PyList xs => forallb encodable xs
  | PyDict kvs => forallb (fun kv => encodable kv.2) kvs
  | PyObj _ _ => false
  | _ => true
  end.

Definition plain_encoder (v : pyobj) : result unit :=
  if encodable v then Ok tt
  else Raise (Exn TypeError "is not JSON serializable").

(** Two documents for the encoder above.  In the first, the payload of
    plugin [a] of step 1 is an instance and everything else is plain.  In
    the second, the protocol-wide plugin data holds an instance as well. *)
Definition demo_one_bad : pyobj :=
  PyDict [("name", PyStr "demo");
          ("version", PyStr "0.2.0");
          ("steps", PyList [PyDict [("a", PyDict [("x", PyInt 1)])];
                            PyDict [("a", PyObj "numpy.ndarray" []);
                                    ("b", PyInt 2)]]);
          ("plugin_data", PyDict [])].

Definition demo_bad_header : pyobj :=
  PyDict [("name", PyStr "demo");
          ("version", PyStr "0.2.0");
          ("steps", PyList [PyDict [("a", PyObj "numpy.ndarray" [])]]);
          ("plugin_data", PyDict [("q", PyObj "numpy.ndarray" [])])].

(** ** Codecs on scalars, for the examples

    A pickle and a YAML of [None], the booleans and the strings; the two
    write different texts, so that neither reads what the other wrote. *)

Definition scalar_pickle_dumps (v : pyobj) : result string :=
  match v with
  | PyNone => Ok "N."
  | PyBool true => Ok "I01."
  | PyBool false => Ok "I00."
  | PyStr s => Ok (String "S" s)
  | _ => Raise (Exn TypeError "can't pickle object")
  end.

Definition scalar_pickle_loads (s : string) : result pyobj :=
  match s with
  | "N." => Ok PyNone
  | "I01." => Ok (PyBool true)
  | "I00." => Ok (PyBool false)
  | String "S" s' => Ok (PyStr s')
  | _ => Raise (Exn ValueError "could not unpickle")
  end.

(** This [yaml.dump] writes a tag for everything that is not a scalar. *)
Definition scalar_yaml_dump (v : pyobj) : result string :=
  match v with
  | PyNone => Ok "null"
  | PyBool true => Ok "true"
  | PyBool false => Ok "false"
  | PyStr s => Ok (String "'" s)
  | _ => Ok "!!python/object"
  end.

Definition scalar_yaml_load (s : string) : result pyobj :=
  match s with
  | "null" => Ok PyNone
  | "true" => Ok (PyBool true)
  | "false" => Ok (PyBool false)
  | String "'" s' => Ok (PyStr s')
  | _ => Raise (Exn ValueError "could not parse")
  end.

(** ** Documents for the examples *)

(** A protocol of two steps written by version 0.0.0, and one that claims
    version 0.3.0. *)
Definition demo_old_protocol : pstate :=
  mkPstate
    (mkProtocol [0%nat; 1%nat] (PyStr "demo") [("app", PyStr "x")] [] 1 7 0 0
       (Some "0.0.0") None)
    [mkStep [("a", PyStr "u")]; mkStep [("a", PyStr "v"); ("b", PyNone)]]
    [].

Definition demo_future_protocol : pstate :=
  mkPstate
    (mkProtocol [0%nat] (PyStr "demo") [] [] 1 0 0 0 (Some "0.3.0") None)
    [mkStep [("a", PyStr "u")]]
    [].

(** A log written by version 0.0.0, with flat records, and one that claims
    version 1.0.0. *)
Definition demo_old_log : ExperimentLog :=
  mkExperimentLog (Some "logs") (Some 0) None (Some "0.0.0")
    [[("control board hardware version", PyStr "1.2"); ("step", PyStr "0")];
     [("FeedbackResults", PyStr "Sresults"); ("step", PyStr "1")]]
    None None.

Definition demo_future_log : ExperimentLog :=
  mkExperimentLog (Some "logs") (Some 0) (Some "u-1") (Some "1.0.0")
    [[("core", PyStr "N.")]] (Some []) None.

(** ** Statements about [next_step] *)

(** What is said of [next_step] at the last index: one step more, the
    cursor on the new last index, and the step there is another object than
    the one that was last, with the same content. *)
Definition appends_a_copy (s s' : pstate) : Prop :=
  let n := length (steps (self s)) in
  length (steps (self s')) = S n
  /\ current_step_number (self s') = Z.of_nat n
  /\ exists r_old r_new,
      steps (self s) !! (n - 1)%nat = Some r_old
      /\ steps (self s') !! n = Some r_new
      /\ r_new <> r_old
      /\ heap s' !! r_new = heap s !! r_old.

(** A protocol of one step with the cursor on it. *)
Definition demo_single_step : pstate :=
  mkPstate
    (mkProtocol [0%nat] (PyStr "demo") [] [] 1 0 0 0 (Some "0.2.0") None)
    [mkStep [("a", PyStr "u")]]
    [].

(** ** Statements about the step sequence *)

(** The calls of the interface of [Protocol] that move the cursor or change
    the sequence of steps or the plugin data. *)
Inductive api_call : M pstate unit -> Prop :=
| call_insert_step n v b : api_call (insert_step n v b)
| call_insert_steps n c vs : api_call (insert_steps n c vs)
| call_delete_step i : api_call (delete_step i)
| call_delete_steps l : api_call (delete_steps l)
| call_next_step fuel : api_call (next_step fuel)
| call_next_repetition : api_call next_repetition
| call_prev_step : api_call prev_step
| call_first_step : api_call first_step
| call_last_step : api_call last_step
| call_goto_step n : api_call (goto_step n)
| call_set_data k v : api_call (Protocol_set_data k v).

(** The protocols that construction, [from_dict] on a dictionary that
    [accepted] holds of, and the calls above lead to; a call that raises
    leads to the state it leaves. *)
Inductive reachable
    (class_of : string -> pyclass)
    (import_module : string -> option (string -> option pyclass))
    (accepted : pyobj -> Prop) : pstate -> Prop :=
| reach_init name s0 r s :
    Protocol_init name s0 = (r, s) ->
    reachable class_of import_module accepted s
| reach_from_dict protocol_dict hp p hp' sg :
    accepted protocol_dict ->
    protocol_from_dict class_of import_module protocol_dict hp = (Ok p, hp') ->
    reachable class_of import_module accepted (mkPstate p hp' sg)
| reach_call m s r s' :
    reachable class_of import_module accepted s ->
    api_call m ->
    m s = (r, s') ->
    reachable class_of import_module accepted s'.

(** The dictionary holds at least one step. *)
Definition has_steps (protocol_dict : pyobj) : Prop :=
  py_getitem protocol_dict "steps" <> Ok (PyList []).

(** No module can be imported. *)
Definition no_modules : string -> option (string -> option pyclass) :=
  fun _ => None.

(** Classes without the methods of the dictionary contract. *)
Definition plain_classes : string -> pyclass :=
  fun _ => mkClass None None None None.

(** A dictionary of a protocol without steps. *)
Definition demo_no_steps : pyobj :=
  PyDict [("name", PyStr "demo");
          ("version", PyStr "0.2.0");
          ("steps", PyList []);
          ("plugin_data", PyDict [])].

(** A dictionary of a protocol of two steps, with plain payloads. *)
Definition demo_protocol_dict : pyobj :=
  PyDict [("name", PyStr "demo");
          ("version", PyStr "0.2.0");
          ("steps", PyList [PyDict [("a", PyDict [("x", PyStr "u")])];
                            PyDict []]);
          ("plugin_data", PyDict [("app", PyDict [("k", PyStr "v")])])].

(** ** Statements about the experiment id *)

(** The integers that name entries of the log directory. *)
Definition entry_ids (int_of_name : string -> option Z) (logs : listing)
  : list Z :=
  omap (fun e => int_of_name e.1) logs.

(** Some directory named by the integer [m] is not empty. *)
Definition holds_data (int_of_name : string -> option Z) (m : Z)
    (logs : listing) : bool :=
  existsb (fun e => match int_of_name e.1, e.2 with
                    | Some i, Dir (_ :: _) => i =? m
                    | _, _ => false
                    end) logs.

(** Every entry named by an integer is a directory. *)
Definition ids_are_directories (int_of_name : string -> option Z)
    (logs : listing) : Prop :=
  forall d_name d i, In (d_name, d) logs -> int_of_name d_name = Some i ->
                     exists children, d = Dir children.

(** Names in decimal digits, for the examples. *)
Definition decimal_name (s : string) : option Z :=
  Z.of_nat <$> parse_nat s.

Definition decimal_str (i : Z) : string :=
  if i <? 0 then "-" +:+ nat_str (Z.to_nat (- i)) else nat_str (Z.to_nat i).

(** A protocol of two steps at the class version, with protocol-wide
    plugin data. *)
Definition demo_protocol : pstate :=
  mkPstate
    (mkProtocol [0%nat; 1%nat] (PyStr "demo")
       [("app", PyDict [("k", PyStr "v")])] [] 1 0 0 0 (Some "0.2.0") None)
    [mkStep [("b", PyDict []); ("a", PyDict [("x", PyStr "u")])]; mkStep []]
    [].

(** ** Statements about the decoding of payloads *)

(** What [load] leaves in the place of a stored payload [v]: the object a
    decoder reads from it, or [v] itself when none does. *)
Definition decoded_or_raw (decode : pyobj -> option pyobj) (v : pyobj) : pyobj :=
  match decode v with
  | Some x => x
  | None => v
  end.

(** The plugin [k] of a record is gone, or is [None]. *)
Definition dropped_or_missing (record : pydict) (k : string) : Prop :=
  dict_get k record = None \/ dict_get k record = Some PyNone.

(** The loop over the plugins of one record, for any decoder. *)
Definition decode_record (decode : pyobj -> option pyobj) (items acc : pydict)
  : pydict :=
  fold_left
    (fun acc kv =>
       match decode kv.2 with
       | Some x => dict_set kv.1 x acc
       | None => acc
       end)
    items acc.

(** Files for the examples: the pickle of a log one of whose payloads is
    not a pickle, and the pickle of a protocol with such a payload. *)
Definition demo_corrupt_log : ExperimentLog :=
  mkExperimentLog (Some "logs") (Some 0) (Some "u-1") (Some "0.3.0")
    [[("core", PyStr "Sok"); ("bad", PyStr "garbage")]] (Some []) None.

Definition demo_corrupt_protocol : Protocol :=
  mkProtocol [0%nat] (PyStr "demo") [("app", PyStr "Sx")] [] 1 0 0 0
    (Some "0.2.0") None.

Definition demo_files : files :=
  [("logs/0/data", "<log>"); ("demo.protocol", "<protocol>")].

Definition demo_pickle_load_file (content : string) : result file_object :=
  if String.eqb content "<log>" then Ok (FExperimentLog demo_corrupt_log)
  else if String.eqb content "<protocol>" then
    Ok (FProtocol false demo_corrupt_protocol
          [mkStep [("a", PyStr "Su"); ("bad", PyStr "garbage")]])
  else Raise (Exn ValueError "could not unpickle").

Definition demo_yaml_load_file (content : string) : result file_object :=
  Raise (Exn ValueError "could not parse").

(** The loop of [Protocol.load] over the steps, as a function on the heap. *)
Definition decode_steps (decode : pyobj -> option pyobj) (steps : list ref)
    (hp : list Step) : list Step :=
  fold_left
    (fun h r =>
       match h !! r with
       | Some st =>
           <[r := mkStep (decode_record decode (step_plugin_data st)
                            (step_plugin_data st))]> h
       | None => h
       end)
    steps hp.

(** ** Paths and files for the examples *)

Definition posix_join (a b : string) : string := a +:+ "/" +:+ b.

Definition posix_parent (f : string) : string :=
  str_join "/" (removelast (split_on "/" f)).

Definition id_str (i : option Z) : string :=
  match i with
  | Some n => decimal_str n
  | None => "None"
  end.

(** The extension of a file name as [os.path.splitext] finds it: from the
    last dot of the last component, when a character other than a dot comes
    before it there. *)
Definition posix_ext (f : string) : string :=
  let parts := split_on "." (List.last (split_on "/" f) "") in
  if forallb (fun s => String.eqb s "") (removelast parts) then ""
  else "." +:+ List.last parts "".

(** A reader of JSON that is given no JSON. *)
Definition no_json (s : string) : result pyobj :=
  Raise (Exn ValueError "No JSON object could be decoded").

(** The file that [ExperimentLog.save] writes: the one named, or the file
    [data] of the log path that it returns. *)
Definition saved_file (path_join : string -> string -> string)
    (filename : option string) (log_path : string) : string :=
  match filename with
  | Some f => f
  | None => path_join log_path "data"
  end.

(** A log with one record, and a log without records. *)
Definition demo_log : ExperimentLog :=
  mkExperimentLog (Some "logs") (Some 0) (Some "u-1") (Some "0.3.0")
    [[("core", PyStr "start"); ("dmf", PyBool true)]]
    (Some [("app", PyStr "meta")]) None.

Definition demo_empty_log : ExperimentLog :=
  mkExperimentLog (Some "logs") (Some 0) (Some "u-1") (Some "0.3.0")
    [] (Some []) None.

(** A log made without a directory, with one record. *)
Definition demo_unplaced_log : ExperimentLog :=
  mkExperimentLog None None (Some "u-1") (Some "0.3.0")
    [[("core", PyStr "start")]] (Some []) None.

(** A pickle of documents that knows one document: [demo_log] with its
    payloads pickled. *)
Definition demo_saved_log : ExperimentLog :=
  el_set_data [[("core", PyStr "Sstart"); ("dmf", PyStr "I01.")]] demo_log.

Definition demo_pickle_dump_file (o : file_object) : result string :=
  Ok "<saved>".

Definition demo_pickle_load_saved (content : string) : result file_object :=
  if String.eqb content "<saved>" then Ok (FExperimentLog demo_saved_log)
  else Raise (Exn ValueError "could not unpickle").

(** ** Statements about the conversion to and from a dictionary *)

(** The payload [v] follows the dictionary contract: its class has a
    [to_dict] whose result names, under [__class__], a class that can be
    imported and whose [from_dict] gives [v] back from the rest. *)
Definition contract_payload (class_of : string -> pyclass)
    (import_module : string -> option (string -> option pyclass))
    (v : pyobj) : Prop :=
  exists d qual c from_dict,
    to_dict_method class_of v = Some (Ok (PyDict d))
    /\ dict_get "__class__" d = Some (PyStr qual)
    /\ lookup_class import_module (PyStr qual) = Ok c
    /\ cls_from_dict c = Some from_dict
    /\ from_dict (PyDict (dict_remove "__class__" d)) = Ok v.

(** The payload [v] has no [to_dict], and the test for [__class__] on it
    returns [False]: a dictionary, a list or a string that does not hold
    [__class__], or an instance whose class answers so. *)
Definition plain_payload (class_of : string -> pyclass) (v : pyobj) : Prop :=
  to_dict_method class_of v = None /\ py_contains class_of "__class__" v = Ok false.

(** The plugins of the step are named apart from the keys that the schema
    of a step constrains, and their payloads follow the contract or are
    plain. *)
Definition convertible_step (class_of : string -> pyclass)
    (import_module : string -> option (string -> option pyclass))
    (st : Step) : Prop :=
  NoDup (dict_keys (step_plugin_data st))
  /\ forall k v,
      In (k, v) (step_plugin_data st) ->
      k <> "plugin_data" /\ k <> "version" /\ k <> "additionalProperties"
      /\ (contract_payload class_of import_module v \/ plain_payload class_of v).

(** What the loop of [protocol_to_dict] puts in the place of a payload. *)
Definition to_dict_value (class_of : string -> pyclass) (v : pyobj)
  : option pyobj :=
  match to_dict_method class_of v with
  | Some (Ok d) => Some d
  | _ => None
  end.

(** What the loops of [protocol_from_dict] leave in the place of a payload,
    for one payload on its own. *)
Definition from_dict_value
    (class_of : string -> pyclass)
    (import_module : string -> option (string -> option pyclass))
    (v : pyobj) : result pyobj :=
  (let* has_class := py_contains class_of "__class__" v in
   if has_class : bool then
     let* popped := py_pop class_of "__class__" v in
     let* class_ := lookup_class import_module popped.1 in
     match cls_from_dict class_ with
     | Some from_dict => from_dict popped.2
     | None => Ok popped.2
     end
   else Ok v)%result.

(** A class of plugin options that follows the dictionary contract, in a
    module that can be imported, and a protocol that holds an instance. *)
Definition options_class : pyclass :=
  mkClass
    (Some (fun attrs =>
             Ok (PyDict (("__class__", PyStr "plugins.dmf.Options") :: attrs))))
    (Some (fun d =>
             match d with
             | PyDict kvs => Ok (PyObj "plugins.dmf.Options" kvs)
             | _ => Raise (Exn TypeError "a dictionary is required")
             end))
    None None.

Definition demo_class_of (cls : string) : pyclass :=
  if String.eqb cls "plugins.dmf.Options" then options_class
  else mkClass None None None None.

Definition demo_import_module (module_str : string)
  : option (string -> option pyclass) :=
  if String.eqb module_str "plugins.dmf" then
    Some (fun class_name_str =>
            if String.eqb class_name_str "Options" then Some options_class
            else None)
  else None.

Definition demo_contract_protocol : pstate :=
  mkPstate
    (mkProtocol [0%nat; 1%nat] (PyStr "demo") [] [] 1 0 0 0 (Some "0.2.0") None)
    [mkStep [("dmf", PyObj "plugins.dmf.Options" [("voltage", PyStr "100")]);
             ("app", PyDict [("x", PyStr "u")])];
     mkStep []]
    [].

(** A method that never shortens the sequence of steps. *)
Definition grows {A} (m : M pstate A) : Prop :=
  forall s r s', m s = (r, s') ->
                 (length (steps (self s)) <= length (steps (self s')))%nat.

(** ** Statements about the editing of the step sequence *)

(** The steps that are left of [l] once those at the indices [step_ids]
    are taken out; [base] is the index of the first step of [l]. *)
Fixpoint surviving_steps (step_ids : list Z) (base : Z) (l : list ref)
  : list ref :=
  match l with
  | [] => []
  | r :: l' =>
      if bool_decide (base ∈ step_ids)
      then surviving_steps step_ids (base + 1) l'
      else r :: surviving_steps step_ids (base + 1) l'
  end.

(** Indices in strictly increasing order. *)
Fixpoint increasing (l : list Z) : Prop :=
  match l with
  | [] => True
  | x :: l' => Forall (fun y => x < y) l' /\ increasing l'
  end.

(** ** Statements about the cursor *)

(** The cursor is on a step. *)
Definition cursor_in_range (s : pstate) : Prop :=
  0 <= current_step_number (self s) < Z.of_nat (length (steps (self s))).

(** The calls of the interface of [Protocol] that keep the cursor on a
    step: those that insert steps or write plugin data, and those that
    move the cursor themselves, [goto_step] left out. *)
Inductive cursor_call : M pstate unit -> Prop :=
| cursor_insert_step n v b : cursor_call (insert_step n v b)
| cursor_insert_steps n c vs : cursor_call (insert_steps n c vs)
| cursor_next_step fuel : cursor_call (next_step fuel)
| cursor_next_repetition : cursor_call next_repetition
| cursor_prev_step : cursor_call prev_step
| cursor_first_step : cursor_call first_step
| cursor_last_step : cursor_call last_step
| cursor_set_data k v : cursor_call (Protocol_set_data k v).

(** A method that leaves the cursor on a step when it was on one. *)
Definition keeps_cursor {A} (m : M pstate A) : Prop :=
  forall s r s', m s = (r, s') -> cursor_in_range s -> cursor_in_range s'.

(** ** Statements about the list of a [SerializationError] *)

(** The plugins of a step on which [f] fails, in the order of the
    dictionary, each with its payload and the message of its error. *)
Definition failing_plugins {R} (f : pyobj -> result R) (items : pydict)
  : list (string * pyobj * string) :=
  omap (fun kv => match f kv.2 with
                  | Ok _ => None
                  | Raise e => Some (kv.1, kv.2, exn_str e)
                  end) items.

(** The entries that step [i] adds to the list: when [f] fails on the step,
    one entry for each plugin on which [f] fails, every one of them with
    the name, the payload and the message of the last of these plugins. *)
Definition step_exceptions {R} (f : pyobj -> result R) (i : nat)
    (step_i : pyobj) : list exception_record :=
  match f step_i, step_i with
  | Raise _, PyDict kvs =>
      match last (failing_plugins f kvs) with
      | Some x =>
          replicate (length (failing_plugins f kvs))
            (ExceptionRecord (Z.of_nat i) x.2 (Some x.1.1) (Some x.1.2))
      | None => []
      end
  | _, _ => []
  end.

(** A protocol dictionary whose steps are the dictionaries [steps]. *)
Definition steps_are_dicts (protocol_dict : pyobj) (steps : list pyobj)
  : Prop :=
  exists top,
    protocol_dict = PyDict top
    /\ dict_get "steps" top = Some (PyList steps)
    /\ forall i step_i, steps !! i = Some step_i ->
                        exists kvs, step_i = PyDict kvs.

(** ** Statements about the list of the error of [protocol_to_ndjson] *)

(** The entries that step [i] adds to the list of [protocol_to_ndjson]. *)
Definition ndjson_failures (json_dumps : pyobj -> result string) (i : nat)
    (step_i : pyobj) : list exception_record :=
  match json_dumps step_i, step_i with
  | Raise _, PyDict kvs => ndjson_step_exceptions json_dumps (Z.of_nat i) kvs
  | _, _ => []
  end.

(** The entry names a plugin that the step at its index holds. *)
Definition names_a_plugin (protocol : protocol_graph) (r : exception_record)
  : Prop :=
  exists (i : nat) (step : ref) (st : Step) (k : string),
    ex_step r = Z.of_nat i
    /\ steps protocol.1 !! i = Some step
    /\ protocol.2 !! step = Some st
    /\ ex_plugin r = Some k
    /\ In k (dict_keys (step_plugin_data st)).

(** ** Statements about saving a protocol *)

(** What [save] puts in the place of a payload: the string that
    [pickle.dumps] returns for it. *)
Definition encode_payload (pickle_dumps : pyobj -> result string) (v : pyobj)
  : option pyobj :=
  match pickle_dumps v with
  | Ok y => Some (PyStr y)
  | Raise _ => None
  end.

(** ** Documents for further examples *)

(** A protocol of three steps with the cursor on the last one, and a
    protocol of four steps. *)
Definition demo_three_steps : pstate :=
  mkPstate
    (mkProtocol [0%nat; 1%nat; 2%nat] (PyStr "demo") [] [] 1 0 2 0
       (Some "0.2.0") None)
    [mkStep [("a", PyStr "u")]; mkStep []; mkStep [("b", PyStr "w")]]
    [].

Definition demo_four_steps : pstate :=
  mkPstate
    (mkProtocol [0%nat; 1%nat; 2%nat; 3%nat] (PyStr "demo") [] [] 1 0 0 0
       (Some "0.2.0") None)
    [mkStep [("a", PyStr "u")]; mkStep []; mkStep [("b", PyStr "w")]; mkStep []]
    [].

(** A protocol dictionary with two payloads that do not serialize in its
    one step, and one whose protocol-wide plugin data alone does not
    serialize. *)
Definition demo_two_bad : pyobj :=
  PyDict [("name", PyStr "demo");
          ("version", PyStr "0.2.0");
          ("steps", PyList [PyDict [("a", PyObj "numpy.ndarray" []);
                                    ("b", PyInt 2);
                                    ("c", PyObj "pandas.Series" [])]]);
          ("plugin_data", PyDict [])].

Definition demo_header_only_bad : pyobj :=
  PyDict [("name", PyStr "demo");
          ("version", PyStr "0.2.0");
          ("steps", PyList [PyDict [("a", PyInt 1)]]);
          ("plugin_data", PyDict [("q", PyObj "numpy.ndarray" [])])].

(** A [json.dumps] that writes the keys of a dictionary and refuses the
    instances of classes, and a protocol with a payload it refuses. *)
Definition demo_json_dumps (v : pyobj) : result string :=
  if encodable v then
    Ok match v with
       | PyDict kvs => "{" +:+ str_join "," (dict_keys kvs) +:+ "}"
       | _ => "json"
       end
  else Raise (Exn TypeError "is not JSON serializable").

Definition demo_ndjson_protocol : protocol_graph :=
  (mkProtocol [0%nat; 1%nat] (PyStr "demo") [] [] 1 0 0 0 (Some "0.2.0") None,
   [mkStep [("a", PyStr "u")];
    mkStep [("bad", PyObj "numpy.ndarray" []); ("b", PyStr "w")]]).

(** A log in memory with two records. *)
Definition demo_memory_log : ExperimentLog :=
  mkExperimentLog (Some "logs") (Some 0) (Some "u-1") (Some "0.3.0")
    [[("core", PyDict [("step", PyInt 0)])];
     [("core", PyDict [("step", PyInt 1)])]]
    (Some []) None.

(** The difference of two integers, for the clock. *)
Definition int_sub (a b : pyobj) : result pyobj :=
  match a, b with
  | PyInt x, PyInt y => Ok (PyInt (x - y))
  | _, _ => Raise (Exn TypeError "unsupported operand type(s) for -")
  end.

(** A protocol with scalar payloads, its copy with the payloads pickled,
    and a file pickle that knows that copy. *)
Definition demo_scalar_protocol : Protocol :=
  mkProtocol [0%nat; 1%nat] (PyStr "demo") [("app", PyStr "x")] [] 1 0 0 0
    (Some "0.2.0") None.

Definition demo_scalar_steps : list Step :=
  [mkStep [("a", PyStr "u")]; mkStep [("b", PyBool true)]].

Definition demo_pickle_load_saved_protocol (content : string)
  : result file_object :=
  if String.eqb content "<saved>" then
    Ok (FProtocol false
          (set_plugin_data [("app", PyStr "Sx")] demo_scalar_protocol)
          [mkStep [("a", PyStr "Su")]; mkStep [("b", PyStr "I01.")]])
  else Raise (Exn ValueError "could not unpickle").

(** A protocol file written before the version attribute existed, by the
    class under its old name. *)
Definition demo_legacy_protocol : Protocol :=
  mkProtocol [0%nat; 1%nat] (PyStr "demo") [("app", PyStr "x")] [] 1 7 0 0
    None None.

Definition demo_pickle_load_legacy (content : string) : result file_object :=
  if String.eqb content "<old>" then
    Ok (FProtocol true demo_legacy_protocol demo_scalar_steps)
  else Raise (Exn ValueError "could not unpickle").

(** The log [demo_old_log] after its upgrade with the scalar codecs. *)
Definition demo_upgraded_log : ExperimentLog :=
  mkExperimentLog (Some "logs") (Some 0) (Some "u-1") (Some "0.3.0")
    [[("core", PyStr "!!python/object")];
     [("wheelerlab.dmf_control_board_1.2", PyStr "!!python/object");
      ("core", PyStr "!!python/object")]]
    (Some []) None.

(** The protocol [demo_ndjson_protocol] as a dictionary. *)
Definition demo_ndjson_dict : pydict :=
  [("name", PyStr "demo"); ("version", PyStr "0.2.0");
   ("steps",
    PyList [PyDict [("a", PyStr "u")];
            PyDict [("b", PyStr "w"); ("bad", PyObj "numpy.ndarray" [])]]);
   ("plugin_data", PyDict [])].

(** The payload is [None], a boolean or a number, or an instance of a
    class that has no membership test. *)
Definition no_membership_test (class_of : string -> pyclass) (v : pyobj)
  : Prop :=
  match v with
  | PyNone | PyBool _ | PyInt _ => True
  | PyObj cls _ => cls_contains (class_of cls) = None
  | PyStr _ | PyList _ | PyDict _ => False
  end.

(** A dictionary of a protocol of one step, with [None] as the payload of a
    plugin. *)
Definition demo_none_payload_dict : pyobj :=
  PyDict [("name", PyStr "demo");
          ("version", PyStr "0.2.0");
          ("steps", PyList [PyDict [("a", PyNone)]])].


(** ** experiment_log.py: [ExperimentLog.empty] *)

(** [x is not None] *)
Definition is_not_none (x : pyobj) : bool :=
  match x with
  | PyNone => false
  | _ => true
  end.

Section Empty.
(** [path.listdir] on the log path: the names of its entries *)
Variable listdir : string -> result (list string).
Variable path_join : string -> string -> string.
Variable str_of_id : option Z -> string.

(** The property [empty]: [True] when the log path holds nothing and no
    record holds a step. *)
Definition ExperimentLog_empty (self : ExperimentLog) : result bool :=
  (let* log_path := get_log_path path_join str_of_id self in
   let* entries := listdir log_path in
   match entries with
   | _ :: _ => Ok false
   | [] =>
       let* steps := ExperimentLog_get self "step" "core" in
       match List.filter is_not_none steps with
       | _ :: _ => Ok false
       | [] => Ok true
       end
   end)%result.
End Empty.

(** * Properties *)

(** ** Results *)

(** The keys of a dictionary written out are distinct. *)
Ltac nodup_keys := apply (bool_decide_unpack _); vm_compute; exact I.

Lemma fails_not_succeeds {A} (r : result A) : fails r -> succeeds r -> False.
Proof. intros [e ->] [a H]. discriminate. Qed.

Lemma not_fails_succeeds {A} (r : result A) : ~ fails r -> succeeds r.
Proof. destruct r; [eexists; reflexivity|]. intros H. destruct H. eexists; reflexivity. Qed.

Lemma fails_or_succeeds {A} (r : result A) : fails r \/ succeeds r.
Proof. destruct r; [right|left]; eexists; reflexivity. Qed.

(** ** Dictionaries *)

Section DictFacts.
Context {V : Type}.
Implicit Types (d : list (string * V)) (k : string) (v : V).

Lemma dict_get_In d k v : dict_get k d = Some v -> In (k, v) d.
Proof.
  induction d as [|[k' v'] d IH]; simpl; [discriminate|].
  destruct (String.eqb_spec k k') as [->|Hne].
  - intros [= ->]. now left.
  - intros H. right. auto.
Qed.

Lemma dict_get_None d k : dict_get k d = None <-> ~ In k (dict_keys d).
Proof.
  induction d as [|[k' v'] d IH]; simpl; [tauto|].
  destruct (String.eqb_spec k k') as [->|Hne].
  - split; [discriminate|]. intros H. destruct H. now left.
  - rewrite IH. split; intros H; [intros [E|E]; [congruence|tauto] | tauto].
Qed.

Lemma In_dict_keys d k v : In (k, v) d -> In k (dict_keys d).
Proof. intros H. apply (in_map fst) in H. exact H. Qed.

Lemma NoDup_dict_get d k v :
  NoDup (dict_keys d) -> In (k, v) d -> dict_get k d = Some v.
Proof.
  induction d as [|[k' v'] d IH]; simpl; [tauto|].
  intros Hnd [E|Hin].
  - injection E as -> ->. now rewrite String.eqb_refl.
  - apply NoDup_cons in Hnd as [Hni Hnd].
    destruct (String.eqb_spec k k') as [->|Hne].
    + exfalso. apply Hni. apply list_elem_of_In. eapply In_dict_keys; eauto.
    + auto.
Qed.

Lemma dict_mem_true d k : dict_mem k d = true <-> In k (dict_keys d).
Proof.
  unfold dict_mem. destruct (dict_get k d) eqn:E.
  - split; [intros _|reflexivity]. eapply In_dict_keys, dict_get_In; eauto.
  - apply dict_get_None in E. split; [discriminate|tauto].
Qed.

Lemma dict_keys_remove_subset d k k' :
  In k' (dict_keys (dict_remove k d)) -> In k' (dict_keys d).
Proof.
  induction d as [|[k0 v0] d IH]; simpl; [tauto|].
  destruct (String.eqb k k0); simpl; tauto.
Qed.

Lemma NoDup_dict_remove d k :
  NoDup (dict_keys d) -> NoDup (dict_keys (dict_remove k d)).
Proof.
  induction d as [|[k0 v0] d IH]; simpl; [auto|].
  intros Hnd. apply NoDup_cons in Hnd as [Hni Hnd].
  destruct (String.eqb k k0); simpl; [exact Hnd|].
  apply NoDup_cons. split; [|auto].
  intros H. apply Hni. apply list_elem_of_In.
  apply list_elem_of_In in H. eapply dict_keys_remove_subset; eauto.
Qed.

Lemma In_dict_remove d k k' v :
  NoDup (dict_keys d) -> In (k', v) (dict_remove k d) ->
  In (k', v) d /\ k' <> k.
Proof.
  induction d as [|[k0 v0] d IH]; simpl; [tauto|].
  intros Hnd. apply NoDup_cons in Hnd as [Hni Hnd].
  destruct (String.eqb_spec k k0) as [->|Hne]; simpl.
  - intros Hin. split; [now right|]. intros ->. apply Hni.
    apply list_elem_of_In. eapply In_dict_keys; eauto.
  - intros [E|Hin].
    + injection E as -> ->. split; [now left|congruence].
    + destruct (IH Hnd Hin). split; [now right|assumption].
Qed.

Lemma dict_get_remove_ne d k k' :
  k' <> k -> dict_get k' (dict_remove k d) = dict_get k' d.
Proof.
  intros Hne. induction d as [|[k0 v0] d IH]; simpl; [reflexivity|].
  destruct (String.eqb_spec k k0) as [->|Hne0]; simpl.
  - destruct (String.eqb_spec k' k0); [congruence|reflexivity].
  - destruct (String.eqb_spec k' k0); [reflexivity|exact IH].
Qed.

Lemma dict_get_remove_eq d k :
  NoDup (dict_keys d) -> dict_get k (dict_remove k d) = None.
Proof.
  intros Hnd. apply dict_get_None. intros H.
  destruct (proj1 (in_map_iff _ _ _) H) as [[k' v] [E Hin]]. simpl in E. subst k'.
  destruct (In_dict_remove _ _ _ _ Hnd Hin) as [_ Hne]. congruence.
Qed.

Lemma In_dict_set d k v k' v' :
  In (k', v') (dict_set k v d) ->
  (k' = k /\ v' = v) \/ In (k', v') d.
Proof.
  induction d as [|[k0 v0] d IH]; simpl.
  - intros [E|[]]. injection E as -> ->. now left.
  - destruct (String.eqb_spec k k0) as [->|Hne]; simpl.
    + intros [E|Hin]; [injection E as -> ->; now left|right; now right].
    + intros [E|Hin]; [right; now left|]. destruct (IH Hin); [now left|right; now right].
Qed.

Lemma dict_get_set_eq d k v : dict_get k (dict_set k v d) = Some v.
Proof.
  induction d as [|[k0 v0] d IH]; simpl.
  - now rewrite String.eqb_refl.
  - destruct (String.eqb_spec k k0) as [->|Hne]; simpl.
    + now rewrite String.eqb_refl.
    + destruct (String.eqb_spec k k0); [congruence|exact IH].
Qed.

Lemma dict_get_set_ne d k v k' :
  k' <> k -> dict_get k' (dict_set k v d) = dict_get k' d.
Proof.
  intros Hne. induction d as [|[k0 v0] d IH]; simpl.
  - destruct (String.eqb_spec k' k); [congruence|reflexivity].
  - destruct (String.eqb_spec k k0) as [->|Hne0]; simpl.
    + destruct (String.eqb_spec k' k0); [congruence|reflexivity].
    + destruct (String.eqb_spec k' k0); [reflexivity|exact IH].
Qed.

Lemma dict_keys_set_present d k v :
  In k (dict_keys d) -> dict_keys (dict_set k v d) = dict_keys d.
Proof.
  induction d as [|[k0 v0] d IH]; simpl; [tauto|].
  destruct (String.eqb_spec k k0) as [->|Hne]; simpl; [reflexivity|].
  intros [E|Hin]; [congruence|]. now rewrite IH.
Qed.

Lemma dict_keys_set_absent d k v :
  ~ In k (dict_keys d) -> dict_keys (dict_set k v d) = dict_keys d ++ [k].
Proof.
  induction d as [|[k0 v0] d IH]; simpl; [reflexivity|].
  destruct (String.eqb_spec k k0) as [->|Hne]; simpl; [tauto|].
  intros H. rewrite IH; [reflexivity|tauto].
Qed.

Lemma dict_set_In_other d k v k' v' :
  In (k', v') d -> k' <> k -> In (k', v') (dict_set k v d).
Proof.
  intros Hin Hne. induction d as [|[k0 v0] d IH]; simpl in *; [tauto|].
  destruct (String.eqb_spec k k0) as [->|Hne0]; simpl.
  - destruct Hin as [E|Hin]; [congruence|now right].
  - destruct Hin as [E|Hin]; [now left|right; auto].
Qed.
End DictFacts.

(** ** The fault-isolating serializer *)

Lemma omap_imap_nil {A B C} (g : B -> option C) (h : nat -> A -> B) (l : list A) :
  (forall i b, l !! i = Some b -> g (h i b) = None) ->
  omap g (imap h l) = [].
Proof.
  revert h. induction l as [|a l IH]; intros h Hall; simpl; [reflexivity|].
  rewrite (Hall 0%nat a eq_refl). apply IH. intros i b Hi. apply (Hall (S i) b Hi).
Qed.

Lemma omap_imap_single {A B C} (g : B -> option C) (h : nat -> A -> B)
    (l : list A) (s : nat) (a : A) (x : C) :
  l !! s = Some a -> g (h s a) = Some x ->
  (forall i b, i <> s -> l !! i = Some b -> g (h i b) = None) ->
  omap g (imap h l) = [x].
Proof.
  revert h s. induction l as [|a0 l IH]; intros h s Hs Hg Hall; [discriminate|].
  simpl. destruct s as [|s].
  - injection Hs as ->. rewrite Hg. f_equal. apply omap_imap_nil.
    intros i b Hi. apply (Hall (S i) b); [lia|exact Hi].
  - rewrite (Hall 0%nat a0); [|lia|reflexivity].
    apply (IH (h ∘ S) s); [exact Hs|exact Hg|].
    intros i b Hne Hi. apply (Hall (S i) b); [lia|exact Hi].
Qed.

Lemma dict_get_split {V} (d : list (string * V)) k v :
  dict_get k d = Some v ->
  exists l1 l2, d = l1 ++ (k, v) :: l2 /\ ~ In k (dict_keys l1).
Proof.
  induction d as [|[k0 v0] d IH]; simpl; [discriminate|].
  destruct (String.eqb_spec k k0) as [->|Hne].
  - intros [= ->]. exists [], d. split; [reflexivity|]. simpl. tauto.
  - intros H. destruct (IH H) as (l1 & l2 & -> & Hni).
    exists ((k0, v0) :: l1), l2. split; [reflexivity|].
    simpl. intros [E|E]; [congruence|tauto].
Qed.

Lemma py_index_nat (len s : nat) : (s < len)%nat -> py_index len (Z.of_nat s) = Some s.
Proof.
  intros H. unfold py_index.
  replace (0 <=? Z.of_nat s) with true by (symmetry; apply Z.leb_le; lia).
  replace (Z.of_nat s <? Z.of_nat len) with true by (symmetry; apply Z.ltb_lt; lia).
  simpl. now rewrite Nat2Z.id.
Qed.

Lemma list_getitem_nat {A} (l : list A) (s : nat) (x : A) :
  l !! s = Some x -> list_getitem l (Z.of_nat s) = Ok x.
Proof.
  intros H. unfold list_getitem.
  rewrite py_index_nat by (eapply lookup_lt_Some; eauto). now rewrite H.
Qed.

Section SerializeFacts.
Context {R : Type}.
Variable f : pyobj -> result R.

Lemma scan_plugins_none idx items store excs :
  (forall k v, In (k, v) items -> succeeds (f v)) ->
  scan_plugins f idx items store excs = (store, excs).
Proof.
  revert store excs. induction items as [|[k v] items IH]; intros store excs Hall;
    simpl; [reflexivity|].
  destruct (Hall k v (or_introl eq_refl)) as [r ->].
  apply IH. intros k' v' Hin. apply (Hall k' v'). now right.
Qed.

Lemma scan_plugins_one idx l1 p v e l2 store excs :
  (forall k' v', In (k', v') (l1 ++ l2) -> succeeds (f v')) ->
  f v = Raise e ->
  scan_plugins f idx (l1 ++ (p, v) :: l2) store excs
  = (alter (fun r => ExceptionRecord (ex_step r) (exn_str e) (Some p) (Some v))
       idx store,
     excs ++ [idx]).
Proof.
  revert store excs. induction l1 as [|[k0 v0] l1 IH]; intros store excs Hall Hv; simpl.
  - rewrite Hv. apply scan_plugins_none. exact Hall.
  - destruct (Hall k0 v0 (or_introl eq_refl)) as [r ->].
    apply IH; [|exact Hv]. intros k' v' Hin. apply (Hall k' v'). now right.
Qed.

(** A document without a failing part serializes at once. *)
Lemma serialize_protocol_ok d r :
  f d = Ok r -> serialize_protocol f d = Ok r.
Proof. intros H. unfold serialize_protocol. now rewrite H. Qed.
End SerializeFacts.

Lemma In_dict_set_NoDup {V} (d : list (string * V)) k v k' v' :
  NoDup (dict_keys d) -> In (k', v') (dict_set k v d) ->
  (k' = k /\ v' = v) \/ (In (k', v') d /\ k' <> k).
Proof.
  induction d as [|[k0 v0] d IH]; simpl.
  - intros _ [E|[]]. injection E as -> ->. now left.
  - intros Hnd. apply NoDup_cons in Hnd as [Hni Hnd].
    destruct (String.eqb_spec k k0) as [->|Hne]; simpl.
    + intros [E|Hin]; [injection E as -> ->; now left|].
      right. split; [now right|]. intros ->. apply Hni.
      apply list_elem_of_In. eapply In_dict_keys; eauto.
    + intros [E|Hin].
      * injection E as -> ->. right. split; [now left|congruence].
      * destruct (IH Hnd Hin) as [?|[? ?]]; [now left|right; split; [now right|assumption]].
Qed.

(** C1 (amended): for a structural serialization function and a protocol
    dictionary whose parts outside the steps serialize, if the payload of
    plugin [p] of step [s] is the one payload of a step that fails, then
    [serialize_protocol] raises a [SerializationError] whose list names the
    pair [(s, p)] and no other, and the copy repaired with that list
    serializes. *)
Theorem serialize_protocol_isolates_one_payload {R} (f : pyobj -> result R)
    (protocol_dict : pyobj) (s : nat) (p : string) :
  structural f ->
  header_serializes f protocol_dict ->
  one_bad_payload f protocol_dict s p ->
  isolated_and_repaired f protocol_dict s p.
Proof.
  intros [Hdict Hlist] Hheader
    (top & steps & -> & Hndtop & Hsteps & Hshape & (kvs & v & Hs & Hp & Hv) & Huniq).
  assert (Hgood : forall i kvs' q v', steps !! i = Some (PyDict kvs') ->
            In (q, v') kvs' -> (i, q) <> (s, p) -> succeeds (f v')).
  { intros i kvs' q v' Hi Hin Hne.
    destruct (fails_or_succeeds (f v')) as [Hf|]; [|assumption].
    destruct (Hshape i _ Hi) as (kvs'' & [= <-] & Hnd).
    destruct (Huniq i kvs' q v' Hi (NoDup_dict_get _ _ _ Hnd Hin) Hf) as [-> ->].
    congruence. }
  destruct (Hshape s _ Hs) as (kvs0 & [= <-] & Hnd).
  (* the failing step, and the whole document *)
  assert (Hstep : fails (f (PyDict kvs))).
  { apply Hdict. exists p, v. split; [apply dict_get_In, Hp|exact Hv]. }
  assert (Hwhole : fails (f (PyDict top))).
  { apply Hdict. exists "steps", (PyList steps). split; [apply dict_get_In, Hsteps|].
    apply Hlist. exists (PyDict kvs). split; [|exact Hstep].
    apply list_elem_of_In. eapply list_elem_of_lookup_2; eauto. }
  destruct Hstep as [es Hes]. destruct Hwhole as [ew Hew]. destruct Hv as [ev Hev].
  (* the first loop finds step [s] alone *)
  assert (Hfind : find_exception_steps f steps
                  = [ExceptionRecord (Z.of_nat s) (exn_str es) None None]).
  { unfold find_exception_steps, enumerate.
    apply (omap_imap_single _ _ steps s (PyDict kvs)); [exact Hs|now rewrite Hes|].
    intros i b Hne Hi. destruct (Hshape i b Hi) as (kvs' & -> & Hnd').
    destruct (fails_or_succeeds (f (PyDict kvs'))) as [Hf|[r ->]]; [|reflexivity].
    apply Hdict in Hf as (q & v' & Hin & Hf).
    exfalso. eapply fails_not_succeeds; [exact Hf|].
    eapply Hgood; eauto. congruence. }
  (* the second loop finds plugin [p] alone *)
  destruct (dict_get_split _ _ _ Hp) as (l1 & l2 & Hkvs & Hni).
  assert (Hrest : forall k' v', In (k', v') (l1 ++ l2) -> succeeds (f v')).
  { intros k' v' Hin. apply (Hgood s kvs k' v' Hs).
    - rewrite Hkvs. apply in_app_iff. apply in_app_iff in Hin as [?|?]; [now left|right; now right].
    - intros [= ->]. rewrite Hkvs in Hnd. unfold dict_keys in Hnd.
      rewrite map_app in Hnd. simpl in Hnd.
      apply in_app_iff in Hin as [Hin|Hin].
      + apply Hni. eapply In_dict_keys; eauto.
      + apply NoDup_app in Hnd as (_ & _ & Hnd). apply NoDup_cons in Hnd as [Hnd _].
        apply Hnd. apply list_elem_of_In. eapply (In_dict_keys l2); eauto. }
  set (rec := ExceptionRecord (Z.of_nat s) (exn_str ev) (Some p) (Some v)).
  exists "Error serializing protocol.", [rec],
    (PyDict (dict_set "steps"
               (PyList (<[s := PyDict (dict_remove p kvs)]> steps)) top)).
  assert (Hlen : (s < length steps)%nat) by (eapply lookup_lt_Some; eauto).
  assert (Hget : dict_getitem "steps" top = Ok (PyList steps))
    by (unfold dict_getitem; now rewrite Hsteps).
  split; [|split; [reflexivity|split]].
  - unfold serialize_protocol. rewrite Hew. simpl.
    rewrite Hget. simpl. rewrite Hfind. simpl. rewrite Hget. simpl.
    rewrite (list_getitem_nat _ _ _ Hs). simpl.
    rewrite Hkvs. rewrite (scan_plugins_one f 0 l1 p v ev l2 _ _ Hrest Hev).
    reflexivity.
  - unfold protocol_dict_remove_exceptions, _protocol_remove_exceptions. simpl.
    unfold remove_exception. simpl. unfold dict_step_getter. simpl.
    rewrite Hget. simpl.
    rewrite (list_getitem_nat _ _ _ Hs). simpl.
    unfold dict_del, dict_mem. rewrite Hp. simpl.
    unfold dict_step_putback. rewrite Hsteps.
    rewrite (py_index_nat _ _ Hlen). reflexivity.
  - apply not_fails_succeeds. intros Hf.
    assert (Hf' : fails (f (PyDict (dict_set "steps"
               (PyList (<[s := PyDict (dict_remove p kvs)]> steps)) top)))).
    { unfold serialize_protocol in Hf.
      destruct (f (PyDict (dict_set _ _ top))) eqn:E; [|eexists; reflexivity].
      destruct Hf as [e He]. discriminate. }
    clear Hf. apply Hdict in Hf' as (k & v' & Hin & Hf).
    apply In_dict_set_NoDup in Hin as [[-> ->]|[Hin Hk]]; [| |exact Hndtop].
    + apply Hlist in Hf as (st & Hin & Hf).
      apply list_elem_of_In, list_elem_of_lookup_1 in Hin as [i Hi].
      destruct (decide (i = s)) as [->|Hne].
      * rewrite list_lookup_insert_eq in Hi by exact Hlen. injection Hi as <-.
        apply Hdict in Hf as (q & v' & Hin & Hf).
        apply In_dict_remove in Hin as [Hin Hq]; [|exact Hnd].
        eapply fails_not_succeeds; [exact Hf|].
        eapply (Hgood s kvs q v'); eauto. congruence.
      * rewrite list_lookup_insert_ne in Hi by congruence.
        destruct (Hshape i st Hi) as (kvs' & -> & _).
        apply Hdict in Hf as (q & v' & Hin & Hf).
        eapply fails_not_succeeds; [exact Hf|].
        eapply (Hgood i kvs' q v'); eauto. congruence.
    + eapply fails_not_succeeds; [exact Hf|]. eapply Hheader; eauto.
Qed.

Lemma plain_encoder_fails v : fails (plain_encoder v) <-> encodable v = false.
Proof.
  unfold plain_encoder. destruct (encodable v).
  - split; [intros [e H]; discriminate|discriminate].
  - split; [reflexivity|]. intros _. eexists; reflexivity.
Qed.

Lemma plain_encoder_structural : structural plain_encoder.
Proof.
  split.
  - intros kvs. rewrite plain_encoder_fails. simpl.
    rewrite <- not_true_iff_false, forallb_forall. split.
    + intros H. induction kvs as [|[k v] kvs IH].
      * destruct H. intros x [].
      * destruct (encodable v) eqn:E.
        -- destruct IH as (k' & v' & Hin & Hf).
           { intros Hall. apply H. intros x [<-|Hx]; [exact E|auto]. }
           exists k', v'. split; [now right|exact Hf].
        -- exists k, v. split; [now left|]. now apply plain_encoder_fails.
    + intros (k & v & Hin & Hf) Hall. apply plain_encoder_fails in Hf.
      specialize (Hall _ Hin). simpl in Hall. congruence.
  - intros xs. rewrite plain_encoder_fails. simpl.
    rewrite <- not_true_iff_false, forallb_forall. split.
    + intros H. induction xs as [|v xs IH].
      * destruct H. intros x [].
      * destruct (encodable v) eqn:E.
        -- destruct IH as (v' & Hin & Hf).
           { intros Hall. apply H. intros x [<-|Hx]; [exact E|auto]. }
           exists v'. split; [now right|exact Hf].
        -- exists v. split; [now left|]. now apply plain_encoder_fails.
    + intros (v & Hin & Hf) Hall. apply plain_encoder_fails in Hf.
      specialize (Hall _ Hin). congruence.
Qed.

Lemma demo_one_bad_shape : one_bad_payload plain_encoder demo_one_bad 1 "a".
Proof.
  eexists _, _. split; [reflexivity|]. split; [|split; [reflexivity|split; [|split]]].
  - nodup_keys.
  - intros [|[|[|i]]] step_i [= <-]; eexists; (split; [reflexivity|]);
      nodup_keys.
  - eexists _, _. split; [reflexivity|]. split; [reflexivity|].
    eexists; reflexivity.
  - intros [|[|[|i]]] kvs q v [= <-]; simpl.
    + destruct (String.eqb q "a"); [|discriminate].
      intros [= <-] [e H]. discriminate.
    + destruct (String.eqb_spec q "a") as [->|_]; [auto|].
      destruct (String.eqb q "b"); [|discriminate].
      intros [= <-] [e H]. discriminate.
Qed.

Lemma demo_one_bad_header : header_serializes plain_encoder demo_one_bad.
Proof.
  intros top k v [= <-] Hin Hk. simpl in Hin.
  destruct Hin as [[= <- <-]|[[= <- <-]|[[= <- <-]|[[= <- <-]|[]]]]];
    try (eexists; reflexivity). congruence.
Qed.

Lemma serialize_protocol_isolates_one_payload_witness :
  isolated_and_repaired plain_encoder demo_one_bad 1 "a".
Proof.
  apply (serialize_protocol_isolates_one_payload plain_encoder demo_one_bad 1 "a").
  - exact plain_encoder_structural.
  - exact demo_one_bad_header.
  - exact demo_one_bad_shape.
Defined.

(** C1 as stated fails: the only payload of a step that does not serialize
    is the one of plugin [a] of step 0, and the error names it, but the
    repaired document still fails, on the protocol-wide plugin data, which
    [serialize_protocol] does not search. *)
Lemma serialize_protocol_repair_counterexample :
  structural plain_encoder
  /\ one_bad_payload plain_encoder demo_bad_header 0 "a"
  /\ ~ isolated_and_repaired plain_encoder demo_bad_header 0 "a".
Proof.
  split; [exact plain_encoder_structural|]. split.
  - eexists _, _. split; [reflexivity|]. split; [|split; [reflexivity|split; [|split]]].
    + nodup_keys.
    + intros [|[|i]] step_i [= <-]; eexists; (split; [reflexivity|]);
        nodup_keys.
    + eexists _, _. split; [reflexivity|]. split; [reflexivity|].
      eexists; reflexivity.
    + intros [|[|i]] kvs q v [= <-]; simpl.
      destruct (String.eqb_spec q "a") as [->|_]; [auto|discriminate].
  - intros (msg & exceptions & repaired & Hraise & _ & Hrepair & [r Hok]).
    vm_compute in Hraise. injection Hraise as <- <-.
    vm_compute in Hrepair. injection Hrepair as <-.
    vm_compute in Hok. discriminate.
Qed.

(** ** The upgrade of a document *)

Lemma class_version_parses :
  Version_fromstring class_version = Ok (mkVersion 0 2 0).
Proof. reflexivity. Qed.

Lemma el_class_version_parses :
  Version_fromstring el_class_version = Ok (mkVersion 0 3 0).
Proof. reflexivity. Qed.

Lemma Version_not_gt_lt_eq a b :
  Version_gtb a b = false -> Version_ltb a b = false -> a = b.
Proof.
  unfold Version_gtb, Version_ltb, Version_compare.
  destruct a as [a1 a2 a3], b as [b1 b2 b3]; simpl.
  destruct (Nat.compare_spec a1 b1); try discriminate.
  destruct (Nat.compare_spec a2 b2); try discriminate.
  destruct (Nat.compare_spec a3 b3); try discriminate.
  intros _ _. congruence.
Qed.

Lemma Version_ltb_trans a b c :
  Version_ltb a b = true -> Version_ltb b c = true -> Version_ltb a c = true.
Proof.
  unfold Version_ltb, Version_compare.
  destruct a as [a1 a2 a3], b as [b1 b2 b3], c as [c1 c2 c3]; simpl.
  destruct (Nat.compare_spec a1 b1), (Nat.compare_spec b1 c1),
    (Nat.compare_spec a1 c1); try discriminate; try lia; try reflexivity;
  destruct (Nat.compare_spec a2 b2), (Nat.compare_spec b2 c2),
    (Nat.compare_spec a2 c2); try discriminate; try lia; try reflexivity;
  destruct (Nat.compare_spec a3 b3), (Nat.compare_spec b3 c3),
    (Nat.compare_spec a3 c3); try discriminate; try lia; try reflexivity.
Qed.

Lemma Version_ltb_not_gtb a b :
  Version_ltb a b = true -> Version_gtb a b = false.
Proof. unfold Version_ltb, Version_gtb. destruct (Version_compare a b); congruence. Qed.

(** C5: a document whose version is above the class version makes
    [_upgrade] raise [FutureVersionError], and the state the exception leaves
    is the state before the call: nothing of the protocol, of its steps or of
    the log was changed. *)
Theorem upgrade_future_version_raises_unchanged
    (pickle_loads : string -> result pyobj)
    (yaml_dump : pyobj -> result string) (fresh_uuid : string) :
  (forall (s : pstate) vstr v,
      version (self s) = Some vstr ->
      Version_fromstring vstr = Ok v ->
      Version_gtb v (mkVersion 0 2 0) = true ->
      Protocol_upgrade yaml_dump s = (Raise (Exn FutureVersionError ""), s))
  /\ (forall (l : ExperimentLog) vstr v,
      el_version l = Some vstr ->
      Version_fromstring vstr = Ok v ->
      Version_gtb v (mkVersion 0 3 0) = true ->
      ExperimentLog_upgrade pickle_loads yaml_dump fresh_uuid l
      = (Raise (Exn FutureVersionError ""), l)).
Proof.
  split.
  - intros s vstr v Hv Hparse Hgt.
    unfold Protocol_upgrade, mbind, get_state, ret, lift.
    rewrite Hv, Hparse, class_version_parses, Hgt. reflexivity.
  - intros l vstr v Hv Hparse Hgt.
    unfold ExperimentLog_upgrade, mbind, get_state, ret, lift.
    rewrite Hv, Hparse, el_class_version_parses, Hgt. reflexivity.
Qed.

Lemma upgrade_future_version_raises_unchanged_witness :
  Protocol_upgrade scalar_yaml_dump demo_future_protocol
  = (Raise (Exn FutureVersionError ""), demo_future_protocol)
  /\ ExperimentLog_upgrade scalar_pickle_loads scalar_yaml_dump "u-2"
       demo_future_log
     = (Raise (Exn FutureVersionError ""), demo_future_log).
Proof.
  destruct (upgrade_future_version_raises_unchanged scalar_pickle_loads
              scalar_yaml_dump "u-2") as [HP HL].
  split.
  - apply (HP demo_future_protocol "0.3.0" (mkVersion 0 3 0));
      reflexivity.
  - apply (HL demo_future_log "1.0.0" (mkVersion 1 0 0)); reflexivity.
Defined.

(** After an upgrade that returns, the version is the class version. *)
Lemma Protocol_upgrade_result yaml_dump (s s1 : pstate) vstr v :
  version (self s) = Some vstr ->
  Version_fromstring vstr = Ok v ->
  Protocol_upgrade yaml_dump s = (Ok tt, s1) ->
  (v = mkVersion 0 2 0 /\ s1 = s)
  \/ version (self s1) = Some (Version_str (mkVersion 0 2 0)).
Proof.
  intros Hv Hparse. unfold Protocol_upgrade, mbind at 1 2 3 4, get_state, ret, lift.
  rewrite Hv, Hparse, class_version_parses.
  destruct (Version_gtb v _) eqn:Hgt; [discriminate|].
  destruct (Version_ltb v {| major := 0; minor := 2; micro := 0 |}) eqn:Hlt.
  - intros H. right. unfold mbind in H.
    destruct (Version_ltb v {| major := 0; minor := 1; micro := 0 |}).
    + destruct (for_each (plugin_data (self s)) _ s) as [[[]|e] s'];
        [|discriminate].
      destruct (for_each (steps (self s)) _ s') as [[[]|e] s''];
        [|discriminate].
      simpl in H. injection H as <-. reflexivity.
    + simpl in H. injection H as <-. reflexivity.
  - intros [= <-]. left. split; [|reflexivity].
    now apply Version_not_gt_lt_eq.
Qed.

Lemma ExperimentLog_upgrade_result pickle_loads yaml_dump fresh
    (l l1 : ExperimentLog) vstr v :
  el_version l = Some vstr ->
  Version_fromstring vstr = Ok v ->
  ExperimentLog_upgrade pickle_loads yaml_dump fresh l = (Ok tt, l1) ->
  (v = mkVersion 0 3 0 /\ l1 = l)
  \/ el_version l1 = Some (Version_str (mkVersion 0 3 0)).
Proof.
  intros Hv Hparse. unfold ExperimentLog_upgrade, mbind at 1 2 3 4, get_state, ret, lift.
  rewrite Hv, Hparse, el_class_version_parses.
  destruct (Version_gtb v _) eqn:Hgt; [discriminate|].
  destruct (Version_ltb v {| major := 0; minor := 3; micro := 0 |}) eqn:Hlt.
  - intros H. right. unfold mbind in H.
    destruct (Version_ltb v {| major := 0; minor := 1; micro := 0 |}).
    + destruct (legacy_plugin_name (data l) None) as [pn|e]; [|discriminate].
      destruct (map_result _ _) as [nd|e]; [|discriminate].
      destruct (Version_ltb v {| major := 0; minor := 2; micro := 0 |});
        simpl in H; injection H as <-; reflexivity.
    + destruct (Version_ltb v {| major := 0; minor := 2; micro := 0 |});
        simpl in H; injection H as <-; reflexivity.
  - assert (Hlt1 : Version_ltb v {| major := 0; minor := 1; micro := 0 |} = false).
    { destruct (Version_ltb v {| major := 0; minor := 1; micro := 0 |}) eqn:E; [|reflexivity].
      rewrite (Version_ltb_trans v _ (mkVersion 0 3 0) E eq_refl) in Hlt. discriminate. }
    assert (Hlt2 : Version_ltb v {| major := 0; minor := 2; micro := 0 |} = false).
    { destruct (Version_ltb v {| major := 0; minor := 2; micro := 0 |}) eqn:E; [|reflexivity].
      rewrite (Version_ltb_trans v _ (mkVersion 0 3 0) E eq_refl) in Hlt. discriminate. }
    rewrite Hlt1, Hlt2. unfold mbind. intros [= <-]. left. split; [|reflexivity].
    now apply Version_not_gt_lt_eq.
Qed.

(** A loop whose body returns under an invariant returns, and keeps it. *)
Lemma for_each_returns {St A} (P : St -> Prop) (l : list A)
    (body : A -> M St unit) (s : St) :
  (forall x s0, In x l -> P s0 -> exists s', body x s0 = (Ok tt, s') /\ P s') ->
  P s -> exists s', for_each l body s = (Ok tt, s') /\ P s'.
Proof.
  revert s. induction l as [|x l IH]; intros s Hbody HP; simpl.
  - exists s. split; [reflexivity|exact HP].
  - destruct (Hbody x s (or_introl eq_refl) HP) as (s' & Hx & HP').
    unfold mbind. rewrite Hx. apply IH; [|exact HP'].
    intros y s0 Hy. apply Hbody. now right.
Qed.

Lemma mbind_returns {St A B} (m : M St A) (k : A -> M St B) s a s' :
  m s = (Ok a, s') -> mbind m k s = k a s'.
Proof. intros H. unfold mbind. now rewrite H. Qed.

Lemma mbind_raises {St A B} (m : M St A) (k : A -> M St B) s e s' :
  m s = (Raise e, s') -> mbind m k s = (Raise e, s').
Proof. intros H. unfold mbind. now rewrite H. Qed.

Lemma Protocol_upgrade_returns yaml_dump (s : pstate) vstr v :
  version (self s) = Some vstr ->
  Version_fromstring vstr = Ok v ->
  Version_gtb v (mkVersion 0 2 0) = false ->
  (forall x, succeeds (yaml_dump x)) ->
  Forall (fun r => (r < length (heap s))%nat) (steps (self s)) ->
  exists s1, Protocol_upgrade yaml_dump s = (Ok tt, s1).
Proof.
  intros Hv Hparse Hgt Hdump Hrefs.
  unfold Protocol_upgrade, mbind at 1 2 3 4, get_state, ret, lift.
  rewrite Hv, Hparse, class_version_parses, Hgt.
  destruct (Version_ltb v {| major := 0; minor := 2; micro := 0 |}) eqn:Hlt;
    [|eexists; reflexivity].
  unfold mbind at 1.
  destruct (Version_ltb v {| major := 0; minor := 1; micro := 0 |});
    [|eexists; reflexivity].
  set (P := fun s0 : pstate => length (heap s0) = length (heap s)).
  destruct (for_each_returns P (plugin_data (self s))
              (fun kv => (let! y := lift (yaml_dump kv.2) in
                          Protocol_set_data kv.1 (PyStr y))%method) s)
    as (s' & E1 & HP'); [|reflexivity|].
  { intros [k x] s0 _ HP0. destruct (Hdump x) as [y Hy].
    unfold mbind, lift. simpl. rewrite Hy. eexists. split; [reflexivity|exact HP0]. }
  destruct (for_each_returns P (steps (self s))
              (fun step => (let! st := deref step in
                 for_each (step_plugin_data st)
                   (fun kv => let! y := lift (yaml_dump kv.2) in
                              Step_set_data step kv.1 (PyStr y)))%method) s')
    as (s'' & E2 & HP''); [|exact HP'|].
  { intros r s0 Hr HP0.
    assert (Hlt' : (r < length (heap s0))%nat).
    { rewrite HP0. rewrite Forall_forall in Hrefs. apply Hrefs.
      now apply list_elem_of_In. }
    destruct (lookup_lt_is_Some_2 _ _ Hlt') as [st Hst].
    unfold mbind at 1, deref. rewrite Hst.
    apply (for_each_returns P); [|exact HP0].
    intros [k x] s1 _ HP1. destruct (Hdump x) as [y Hy].
    unfold mbind, lift. simpl. rewrite Hy.
    assert (Hlt1 : (r < length (heap s1))%nat) by (rewrite HP1, <- HP0; exact Hlt').
    destruct (lookup_lt_is_Some_2 _ _ Hlt1) as [st1 Hst1].
    unfold Step_set_data, mbind, deref. rewrite Hst1.
    eexists. split; [reflexivity|]. unfold P. simpl. now rewrite length_insert. }
  rewrite (mbind_returns _ _ _ _ _ E1).
  rewrite (mbind_returns _ _ _ _ _ E2).
  eexists; reflexivity.
Qed.

Lemma map_result_returns {A B} (f : A -> result B) (l : list A) :
  (forall x, In x l -> succeeds (f x)) -> succeeds (map_result f l).
Proof.
  induction l as [|x l IH]; intros H; simpl; [eexists; reflexivity|].
  destruct (H x (or_introl eq_refl)) as [y ->]. simpl.
  destruct IH as [ys ->]; [intros; apply H; now right|].
  eexists; reflexivity.
Qed.

Lemma dump_record_returns yaml_dump items record :
  (forall x, succeeds (yaml_dump x)) -> succeeds (dump_record yaml_dump items record).
Proof.
  intros Hdump. revert record. induction items as [|[k x] items IH]; intros record;
    simpl; [eexists; reflexivity|].
  destruct (Hdump x) as [y ->]. simpl. apply IH.
Qed.

Lemma ExperimentLog_upgrade_returns pickle_loads yaml_dump fresh
    (l : ExperimentLog) vstr v :
  el_version l = Some vstr ->
  Version_fromstring vstr = Ok v ->
  Version_gtb v (mkVersion 0 3 0) = false ->
  (forall x, succeeds (yaml_dump x)) ->
  succeeds (legacy_plugin_name (data l) None) ->
  exists l1, ExperimentLog_upgrade pickle_loads yaml_dump fresh l = (Ok tt, l1).
Proof.
  intros Hv Hparse Hgt Hdump [pn Hpn].
  unfold ExperimentLog_upgrade, mbind at 1 2 3 4, get_state, ret, lift.
  rewrite Hv, Hparse, el_class_version_parses, Hgt.
  unfold mbind, ret. rewrite Hpn.
  destruct (map_result_returns
              (fun new_data_i => dump_record yaml_dump new_data_i new_data_i)
              (map (fun step_data => reshape_record pickle_loads pn step_data [])
                 (data l))) as [nd ->].
  { intros x _. now apply dump_record_returns. }
  destruct (Version_ltb v {| major := 0; minor := 1; micro := 0 |});
    destruct (Version_ltb v {| major := 0; minor := 2; micro := 0 |});
    destruct (Version_ltb v {| major := 0; minor := 3; micro := 0 |});
    eexists; reflexivity.
Qed.

(** C4: when the version of a document does not exceed the class version,
    an upgrade that returns leaves a document on which a second upgrade
    returns and changes nothing, and a document at the class version is
    returned as it is.  The upgrade does return when [yaml.dump] does (and,
    for a log, when the hardware versions recorded are strings). *)
Theorem upgrade_idempotent
    (pickle_loads : string -> result pyobj)
    (yaml_dump : pyobj -> result string) (fresh_uuid fresh_uuid' : string) :
  (forall (s : pstate) vstr v,
      version (self s) = Some vstr ->
      Version_fromstring vstr = Ok v ->
      Version_gtb v (mkVersion 0 2 0) = false ->
      (forall s1, Protocol_upgrade yaml_dump s = (Ok tt, s1) ->
                  Protocol_upgrade yaml_dump s1 = (Ok tt, s1))
      /\ (v = mkVersion 0 2 0 -> Protocol_upgrade yaml_dump s = (Ok tt, s))
      /\ ((forall x, succeeds (yaml_dump x)) ->
          Forall (fun r => (r < length (heap s))%nat) (steps (self s)) ->
          exists s1, Protocol_upgrade yaml_dump s = (Ok tt, s1)))
  /\ (forall (l : ExperimentLog) vstr v,
      el_version l = Some vstr ->
      Version_fromstring vstr = Ok v ->
      Version_gtb v (mkVersion 0 3 0) = false ->
      (forall l1, ExperimentLog_upgrade pickle_loads yaml_dump fresh_uuid l
                  = (Ok tt, l1) ->
                  ExperimentLog_upgrade pickle_loads yaml_dump fresh_uuid' l1
                  = (Ok tt, l1))
      /\ (v = mkVersion 0 3 0 ->
          ExperimentLog_upgrade pickle_loads yaml_dump fresh_uuid l = (Ok tt, l))
      /\ ((forall x, succeeds (yaml_dump x)) ->
          succeeds (legacy_plugin_name (data l) None) ->
          exists l1, ExperimentLog_upgrade pickle_loads yaml_dump fresh_uuid l
                     = (Ok tt, l1))).
Proof.
  assert (Hp : forall (s : pstate) vstr,
             version (self s) = Some vstr ->
             Version_fromstring vstr = Ok (mkVersion 0 2 0) ->
             Protocol_upgrade yaml_dump s = (Ok tt, s)).
  { intros s vstr Hv Hparse.
    unfold Protocol_upgrade, mbind, get_state, ret, lift.
    rewrite Hv, Hparse, class_version_parses. reflexivity. }
  assert (Hl : forall fresh (l : ExperimentLog) vstr,
             el_version l = Some vstr ->
             Version_fromstring vstr = Ok (mkVersion 0 3 0) ->
             ExperimentLog_upgrade pickle_loads yaml_dump fresh l = (Ok tt, l)).
  { intros fresh l vstr Hv Hparse.
    unfold ExperimentLog_upgrade, mbind, get_state, ret, lift.
    rewrite Hv, Hparse, el_class_version_parses. reflexivity. }
  split.
  - intros s vstr v Hv Hparse Hgt. split; [|split].
    + intros s1 H1.
      destruct (Protocol_upgrade_result _ _ _ _ _ Hv Hparse H1) as [[-> ->]|Hv1].
      * exact H1.
      * apply (Hp s1 _ Hv1). reflexivity.
    + intros ->. apply (Hp s _ Hv Hparse).
    + intros Hdump Hrefs. eapply Protocol_upgrade_returns; eauto.
  - intros l vstr v Hv Hparse Hgt. split; [|split].
    + intros l1 H1.
      destruct (ExperimentLog_upgrade_result _ _ _ _ _ _ _ Hv Hparse H1)
        as [[-> ->]|Hv1].
      * apply (Hl _ l _ Hv Hparse).
      * apply (Hl _ l1 _ Hv1). reflexivity.
    + intros ->. apply (Hl _ l _ Hv Hparse).
    + intros Hdump Hleg. eapply ExperimentLog_upgrade_returns; eauto.
Qed.

Lemma scalar_yaml_dump_total x : succeeds (scalar_yaml_dump x).
Proof. destruct x as [| [|] | | | | |]; eexists; reflexivity. Qed.

Lemma upgrade_idempotent_witness :
  (exists s1,
      Protocol_upgrade scalar_yaml_dump demo_old_protocol = (Ok tt, s1)
      /\ Protocol_upgrade scalar_yaml_dump s1 = (Ok tt, s1))
  /\ (exists l1,
      ExperimentLog_upgrade scalar_pickle_loads scalar_yaml_dump "u-1"
        demo_old_log = (Ok tt, l1)
      /\ ExperimentLog_upgrade scalar_pickle_loads scalar_yaml_dump "u-2" l1
         = (Ok tt, l1)).
Proof.
  destruct (upgrade_idempotent scalar_pickle_loads scalar_yaml_dump "u-1" "u-2")
    as [HP HL].
  split.
  - destruct (HP demo_old_protocol "0.0.0" (mkVersion 0 0 0)
                eq_refl eq_refl eq_refl) as (Hidem & _ & Hret).
    destruct Hret as [s1 Hs1].
    + exact scalar_yaml_dump_total.
    + repeat constructor.
    + exists s1. split; [exact Hs1|exact (Hidem s1 Hs1)].
  - destruct (HL demo_old_log "0.0.0" (mkVersion 0 0 0)
                eq_refl eq_refl eq_refl) as (Hidem & _ & Hret).
    destruct Hret as [l1 Hl1].
    + exact scalar_yaml_dump_total.
    + eexists; reflexivity.
    + exists l1. split; [exact Hl1|exact (Hidem l1 Hl1)].
Defined.

(** ** The step sequence of a protocol *)

Lemma list_getitem_last {A} (pre : list A) (x : A) :
  list_getitem (pre ++ [x]) (Z.of_nat (length (pre ++ [x])) - 1) = Ok x.
Proof.
  rewrite length_app. simpl.
  replace (Z.of_nat (length pre + 1) - 1) with (Z.of_nat (length pre)) by lia.
  apply list_getitem_nat. rewrite lookup_app_r by lia.
  now rewrite Nat.sub_diag.
Qed.

Lemma list_insert_at_before_last {A} (pre : list A) (x y : A) :
  list_insert_at (pre ++ [x]) (Z.of_nat (length (pre ++ [x])) - 1) y
  = pre ++ [y; x].
Proof.
  unfold list_insert_at. rewrite length_app. simpl.
  replace (Z.of_nat (length pre + 1) - 1) with (Z.of_nat (length pre)) by lia.
  replace (Z.of_nat (length pre) <? 0) with false by (symmetry; apply Z.ltb_ge; lia).
  rewrite Z.min_l by lia. rewrite Nat2Z.id.
  rewrite take_app_length, drop_app_length. reflexivity.
Qed.

Lemma goto_step_run (s : pstate) n :
  goto_step n s
  = (Ok tt,
     mkPstate (set_current_step_number n (self s)) (heap s)
       (signals s ++ [mkSignal "on_step_swapped"
                        [ArgInt (current_step_number (self s)); ArgInt n]])).
Proof. reflexivity. Qed.

Lemma insert_step_run (s : pstate) n r notify :
  insert_step (Some n) (Some r) notify s
  = (Ok tt,
     mkPstate (set_steps (list_insert_at (steps (self s)) n r) (self s)) (heap s)
       (signals s
        ++ mkSignal "on_step_created" [ArgInt (current_step_number (self s))]
        :: (if notify
            then [mkSignal "on_step_inserted"
                    [ArgInt (current_step_number (self s))]]
            else []))).
Proof.
  destruct notify; unfold insert_step, mbind, get_state, ret, set_self, emit_signal;
    simpl; rewrite <- ?app_assoc; reflexivity.
Qed.

Lemma Step_copy_run (s : pstate) r st :
  heap s !! r = Some st ->
  Step_copy r s
  = (Ok (length (heap s)), mkPstate (self s) (heap s ++ [st]) (signals s)).
Proof.
  intros H. unfold Step_copy, mbind, deref, Step_new. rewrite H.
  destruct st. reflexivity.
Qed.

Lemma next_step_unfold fuel (s : pstate) :
  next_step (S fuel) s
  = if current_step_number (self s) =? Protocol_len (self s) - 1 then
      (let! cur := current_step in
       let! value := Step_copy cur in
       insert_step (Some (current_step_number (self s))) (Some value) false ;;
       next_step fuel ;;
       let! s := get_state in
       emit_signal "on_step_inserted" [ArgInt (current_step_number (self s))])%method s
    else goto_step (current_step_number (self s) + 1) s.
Proof.
  cbn [next_step]. unfold mbind at 1, get_state.
  destruct (current_step_number (self s) =? Protocol_len (self s) - 1); reflexivity.
Qed.

Lemma next_step_not_last fuel (s : pstate) :
  current_step_number (self s) <> Z.of_nat (length (steps (self s))) - 1 ->
  next_step (S fuel) s
  = (Ok tt,
     mkPstate (set_current_step_number (current_step_number (self s) + 1) (self s))
       (heap s)
       (signals s ++ [mkSignal "on_step_swapped"
                        [ArgInt (current_step_number (self s));
                         ArgInt (current_step_number (self s) + 1)]])).
Proof.
  intros Hcur. rewrite next_step_unfold. unfold Protocol_len.
  replace (current_step_number (self s) =? _) with false
    by (symmetry; apply Z.eqb_neq; exact Hcur).
  apply goto_step_run.
Qed.

(** C6 (amended): with the cursor on the last of n steps, [next_step]
    returns a protocol of n+1 steps with the cursor on index n; the step at
    index n is the object that was last before the call, and the step at
    index n-1 is a new object, a copy with the same plugin data.  With the
    cursor elsewhere, [next_step] moves the cursor one further and changes
    neither the sequence nor any step. *)
Theorem next_step_inserts_copy_before_last :
  (forall (s : pstate) (fuel : nat) pre r_old st,
      steps (self s) = pre ++ [r_old] ->
      current_step_number (self s) = Z.of_nat (length (steps (self s))) - 1 ->
      heap s !! r_old = Some st ->
      exists s',
        next_step (S (S fuel)) s = (Ok tt, s')
        /\ steps (self s') = pre ++ [length (heap s); r_old]
        /\ current_step_number (self s') = Z.of_nat (length (steps (self s)))
        /\ heap s' = heap s ++ [st]
        /\ length (heap s) <> r_old)
  /\ (forall (s : pstate) (fuel : nat),
      current_step_number (self s) <> Z.of_nat (length (steps (self s))) - 1 ->
      exists s',
        next_step (S fuel) s = (Ok tt, s')
        /\ steps (self s') = steps (self s)
        /\ heap s' = heap s
        /\ current_step_number (self s') = current_step_number (self s) + 1).
Proof.
  split.
  - intros s fuel pre r_old st Hsteps Hcur Hst.
    assert (Hcs : current_step s = (Ok r_old, s)).
    { unfold current_step. rewrite Hcur, Hsteps, list_getitem_last. reflexivity. }
    rewrite next_step_unfold. unfold Protocol_len. rewrite Hcur, Z.eqb_refl.
    rewrite (mbind_returns _ _ _ _ _ Hcs).
    rewrite (mbind_returns _ _ _ _ _ (Step_copy_run s r_old st Hst)).
    rewrite <- Hcur.
    rewrite (mbind_returns _ _ _ _ _ (insert_step_run _ _ _ _)).
    cbn [self heap signals].
    rewrite Hcur, Hsteps, list_insert_at_before_last, <- Hsteps, <- Hcur.
    erewrite mbind_returns.
    2:{ apply next_step_not_last. destruct s as [[]]. simpl in *. subst.
        rewrite !length_app. simpl. lia. }
    unfold mbind, get_state, emit_signal.
    eexists. split; [reflexivity|]. cbn.
    split; [reflexivity|]. split; [destruct s as [[]]; simpl in *; lia|].
    split; [reflexivity|].
    apply lookup_lt_Some in Hst. lia.
  - intros s fuel Hcur. rewrite (next_step_not_last _ _ Hcur).
    eexists. split; [reflexivity|].
    destruct s as [[]]. simpl. auto.
Qed.

Lemma next_step_inserts_copy_before_last_witness :
  (exists s',
      next_step 2 demo_single_step = (Ok tt, s')
      /\ steps (self s') = [1%nat; 0%nat]
      /\ current_step_number (self s') = 1
      /\ heap s' = heap demo_single_step ++ [mkStep [("a", PyStr "u")]]
      /\ 1%nat <> 0%nat)
  /\ (exists s',
      next_step 1 demo_old_protocol = (Ok tt, s')
      /\ steps (self s') = [0%nat; 1%nat]
      /\ heap s' = heap demo_old_protocol
      /\ current_step_number (self s') = 1).
Proof.
  destruct next_step_inserts_copy_before_last as [Hlast Hother].
  split.
  - apply (Hlast demo_single_step 0%nat [] 0%nat (mkStep [("a", PyStr "u")]));
      reflexivity.
  - apply (Hother demo_old_protocol 0%nat). simpl. lia.
Defined.

(** C6 as stated fails: after [next_step] on a protocol of one step, the
    step at index 1 is the object that was at index 0, not another one. *)
Lemma next_step_copy_counterexample :
  exists s',
    next_step 2 demo_single_step = (Ok tt, s')
    /\ steps (self demo_single_step) !! 0%nat = Some 0%nat
    /\ steps (self s') !! 1%nat = Some 0%nat
    /\ ~ appends_a_copy demo_single_step s'.
Proof.
  eexists. split; [vm_compute; reflexivity|].
  split; [reflexivity|]. split; [reflexivity|].
  intros (_ & _ & r_old & r_new & H1 & H2 & Hne & _).
  simpl in H1, H2. congruence.
Qed.

(** *** The sequence never becomes empty *)

Lemma length_list_insert_at {A} (l : list A) i x :
  length (list_insert_at l i x) = S (length l).
Proof.
  unfold list_insert_at. rewrite length_app. simpl.
  rewrite length_take, length_drop. lia.
Qed.

Lemma grows_ret {A} (a : A) : grows (ret a).
Proof. intros s r s' [= _ <-]. lia. Qed.

Lemma grows_raise {A} e : grows (@raise pstate A e).
Proof. intros s r s' [= _ <-]. lia. Qed.

Lemma grows_lift {A} (x : result A) : grows (lift x).
Proof. intros s r s' [= _ <-]. lia. Qed.

Lemma grows_get_state : grows get_state.
Proof. intros s r s' [= _ <-]. lia. Qed.

Lemma grows_bind {A B} (m : M pstate A) (k : A -> M pstate B) :
  grows m -> (forall a, grows (k a)) -> grows (mbind m k).
Proof.
  intros Hm Hk s r s'. unfold mbind. destruct (m s) as [[a|e] s1] eqn:E.
  - intros H. apply Hm in E. apply Hk in H. lia.
  - intros [= _ <-]. apply Hm in E. exact E.
Qed.

Lemma grows_for_each {A} (l : list A) (body : A -> M pstate unit) :
  (forall x, grows (body x)) -> grows (for_each l body).
Proof.
  intros Hbody. induction l as [|x l IH]; simpl.
  - apply grows_ret.
  - apply grows_bind; [apply Hbody|intros _; exact IH].
Qed.

Lemma grows_emit_signal nm args : grows (emit_signal nm args).
Proof. intros s r s' [= _ <-]. simpl. lia. Qed.

Lemma grows_Step_new d : grows (Step_new d).
Proof. intros s r s' [= _ <-]. simpl. lia. Qed.

Lemma grows_deref r : grows (deref r).
Proof.
  intros s x s'. unfold deref. destruct (heap s !! r); intros [= _ <-]; lia.
Qed.

Lemma grows_set_self (f : Protocol -> Protocol) :
  (forall p, (length (steps p) <= length (steps (f p)))%nat) ->
  grows (set_self f).
Proof. intros Hf s r s' [= _ <-]. simpl. apply Hf. Qed.

Lemma grows_goto_step n : grows (goto_step n).
Proof. intros s r s'. rewrite goto_step_run. intros [= _ <-]. simpl. lia. Qed.

Lemma grows_insert_step n v b : grows (insert_step n v b).
Proof.
  unfold insert_step. apply grows_bind; [apply grows_get_state|]. intros s.
  apply grows_bind; [destruct v; [apply grows_ret|apply grows_Step_new]|].
  intros value. apply grows_bind.
  - apply grows_set_self. intros p. simpl. rewrite length_list_insert_at. lia.
  - intros _. apply grows_bind; [apply grows_get_state|]. intros s1.
    apply grows_bind; [apply grows_emit_signal|]. intros _.
    destruct b; [apply grows_emit_signal|apply grows_ret].
Qed.

Lemma grows_insert_steps n c vs : grows (insert_steps n c vs).
Proof.
  unfold insert_steps. apply grows_bind.
  - destruct vs; [apply grows_ret|]. destruct c; [|apply grows_raise].
    apply grows_bind; [apply grows_Step_new|]. intros r. apply grows_ret.
  - intros values. apply grows_bind.
    + apply grows_for_each. intros x. apply grows_insert_step.
    + intros _. destruct n; [apply grows_emit_signal|apply grows_raise].
Qed.

Lemma grows_current_step : grows current_step.
Proof. intros s r s' [= _ <-]. lia. Qed.

Lemma grows_next_step fuel : grows (next_step fuel).
Proof.
  induction fuel as [|fuel IH]; simpl; [apply grows_raise|].
  apply grows_bind; [apply grows_get_state|]. intros s.
  destruct (current_step_number (self s) =? Protocol_len (self s) - 1).
  - apply grows_bind; [apply grows_current_step|]. intros cur.
    apply grows_bind.
    { unfold Step_copy. apply grows_bind; [apply grows_deref|].
      intros st. apply grows_Step_new. }
    intros value. apply grows_bind; [apply grows_insert_step|]. intros _.
    apply grows_bind; [exact IH|]. intros _.
    apply grows_bind; [apply grows_get_state|]. intros s1.
    apply grows_emit_signal.
  - apply grows_goto_step.
Qed.

Lemma insert_step_nonempty n v b (s : pstate) r s' :
  insert_step n v b s = (r, s') -> (1 <= length (steps (self s')))%nat.
Proof.
  unfold insert_step, mbind, get_state.
  destruct v as [value|]; simpl;
    destruct b; simpl; intros [= _ <-]; simpl;
    rewrite length_list_insert_at; lia.
Qed.

Lemma delete_step_nonempty i (s : pstate) r s' :
  delete_step i s = (r, s') ->
  (1 <= length (steps (self s)))%nat -> (1 <= length (steps (self s')))%nat.
Proof.
  unfold delete_step, mbind at 1 2 3, get_state, lift.
  destruct (list_getitem (steps (self s)) i) as [rm|e]; [|intros [= _ <-]; auto].
  destruct (list_delitem (steps (self s)) i) as [steps'|e]; [|intros [= _ <-]; auto].
  unfold mbind at 1 2 3, set_self, emit_signal, get_state.
  cbn [self heap signals]. unfold Protocol_len. cbn [steps set_steps].
  destruct (Z.eqb_spec (Z.of_nat (length steps')) 0) as [Hz|Hnz].
  - intros H _. unfold mbind at 1, Step_new in H. cbn [heap self signals] in H.
    unfold mbind at 1 in H.
    destruct (insert_step _ _ _ _) as [[[]|e] s1] eqn:E.
    + apply insert_step_nonempty in E. rewrite goto_step_run in H.
      injection H as _ <-. simpl. destruct (self s1); simpl in *. exact E.
    + injection H as _ <-. eapply insert_step_nonempty; eauto.
  - destruct (_ =? _); rewrite goto_step_run; intros [= _ <-] _; simpl; lia.
Qed.

Lemma for_each_preserves {St A} (P : St -> Prop) (l : list A)
    (body : A -> M St unit) :
  (forall x s r s', body x s = (r, s') -> P s -> P s') ->
  forall s r s', for_each l body s = (r, s') -> P s -> P s'.
Proof.
  intros Hbody. induction l as [|x l IH]; simpl; intros s r s'.
  - intros [= _ <-]. auto.
  - unfold mbind. destruct (body x s) as [[[]|e] s1] eqn:E.
    + intros H HP. eapply IH; eauto.
    + intros [= _ <-] HP. eauto.
Qed.

Lemma api_call_nonempty m (s : pstate) r s' :
  api_call m -> m s = (r, s') ->
  (1 <= length (steps (self s)))%nat -> (1 <= length (steps (self s')))%nat.
Proof.
  intros Hm H HP. destruct Hm.
  - eapply insert_step_nonempty; eauto.
  - apply grows_insert_steps in H. lia.
  - eapply delete_step_nonempty; eauto.
  - unfold delete_steps in H.
    eapply (for_each_preserves (fun s => (1 <= length (steps (self s)))%nat));
      [|exact H|exact HP].
    intros x s0 r0 s0'. apply delete_step_nonempty.
  - apply grows_next_step in H. lia.
  - revert H. unfold next_repetition, mbind at 1, get_state.
    destruct (_ <? _).
    + unfold mbind, set_self. cbn [self heap signals]. rewrite goto_step_run.
      intros [= _ <-]. simpl. exact HP.
    + intros [= _ <-]. exact HP.
  - revert H. unfold prev_step, mbind at 1, get_state.
    destruct (_ <? _); [rewrite goto_step_run|]; intros [= _ <-]; simpl; exact HP.
  - revert H. unfold first_step, mbind at 1, set_self. rewrite goto_step_run.
    intros [= _ <-]. simpl. exact HP.
  - revert H. unfold last_step, mbind at 1, get_state. rewrite goto_step_run.
    intros [= _ <-]. simpl. exact HP.
  - rewrite goto_step_run in H. injection H as _ <-. simpl. exact HP.
  - revert H. unfold Protocol_set_data, set_self. intros [= _ <-]. simpl. exact HP.
Qed.

Lemma alloc_steps_length l (hp : list Step) rs hp' :
  alloc_steps l hp = (Ok rs, hp') -> length rs = length l.
Proof.
  revert hp rs hp'. induction l as [|x l IH]; intros hp rs hp'; simpl.
  - intros [= <- _]. reflexivity.
  - unfold mbind at 1, lift. destruct (py_iteritems x) as [items|e]; [|discriminate].
    unfold mbind at 1, heap_alloc. unfold mbind at 1.
    destruct (alloc_steps l _) as [[rs'|e] hp1] eqn:E; [|discriminate].
    intros [= <- _]. simpl. f_equal. eapply IH; eauto.
Qed.

(** The steps of the protocol that [protocol_from_dict] returns are as many
    as the items of [steps] in the dictionary. *)
Lemma protocol_from_dict_steps class_of import_module d (hp : list Step) p hp' :
  protocol_from_dict class_of import_module d hp = (Ok p, hp') ->
  exists steps_l,
    py_getitem d "steps" = Ok (PyList steps_l)
    /\ length (steps p) = length steps_l.
Proof.
  unfold protocol_from_dict.
  destruct (validate_protocol d) eqn:Hval; [|discriminate]. simpl.
  unfold mbind at 1, lift. destruct (py_getitem d "name") as [nm|e]; [|discriminate].
  unfold mbind at 1, heap_alloc. unfold mbind at 1.
  destruct (py_getitem d "version") as [ver|e]; [|discriminate].
  destruct (negb _); [discriminate|].
  unfold mbind at 1. destruct (py_getitem d "steps") as [steps_obj|e] eqn:Hsteps;
    [|discriminate].
  assert (Hlist : exists steps_l, steps_obj = PyList steps_l).
  { destruct d as [| | | | |top|]; try discriminate. simpl in Hsteps, Hval.
    unfold dict_getitem in Hsteps.
    destruct (dict_get "steps" top) as [x|]; [|discriminate].
    injection Hsteps as ->.
    destruct steps_obj; try (rewrite !andb_false_r in Hval; discriminate).
    eexists; reflexivity. }
  destruct Hlist as [steps_l ->]. simpl.
  unfold mbind at 1. unfold mbind at 1.
  destruct (alloc_steps steps_l _) as [[rs|e] hp1] eqn:E; [|discriminate].
  unfold mbind at 1. destruct (convert_steps class_of import_module rs hp1) as [[[]|e] hp2]; [|discriminate].
  intros [= <- _]. exists steps_l. split; [reflexivity|]. simpl.
  eapply alloc_steps_length; eauto.
Qed.

Lemma delete_single_step (s : pstate) r i :
  steps (self s) = [r] -> i = 0 \/ i = -1 ->
  exists s',
    delete_step i s = (Ok tt, s')
    /\ steps (self s') = [length (heap s)]
    /\ heap s' = heap s ++ [mkStep []]
    /\ current_step_number (self s') = 0.
Proof.
  intros Hsteps Hi.
  unfold delete_step, mbind at 1 2 3, get_state, lift. rewrite Hsteps.
  assert (Hget : list_getitem [r] i = Ok r) by (destruct Hi as [-> | ->]; reflexivity).
  assert (Hdel : list_delitem [r] i = Ok []) by (destruct Hi as [-> | ->]; reflexivity).
  rewrite Hget, Hdel.
  unfold mbind, set_self, emit_signal, get_state, Step_new, insert_step, ret,
    goto_step. simpl.
  eexists. split; [reflexivity|]. simpl. auto.
Qed.

(** C7 (amended): a protocol that construction, [from_dict] on a dictionary
    with at least one step, and the calls of the step-sequence interface lead
    to has at least one step, whether the calls return or raise; and
    [delete_step] on the only step of a protocol leaves one step, a new
    object without plugin data, with the cursor on index 0. *)
Theorem protocol_keeps_a_step
    (class_of : string -> pyclass)
    (import_module : string -> option (string -> option pyclass)) :
  (forall s, reachable class_of import_module has_steps s ->
             (1 <= length (steps (self s)))%nat)
  /\ (forall (s : pstate) r i,
         steps (self s) = [r] -> i = 0 \/ i = -1 ->
         exists s',
           delete_step i s = (Ok tt, s')
           /\ steps (self s') = [length (heap s)]
           /\ heap s' = heap s ++ [mkStep []]
           /\ current_step_number (self s') = 0).
Proof.
  split; [|exact delete_single_step].
  intros s Hreach. induction Hreach as [nm s0 r s H|d hp p hp' sg Hacc H|m s r s' _ IH Hm H].
  - unfold Protocol_init, mbind, Step_new, set_self in H. simpl in H.
    injection H as _ <-. simpl. lia.
  - apply protocol_from_dict_steps in H as (steps_l & Hget & Hlen).
    simpl. rewrite Hlen. destruct steps_l; [|simpl; lia].
    exfalso. apply Hacc. exact Hget.
  - eapply api_call_nonempty; eauto.
Qed.

Lemma protocol_keeps_a_step_witness :
  (exists p hp',
      protocol_from_dict plain_classes no_modules demo_protocol_dict [] = (Ok p, hp')
      /\ (1 <= length (steps p))%nat)
  /\ (exists s',
         delete_step 0 demo_single_step = (Ok tt, s')
         /\ steps (self s') = [1%nat]
         /\ heap s' = heap demo_single_step ++ [mkStep []]
         /\ current_step_number (self s') = 0).
Proof.
  destruct (protocol_keeps_a_step plain_classes no_modules) as [Hinv Hdel].
  split.
  - eexists _, _. split; [vm_compute; reflexivity|].
    eapply (Hinv (mkPstate _ _ [])).
    eapply (reach_from_dict _ _ _ demo_protocol_dict []).
    + unfold has_steps. simpl. discriminate.
    + vm_compute. reflexivity.
  - apply (Hdel demo_single_step 0%nat 0); [reflexivity|now left].
Defined.

(** C7 as stated fails: [from_dict] accepts a dictionary whose list of
    steps is empty and returns a protocol without steps. *)
Lemma from_dict_stepless_counterexample :
  exists p hp',
    protocol_from_dict plain_classes no_modules demo_no_steps [] = (Ok p, hp')
    /\ reachable plain_classes no_modules (fun _ => True) (mkPstate p hp' [])
    /\ length (steps p) = 0%nat.
Proof.
  eexists _, _. split; [vm_compute; reflexivity|]. split; [|reflexivity].
  eapply (reach_from_dict _ _ _ demo_no_steps []); [exact I|].
  vm_compute. reflexivity.
Qed.

(** ** The experiment id *)

Section NextIdFacts.
Variable int_of_name : string -> option Z.

Lemma entry_ids_cons d_name d logs :
  entry_ids int_of_name ((d_name, d) :: logs)
  = match int_of_name d_name with
    | Some i => i :: entry_ids int_of_name logs
    | None => entry_ids int_of_name logs
    end.
Proof. unfold entry_ids. simpl. destruct (int_of_name d_name); reflexivity. Qed.

Lemma holds_data_cons m d_name d logs :
  holds_data int_of_name m ((d_name, d) :: logs)
  = match int_of_name d_name, d with
    | Some i, Dir (_ :: _) => i =? m
    | _, _ => false
    end || holds_data int_of_name m logs.
Proof. reflexivity. Qed.

Lemma holds_data_bound m logs :
  holds_data int_of_name m logs = true -> In m (entry_ids int_of_name logs).
Proof.
  induction logs as [|[d_name d] logs IH]; [discriminate|].
  rewrite entry_ids_cons, holds_data_cons. intros H. apply orb_true_iff in H as [H|H].
  - destruct (int_of_name d_name) as [i|]; [|discriminate].
    destruct d as [|[|c cs]]; try discriminate.
    apply Z.eqb_eq in H. subst. now left.
  - destruct (int_of_name d_name); [right|]; auto.
Qed.

(** The loop from any starting value: it keeps the value when every named
    integer is below it, and otherwise ends on the greatest named integer, plus
    one when a directory of that name holds data. *)
Lemma scan_logs_spec logs :
  ids_are_directories int_of_name logs ->
  forall e,
    ((forall i, In i (entry_ids int_of_name logs) -> i < e) ->
     scan_logs int_of_name logs e = Ok e)
    /\ (forall m, In m (entry_ids int_of_name logs) -> e <= m ->
                  (forall i, In i (entry_ids int_of_name logs) -> i <= m) ->
                  scan_logs int_of_name logs e
                  = Ok (if holds_data int_of_name m logs then m + 1 else m)).
Proof.
  induction logs as [|[d_name d] logs IH]; intros Hdirs e.
  - split; [reflexivity|]. intros m [].
  - assert (Hdirs' : ids_are_directories int_of_name logs).
    { intros n0 d0 i0 Hin. apply (Hdirs n0 d0 i0). now right. }
    specialize (IH Hdirs'). rewrite entry_ids_cons.
    cbn [scan_logs].
    destruct (int_of_name d_name) as [i|] eqn:Hi.
    2:{ destruct (IH e) as [IHa IHb]. split; [exact IHa|]. intros m Hm He Hmax.
        rewrite holds_data_cons, Hi. apply IHb; auto. }
    destruct (Hdirs d_name d i (or_introl eq_refl) Hi) as [children ->].
    split.
    + intros Hlt. replace (e <=? i) with false
        by (symmetry; apply Z.leb_gt; apply Hlt; now left).
      apply (IH e). intros j Hj. apply Hlt. now right.
    + intros m Hm He Hmax. rewrite holds_data_cons, Hi.
      assert (Him : i <= m) by (apply Hmax; now left).
      destruct (Z.leb_spec e i) as [Hei|Hei].
      * set (e' := match children with [] => i | _ :: _ => i + 1 end).
        assert (He' : i <= e' <= i + 1) by (subst e'; destruct children; lia).
        destruct (IH e') as [IHa IHb].
        destruct (Z_lt_le_dec m e') as [Hlt|Hge].
        -- (* nothing later reaches the new value *)
           rewrite IHa by (intros j Hj; specialize (Hmax j (or_intror Hj)); lia).
           assert (m = i) by lia. subst m.
           destruct (holds_data int_of_name i logs) eqn:Hh.
           { rewrite orb_true_r. f_equal. subst e'.
             destruct children; [|reflexivity].
             apply holds_data_bound in Hh. lia. }
           rewrite orb_false_r. subst e'. destruct children; [reflexivity|].
           now rewrite Z.eqb_refl.
        -- destruct Hm as [<-|Hm].
           ++ assert (e' = i) by lia.
              assert (children = []) by (subst e'; destruct children; [reflexivity|lia]).
              subst children. simpl.
              destruct (in_dec Z.eq_dec i (entry_ids int_of_name logs)) as [Hin|Hnin].
              ** rewrite (IHb i Hin); [reflexivity|lia|].
                 intros j Hj. apply Hmax. now right.
              ** replace (holds_data int_of_name i logs) with false.
                 2:{ destruct (holds_data int_of_name i logs) eqn:Hh; [|reflexivity].
                     apply holds_data_bound in Hh. contradiction. }
                 rewrite IHa; [now f_equal|]. intros j Hj.
                 assert (j <> i) by (intros ->; contradiction).
                 specialize (Hmax j (or_intror Hj)). lia.
           ++ rewrite (IHb m Hm Hge) by (intros j Hj; apply Hmax; now right).
              replace (match children with [] => false | _ :: _ => i =? m end)
                with false; [reflexivity|].
              destruct children; [reflexivity|]. symmetry. apply Z.eqb_neq.
              subst e'. lia.
      * (* the name is below the starting value *)
        destruct Hm as [->|Hm]; [lia|].
        rewrite (proj2 (IH e) m Hm He) by (intros j Hj; apply Hmax; now right).
        replace (match children with [] => false | _ :: _ => i =? m end)
          with false; [reflexivity|].
        destruct children; [reflexivity|]. symmetry. apply Z.eqb_neq. lia.
Qed.
End NextIdFacts.

Lemma entry_ids_In int_of_name logs i :
  In i (entry_ids int_of_name logs)
  <-> exists d_name d, In (d_name, d) logs /\ int_of_name d_name = Some i.
Proof.
  induction logs as [|[n0 d0] logs IH].
  - simpl. split; [intros []|intros (? & ? & [] & _)].
  - rewrite entry_ids_cons. split.
    + destruct (int_of_name n0) eqn:E.
      * intros [<-|H]; [exists n0, d0; split; [now left|exact E]|].
        apply IH in H as (n & d & Hin & Hn). exists n, d. split; [now right|exact Hn].
      * intros H. apply IH in H as (n & d & Hin & Hn).
        exists n, d. split; [now right|exact Hn].
    + intros (n & d & [[= -> ->]|Hin] & Hn).
      * rewrite Hn. now left.
      * assert (In i (entry_ids int_of_name logs)) by (apply IH; eauto).
        destruct (int_of_name n0); [now right|assumption].
Qed.

Lemma holds_data_Permutation int_of_name m logs logs' :
  Permutation logs logs' ->
  holds_data int_of_name m logs = holds_data int_of_name m logs'.
Proof.
  intros Hp. unfold holds_data.
  apply eq_true_iff_eq. rewrite !existsb_exists.
  split; intros (x & Hin & Hx); exists x; (split; [|exact Hx]).
  - eapply Permutation_in; eauto.
  - eapply Permutation_in; [apply Permutation_sym|]; eauto.
Qed.

(** C9: when the entries of the log directory that are named by integers
    are directories and [m] is the greatest of these integers, not negative,
    the new log gets the id [m + 1] if a directory named [m] holds something
    and [m] otherwise, in whatever order the directory is listed. *)
Theorem experiment_id_is_max_or_next
    (int_of_name : string -> option Z) (str_of_int : Z -> string)
    (dir fresh_uuid : string) (logs : listing) (m : Z) :
  ids_are_directories int_of_name logs ->
  0 <= m ->
  In m (entry_ids int_of_name logs) ->
  (forall i, In i (entry_ids int_of_name logs) -> i <= m) ->
  forall logs', Permutation logs logs' ->
    exists log after,
      ExperimentLog_init int_of_name str_of_int (Some dir) fresh_uuid (Some logs')
      = (Ok log, after)
      /\ experiment_id log
         = Some (if holds_data int_of_name m logs then m + 1 else m).
Proof.
  intros Hdirs Hm0 Hm Hmax logs' Hp.
  assert (Hdirs' : ids_are_directories int_of_name logs').
  { intros n d i Hin. apply (Hdirs n d i).
    eapply Permutation_in; [apply Permutation_sym|]; eauto. }
  assert (Hm' : In m (entry_ids int_of_name logs')).
  { apply entry_ids_In in Hm as (n & d & Hin & Hn). apply entry_ids_In.
    exists n, d. split; [eapply Permutation_in; eauto|exact Hn]. }
  assert (Hmax' : forall i, In i (entry_ids int_of_name logs') -> i <= m).
  { intros i Hi. apply Hmax. apply entry_ids_In in Hi as (n & d & Hin & Hn).
    apply entry_ids_In. exists n, d. split; [|exact Hn].
    eapply Permutation_in; [apply Permutation_sym|]; eauto. }
  unfold ExperimentLog_init, mbind, _get_next_id, ret.
  rewrite (proj2 (scan_logs_spec int_of_name logs' Hdirs' 0) m Hm' Hm0 Hmax').
  rewrite <- (holds_data_Permutation int_of_name m logs logs' Hp).
  eexists _, _. split; reflexivity.
Qed.

Lemma experiment_id_is_max_or_next_witness :
  exists log after,
    ExperimentLog_init decimal_name decimal_str (Some "logs") "u-1"
      (Some [("1", Dir ["data"]); ("notes.txt", File); ("0", Dir [])])
    = (Ok log, after)
    /\ experiment_id log = Some 2.
Proof.
  apply (experiment_id_is_max_or_next decimal_name decimal_str "logs" "u-1"
           [("0", Dir []); ("1", Dir ["data"]); ("notes.txt", File)] 1).
  - intros n d i [[= <- <-]|[[= <- <-]|[[= <- <-]|[]]]] Hi;
      try (eexists; reflexivity); discriminate.
  - lia.
  - vm_compute. auto.
  - intros i Hi. vm_compute in Hi. destruct Hi as [<-|[<-|[]]]; lia.
  - apply perm_trans with [("1", Dir ["data"]); ("0", Dir []); ("notes.txt", File)].
    + apply perm_swap.
    + apply perm_skip, perm_swap.
Defined.

(** ** Conversion to and from a dictionary *)

(** The protocol that [protocol_from_dict] returns, field by field: only the
    name and the steps come from the dictionary. *)
Lemma protocol_from_dict_fields class_of import_module d (hp : list Step) p hp' :
  protocol_from_dict class_of import_module d hp = (Ok p, hp') ->
  exists new_steps name_,
    py_getitem d "name" = Ok name_
    /\ p = mkProtocol new_steps name_ [] [] 1 0 0 0 (Some class_version) None.
Proof.
  unfold protocol_from_dict.
  destruct (validate_protocol d) eqn:Hval; [|discriminate]. simpl.
  unfold mbind at 1, lift. destruct (py_getitem d "name") as [nm|e]; [|discriminate].
  unfold mbind at 1, heap_alloc. unfold mbind at 1.
  destruct (py_getitem d "version") as [ver|e]; [|discriminate].
  destruct (negb _); [discriminate|].
  unfold mbind at 1. destruct (py_getitem d "steps") as [steps_obj|e]; [|discriminate].
  unfold mbind at 1. destruct (py_iter steps_obj) as [steps_l|e]; [|discriminate].
  unfold mbind at 1.
  destruct (alloc_steps steps_l _) as [[rs|e] hp1]; [|discriminate].
  unfold mbind at 1.
  destruct (convert_steps class_of import_module rs hp1) as [[[]|e] hp2]; [|discriminate].
  intros [= <- _]. eexists _, _. split; reflexivity.
Qed.

Lemma protocol_to_dict_plugin_data class_of pickle_loads p (hp : list Step)
    loaded d :
  protocol_to_dict class_of pickle_loads p hp loaded = Ok d ->
  py_getitem d "plugin_data" = Ok (PyDict (plugin_data p)).
Proof.
  unfold protocol_to_dict.
  destruct (map_result _ (steps p)) as [sd|e]; [|discriminate]. simpl.
  destruct (map_result _ sd) as [sd'|e]; [|discriminate]. simpl.
  destruct (version p); [|discriminate]. simpl.
  intros [= <-]. reflexivity.
Qed.

(** C10: a protocol that [protocol_from_dict] returns has no protocol-wide
    plugin data, whatever the dictionary holds under [plugin_data], where
    [protocol_to_dict] puts the plugin data of the protocol. *)
Theorem from_dict_drops_protocol_plugin_data
    (class_of : string -> pyclass)
    (import_module : string -> option (string -> option pyclass))
    (pickle_loads : string -> result pyobj) :
  (forall d (hp : list Step) p hp',
      protocol_from_dict class_of import_module d hp = (Ok p, hp') ->
      plugin_data p = [])
  /\ (forall p (hp : list Step) loaded d,
         protocol_to_dict class_of pickle_loads p hp loaded = Ok d ->
         py_getitem d "plugin_data" = Ok (PyDict (plugin_data p))).
Proof.
  split.
  - intros d hp p hp' H.
    apply protocol_from_dict_fields in H as (rs & nm & _ & ->). reflexivity.
  - intros p hp loaded d. apply protocol_to_dict_plugin_data.
Qed.

Lemma from_dict_drops_protocol_plugin_data_witness :
  exists d p' hp',
    protocol_to_dict plain_classes scalar_pickle_loads (self demo_protocol)
      (heap demo_protocol) true = Ok d
    /\ py_getitem d "plugin_data" = Ok (PyDict [("app", PyDict [("k", PyStr "v")])])
    /\ protocol_from_dict plain_classes no_modules d [] = (Ok p', hp')
    /\ plugin_data p' = [].
Proof.
  destruct (from_dict_drops_protocol_plugin_data plain_classes no_modules
              scalar_pickle_loads) as [Hfrom Hto].
  pose (d := PyDict
       [("name", PyStr "demo"); ("version", PyStr "0.2.0");
        ("steps",
         PyList
           [PyDict [("a", PyDict [("x", PyStr "u")]); ("b", PyDict [])];
            PyDict []]);
        ("plugin_data", PyDict [("app", PyDict [("k", PyStr "v")])])]).
  assert (Hd : protocol_to_dict plain_classes scalar_pickle_loads
                 (self demo_protocol) (heap demo_protocol) true = Ok d)
    by (vm_compute; reflexivity).
  destruct (protocol_from_dict plain_classes no_modules d []) as [[p'|e] hp'] eqn:Hp;
    [|vm_compute in Hp; discriminate].
  exists d, p', hp'.
  split; [exact Hd|]. split; [exact (Hto _ _ _ _ Hd)|].
  split; [exact Hp|exact (Hfrom _ _ _ _ Hp)].
Defined.

(** ** Decoding the payloads on load *)

Lemma decode_record_spec decode items acc :
  NoDup (dict_keys items) ->
  (forall k, In k (dict_keys items) -> In k (dict_keys acc)) ->
  dict_keys (decode_record decode items acc) = dict_keys acc
  /\ forall k,
      dict_get k (decode_record decode items acc)
      = match dict_get k items with
        | Some v =>
            match decode v with
            | Some x => Some x
            | None => dict_get k acc
            end
        | None => dict_get k acc
        end.
Proof.
  revert acc. induction items as [|[k0 v0] items IH]; intros acc Hnd Hsub.
  - split; reflexivity.
  - simpl in Hnd. apply NoDup_cons in Hnd as [Hni Hnd].
    assert (Hk0 : In k0 (dict_keys acc)) by (apply Hsub; now left).
    set (acc' := match decode v0 with
                 | Some x => dict_set k0 x acc
                 | None => acc
                 end).
    assert (Hkeys : dict_keys acc' = dict_keys acc).
    { subst acc'. destruct (decode v0); [|reflexivity].
      now apply dict_keys_set_present. }
    destruct (IH acc' Hnd) as [IHk IHg].
    { intros k Hk. rewrite Hkeys. apply Hsub. now right. }
    change (decode_record decode ((k0, v0) :: items) acc)
      with (decode_record decode items acc').
    split; [now rewrite IHk|].
    intros k. rewrite IHg. simpl.
    destruct (String.eqb_spec k k0) as [->|Hne].
    + assert (Hnone : dict_get k0 items = None).
      { apply dict_get_None. intros H. apply Hni. now apply list_elem_of_In. }
      rewrite Hnone. subst acc'. destruct (decode v0); [|reflexivity].
      apply dict_get_set_eq.
    + assert (Hacc : dict_get k acc' = dict_get k acc).
      { subst acc'. destruct (decode v0); [|reflexivity].
        now apply dict_get_set_ne. }
      now rewrite Hacc.
Qed.

(** A record decoded in place: the keys stay, and every payload becomes
    what a decoder reads from it, or stays as it is. *)
Lemma decode_record_self decode record :
  NoDup (dict_keys record) ->
  dict_keys (decode_record decode record record) = dict_keys record
  /\ forall k v, dict_get k record = Some v ->
                 dict_get k (decode_record decode record record)
                 = Some (decoded_or_raw decode v).
Proof.
  intros Hnd. destruct (decode_record_spec decode record record Hnd) as [Hk Hg];
    [auto|].
  split; [exact Hk|]. intros k v Hv. rewrite Hg, Hv. unfold decoded_or_raw.
  destruct (decode v); reflexivity.
Qed.

Lemma pstate_eta (s : pstate) : mkPstate (self s) (heap s) (signals s) = s.
Proof. now destruct s. Qed.

Lemma set_plugin_data_eta p : set_plugin_data (plugin_data p) p = p.
Proof. now destruct p. Qed.

Lemma Step_eta st : mkStep (step_plugin_data st) = st.
Proof. now destruct st. Qed.

(** The loop over the protocol-wide plugin data. *)
Lemma load_plugin_data_run decode items (s : pstate) :
  for_each items
    (fun kv => match decode kv.2 with
               | Some x => Protocol_set_data kv.1 x
               | None => ret tt
               end) s
  = (Ok tt,
     mkPstate (set_plugin_data (decode_record decode items (plugin_data (self s)))
                 (self s))
       (heap s) (signals s)).
Proof.
  revert s. induction items as [|[k v] items IH]; intros s; simpl.
  - unfold decode_record. simpl. now rewrite set_plugin_data_eta, pstate_eta.
  - unfold mbind. destruct (decode v) as [x|] eqn:E; simpl.
    + rewrite IH. unfold decode_record. simpl. rewrite ?E.
      destruct s as [[]]; reflexivity.
    + rewrite IH. unfold decode_record. simpl. rewrite ?E. reflexivity.
Qed.

(** The loop over the plugins of the step that [r] names. *)
Lemma load_step_run decode r items (s : pstate) st :
  heap s !! r = Some st ->
  for_each items
    (fun kv => match decode kv.2 with
               | Some x => Step_set_data r kv.1 x
               | None => ret tt
               end) s
  = (Ok tt,
     mkPstate (self s)
       (<[r := mkStep (decode_record decode items (step_plugin_data st))]> (heap s))
       (signals s)).
Proof.
  revert s st. induction items as [|[k v] items IH]; intros s st Hst; simpl.
  - unfold decode_record. simpl. rewrite Step_eta.
    rewrite list_insert_id by exact Hst. now rewrite pstate_eta.
  - assert (Hlt : (r < length (heap s))%nat) by (eapply lookup_lt_Some; eauto).
    unfold mbind at 1. destruct (decode v) as [x|] eqn:E; simpl.
    + unfold Step_set_data, mbind, deref. rewrite Hst.
      rewrite (IH _ (mkStep (dict_set k x (step_plugin_data st)))).
      2:{ simpl. now rewrite list_lookup_insert_eq. }
      simpl. rewrite list_insert_insert_eq.
      unfold decode_record. simpl. rewrite ?E. reflexivity.
    + rewrite (IH s st Hst). unfold decode_record. simpl. rewrite ?E. reflexivity.
Qed.

Lemma decode_steps_length decode steps hp :
  length (decode_steps decode steps hp) = length hp.
Proof.
  revert hp. induction steps as [|r steps IH]; intros hp; [reflexivity|].
  unfold decode_steps in *. simpl. rewrite IH.
  destruct (hp !! r); [apply length_insert|reflexivity].
Qed.

(** The loop over the steps, by index. *)
Lemma load_steps_run decode done todo (s : pstate) :
  steps (self s) = done ++ todo ->
  Forall (fun r => (r < length (heap s))%nat) todo ->
  for_each (map (fun i => 0 + Z.of_nat i) (seq (length done) (length todo)))
    (fun i => (let! step := Protocol_getitem i in
               let! st := deref step in
               for_each (step_plugin_data st)
                 (fun kv => match decode kv.2 with
                            | Some x => Step_set_data step kv.1 x
                            | None => ret tt
                            end))%method) s
  = (Ok tt, mkPstate (self s) (decode_steps decode todo (heap s)) (signals s)).
Proof.
  revert done s. induction todo as [|r todo IH]; intros done s Hsteps Hvalid.
  - simpl. now rewrite pstate_eta.
  - apply Forall_cons in Hvalid as [Hr Hvalid].
    destruct (lookup_lt_is_Some_2 _ _ Hr) as [st Hst].
    cbn [length seq map for_each].
    assert (Hget : Protocol_getitem (0 + Z.of_nat (length done)) s = (Ok r, s)).
    { unfold Protocol_getitem. rewrite Hsteps, Z.add_0_l.
      rewrite (list_getitem_nat _ _ r); [reflexivity|].
      rewrite lookup_app_r by lia. now rewrite Nat.sub_diag. }
    unfold mbind at 1. unfold mbind at 1. rewrite Hget.
    unfold mbind at 1, deref. rewrite Hst.
    rewrite (load_step_run decode r _ s st Hst).
    replace (S (length done)) with (length (done ++ [r]))
      by (rewrite length_app; simpl; lia).
    rewrite IH.
    + simpl. unfold decode_steps. simpl. rewrite Hst. reflexivity.
    + simpl. rewrite Hsteps, <- app_assoc. reflexivity.
    + simpl. rewrite length_insert. exact Hvalid.
Qed.

Lemma Protocol_load_payloads_run pickle_loads yaml_load (s : pstate) :
  Forall (fun r => (r < length (heap s))%nat) (steps (self s)) ->
  Protocol_load_payloads pickle_loads yaml_load s
  = (Ok tt,
     mkPstate
       (set_plugin_data
          (decode_record (decode_payload pickle_loads yaml_load)
             (plugin_data (self s)) (plugin_data (self s)))
          (self s))
       (decode_steps (decode_step_payload pickle_loads yaml_load)
          (steps (self s)) (heap s))
       (signals s)).
Proof.
  intros Hvalid. unfold Protocol_load_payloads.
  unfold mbind at 1, get_state. unfold mbind at 1.
  rewrite load_plugin_data_run. unfold mbind at 1, get_state.
  unfold range, Protocol_len. cbn [self steps set_plugin_data].
  replace (Z.to_nat (Z.of_nat (length (steps (self s))) - 0))
    with (length (steps (self s))) by lia.
  rewrite (load_steps_run _ [] (steps (self s))); [reflexivity|reflexivity|].
  exact Hvalid.
Qed.

Lemma decode_steps_other decode steps hp (r : ref) :
  r ∉ steps -> decode_steps decode steps hp !! r = hp !! r.
Proof.
  revert hp. induction steps as [|r0 steps IH]; intros hp Hni; [reflexivity|].
  apply not_elem_of_cons in Hni as [Hne Hni].
  unfold decode_steps in *. simpl. rewrite (IH _ Hni).
  destruct (hp !! r0); [|reflexivity]. now apply list_lookup_insert_ne.
Qed.

Lemma decode_steps_lookup decode steps hp (r : ref) st :
  NoDup steps -> r ∈ steps -> hp !! r = Some st ->
  decode_steps decode steps hp !! r
  = Some (mkStep (decode_record decode (step_plugin_data st)
                    (step_plugin_data st))).
Proof.
  revert hp. induction steps as [|r0 steps IH]; intros hp Hnd Hin Hst.
  - now apply elem_of_nil in Hin.
  - apply NoDup_cons in Hnd as [Hni Hnd].
    change (decode_steps decode (r0 :: steps) hp)
      with (decode_steps decode steps
              match hp !! r0 with
              | Some st0 =>
                  <[r0 := mkStep (decode_record decode (step_plugin_data st0)
                                    (step_plugin_data st0))]> hp
              | None => hp
              end).
    apply elem_of_cons in Hin as [->|Hin].
    + rewrite decode_steps_other by exact Hni. rewrite Hst.
      apply list_lookup_insert_eq. eapply lookup_lt_Some; eauto.
    + apply IH; [exact Hnd|exact Hin|].
      assert (r <> r0) by (intros ->; contradiction).
      destruct (hp !! r0); [|exact Hst].
      rewrite list_lookup_insert_ne by congruence. exact Hst.
Qed.

Lemma iter_decoded_raw decode (n : nat) v :
  decode v = None -> Nat.iter n (decoded_or_raw decode) v = v.
Proof.
  intros Hv. induction n as [|n IH]; [reflexivity|].
  rewrite Nat.iter_succ, IH. unfold decoded_or_raw. now rewrite Hv.
Qed.

(** The loop over the steps decodes the payloads of a step object once for
    every place the object has in the list. *)
Lemma decode_steps_lookup_count decode steps hp (r : ref) st :
  hp !! r = Some st ->
  NoDup (dict_keys (step_plugin_data st)) ->
  exists st',
    decode_steps decode steps hp !! r = Some st'
    /\ dict_keys (step_plugin_data st') = dict_keys (step_plugin_data st)
    /\ forall k v,
        dict_get k (step_plugin_data st) = Some v ->
        dict_get k (step_plugin_data st')
        = Some (Nat.iter (count_occ Nat.eq_dec steps r)
                  (decoded_or_raw decode) v).
Proof.
  revert hp st. induction steps as [|r0 steps IH]; intros hp st Hst Hnd.
  - exists st. split; [exact Hst|]. split; [reflexivity|]. intros k v Hv. exact Hv.
  - change (decode_steps decode (r0 :: steps) hp)
      with (decode_steps decode steps
              match hp !! r0 with
              | Some st0 =>
                  <[r0 := mkStep (decode_record decode (step_plugin_data st0)
                                    (step_plugin_data st0))]> hp
              | None => hp
              end).
    destruct (Nat.eq_dec r0 r) as [->|Hne].
    + rewrite count_occ_cons_eq by reflexivity. rewrite Hst.
      destruct (decode_record_self decode (step_plugin_data st) Hnd) as [Hk Hg].
      destruct (IH (<[r := mkStep (decode_record decode (step_plugin_data st)
                                     (step_plugin_data st))]> hp)
                  (mkStep (decode_record decode (step_plugin_data st)
                             (step_plugin_data st))))
        as (st' & Hst' & Hk' & Hg').
      { apply list_lookup_insert_eq. eapply lookup_lt_Some; eauto. }
      { cbn [step_plugin_data]. now rewrite Hk. }
      exists st'. split; [exact Hst'|]. cbn [step_plugin_data] in Hk', Hg'.
      split; [now rewrite Hk'|].
      intros k v Hv. rewrite (Hg' k _ (Hg k v Hv)).
      rewrite Nat.iter_succ. f_equal. apply Nat.iter_swap.
    + rewrite count_occ_cons_neq by exact Hne.
      apply IH; [|exact Hnd].
      destruct (hp !! r0); [|exact Hst].
      rewrite list_lookup_insert_ne by exact Hne. exact Hst.
Qed.

(** C8 (amended): once the file is read as a document of the right class
    (for a protocol, from a file whose extension is not [.json]) and
    [_upgrade] has returned, [load] returns, whatever number of payloads no
    decoder reads: every payload is replaced by the object that a decoder
    reads from it, and a payload that no decoder reads stays in its place,
    as the stored value; the records and the plugins of a record are the
    ones before.  A step object that has several places in the list of
    steps is met once for every place, and its payloads go through the
    decoders as many times. *)
Theorem load_keeps_undecodable_payload
    (pickle_loads yaml_load : string -> result pyobj)
    (yaml_dump : pyobj -> result string)
    (pickle_load_file yaml_load_file : string -> result file_object)
    (path_ext : string -> string) (json_load : string -> result pyobj)
    (class_of : string -> pyclass)
    (import_module : string -> option (string -> option pyclass)) :
  (forall fresh fs filename content l l_up,
      read_file fs filename = Ok content ->
      load_file_object pickle_load_file yaml_load_file content
      = inr (FExperimentLog l) ->
      ExperimentLog_upgrade pickle_loads yaml_dump fresh
        (ExperimentLog_before_upgrade filename l) = (Ok tt, l_up) ->
      Forall (fun record => NoDup (dict_keys record)) (data l_up) ->
      exists l',
        ExperimentLog_load pickle_loads yaml_load yaml_dump pickle_load_file
          yaml_load_file fresh fs filename = Ok l'
        /\ length (data l') = length (data l_up)
        /\ forall (i : nat) record,
            data l_up !! i = Some record ->
            exists record',
              data l' !! i = Some record'
              /\ dict_keys record' = dict_keys record
              /\ forall k v,
                  dict_get k record = Some v ->
                  dict_get k record'
                  = Some (decoded_or_raw (decode_payload pickle_loads yaml_load) v))
  /\ (forall fs filename content legacy p hp s_up,
      str_lower (path_ext filename) <> ".json" ->
      read_file fs filename = Ok content ->
      load_file_object pickle_load_file yaml_load_file content
      = inr (FProtocol legacy p hp) ->
      Protocol_upgrade yaml_dump
        (mkPstate (Protocol_before_upgrade filename p) hp [])
      = (Ok tt, s_up) ->
      Forall (fun r => (r < length (heap s_up))%nat) (steps (self s_up)) ->
      NoDup (dict_keys (plugin_data (self s_up))) ->
      (forall (r : ref) st, r ∈ steps (self s_up) -> heap s_up !! r = Some st ->
                            NoDup (dict_keys (step_plugin_data st))) ->
      exists p' hp',
        Protocol_load pickle_loads yaml_load yaml_dump pickle_load_file
          yaml_load_file path_ext json_load class_of import_module fs filename
        = Ok (p', hp')
        /\ steps p' = steps (self s_up)
        /\ dict_keys (plugin_data p') = dict_keys (plugin_data (self s_up))
        /\ (forall k v,
               dict_get k (plugin_data (self s_up)) = Some v ->
               dict_get k (plugin_data p')
               = Some (decoded_or_raw (decode_payload pickle_loads yaml_load) v))
        /\ forall (r : ref) st,
            r ∈ steps p' -> heap s_up !! r = Some st ->
            exists st',
              hp' !! r = Some st'
              /\ dict_keys (step_plugin_data st') = dict_keys (step_plugin_data st)
              /\ forall k v,
                  dict_get k (step_plugin_data st) = Some v ->
                  dict_get k (step_plugin_data st')
                  = Some (Nat.iter (count_occ Nat.eq_dec (steps p') r)
                            (decoded_or_raw
                               (decode_step_payload pickle_loads yaml_load)) v)
                  /\ (decode_step_payload pickle_loads yaml_load v = None ->
                      dict_get k (step_plugin_data st') = Some v)).
Proof.
  split.
  - intros fresh fs filename content l l_up Hread Hobj Hup Hnd.
    unfold ExperimentLog_load. rewrite Hread. simpl. rewrite Hobj.
    rewrite Hup. eexists. split; [reflexivity|].
    destruct l_up as [dir id uu ver dat meta fn]. simpl in *.
    split; [now rewrite length_map|].
    intros i record Hi. exists (load_record pickle_loads yaml_load record).
    split; [now rewrite list_lookup_fmap, Hi|].
    apply decode_record_self.
    rewrite Forall_forall in Hnd. apply Hnd.
    eapply list_elem_of_lookup_2; eauto.
  - intros fs filename content legacy p hp s_up Hext Hread Hobj Hup
      Hvalid Hndp Hndst.
    unfold Protocol_load. apply String.eqb_neq in Hext. rewrite Hext.
    unfold Protocol_load_serialized. rewrite Hread. simpl. rewrite Hobj.
    rewrite (mbind_returns _ _ _ _ _ Hup).
    rewrite (Protocol_load_payloads_run _ _ _ Hvalid).
    eexists _, _. split; [reflexivity|].
    destruct s_up as [[sts nm pd pf nr att cur rep ver fn] hp_up sg]. simpl in *.
    split; [reflexivity|].
    destruct (decode_record_self (decode_payload pickle_loads yaml_load) pd Hndp)
      as [Hk Hg].
    split; [exact Hk|]. split; [exact Hg|].
    intros r st Hr Hst.
    destruct (decode_steps_lookup_count
                (decode_step_payload pickle_loads yaml_load) sts hp_up r st Hst
                (Hndst r st Hr Hst)) as (st' & Hst' & Hk' & Hg').
    exists st'. split; [exact Hst'|]. split; [exact Hk'|].
    intros k v Hv. split; [exact (Hg' k v Hv)|].
    intros Hraw. rewrite (Hg' k v Hv). now rewrite iter_decoded_raw.
Qed.

Lemma load_keeps_undecodable_payload_witness :
  (exists l' record',
      ExperimentLog_load scalar_pickle_loads scalar_yaml_load scalar_yaml_dump
        demo_pickle_load_file demo_yaml_load_file "u-2" demo_files "logs/0/data"
      = Ok l'
      /\ data l' !! 0%nat = Some record'
      /\ dict_get "core" record' = Some (PyStr "ok")
      /\ dict_get "bad" record' = Some (PyStr "garbage"))
  /\ (exists p' hp' st',
      Protocol_load scalar_pickle_loads scalar_yaml_load scalar_yaml_dump
        demo_pickle_load_file demo_yaml_load_file posix_ext no_json
        plain_classes no_modules demo_files "demo.protocol"
      = Ok (p', hp')
      /\ dict_get "app" (plugin_data p') = Some (PyStr "x")
      /\ hp' !! 0%nat = Some st'
      /\ dict_get "a" (step_plugin_data st') = Some (PyStr "u")
      /\ dict_get "bad" (step_plugin_data st') = Some (PyStr "garbage")).
Proof.
  destruct (load_keeps_undecodable_payload scalar_pickle_loads scalar_yaml_load
              scalar_yaml_dump demo_pickle_load_file demo_yaml_load_file
              posix_ext no_json plain_classes no_modules)
    as [HL HP].
  split.
  - destruct (HL "u-2" demo_files "logs/0/data" "<log>" demo_corrupt_log
                (el_set_filename (Some "logs/0/data") demo_corrupt_log)
                eq_refl eq_refl eq_refl)
      as (l' & Hload & _ & Hrec).
    { repeat constructor; nodup_keys. }
    destruct (Hrec 0%nat _ eq_refl) as (record' & Hi & _ & Hg).
    exists l', record'. split; [exact Hload|]. split; [exact Hi|].
    split; [exact (Hg "core" _ eq_refl)|exact (Hg "bad" _ eq_refl)].
  - destruct (HP demo_files "demo.protocol" "<protocol>" false
                demo_corrupt_protocol
                [mkStep [("a", PyStr "Su"); ("bad", PyStr "garbage")]]
                (mkPstate (set_filename (Some "demo.protocol") demo_corrupt_protocol)
                   [mkStep [("a", PyStr "Su"); ("bad", PyStr "garbage")]] []))
      as (p' & hp' & Hload & Hsteps & _ & Hpd & Hst).
    + vm_compute. discriminate.
    + reflexivity.
    + reflexivity.
    + reflexivity.
    + repeat constructor.
    + nodup_keys.
    + intros r st Hr Hlook. simpl in Hr. apply list_elem_of_singleton in Hr. subst r.
      injection Hlook as <-. nodup_keys.
    + assert (H0 : 0%nat ∈ steps p')
        by (rewrite Hsteps; simpl; apply list_elem_of_singleton; reflexivity).
      destruct (Hst 0%nat _ H0 eq_refl) as (st' & Hlook & _ & Hg).
      exists p', hp', st'. split; [exact Hload|].
      split; [exact (Hpd "app" _ eq_refl)|]. split; [exact Hlook|].
      split.
      * destruct (Hg "a" _ eq_refl) as [Ha _]. rewrite Ha, Hsteps. reflexivity.
      * destruct (Hg "bad" _ eq_refl) as [_ Hb]. apply Hb. reflexivity.
Defined.

(** C8 as stated fails: of the two payloads of the record, one is not a
    pickle and not a YAML text; the load returns, the other payload is
    decoded, and the one that is not readable is still there as the stored
    string: it is neither dropped nor set to [None]. *)
Lemma load_missing_marker_counterexample :
  decode_payload scalar_pickle_loads scalar_yaml_load (PyStr "Sok")
  = Some (PyStr "ok")
  /\ decode_payload scalar_pickle_loads scalar_yaml_load (PyStr "garbage") = None
  /\ exists l' record',
      ExperimentLog_load scalar_pickle_loads scalar_yaml_load scalar_yaml_dump
        demo_pickle_load_file demo_yaml_load_file "u-2" demo_files "logs/0/data"
      = Ok l'
      /\ data l' = [record']
      /\ dict_get "bad" record' = Some (PyStr "garbage")
      /\ ~ dropped_or_missing record' "bad".
Proof.
  split; [reflexivity|]. split; [reflexivity|].
  eexists _, _. split; [vm_compute; reflexivity|].
  split; [reflexivity|]. split; [reflexivity|].
  intros [H|H]; vm_compute in H; discriminate.
Qed.


(** ** Saving and loading a log *)

(** Two dictionaries with the same keys in the same order and the same
    value under every key are equal. *)
Lemma dict_ext {V} (d1 d2 : list (string * V)) :
  dict_keys d1 = dict_keys d2 ->
  NoDup (dict_keys d1) ->
  (forall k, dict_get k d1 = dict_get k d2) ->
  d1 = d2.
Proof.
  revert d2. induction d1 as [|[k1 v1] d1 IH]; intros [|[k2 v2] d2] Hk Hnd Hg;
    try discriminate; [reflexivity|].
  simpl in Hk. injection Hk as <- Hk. simpl in Hnd.
  apply NoDup_cons in Hnd as [Hni Hnd].
  pose proof (Hg k1) as H1. simpl in H1. rewrite String.eqb_refl in H1.
  injection H1 as <-. f_equal. apply IH; [exact Hk|exact Hnd|].
  intros k. specialize (Hg k). simpl in Hg.
  destruct (String.eqb_spec k k1) as [Heq|Hne]; [subst k; clear Hg|exact Hg].
  assert (Hn1 : dict_get k1 d1 = None).
  { apply dict_get_None. intros H. apply Hni. now apply list_elem_of_In. }
  assert (Hn2 : dict_get k1 d2 = None).
  { apply dict_get_None. rewrite <- Hk. intros H. apply Hni. now apply list_elem_of_In. }
  now rewrite Hn1, Hn2.
Qed.

Section SaveLoadFacts.
Variable pickle_loads : string -> result pyobj.
Variable pickle_dumps : pyobj -> result string.
Variable yaml_load : string -> result pyobj.
Variable yaml_dump : pyobj -> result string.

(** The string that [pickle.dumps] returns. *)
Let pickled (v : pyobj) : string :=
  match pickle_dumps v with Ok y => y | Raise _ => "" end.

Lemma save_record_spec items acc :
  NoDup (dict_keys items) ->
  (forall k, In k (dict_keys items) -> In k (dict_keys acc)) ->
  (forall k v, In (k, v) items -> succeeds (pickle_dumps v)) ->
  exists acc',
    save_record pickle_dumps yaml_dump "pickle" items acc = Ok acc'
    /\ dict_keys acc' = dict_keys acc
    /\ forall k,
        dict_get k acc'
        = match dict_get k items with
          | Some v => Some (PyStr (pickled v))
          | None => dict_get k acc
          end.
Proof.
  revert acc. induction items as [|[k0 v0] items IH]; intros acc Hnd Hsub Hok.
  - exists acc. split; [reflexivity|]. split; reflexivity.
  - simpl in Hnd. apply NoDup_cons in Hnd as [Hni Hnd].
    assert (Hk0 : In k0 (dict_keys acc)) by (apply Hsub; now left).
    destruct (Hok k0 v0 (or_introl eq_refl)) as [y Hy].
    destruct (IH (dict_set k0 (PyStr y) acc) Hnd) as (acc' & Hs & Hk & Hg).
    { intros k Hk. rewrite dict_keys_set_present by exact Hk0. apply Hsub. now right. }
    { intros k v Hin. apply (Hok k v). now right. }
    exists acc'. split; [|split].
    + simpl. rewrite Hy. simpl. exact Hs.
    + rewrite Hk. now apply dict_keys_set_present.
    + intros k. rewrite Hg. simpl.
      destruct (String.eqb_spec k k0) as [->|Hne].
      * assert (Hnone : dict_get k0 items = None).
        { apply dict_get_None. intros H. apply Hni. now apply list_elem_of_In. }
        rewrite Hnone, dict_get_set_eq. unfold pickled. now rewrite Hy.
      * destruct (dict_get k items); [reflexivity|]. now apply dict_get_set_ne.
Qed.

(** A record saved and loaded again is the record. *)
Lemma save_load_record record :
  NoDup (dict_keys record) ->
  (forall k v, In (k, v) record ->
               exists y, pickle_dumps v = Ok y /\ pickle_loads y = Ok v) ->
  exists record',
    save_record pickle_dumps yaml_dump "pickle" record record = Ok record'
    /\ load_record pickle_loads yaml_load record' = record.
Proof.
  intros Hnd Hrt.
  destruct (save_record_spec record record Hnd) as (record' & Hs & Hk & Hg); [auto| |].
  { intros k v Hin. destruct (Hrt k v Hin) as (y & Hy & _). now exists y. }
  exists record'. split; [exact Hs|].
  assert (Hnd' : NoDup (dict_keys record')) by (now rewrite Hk).
  destruct (decode_record_self (decode_payload pickle_loads yaml_load) record' Hnd')
    as [Hk' Hg'].
  apply dict_ext.
  - unfold load_record. fold (decode_record (decode_payload pickle_loads yaml_load)
                                record' record'). now rewrite Hk'.
  - unfold load_record. fold (decode_record (decode_payload pickle_loads yaml_load)
                                record' record'). now rewrite Hk'.
  - intros k. unfold load_record.
    fold (decode_record (decode_payload pickle_loads yaml_load) record' record').
    destruct (dict_get k record') as [v'|] eqn:Hv'.
    + rewrite (Hg' k v' Hv'). rewrite Hg in Hv'.
      destruct (dict_get k record) as [v|] eqn:Hv.
      * injection Hv' as <-.
        destruct (Hrt k v (dict_get_In _ _ _ Hv)) as (y & Hy & Hl).
        unfold decoded_or_raw, decode_payload, pickled. simpl. now rewrite Hy, Hl.
      * discriminate.
    + destruct (decode_record_spec (decode_payload pickle_loads yaml_load)
                  record' record' Hnd') as [_ Hget]; [auto|].
      rewrite Hget, Hv'. rewrite Hg in Hv'.
      destruct (dict_get k record); [discriminate|reflexivity].
Qed.

Lemma save_load_records records :
  Forall (fun record => NoDup (dict_keys record)) records ->
  (forall record k v, In record records -> In (k, v) record ->
                      exists y, pickle_dumps v = Ok y /\ pickle_loads y = Ok v) ->
  exists out_data,
    map_result (fun r => save_record pickle_dumps yaml_dump "pickle" r r) records
    = Ok out_data
    /\ map (load_record pickle_loads yaml_load) out_data = records.
Proof.
  induction records as [|record records IH]; intros Hnd Hrt.
  - exists []. split; reflexivity.
  - apply Forall_cons in Hnd as [Hnd0 Hnd].
    destruct (save_load_record record Hnd0) as (record' & Hs & Hl).
    { intros k v. apply Hrt. now left. }
    destruct (IH Hnd) as (out & Ho & Hm).
    { intros r k v Hr. apply Hrt. now right. }
    exists (record' :: out). split.
    + simpl. rewrite Hs. simpl. rewrite Ho. reflexivity.
    + simpl. now rewrite Hl, Hm.
Qed.
End SaveLoadFacts.

Lemma ExperimentLog_upgrade_current pickle_loads yaml_dump fresh
    (l : ExperimentLog) vstr :
  el_version l = Some vstr ->
  Version_fromstring vstr = Ok (mkVersion 0 3 0) ->
  ExperimentLog_upgrade pickle_loads yaml_dump fresh l = (Ok tt, l).
Proof.
  intros Hv Hparse.
  unfold ExperimentLog_upgrade, mbind, get_state, ret, lift.
  rewrite Hv, Hparse, el_class_version_parses. reflexivity.
Qed.

(** C3 (amended): a log at the class version that has at least one record,
    whose payloads [pickle] writes and reads back, and whose pickled copy
    the file pickle writes and reads back, is saved by [save()], called with
    a file name, or without one on a log that has a directory, to a file
    from which [load] returns a log with the same data, uuid and
    metadata. *)
Theorem save_then_load_restores_log
    (pickle_loads yaml_load : string -> result pyobj)
    (pickle_dumps yaml_dump : pyobj -> result string)
    (pickle_load_file yaml_load_file : string -> result file_object)
    (pickle_dump_file yaml_dump_file : file_object -> result string)
    (path_join : string -> string -> string)
    (path_parent : string -> string) (str_of_id : option Z -> string)
    (filename : option string) (fresh vstr : string) (fs : files)
    (l : ExperimentLog) :
  data l <> [] ->
  (filename = None -> directory l <> None) ->
  el_version l = Some vstr ->
  Version_fromstring vstr = Ok (mkVersion 0 3 0) ->
  Forall (fun record => NoDup (dict_keys record)) (data l) ->
  (forall record k v, In record (data l) -> In (k, v) record ->
                      exists y, pickle_dumps v = Ok y /\ pickle_loads y = Ok v) ->
  (forall out_data,
      map_result (fun r => save_record pickle_dumps yaml_dump "pickle" r r) (data l)
      = Ok out_data ->
      exists content,
        pickle_dump_file (FExperimentLog (el_set_data out_data l)) = Ok content
        /\ pickle_load_file content = Ok (FExperimentLog (el_set_data out_data l))) ->
  exists log_path fs' l',
    ExperimentLog_save pickle_dumps yaml_dump pickle_dump_file yaml_dump_file
      path_join path_parent str_of_id l filename "pickle" fs
    = (Ok log_path, fs')
    /\ ExperimentLog_load pickle_loads yaml_load yaml_dump pickle_load_file
         yaml_load_file fresh fs' (saved_file path_join filename log_path)
       = Ok l'
    /\ data l' = data l
    /\ uuid l' = uuid l
    /\ metadata l' = metadata l.
Proof.
  intros Hdata Hdir Hver Hparse Hnd Hrt Hfile.
  destruct (save_load_records pickle_loads pickle_dumps yaml_load yaml_dump
              (data l) Hnd Hrt) as (out_data & Hsave & Hload).
  destruct (Hfile out_data Hsave) as (content & Hdump & Hundump).
  assert (Htarget : exists f log_path,
             match filename with
             | None =>
                 (let* log_path := get_log_path path_join str_of_id l in
                  Ok (path_join log_path "data", log_path))%result
             | Some f => Ok (f, path_parent f)
             end = Ok (f, log_path)
             /\ saved_file path_join filename log_path = f).
  { destruct filename as [f|].
    - exists f, (path_parent f). split; reflexivity.
    - unfold get_log_path. destruct (directory l) as [dir|]; [|now destruct Hdir].
      eexists _, _. split; reflexivity. }
  destruct Htarget as (f & log_path & Htarget & Hfile_eq).
  exists log_path, (dict_set f content fs).
  exists (el_set_filename (Some f) l).
  split; [|split; [|split; [|split]]].
  - unfold ExperimentLog_save. rewrite Htarget.
    destruct (data l) eqn:E; [congruence|].
    rewrite Hsave. simpl. rewrite Hdump. reflexivity.
  - rewrite Hfile_eq.
    unfold ExperimentLog_load, read_file. rewrite dict_get_set_eq. simpl.
    unfold load_file_object. rewrite Hundump.
    assert (Hbefore : ExperimentLog_before_upgrade f (el_set_data out_data l)
                      = el_set_filename (Some f) (el_set_data out_data l)).
    { unfold ExperimentLog_before_upgrade. destruct l. simpl in *.
      now rewrite Hver. }
    assert (Hup : ExperimentLog_upgrade pickle_loads yaml_dump fresh
                    (el_set_filename (Some f) (el_set_data out_data l))
                  = (Ok tt, el_set_filename (Some f) (el_set_data out_data l))).
    { apply (ExperimentLog_upgrade_current _ _ _ _ vstr); [|exact Hparse].
      now destruct l. }
    rewrite Hbefore, Hup. simpl. rewrite Hload.
    destruct l; reflexivity.
  - reflexivity.
  - now destruct l.
  - now destruct l.
Qed.

Lemma save_then_load_restores_log_witness :
  exists log_path fs' l',
    ExperimentLog_save scalar_pickle_dumps scalar_yaml_dump demo_pickle_dump_file
      demo_pickle_dump_file posix_join posix_parent id_str demo_log
      None "pickle" []
    = (Ok log_path, fs')
    /\ ExperimentLog_load scalar_pickle_loads scalar_yaml_load scalar_yaml_dump
         demo_pickle_load_saved demo_yaml_load_file "u-2" fs'
         (saved_file posix_join None log_path)
       = Ok l'
    /\ data l' = data demo_log
    /\ uuid l' = uuid demo_log
    /\ metadata l' = metadata demo_log.
Proof.
  apply (save_then_load_restores_log scalar_pickle_loads scalar_yaml_load
           scalar_pickle_dumps scalar_yaml_dump demo_pickle_load_saved
           demo_yaml_load_file demo_pickle_dump_file demo_pickle_dump_file
           posix_join posix_parent id_str None "u-2" "0.3.0" []
           demo_log).
  - discriminate.
  - discriminate.
  - reflexivity.
  - reflexivity.
  - repeat constructor; nodup_keys.
  - intros record k v [<-|[]] [[= <- <-]|[[= <- <-]|[]]];
      eexists; split; reflexivity.
  - intros out_data H. vm_compute in H. injection H as <-.
    exists "<saved>". split; reflexivity.
Defined.

(** C3 as stated fails: [save] writes nothing for a log without records,
    so there is no file for [load] to read; and [save()] without a file
    name raises [TypeError] on a log that was made without a directory,
    also when the log has records. *)
Lemma save_empty_log_counterexample :
  ExperimentLog_save scalar_pickle_dumps scalar_yaml_dump demo_pickle_dump_file
    demo_pickle_dump_file posix_join posix_parent id_str demo_empty_log
    (Some "logs/0/data") "pickle" []
  = (Ok "logs/0", [])
  /\ ExperimentLog_load scalar_pickle_loads scalar_yaml_load scalar_yaml_dump
       demo_pickle_load_saved demo_yaml_load_file "u-2" [] "logs/0/data"
     = Raise (Exn IOError "No such file or directory")
  /\ ExperimentLog_save scalar_pickle_dumps scalar_yaml_dump
       demo_pickle_dump_file demo_pickle_dump_file posix_join posix_parent
       id_str demo_unplaced_log None "pickle" []
     = (Raise (Exn TypeError "Invalid initial value for path: None"), []).
Proof. repeat split; vm_compute; reflexivity. Qed.

(** ** The round trip through a dictionary *)

Lemma insert_sorted_str_perm x l : Permutation (insert_sorted_str x l) (x :: l).
Proof.
  induction l as [|y l IH]; simpl; [reflexivity|].
  destruct (String.leb x y); [reflexivity|].
  rewrite IH. apply perm_swap.
Qed.

Lemma sorted_str_perm l : Permutation (sorted_str l) l.
Proof.
  induction l as [|x l IH]; simpl; [reflexivity|].
  rewrite insert_sorted_str_perm. now apply perm_skip.
Qed.

Lemma dict_get_map_keys {V} (f : string -> V) (l : list string) k :
  dict_get k (map (fun k => (k, f k)) l)
  = if decide (k ∈ l) then Some (f k) else None.
Proof.
  induction l as [|k0 l IH]; simpl.
  - destruct (decide (k ∈ [])) as [H|H]; [now apply elem_of_nil in H|reflexivity].
  - destruct (String.eqb_spec k k0) as [->|Hne].
    + rewrite decide_True by (apply elem_of_cons; now left). reflexivity.
    + rewrite IH. destruct (decide (k ∈ l)) as [H|H].
      * rewrite decide_True by (apply elem_of_cons; now right). reflexivity.
      * rewrite decide_False; [reflexivity|].
        intros H'. apply elem_of_cons in H' as [?|?]; congruence.
Qed.

Lemma dict_keys_map_keys {V} (f : string -> V) (l : list string) :
  dict_keys (map (fun k => (k, f k)) l) = l.
Proof. unfold dict_keys. rewrite map_map. simpl. apply map_id. Qed.

Lemma decode_record_cons decode k v items acc :
  decode_record decode ((k, v) :: items) acc
  = decode_record decode items
      match decode v with
      | Some x => dict_set k x acc
      | None => acc
      end.
Proof. reflexivity. Qed.

Section ToDictFacts.
Variable class_of : string -> pyclass.
Variable pickle_loads : string -> result pyobj.

(** The dictionary of a step before the conversions: the same plugins, by
    name, with the same payloads. *)
Lemma step_to_dict_spec st :
  NoDup (dict_keys (step_plugin_data st)) ->
  Permutation (dict_keys (step_to_dict pickle_loads true st))
    (dict_keys (step_plugin_data st))
  /\ forall k,
      dict_get k (step_to_dict pickle_loads true st)
      = dict_get k (step_plugin_data st).
Proof.
  intros Hnd. unfold step_to_dict, Step_plugins. split.
  - rewrite (dict_keys_map_keys (fun k => Step_get_data st k)). apply sorted_str_perm.
  - intros k. rewrite (dict_get_map_keys (fun k => Step_get_data st k)).
    destruct (decide (k ∈ sorted_str (dict_keys (step_plugin_data st)))) as [H|H].
    + rewrite sorted_str_perm in H. apply list_elem_of_In in H.
      unfold Step_get_data.
      destruct (dict_get k (step_plugin_data st)) eqn:E; [reflexivity|].
      apply dict_get_None in E. contradiction.
    + rewrite sorted_str_perm in H. symmetry. apply dict_get_None.
      intros Hin. apply H. now apply list_elem_of_In.
Qed.

(** The two loops of [protocol_to_dict] over one step put the result of
    [to_dict] in the place of every payload that has the method. *)
Lemma collect_to_dict_run items updates acc :
  collect_to_dict class_of items = Ok updates ->
  apply_updates updates acc
  = decode_record (to_dict_value class_of) items acc.
Proof.
  revert updates acc. induction items as [|[k v] items IH]; intros updates acc.
  - intros [= <-]. reflexivity.
  - rewrite decode_record_cons. unfold to_dict_value at 2. simpl.
    destruct (to_dict_method class_of v) as [[d|e]|]; simpl.
    + destruct (collect_to_dict class_of items) as [rest|e]; [|discriminate].
      simpl. intros [= <-]. apply (IH rest (dict_set k d acc)). reflexivity.
    + discriminate.
    + intros H. apply (IH _ _ H).
Qed.

Lemma collect_to_dict_returns items :
  (forall k v, In (k, v) items ->
               forall r, to_dict_method class_of v = Some r -> succeeds r) ->
  succeeds (collect_to_dict class_of items).
Proof.
  induction items as [|[k v] items IH]; intros H; simpl; [eexists; reflexivity|].
  destruct IH as [rest Hrest]; [intros k' v' Hin; apply (H k' v'); now right|].
  destruct (to_dict_method class_of v) as [r|] eqn:E.
  - destruct (H k v (or_introl eq_refl) r E) as [d ->]. simpl. rewrite Hrest.
    eexists; reflexivity.
  - rewrite Hrest. eexists; reflexivity.
Qed.
End ToDictFacts.

Lemma apply_updates_get updates d k :
  NoDup (dict_keys updates) ->
  dict_get k (apply_updates updates d)
  = match dict_get k updates with
    | Some w => Some w
    | None => dict_get k d
    end.
Proof.
  revert d. induction updates as [|[k0 w0] updates IH]; intros d Hnd; [reflexivity|].
  simpl in Hnd. apply NoDup_cons in Hnd as [Hni Hnd].
  change (apply_updates ((k0, w0) :: updates) d)
    with (apply_updates updates (dict_set k0 w0 d)).
  rewrite IH by exact Hnd. simpl.
  destruct (String.eqb_spec k k0) as [->|Hne].
  - assert (Hnone : dict_get k0 updates = None).
    { apply dict_get_None. intros H. apply Hni. now apply list_elem_of_In. }
    now rewrite Hnone, dict_get_set_eq.
  - destruct (dict_get k updates); [reflexivity|]. now apply dict_get_set_ne.
Qed.

Lemma apply_updates_keys updates d :
  (forall k, In k (dict_keys updates) -> In k (dict_keys d)) ->
  dict_keys (apply_updates updates d) = dict_keys d.
Proof.
  revert d. induction updates as [|[k0 w0] updates IH]; intros d Hsub; [reflexivity|].
  change (apply_updates ((k0, w0) :: updates) d)
    with (apply_updates updates (dict_set k0 w0 d)).
  assert (Hk0 : In k0 (dict_keys d)) by (apply Hsub; now left).
  rewrite IH; [now apply dict_keys_set_present|].
  intros k Hk. rewrite dict_keys_set_present by exact Hk0. apply Hsub. now right.
Qed.

Section FromDictFacts.
Variable class_of : string -> pyclass.
Variable import_module : string -> option (string -> option pyclass).

(** The dictionary left in the place of a payload that held [__class__]. *)
Let pop_part (v : pyobj) : option pyobj :=
  match py_contains class_of "__class__" v, py_pop class_of "__class__" v with
  | Ok true, Ok popped => Some popped.2
  | _, _ => None
  end.

(** The object that [from_dict] makes of a payload. *)
Let update_part (v : pyobj) : option pyobj :=
  match py_contains class_of "__class__" v, py_pop class_of "__class__" v with
  | Ok true, Ok popped =>
      match lookup_class import_module popped.1 with
      | Ok class_ =>
          match cls_from_dict class_ with
          | Some from_dict =>
              match from_dict popped.2 with
              | Ok obj => Some obj
              | Raise _ => None
              end
          | None => None
          end
      | Raise _ => None
      end
  | _, _ => None
  end.

Lemma from_dict_value_parts v w :
  from_dict_value class_of import_module v = Ok w ->
  w = match update_part v with
      | Some obj => obj
      | None => match pop_part v with
                | Some d => d
                | None => v
                end
      end.
Proof.
  unfold from_dict_value, update_part, pop_part.
  destruct (py_contains class_of "__class__" v) as [[|]|e]; simpl; try discriminate.
  - destruct (py_pop class_of "__class__" v) as [popped|e]; simpl; [|discriminate].
    destruct (lookup_class import_module popped.1) as [c|e]; simpl; [|discriminate].
    destruct (cls_from_dict c) as [g|].
    + destruct (g popped.2); [congruence|discriminate].
    + congruence.
  - congruence.
Qed.

Lemma collect_from_dict_spec items acc :
  NoDup (dict_keys items) ->
  (forall k, In k (dict_keys items) -> In k (dict_keys acc)) ->
  (forall k v, In (k, v) items -> succeeds (from_dict_value class_of import_module v)) ->
  exists found,
    collect_from_dict class_of import_module items acc = Ok found
    /\ dict_keys found.1 = dict_keys acc
    /\ (forall k, In k (dict_keys found.2) -> In k (dict_keys items))
    /\ NoDup (dict_keys found.2)
    /\ (forall k,
           dict_get k found.1
           = match dict_get k items with
             | Some v => match pop_part v with
                         | Some d => Some d
                         | None => dict_get k acc
                         end
             | None => dict_get k acc
             end)
    /\ (forall k,
           dict_get k found.2
           = match dict_get k items with
             | Some v => update_part v
             | None => None
             end).
Proof.
  revert acc. induction items as [|[k0 v0] items IH]; intros acc Hnd Hsub Hok.
  - exists (acc, []). simpl. repeat split; auto; try apply NoDup_nil_2.
  - simpl in Hnd. apply NoDup_cons in Hnd as [Hni Hnd].
    assert (Hk0 : In k0 (dict_keys acc)) by (apply Hsub; now left).
    assert (Hnone : dict_get k0 items = None).
    { apply dict_get_None. intros H. apply Hni. now apply list_elem_of_In. }
    destruct (Hok k0 v0 (or_introl eq_refl)) as [w Hw].
    set (acc' := match pop_part v0 with
                 | Some d => dict_set k0 d acc
                 | None => acc
                 end).
    assert (Hkeys' : dict_keys acc' = dict_keys acc).
    { subst acc'. destruct (pop_part v0); [|reflexivity].
      now apply dict_keys_set_present. }
    destruct (IH acc' Hnd) as (found & Hc & Hk1 & Hk2 & Hnd2 & Hg1 & Hg2).
    { intros k Hk. rewrite Hkeys'. apply Hsub. now right. }
    { intros k v Hin. apply (Hok k v). now right. }
    assert (Hacc' : forall k, k <> k0 -> dict_get k acc' = dict_get k acc).
    { intros k Hne. subst acc'. destruct (pop_part v0); [|reflexivity].
      now apply dict_get_set_ne. }
    assert (Hni2 : ~ In k0 (dict_keys found.2)).
    { intros H. apply Hni. apply list_elem_of_In. now apply Hk2. }
    simpl. unfold from_dict_value in Hw. subst acc'.
    unfold pop_part, update_part in *.
    destruct (py_contains class_of "__class__" v0) as [[|]|e] eqn:Hcont; simpl in *;
      try discriminate.
    + destruct (py_pop class_of "__class__" v0) as [popped|e] eqn:Hpop; simpl in *;
        [|discriminate].
      destruct (lookup_class import_module popped.1) as [c|e] eqn:Hlook; simpl in *;
        [|discriminate].
      destruct (cls_from_dict c) as [g|] eqn:Hg.
      * rewrite Hw. simpl. rewrite Hc. simpl.
        exists (found.1, (k0, w) :: found.2). simpl.
        split; [reflexivity|]. split; [now rewrite Hk1|].
        split; [intros k [->|Hk]; [now left|right; now apply Hk2]|].
        split; [apply NoDup_cons; split; [now rewrite list_elem_of_In|exact Hnd2]|].
        split.
        -- intros k. rewrite Hg1. destruct (String.eqb_spec k k0) as [->|Hne].
           ++ now rewrite Hnone, Hcont, Hpop, dict_get_set_eq.
           ++ now rewrite (dict_get_set_ne _ _ _ _ Hne).
        -- intros k. destruct (String.eqb_spec k k0) as [->|Hne].
           ++ now rewrite Hcont, Hpop, Hlook, Hg, Hw.
           ++ apply Hg2.
      * rewrite Hc. exists found.
        split; [reflexivity|]. split; [now rewrite Hk1|].
        split; [intros k Hk; right; now apply Hk2|].
        split; [exact Hnd2|]. split.
        -- intros k. rewrite Hg1. destruct (String.eqb_spec k k0) as [->|Hne].
           ++ now rewrite Hnone, Hcont, Hpop, dict_get_set_eq.
           ++ now rewrite (dict_get_set_ne _ _ _ _ Hne).
        -- intros k. destruct (String.eqb_spec k k0) as [->|Hne].
           ++ now rewrite Hg2, Hnone, Hcont, Hpop, Hlook, Hg.
           ++ apply Hg2.
    + rewrite Hc. exists found.
      split; [reflexivity|]. split; [exact Hk1|].
      split; [intros k Hk; right; now apply Hk2|].
      split; [exact Hnd2|]. split.
      * intros k. rewrite Hg1. destruct (String.eqb_spec k k0) as [->|Hne].
        -- now rewrite Hnone, Hcont.
        -- reflexivity.
      * intros k. destruct (String.eqb_spec k k0) as [->|Hne].
        -- now rewrite Hg2, Hnone, Hcont.
        -- apply Hg2.
Qed.

(** The two loops of [protocol_from_dict] over one step: the plugins stay,
    and every payload becomes what [from_dict_value] gives. *)
Lemma convert_record_spec record :
  NoDup (dict_keys record) ->
  (forall k v, In (k, v) record -> succeeds (from_dict_value class_of import_module v)) ->
  exists found,
    collect_from_dict class_of import_module record record = Ok found
    /\ dict_keys (apply_updates found.2 found.1) = dict_keys record
    /\ forall k v,
        dict_get k record = Some v ->
        exists w,
          from_dict_value class_of import_module v = Ok w
          /\ dict_get k (apply_updates found.2 found.1) = Some w.
Proof.
  intros Hnd Hok.
  destruct (collect_from_dict_spec record record Hnd) as
    (found & Hc & Hk1 & Hk2 & Hnd2 & Hg1 & Hg2); [auto|exact Hok|].
  exists found. split; [exact Hc|]. split.
  - rewrite apply_updates_keys; [exact Hk1|].
    intros k Hk. rewrite Hk1. now apply Hk2.
  - intros k v Hv. destruct (Hok k v (dict_get_In _ _ _ Hv)) as [w Hw].
    exists w. split; [exact Hw|].
    rewrite apply_updates_get by exact Hnd2. rewrite Hg2, Hg1, Hv.
    rewrite (from_dict_value_parts v w Hw).
    destruct (update_part v); [reflexivity|].
    destruct (pop_part v); first [reflexivity|exact Hv].
Qed.
End FromDictFacts.

Lemma alloc_steps_dicts sds (hp : list Step) :
  alloc_steps (map PyDict sds) hp
  = (Ok (seq (length hp) (length sds)), hp ++ map mkStep sds).
Proof.
  revert hp. induction sds as [|sd sds IH]; intros hp; simpl.
  - now rewrite app_nil_r.
  - unfold mbind at 1, lift. simpl. unfold mbind at 1, heap_alloc.
    unfold mbind at 1. rewrite IH. unfold ret.
    rewrite length_app. simpl. rewrite Nat.add_1_r, <- app_assoc. reflexivity.
Qed.

Section ConvertFacts.
Variable class_of : string -> pyclass.
Variable import_module : string -> option (string -> option pyclass).

Lemma convert_steps_spec refs (hp : list Step) :
  NoDup refs ->
  (forall (r : ref), r ∈ refs ->
     exists st, hp !! r = Some st
                /\ NoDup (dict_keys (step_plugin_data st))
                /\ forall k v, In (k, v) (step_plugin_data st) ->
                               succeeds (from_dict_value class_of import_module v)) ->
  exists hp',
    convert_steps class_of import_module refs hp = (Ok tt, hp')
    /\ length hp' = length hp
    /\ (forall (r : ref), r ∉ refs -> hp' !! r = hp !! r)
    /\ forall (r : ref) st,
        r ∈ refs -> hp !! r = Some st ->
        exists st',
          hp' !! r = Some st'
          /\ dict_keys (step_plugin_data st') = dict_keys (step_plugin_data st)
          /\ forall k v,
              dict_get k (step_plugin_data st) = Some v ->
              exists w, from_dict_value class_of import_module v = Ok w
                        /\ dict_get k (step_plugin_data st') = Some w.
Proof.
  revert hp. induction refs as [|r0 refs IH]; intros hp Hnd Hok.
  - exists hp. split; [reflexivity|]. split; [reflexivity|]. split; [auto|].
    intros r st Hr. now apply elem_of_nil in Hr.
  - apply NoDup_cons in Hnd as [Hni Hnd].
    destruct (Hok r0) as (st0 & Hst0 & Hnd0 & Hok0); [apply elem_of_cons; now left|].
    destruct (convert_record_spec class_of import_module (step_plugin_data st0) Hnd0 Hok0)
      as (found & Hc & Hkeys & Hget).
    set (hp1 := <[r0 := mkStep (apply_updates found.2 found.1)]> hp).
    destruct (IH hp1 Hnd) as (hp' & Hconv & Hlen & Hother & Hin).
    { intros r Hr. assert (r <> r0) by (intros ->; contradiction).
      destruct (Hok r) as (st & Hst & Hrest); [apply elem_of_cons; now right|].
      exists st. split; [|exact Hrest]. subst hp1.
      rewrite list_lookup_insert_ne by congruence. exact Hst. }
    exists hp'. split; [|split; [|split]].
    + simpl. unfold mbind at 1, get_state. rewrite Hst0.
      unfold mbind at 1, lift. rewrite Hc. unfold mbind at 1, put_state.
      exact Hconv.
    + rewrite Hlen. subst hp1. apply length_insert.
    + intros r Hr. apply not_elem_of_cons in Hr as [Hne Hr].
      rewrite (Hother r Hr). subst hp1. now apply list_lookup_insert_ne.
    + intros r st Hr Hst. apply elem_of_cons in Hr as [->|Hr].
      * rewrite (Hother r0 Hni). subst hp1.
        rewrite list_lookup_insert_eq by (eapply lookup_lt_Some; eauto).
        rewrite Hst0 in Hst. injection Hst as <-.
        eexists. split; [reflexivity|]. simpl. split; [exact Hkeys|exact Hget].
      * assert (r <> r0) by (intros ->; contradiction).
        apply (Hin r st Hr). subst hp1.
        rewrite list_lookup_insert_ne by congruence. exact Hst.
Qed.
End ConvertFacts.

Section RoundTripFacts.
Variable class_of : string -> pyclass.
Variable import_module : string -> option (string -> option pyclass).
Variable pickle_loads : string -> result pyobj.

(** The dictionary that [protocol_to_dict] makes of a step. *)
Let step_dict (st : Step) : pydict :=
  decode_record (to_dict_value class_of)
    (step_to_dict pickle_loads true st) (step_to_dict pickle_loads true st).

(** A payload that follows the contract, or a plain one, comes back. *)
Lemma convertible_value_roundtrip v :
  contract_payload class_of import_module v \/ plain_payload class_of v ->
  from_dict_value class_of import_module (decoded_or_raw (to_dict_value class_of) v)
  = Ok v.
Proof.
  unfold decoded_or_raw, to_dict_value.
  intros [(d & qual & c & g & Hto & Hcls & Hlook & Hfrom & Hback)|[Hto Hcont]].
  - rewrite Hto. unfold from_dict_value. cbn [py_contains py_pop bind].
    unfold dict_mem. rewrite Hcls. cbn [bind fst snd].
    rewrite Hlook. cbn [bind]. rewrite Hfrom. exact Hback.
  - rewrite Hto. unfold from_dict_value. rewrite Hcont. reflexivity.
Qed.

Lemma step_dict_spec st :
  convertible_step class_of import_module st ->
  Permutation (dict_keys (step_dict st)) (dict_keys (step_plugin_data st))
  /\ NoDup (dict_keys (step_dict st))
  /\ (forall k v, dict_get k (step_plugin_data st) = Some v ->
                  dict_get k (step_dict st)
                  = Some (decoded_or_raw (to_dict_value class_of) v))
  /\ (forall k v', In (k, v') (step_dict st) ->
                   exists v, dict_get k (step_plugin_data st) = Some v
                             /\ v' = decoded_or_raw (to_dict_value class_of) v).
Proof.
  intros [Hnd Hconv].
  destruct (step_to_dict_spec pickle_loads st Hnd) as [Hperm Hget].
  assert (Hnd0 : NoDup (dict_keys (step_to_dict pickle_loads true st)))
    by (now rewrite Hperm).
  destruct (decode_record_self (to_dict_value class_of) _ Hnd0) as [Hk Hg].
  fold (step_dict st) in Hk, Hg.
  assert (Hnd1 : NoDup (dict_keys (step_dict st))) by (now rewrite Hk).
  split; [now rewrite Hk|]. split; [exact Hnd1|]. split.
  - intros k v Hv. apply Hg. now rewrite Hget.
  - intros k v' Hin. pose proof (NoDup_dict_get _ _ _ Hnd1 Hin) as Hv'.
    destruct (dict_get k (step_plugin_data st)) as [v|] eqn:Hv.
    + exists v. split; [reflexivity|].
      rewrite (Hg k v) in Hv' by (now rewrite Hget). congruence.
    + exfalso. apply dict_get_None in Hv. apply Hv.
      apply list_elem_of_In. rewrite <- Hperm, <- Hk. apply list_elem_of_In.
      eapply In_dict_keys; eauto.
Qed.

Lemma step_dict_validates st :
  convertible_step class_of import_module st ->
  validate_step (PyDict (step_dict st)) = true.
Proof.
  intros Hst. destruct (step_dict_spec st Hst) as (Hperm & _ & _ & _).
  destruct Hst as [Hnd Hconv].
  assert (Hnone : forall k, (k = "plugin_data" \/ k = "version"
                             \/ k = "additionalProperties") ->
                            dict_get k (step_dict st) = None).
  { intros k Hk. apply dict_get_None. intros Hin.
    apply list_elem_of_In in Hin. rewrite Hperm in Hin. apply list_elem_of_In in Hin.
    apply in_map_iff in Hin as ([k' v] & Heq & Hin). simpl in Heq. subst k'.
    destruct (Hconv k v Hin) as (H1 & H2 & H3 & _).
    destruct Hk as [?|[?|?]]; congruence. }
  unfold validate_step, dict_mem.
  rewrite !Hnone by auto. reflexivity.
Qed.

Lemma protocol_to_dict_run p (hp : list Step) sts v :
  Forall2 (fun r st => hp !! r = Some st) (steps p) sts ->
  Forall (convertible_step class_of import_module) sts ->
  version p = Some v ->
  protocol_to_dict class_of pickle_loads p hp true
  = Ok (PyDict [("name", name p);
                ("version", PyStr v);
                ("steps", PyList (map PyDict (map step_dict sts)));
                ("plugin_data", PyDict (plugin_data p))]).
Proof.
  intros Hres Hconv Hver. unfold protocol_to_dict.
  assert (H1 : map_result
                 (fun r => match hp !! r with
                           | Some st => Ok (step_to_dict pickle_loads true st)
                           | None => Raise (Exn RuntimeError "dangling reference")
                           end) (steps p)
               = Ok (map (step_to_dict pickle_loads true) sts)).
  { induction Hres as [|r st rs sts' Hr _ IH]; [reflexivity|].
    simpl. rewrite Hr. simpl. rewrite IH; [reflexivity|].
    now apply Forall_cons in Hconv as [_ ?]. }
  rewrite H1. simpl.
  assert (H2 : map_result
                 (fun step_i =>
                    (let* to_update_i := collect_to_dict class_of step_i in
                     Ok (apply_updates to_update_i step_i))%result)
                 (map (step_to_dict pickle_loads true) sts)
               = Ok (map step_dict sts)).
  { clear H1 Hres. induction sts as [|st sts' IH]; [reflexivity|].
    apply Forall_cons in Hconv as [Hst Hconv]. simpl.
    destruct (collect_to_dict_returns class_of (step_to_dict pickle_loads true st))
      as [ups Hups].
    { intros k v' Hin r Hr.
      destruct Hst as [Hnd Hpay].
      destruct (step_to_dict_spec pickle_loads st Hnd) as [Hperm Hget].
      assert (Hnd0 : NoDup (dict_keys (step_to_dict pickle_loads true st)))
        by (now rewrite Hperm).
      pose proof (NoDup_dict_get _ _ _ Hnd0 Hin) as Hv'. rewrite Hget in Hv'.
      destruct (Hpay k v' (dict_get_In _ _ _ Hv')) as (_ & _ & _ & [Hc|[Hp _]]).
      - destruct Hc as (d & _ & _ & _ & Hto & _). rewrite Hto in Hr.
        injection Hr as <-. eexists; reflexivity.
      - congruence. }
    rewrite Hups. simpl. rewrite (collect_to_dict_run class_of _ _ _ Hups).
    fold (step_dict st). rewrite (IH Hconv). reflexivity. }
  rewrite H2. simpl. rewrite Hver. reflexivity.
Qed.

(** C2 (amended): for a protocol whose name is a string, whose version is
    the class version, and whose steps hold, under names apart from the keys
    that the schema constrains, payloads that follow the dictionary contract
    or are plain, [from_dict] of [to_dict] returns a protocol with the same
    name, the same version and as many steps; every step has the same
    plugins, and every payload is equal to the original one. *)
Theorem to_dict_from_dict_roundtrip (p : Protocol) (hp : list Step)
    (sts : list Step) (n : string) :
  name p = PyStr n ->
  version p = Some class_version ->
  Forall2 (fun r st => hp !! r = Some st) (steps p) sts ->
  Forall (convertible_step class_of import_module) sts ->
  exists d p' hp',
    protocol_to_dict class_of pickle_loads p hp true = Ok d
    /\ protocol_from_dict class_of import_module d hp = (Ok p', hp')
    /\ name p' = name p
    /\ version p' = version p
    /\ length (steps p') = length (steps p)
    /\ Forall2
         (fun r' st =>
            exists st',
              hp' !! r' = Some st'
              /\ Permutation (dict_keys (step_plugin_data st'))
                   (dict_keys (step_plugin_data st))
              /\ forall k v,
                  dict_get k (step_plugin_data st) = Some v ->
                  dict_get k (step_plugin_data st') = Some v)
         (steps p') sts.
Proof.
  intros Hname Hver Hres Hconv.
  pose proof (protocol_to_dict_run p hp sts _ Hres Hconv Hver) as Hto.
  set (sds := map step_dict sts) in *.
  set (hp1 := (hp ++ [mkStep []]) ++ map mkStep sds).
  set (refs := seq (length (hp ++ [mkStep []])) (length sds)).
  assert (Hlook1 : forall (i : nat) st,
             sts !! i = Some st ->
             hp1 !! (length (hp ++ [mkStep []]) + i)%nat
             = Some (mkStep (step_dict st))).
  { intros i st Hi. subst hp1. rewrite lookup_app_r by lia.
    replace (length (hp ++ [mkStep []]) + i - length (hp ++ [mkStep []]))%nat
      with i by lia.
    subst sds. rewrite !list_lookup_fmap, Hi. reflexivity. }
  destruct (convert_steps_spec class_of import_module refs hp1) as
    (hp' & Hconvert & Hlen & Hother & Hin).
  { apply NoDup_seq. }
  { intros r Hr. subst refs. apply elem_of_seq in Hr.
    destruct (lookup_lt_is_Some_2 sts (r - length (hp ++ [mkStep []]))%nat)
      as [st Hst].
    { subst sds. rewrite length_map in Hr. lia. }
    exists (mkStep (step_dict st)). split.
    - rewrite <- (Hlook1 _ st Hst). f_equal. lia.
    - assert (Hcs : convertible_step class_of import_module st).
      { rewrite Forall_forall in Hconv. apply Hconv.
        eapply list_elem_of_lookup_2; eauto. }
      destruct (step_dict_spec st Hcs) as (_ & Hnd & _ & Hback).
      split; [exact Hnd|]. simpl. intros k v' Hv'.
      destruct (Hback k v' Hv') as (v & Hv & ->).
      exists v. apply convertible_value_roundtrip.
      destruct Hcs as [_ Hpay].
      now destruct (Hpay k v (dict_get_In _ _ _ Hv)) as (_ & _ & _ & ?). }
  eexists _, (mkProtocol refs (name p) [] [] 1 0 0 0 (Some class_version) None), hp'.
  split; [exact Hto|]. split; [|split; [reflexivity|split; [now rewrite Hver|split]]].
  - unfold protocol_from_dict.
    assert (Hval : validate_protocol
                     (PyDict [("name", name p); ("version", PyStr class_version);
                              ("steps", PyList (map PyDict sds));
                              ("plugin_data", PyDict (plugin_data p))]) = true).
    { unfold validate_protocol. cbn [dict_get String.eqb Ascii.eqb Bool.eqb].
      rewrite Hname. simpl.
      apply forallb_forall. intros x Hx. apply in_map_iff in Hx as (sd & <- & Hsd).
      subst sds. apply in_map_iff in Hsd as (st & <- & Hst).
      apply step_dict_validates. rewrite Forall_forall in Hconv. apply Hconv.
      now apply list_elem_of_In. }
    rewrite Hval. cbn [negb].
    unfold mbind at 1, lift. cbn [py_getitem dict_getitem dict_get String.eqb
                                    Ascii.eqb Bool.eqb].
    unfold mbind at 1, heap_alloc. unfold mbind at 1.
    cbn [py_getitem dict_getitem dict_get String.eqb Ascii.eqb Bool.eqb lift].
    rewrite String.eqb_refl. cbn [negb].
    unfold mbind at 1.
    cbn [py_getitem dict_getitem dict_get String.eqb Ascii.eqb Bool.eqb lift].
    unfold mbind at 1. cbn [py_iter].
    unfold mbind at 1. rewrite alloc_steps_dicts. fold refs. fold hp1.
    unfold mbind at 1. rewrite Hconvert. reflexivity.
  - simpl. subst refs sds. rewrite length_seq, length_map.
    symmetry. eapply Forall2_length; eauto.
  - simpl. apply Forall2_same_length_lookup_2.
    + subst refs sds. now rewrite length_seq, length_map.
    + intros i r' st Hr' Hst. subst refs.
      apply lookup_seq in Hr' as [-> Hi].
      assert (Hcs : convertible_step class_of import_module st).
      { rewrite Forall_forall in Hconv. apply Hconv.
        eapply list_elem_of_lookup_2; eauto. }
      destruct (Hin (length (hp ++ [mkStep []]) + i)%nat (mkStep (step_dict st)))
        as (st' & Hst' & Hkeys & Hget).
      { apply elem_of_seq. lia. }
      { now apply Hlook1. }
      destruct (step_dict_spec st Hcs) as (Hperm & _ & Hfwd & _).
      exists st'. split; [exact Hst'|]. split.
      * rewrite Hkeys. exact Hperm.
      * intros k v Hv. simpl in Hget.
        destruct (Hget k _ (Hfwd k v Hv)) as (w & Hw & Hgw).
        rewrite convertible_value_roundtrip in Hw.
        -- injection Hw as <-. exact Hgw.
        -- destruct Hcs as [_ Hpay].
           now destruct (Hpay k v (dict_get_In _ _ _ Hv)) as (_ & _ & _ & ?).
Qed.
End RoundTripFacts.

Lemma to_dict_from_dict_roundtrip_witness :
  exists d p' hp',
    protocol_to_dict demo_class_of scalar_pickle_loads
      (self demo_contract_protocol) (heap demo_contract_protocol) true = Ok d
    /\ protocol_from_dict demo_class_of demo_import_module d (heap demo_contract_protocol)
       = (Ok p', hp')
    /\ name p' = PyStr "demo"
    /\ version p' = Some "0.2.0"
    /\ length (steps p') = 2%nat
    /\ Forall2
         (fun r' st =>
            exists st',
              hp' !! r' = Some st'
              /\ Permutation (dict_keys (step_plugin_data st'))
                   (dict_keys (step_plugin_data st))
              /\ forall k v,
                  dict_get k (step_plugin_data st) = Some v ->
                  dict_get k (step_plugin_data st') = Some v)
         (steps p') (heap demo_contract_protocol).
Proof.
  apply (to_dict_from_dict_roundtrip demo_class_of demo_import_module
           scalar_pickle_loads (self demo_contract_protocol)
           (heap demo_contract_protocol) (heap demo_contract_protocol) "demo").
  - reflexivity.
  - reflexivity.
  - repeat constructor.
  - constructor; [|constructor; [|constructor]]; (split; [nodup_keys|]).
    + intros k v [[= <- <-]|[[= <- <-]|[]]].
      * repeat (split; [discriminate|]). left.
        exists [("__class__", PyStr "plugins.dmf.Options"); ("voltage", PyStr "100")],
          "plugins.dmf.Options", options_class,
          (fun d => match d with
                    | PyDict kvs => Ok (PyObj "plugins.dmf.Options" kvs)
                    | _ => Raise (Exn TypeError "a dictionary is required")
                    end).
        repeat split; reflexivity.
      * repeat (split; [discriminate|]). right. split; reflexivity.
    + intros k v [].
Defined.

(** C2 as stated fails: a protocol as the constructor makes it has no
    name, and the dictionary [to_dict] gives for it is refused by the schema,
    which wants a string under [name]. *)
Lemma default_protocol_roundtrip_counterexample :
  exists s d,
    Protocol_init PyNone demo_single_step = (Ok tt, s)
    /\ protocol_to_dict plain_classes scalar_pickle_loads (self s) (heap s) true
       = Ok d
    /\ protocol_from_dict plain_classes no_modules d (heap s)
       = (Raise (Exn ValidationError ""), heap s).
Proof.
  eexists _, _. split; [reflexivity|].
  split; [vm_compute; reflexivity|].
  vm_compute. reflexivity.
Qed.
(** ** Editing the sequence of steps *)

Lemma list_insert_at_nat {A} (l : list A) (i : nat) (x : A) :
  (i <= length l)%nat ->
  list_insert_at l (Z.of_nat i) x = take i l ++ x :: drop i l.
Proof.
  intros Hi. unfold list_insert_at.
  replace (Z.of_nat i <? 0) with false by (symmetry; apply Z.ltb_ge; lia).
  rewrite Z.min_l by lia. now rewrite Nat2Z.id.
Qed.

Lemma list_delitem_nat {A} (l : list A) (i : nat) :
  (i < length l)%nat ->
  list_delitem l (Z.of_nat i) = Ok (take i l ++ drop (S i) l).
Proof. intros Hi. unfold list_delitem. now rewrite py_index_nat. Qed.

Lemma length_delete_at {A} (l : list A) (i : nat) :
  (i < length l)%nat ->
  length (take i l ++ drop (S i) l) = (length l - 1)%nat.
Proof. intros Hi. rewrite length_app, length_take, length_drop. lia. Qed.

(** [delete_step] on a protocol of two steps or more. *)
Lemma delete_step_run (s : pstate) (i : nat) r :
  steps (self s) !! i = Some r ->
  (2 <= length (steps (self s)))%nat ->
  delete_step (Z.of_nat i) s
  = (Ok tt,
     mkPstate
       (set_current_step_number
          (if current_step_number (self s)
              =? Z.of_nat (length (steps (self s))) - 1
           then Z.of_nat i - 1
           else current_step_number (self s))
          (set_steps (take i (steps (self s)) ++ drop (S i) (steps (self s)))
             (self s)))
       (heap s)
       (signals s
        ++ [mkSignal "on_step_removed" [ArgInt (Z.of_nat i); ArgStep r];
            mkSignal "on_step_swapped"
              [ArgInt (current_step_number (self s));
               ArgInt (if current_step_number (self s)
                          =? Z.of_nat (length (steps (self s))) - 1
                       then Z.of_nat i - 1
                       else current_step_number (self s))]])).
Proof.
  intros Hr Hlen.
  assert (Hi : (i < length (steps (self s)))%nat) by (eapply lookup_lt_Some; eauto).
  unfold delete_step. unfold mbind at 1, get_state.
  unfold mbind at 1, lift. rewrite (list_getitem_nat _ _ r Hr).
  unfold mbind at 1. rewrite (list_delitem_nat _ _ Hi).
  unfold mbind at 1, set_self. unfold mbind at 1, emit_signal.
  unfold mbind at 1, get_state. cbn [self heap signals].
  unfold Protocol_len. cbn [steps set_steps].
  rewrite (length_delete_at _ _ Hi).
  replace (Z.of_nat (length (steps (self s)) - 1) =? 0) with false
    by (symmetry; apply Z.eqb_neq; lia).
  cbn [current_step_number set_steps].
  replace (Z.of_nat (length (steps (self s)) - 1))
    with (Z.of_nat (length (steps (self s))) - 1) by lia.
  destruct (current_step_number (self s) =? Z.of_nat (length (steps (self s))) - 1);
    rewrite goto_step_run; cbn; rewrite <- app_assoc; reflexivity.
Qed.

(** X1: deleting step [i] of a protocol of two steps or more takes that one
    step out and leaves every step object as it is; the cursor stays where
    it is unless it was on the last index, in which case it moves to
    [i - 1] (to -1 when the first step is deleted). *)
Theorem delete_step_cursor_rule (s : pstate) (i : nat) :
  (2 <= length (steps (self s)))%nat ->
  (i < length (steps (self s)))%nat ->
  exists s',
    delete_step (Z.of_nat i) s = (Ok tt, s')
    /\ steps (self s') = take i (steps (self s)) ++ drop (S i) (steps (self s))
    /\ heap s' = heap s
    /\ current_step_number (self s')
       = if current_step_number (self s)
            =? Z.of_nat (length (steps (self s))) - 1
         then Z.of_nat i - 1
         else current_step_number (self s).
Proof.
  intros Hlen Hi. destruct (lookup_lt_is_Some_2 _ _ Hi) as [r Hr].
  rewrite (delete_step_run s i r Hr Hlen).
  eexists. split; [reflexivity|]. cbn. auto.
Qed.

Lemma rev_replicate {A} (n : nat) (x : A) : rev (replicate n x) = replicate n x.
Proof.
  induction n as [|n IH]; [reflexivity|].
  simpl. rewrite IH. symmetry. apply replicate_cons_app.
Qed.

(** The loop of [insert_steps] over [n] references to one step. *)
Lemma insert_replicate_run (n i : nat) (r : ref) (s : pstate) :
  (i <= length (steps (self s)))%nat ->
  exists sg,
    for_each (replicate n r)
      (fun value => insert_step (Some (Z.of_nat i)) (Some value) false) s
    = (Ok tt,
       mkPstate
         (set_steps (take i (steps (self s)) ++ replicate n r
                     ++ drop i (steps (self s))) (self s))
         (heap s) sg).
Proof.
  revert s. induction n as [|n IH]; intros s Hi.
  - exists (signals s). simpl. unfold ret. rewrite take_drop.
    destruct s as [[]]; reflexivity.
  - cbn [replicate for_each]. unfold mbind at 1. rewrite insert_step_run.
    rewrite (list_insert_at_nat _ _ _ Hi).
    edestruct (IH (mkPstate
                     (set_steps (take i (steps (self s)) ++ r :: drop i (steps (self s)))
                        (self s)) (heap s)
                     (signals s
                      ++ [mkSignal "on_step_created"
                            [ArgInt (current_step_number (self s))]])))
      as [sg Hsg].
    { cbn. rewrite length_app, length_take. simpl. lia. }
    exists sg. rewrite Hsg. cbn.
    assert (Hl : take i (take i (steps (self s)) ++ r :: drop i (steps (self s)))
                 ++ replicate n r
                 ++ drop i (take i (steps (self s)) ++ r :: drop i (steps (self s)))
                 = take i (steps (self s)) ++ r :: replicate n r
                   ++ drop i (steps (self s))).
    { rewrite take_app_length' by (rewrite length_take; lia).
      rewrite drop_app_length' by (rewrite length_take; lia).
      f_equal. change (r :: replicate n r ++ drop i (steps (self s)))
        with ((r :: replicate n r) ++ drop i (steps (self s))).
      rewrite replicate_cons_app, <- app_assoc. reflexivity. }
    rewrite Hl. reflexivity.
Qed.

(** [insert_steps] with a count: the new steps are one object. *)
Lemma insert_steps_count_run (s : pstate) (i count : nat) :
  (i <= length (steps (self s)))%nat ->
  exists sg,
    insert_steps (Some (Z.of_nat i)) (Some (Z.of_nat count)) None s
    = (Ok tt,
       mkPstate
         (set_steps (take i (steps (self s))
                     ++ replicate count (length (heap s))
                     ++ drop i (steps (self s))) (self s))
         (heap s ++ [mkStep []]) sg).
Proof.
  intros Hi. unfold insert_steps.
  unfold mbind at 1. unfold mbind at 1, Step_new, ret.
  rewrite Nat2Z.id, rev_replicate.
  destruct (insert_replicate_run count i (length (heap s))
              (mkPstate (self s) (heap s ++ [mkStep []]) (signals s)) Hi)
    as [sg Hsg].
  unfold mbind at 1. rewrite Hsg. cbn.
  eexists. reflexivity.
Qed.

(** X2: [insert_steps] with a count inserts, at the index given, that many
    references to one new empty step, and leaves the cursor where it is:
    plugin data written to any one of the new steps is read from every
    other. *)
Theorem insert_steps_count_shares_one_step (s : pstate) (i count : nat) :
  (i <= length (steps (self s)))%nat ->
  exists s',
    insert_steps (Some (Z.of_nat i)) (Some (Z.of_nat count)) None s = (Ok tt, s')
    /\ steps (self s')
       = take i (steps (self s)) ++ replicate count (length (heap s))
         ++ drop i (steps (self s))
    /\ heap s' = heap s ++ [mkStep []]
    /\ current_step_number (self s') = current_step_number (self s)
    /\ forall (j k : nat) plugin_name v,
        (i <= j < i + count)%nat -> (i <= k < i + count)%nat ->
        exists r_j r_k s'' st,
          steps (self s') !! j = Some r_j
          /\ steps (self s') !! k = Some r_k
          /\ Step_set_data r_j plugin_name v s' = (Ok tt, s'')
          /\ heap s'' !! r_k = Some st
          /\ Step_get_data st plugin_name = v.
Proof.
  intros Hi. destruct (insert_steps_count_run s i count Hi) as [sg Hrun].
  eexists. split; [exact Hrun|]. cbn [self heap steps set_steps].
  split; [reflexivity|]. split; [reflexivity|].
  split; [now destruct s as [[]]|].
  intros j k plugin_name v Hj Hk.
  assert (Hlook : forall m, (i <= m < i + count)%nat ->
            (take i (steps (self s)) ++ replicate count (length (heap s))
             ++ drop i (steps (self s))) !! m = Some (length (heap s))).
  { intros m Hm. rewrite lookup_app_r by (rewrite length_take; lia).
    rewrite length_take, Nat.min_l by lia.
    rewrite lookup_app_l by (rewrite length_replicate; lia).
    apply lookup_replicate_2. lia. }
  exists (length (heap s)), (length (heap s)).
  eexists. exists (mkStep (dict_set plugin_name v [])).
  split; [now apply Hlook|]. split; [now apply Hlook|].
  split.
  - unfold Step_set_data, mbind, deref. cbn [heap].
    rewrite lookup_app_r by lia. rewrite Nat.sub_diag. cbn. reflexivity.
  - cbn [heap]. split.
    + rewrite list_lookup_insert_eq; [reflexivity|]. rewrite length_app. simpl. lia.
    + unfold Step_get_data. cbn. now rewrite String.eqb_refl.
Qed.

Lemma insert_step_at_cursor_run (s : pstate) r :
  insert_step None (Some r) false s
  = (Ok tt,
     mkPstate
       (set_steps (list_insert_at (steps (self s)) (current_step_number (self s)) r)
          (self s))
       (heap s)
       (signals s
        ++ [mkSignal "on_step_created" [ArgInt (current_step_number (self s))]])).
Proof. reflexivity. Qed.

Lemma insert_at_cursor_loop (values : list ref) (s : pstate) :
  exists s',
    for_each values (fun value => insert_step None (Some value) false) s
    = (Ok tt, s')
    /\ length (steps (self s')) = (length (steps (self s)) + length values)%nat
    /\ heap s' = heap s.
Proof.
  revert s. induction values as [|r values IH]; intros s.
  - exists s. split; [reflexivity|]. split; [simpl; lia|reflexivity].
  - cbn [for_each]. unfold mbind at 1. rewrite insert_step_at_cursor_run.
    edestruct IH as (s' & Hrun & Hlen & Hheap). exists s'.
    split; [exact Hrun|]. rewrite Hlen, Hheap. cbn.
    rewrite length_list_insert_at. split; [lia|reflexivity].
Qed.

(** X3: [insert_steps] raises in two ways.  Without a count and without
    values it raises [ValueError] and changes nothing.  Without a step
    number it inserts every step at the cursor and then raises [TypeError]:
    the exception leaves a protocol that has grown. *)
Theorem insert_steps_raises_after_inserting (s : pstate) :
  (forall step_number,
      insert_steps step_number None None s
      = (Raise (Exn ValueError "Either count or values must be specified"), s))
  /\ (forall count values,
        exists s',
          insert_steps None count (Some values) s
          = (Raise (Exn TypeError
                      "unsupported operand type(s) for +: 'NoneType' and 'int'"),
             s')
          /\ length (steps (self s'))
             = (length (steps (self s)) + length values)%nat)
  /\ (forall count,
        exists s',
          insert_steps None (Some count) None s
          = (Raise (Exn TypeError
                      "unsupported operand type(s) for +: 'NoneType' and 'int'"),
             s')
          /\ length (steps (self s'))
             = (length (steps (self s)) + Z.to_nat count)%nat).
Proof.
  split; [reflexivity|]. split.
  - intros count values. unfold insert_steps. unfold mbind at 1, ret.
    destruct (insert_at_cursor_loop (rev values) s) as (s' & Hrun & Hlen & _).
    unfold mbind at 1. rewrite Hrun. exists s'. split; [reflexivity|].
    rewrite Hlen. now rewrite length_rev.
  - intros count. unfold insert_steps. unfold mbind at 1.
    unfold mbind at 1, Step_new, ret.
    destruct (insert_at_cursor_loop
                (rev (replicate (Z.to_nat count) (length (heap s))))
                (mkPstate (self s) (heap s ++ [mkStep []]) (signals s)))
      as (s' & Hrun & Hlen & _).
    unfold mbind at 1. rewrite Hrun. exists s'. split; [reflexivity|].
    rewrite Hlen. cbn. now rewrite length_rev, length_replicate.
Qed.

(** *** Deleting several steps *)

Lemma for_each_app {St A} (l1 l2 : list A) (body : A -> M St unit) s :
  for_each (l1 ++ l2) body s
  = (for_each l1 body ;; for_each l2 body)%method s.
Proof.
  revert s. induction l1 as [|a l1 IH]; intros s; [reflexivity|].
  cbn [app for_each]. unfold mbind.
  destruct (body a s) as [[[]|e] s1]; [|reflexivity].
  rewrite IH. reflexivity.
Qed.

Lemma insert_sorted_perm x l : Permutation (insert_sorted x l) (x :: l).
Proof.
  induction l as [|y l IH]; simpl; [reflexivity|].
  destruct (x <=? y); [reflexivity|].
  rewrite IH. apply perm_swap.
Qed.

Lemma sorted_perm l : Permutation (sorted l) l.
Proof.
  induction l as [|x l IH]; simpl; [reflexivity|].
  rewrite insert_sorted_perm. now constructor.
Qed.

Lemma insert_sorted_increasing x l :
  increasing l -> ~ In x l -> increasing (insert_sorted x l).
Proof.
  induction l as [|y l IH]; intros Hinc Hni; simpl.
  - split; [constructor|exact I].
  - destruct Hinc as [Hy Hinc]. destruct (Z.leb_spec x y) as [Hle|Hgt].
    + assert (Hxy : x < y) by (assert (x <> y) by (intros ->; apply Hni; now left); lia).
      split; [|split; assumption].
      constructor; [exact Hxy|].
      eapply Forall_impl; [exact Hy|]. intros z Hz. simpl in Hz. lia.
    + split.
      * apply Forall_forall. intros z Hz. apply list_elem_of_In in Hz.
        apply (Permutation_in _ (insert_sorted_perm x l)) in Hz as [<-|Hz]; [lia|].
        rewrite Forall_forall in Hy. apply Hy. now apply list_elem_of_In.
      * apply IH; [exact Hinc|]. intros H. apply Hni. now right.
Qed.

Lemma sorted_increasing l : NoDup l -> increasing (sorted l).
Proof.
  induction l as [|x l IH]; intros Hnd; [exact I|].
  apply NoDup_cons in Hnd as [Hni Hnd]. simpl.
  apply insert_sorted_increasing; [now apply IH|].
  intros H. apply Hni. apply list_elem_of_In.
  now apply (Permutation_in _ (sorted_perm l)).
Qed.

Lemma surviving_steps_app ids b l1 l2 :
  surviving_steps ids b (l1 ++ l2)
  = surviving_steps ids b l1
    ++ surviving_steps ids (b + Z.of_nat (length l1)) l2.
Proof.
  revert b. induction l1 as [|r l1 IH]; intros b.
  - simpl. now rewrite Z.add_0_r.
  - cbn [app surviving_steps length]. rewrite IH.
    replace (b + 1 + Z.of_nat (length l1)) with (b + Z.of_nat (S (length l1))) by lia.
    destruct (bool_decide (b ∈ ids)); reflexivity.
Qed.

Lemma surviving_steps_none ids b l :
  (forall x, x ∈ ids -> x < b \/ b + Z.of_nat (length l) <= x) ->
  surviving_steps ids b l = l.
Proof.
  revert b. induction l as [|r l IH]; intros b Hout; [reflexivity|].
  cbn [surviving_steps]. rewrite bool_decide_eq_false_2.
  - f_equal. apply IH. intros x Hx. specialize (Hout x Hx). simpl in Hout. lia.
  - intros Hb. specialize (Hout b Hb). simpl in Hout. lia.
Qed.

Lemma surviving_steps_ext ids ids' b l :
  (forall x, x ∈ ids <-> x ∈ ids') ->
  surviving_steps ids b l = surviving_steps ids' b l.
Proof.
  intros Heq. revert b. induction l as [|r l IH]; intros b; [reflexivity|].
  cbn [surviving_steps]. rewrite IH.
  rewrite (bool_decide_ext (b ∈ ids) (b ∈ ids')) by apply Heq. reflexivity.
Qed.

Lemma surviving_steps_below a ids b l :
  a < b -> surviving_steps (a :: ids) b l = surviving_steps ids b l.
Proof.
  revert b. induction l as [|r l IH]; intros b Hab; [reflexivity|].
  cbn [surviving_steps]. rewrite IH by lia.
  rewrite (bool_decide_ext (b ∈ a :: ids) (b ∈ ids)); [reflexivity|].
  rewrite elem_of_cons. split; [intros [->|H]; [lia|exact H]|now right].
Qed.

(** Deleting at increasing indices, the greatest first. *)
Lemma delete_increasing_run asc (s : pstate) :
  increasing asc ->
  Forall (fun a => 0 <= a < Z.of_nat (length (steps (self s)))) asc ->
  (length asc < length (steps (self s)))%nat ->
  exists s',
    for_each (rev asc) delete_step s = (Ok tt, s')
    /\ steps (self s') = surviving_steps asc 0 (steps (self s))
    /\ heap s' = heap s
    /\ length (steps (self s')) = (length (steps (self s)) - length asc)%nat.
Proof.
  induction asc as [|a asc IH]; intros Hinc Hrange Hlen.
  - exists s. split; [reflexivity|]. split; [|split; [reflexivity|simpl; lia]].
    symmetry. apply surviving_steps_none. intros x Hx. now apply elem_of_nil in Hx.
  - destruct Hinc as [Hlt Hinc]. apply Forall_cons in Hrange as [Ha Hrange].
    simpl in Hlen.
    destruct (IH Hinc Hrange) as (s1 & Hrun & Hsteps & Hheap & Hl1); [lia|].
    set (l := steps (self s)) in *.
    set (na := Z.to_nat a).
    assert (Hna : (na < length l)%nat) by (subst na; lia).
    destruct (lookup_lt_is_Some_2 _ _ Hna) as [x Hx].
    assert (Hsplit : l = take na l ++ x :: drop (S na) l)
      by (symmetry; now apply take_drop_middle).
    assert (Hs1 : steps (self s1)
                  = take na l ++ x :: surviving_steps asc (a + 1) (drop (S na) l)).
    { rewrite Hsteps. rewrite Hsplit at 1.
      rewrite surviving_steps_app, length_take, Nat.min_l by lia.
      rewrite surviving_steps_none.
      2:{ intros y Hy. rewrite Forall_forall in Hlt. specialize (Hlt y Hy).
          simpl in Hlt. rewrite length_take. lia. }
      f_equal. cbn [surviving_steps].
      rewrite bool_decide_eq_false_2.
      2:{ intros Hin. rewrite Forall_forall in Hlt. specialize (Hlt _ Hin).
          simpl in Hlt. lia. }
      f_equal. f_equal. lia. }
    assert (Hlook : steps (self s1) !! na = Some x).
    { rewrite Hs1. rewrite lookup_app_r by (rewrite length_take; lia).
      rewrite length_take, Nat.min_l by lia. now rewrite Nat.sub_diag. }
    cbn [rev]. rewrite for_each_app. unfold mbind at 1. rewrite Hrun.
    cbn [for_each]. unfold mbind at 1.
    pose proof (delete_step_run s1 na x Hlook) as Hdel.
    assert (Hge : (2 <= length (steps (self s1)))%nat) by lia.
    specialize (Hdel Hge).
    replace (Z.of_nat na) with a in Hdel by (subst na; lia).
    rewrite Hdel.
    eexists. split; [reflexivity|]. cbn [self heap steps set_steps set_current_step_number].
    split; [|split; [exact Hheap|]].
    + assert (Hgoal : surviving_steps (a :: asc) 0 l
                      = take na l ++ surviving_steps asc (a + 1) (drop (S na) l)).
      { rewrite Hsplit at 1.
        rewrite surviving_steps_app, length_take, Nat.min_l by lia.
        rewrite surviving_steps_none.
        2:{ intros y Hy. apply elem_of_cons in Hy as [->|Hy].
            - right. rewrite length_take. lia.
            - rewrite Forall_forall in Hlt. specialize (Hlt y Hy).
              simpl in Hlt. rewrite length_take. lia. }
        f_equal. cbn [surviving_steps].
        replace (0 + Z.of_nat na) with a by (subst na; lia).
        rewrite bool_decide_eq_true_2 by (left).
        now rewrite surviving_steps_below by lia. }
      rewrite Hgoal, Hs1.
      rewrite take_app_length' by (rewrite length_take; lia).
      replace (S na) with (length (take na l) + 1)%nat
        by (rewrite length_take; lia).
      rewrite drop_app_add. reflexivity.
    + rewrite length_delete_at by (eapply lookup_lt_Some; exact Hlook).
      simpl. lia.
Qed.

(** X4: [delete_steps] with distinct indices of the protocol, fewer than
    it has steps, leaves the steps at the other indices, in their order,
    and no step object changes; the order in which the indices are given
    does not matter. *)
Theorem delete_steps_leaves_the_other_steps (s : pstate) (step_ids : list Z) :
  NoDup step_ids ->
  Forall (fun a => 0 <= a < Z.of_nat (length (steps (self s)))) step_ids ->
  (length step_ids < length (steps (self s)))%nat ->
  forall step_ids', Permutation step_ids step_ids' ->
    exists s',
      delete_steps step_ids' s = (Ok tt, s')
      /\ steps (self s') = surviving_steps step_ids 0 (steps (self s))
      /\ heap s' = heap s
      /\ length (steps (self s'))
         = (length (steps (self s)) - length step_ids)%nat.
Proof.
  intros Hnd Hrange Hlen ids' Hp.
  assert (Hp' : Permutation (sorted ids') step_ids).
  { rewrite sorted_perm. now symmetry. }
  destruct (delete_increasing_run (sorted ids') s) as (s' & Hrun & Hsteps & Hheap & Hl).
  - apply sorted_increasing. now rewrite <- Hp.
  - now rewrite Hp'.
  - now rewrite Hp'.
  - exists s'. split; [exact Hrun|]. split; [|split; [exact Hheap|]].
    + rewrite Hsteps. apply surviving_steps_ext. intros x. now rewrite Hp'.
    + rewrite Hl. now rewrite Hp'.
Qed.

(** *** The copy that [next_step] makes *)

(** [next_step] with the cursor on the last step. *)
Lemma next_step_last_run (s : pstate) (fuel : nat) pre r_old st :
  steps (self s) = pre ++ [r_old] ->
  current_step_number (self s) = Z.of_nat (length (steps (self s))) - 1 ->
  heap s !! r_old = Some st ->
  exists sg,
    next_step (S (S fuel)) s
    = (Ok tt,
       mkPstate
         (set_current_step_number (Z.of_nat (length (steps (self s))))
            (set_steps (pre ++ [length (heap s); r_old]) (self s)))
         (heap s ++ [st]) sg).
Proof.
  intros Hsteps Hcur Hst.
  assert (Hcs : current_step s = (Ok r_old, s)).
  { unfold current_step. rewrite Hcur, Hsteps, list_getitem_last. reflexivity. }
  rewrite next_step_unfold. unfold Protocol_len. rewrite Hcur, Z.eqb_refl.
  rewrite (mbind_returns _ _ _ _ _ Hcs).
  rewrite (mbind_returns _ _ _ _ _ (Step_copy_run s r_old st Hst)).
  rewrite <- Hcur.
  rewrite (mbind_returns _ _ _ _ _ (insert_step_run _ _ _ _)).
  cbn [self heap signals].
  rewrite Hcur, Hsteps, list_insert_at_before_last, <- Hsteps, <- Hcur.
  erewrite mbind_returns.
  2:{ apply next_step_not_last. destruct s as [[]]. simpl in *. subst.
      rewrite !length_app. simpl. lia. }
  unfold mbind, get_state, emit_signal. cbn.
  eexists. f_equal. f_equal. destruct s as [[]]. simpl in *. subst.
  f_equal. lia.
Qed.

(** X5: after [next_step] on the last step, the step under the cursor is
    the object that was last and the step before it is the copy; plugin data
    written to the step under the cursor is read from that object and does
    not reach the copy, which keeps the data the step had. *)
Theorem next_step_copy_is_independent (s : pstate) (fuel : nat)
    (pre : list ref) (r_old : ref) (st : Step) (plugin_name : string)
    (v : pyobj) :
  steps (self s) = pre ++ [r_old] ->
  current_step_number (self s) = Z.of_nat (length (steps (self s))) - 1 ->
  heap s !! r_old = Some st ->
  exists s' s'' r_copy,
    next_step (S (S fuel)) s = (Ok tt, s')
    /\ steps (self s') = pre ++ [r_copy; r_old]
    /\ (let! cur := current_step in Step_set_data cur plugin_name v)%method s'
       = (Ok tt, s'')
    /\ heap s'' !! r_copy = Some st
    /\ heap s'' !! r_old
       = Some (mkStep (dict_set plugin_name v (step_plugin_data st))).
Proof.
  intros Hsteps Hcur Hst.
  destruct (next_step_last_run s fuel pre r_old st Hsteps Hcur Hst) as [sg Hrun].
  assert (Hlt : (r_old < length (heap s))%nat) by (eapply lookup_lt_Some; eauto).
  eexists. eexists. exists (length (heap s)).
  split; [exact Hrun|]. split; [reflexivity|].
  assert (Hcs : current_step
                  (mkPstate
                     (set_current_step_number (Z.of_nat (length (steps (self s))))
                        (set_steps (pre ++ [length (heap s); r_old]) (self s)))
                     (heap s ++ [st]) sg)
                = (Ok r_old,
                   mkPstate
                     (set_current_step_number (Z.of_nat (length (steps (self s))))
                        (set_steps (pre ++ [length (heap s); r_old]) (self s)))
                     (heap s ++ [st]) sg)).
  { unfold current_step. cbn [self steps current_step_number set_steps
                               set_current_step_number].
    rewrite (list_getitem_nat _ _ r_old); [reflexivity|].
    rewrite Hsteps, length_app. simpl.
    rewrite lookup_app_r by lia.
    replace (length pre + 1 - length pre)%nat with 1%nat by lia. reflexivity. }
  split; [|split].
  - rewrite (mbind_returns _ _ _ _ _ Hcs).
    unfold Step_set_data, mbind, deref. cbn [heap].
    rewrite lookup_app_l by exact Hlt. rewrite Hst. reflexivity.
  - cbn [heap]. rewrite list_lookup_insert_ne by lia.
    rewrite lookup_app_r by lia. now rewrite Nat.sub_diag.
  - cbn [heap]. rewrite list_lookup_insert_eq; [reflexivity|].
    rewrite length_app. simpl. lia.
Qed.

(** ** The cursor stays on a step *)

Lemma keeps_cursor_ret {A} (a : A) : keeps_cursor (ret a).
Proof. intros s r s' [= _ <-]. auto. Qed.

Lemma keeps_cursor_raise {A} e : keeps_cursor (@raise pstate A e).
Proof. intros s r s' [= _ <-]. auto. Qed.

Lemma keeps_cursor_get_state : keeps_cursor get_state.
Proof. intros s r s' [= _ <-]. auto. Qed.

Lemma keeps_cursor_bind {A B} (m : M pstate A) (k : A -> M pstate B) :
  keeps_cursor m -> (forall a, keeps_cursor (k a)) -> keeps_cursor (mbind m k).
Proof.
  intros Hm Hk s r s'. unfold mbind. destruct (m s) as [[a|e] s1] eqn:E.
  - intros H HP. eapply Hk; eauto.
  - intros [= _ <-] HP. eapply Hm; eauto.
Qed.

Lemma keeps_cursor_for_each {A} (l : list A) (body : A -> M pstate unit) :
  (forall x, keeps_cursor (body x)) -> keeps_cursor (for_each l body).
Proof.
  intros Hbody. induction l as [|x l IH]; simpl.
  - apply keeps_cursor_ret.
  - apply keeps_cursor_bind; [apply Hbody|intros _; exact IH].
Qed.

Lemma keeps_cursor_emit_signal nm args : keeps_cursor (emit_signal nm args).
Proof. intros s r s' [= _ <-]. auto. Qed.

Lemma keeps_cursor_Step_new d : keeps_cursor (Step_new d).
Proof. intros s r s' [= _ <-]. auto. Qed.

Lemma keeps_cursor_Step_copy r : keeps_cursor (Step_copy r).
Proof.
  intros s x s'. unfold Step_copy, mbind, deref.
  destruct (heap s !! r); intros [= _ <-]; auto.
Qed.

Lemma keeps_cursor_goto_step n :
  forall s r s', goto_step n s = (r, s') ->
                 0 <= n < Z.of_nat (length (steps (self s))) ->
                 cursor_in_range s'.
Proof.
  intros s r s'. rewrite goto_step_run. intros [= _ <-] Hn.
  unfold cursor_in_range. simpl. exact Hn.
Qed.

Lemma keeps_cursor_insert_step n v b : keeps_cursor (insert_step n v b).
Proof.
  intros s r s'. unfold insert_step, mbind, get_state.
  destruct v as [value|]; simpl; destruct b; simpl; intros [= _ <-];
    unfold cursor_in_range; simpl; rewrite length_list_insert_at; lia.
Qed.

Lemma keeps_cursor_insert_steps n c vs : keeps_cursor (insert_steps n c vs).
Proof.
  unfold insert_steps. apply keeps_cursor_bind.
  - destruct vs; [apply keeps_cursor_ret|]. destruct c; [|apply keeps_cursor_raise].
    apply keeps_cursor_bind; [apply keeps_cursor_Step_new|].
    intros r. apply keeps_cursor_ret.
  - intros values. apply keeps_cursor_bind.
    + apply keeps_cursor_for_each. intros x. apply keeps_cursor_insert_step.
    + intros _. destruct n; [apply keeps_cursor_emit_signal|apply keeps_cursor_raise].
Qed.

Lemma keeps_cursor_next_step fuel : keeps_cursor (next_step fuel).
Proof.
  induction fuel as [|fuel IH]; [apply keeps_cursor_raise|].
  intros s r s'. rewrite next_step_unfold. unfold Protocol_len.
  destruct (Z.eqb_spec (current_step_number (self s))
              (Z.of_nat (length (steps (self s))) - 1)) as [Hlast|Hnot].
  - apply keeps_cursor_bind.
    { intros s0 r0 s0' [= _ <-]. auto. }
    intros cur. apply keeps_cursor_bind; [apply keeps_cursor_Step_copy|].
    intros value. apply keeps_cursor_bind; [apply keeps_cursor_insert_step|].
    intros _. apply keeps_cursor_bind; [exact IH|]. intros _.
    apply keeps_cursor_bind; [apply keeps_cursor_get_state|]. intros s1.
    apply keeps_cursor_emit_signal.
  - intros H HP. eapply keeps_cursor_goto_step; [exact H|].
    unfold cursor_in_range in HP. lia.
Qed.

(** X6: the calls that insert steps, write plugin data or move the cursor
    by one step, to the first or to the last step leave the cursor on a step
    when it was on one, whether they return or raise.  ([delete_step] and
    [goto_step] are not among them.) *)
Theorem cursor_stays_on_a_step (m : M pstate unit) (s s' : pstate)
    (r : result unit) :
  cursor_call m ->
  cursor_in_range s ->
  m s = (r, s') ->
  cursor_in_range s'.
Proof.
  intros Hm HP H. destruct Hm.
  - eapply keeps_cursor_insert_step; eauto.
  - eapply keeps_cursor_insert_steps; eauto.
  - eapply keeps_cursor_next_step; eauto.
  - revert H. unfold next_repetition, mbind at 1, get_state.
    destruct (_ <? _).
    + unfold mbind, set_self. cbn [self heap signals]. rewrite goto_step_run.
      intros [= _ <-]. unfold cursor_in_range in *. simpl. lia.
    + intros [= _ <-]. exact HP.
  - revert H. unfold prev_step, mbind at 1, get_state.
    destruct (Z.ltb_spec 0 (current_step_number (self s))).
    + rewrite goto_step_run. intros [= _ <-].
      unfold cursor_in_range in *. simpl. lia.
    + intros [= _ <-]. exact HP.
  - revert H. unfold first_step, mbind at 1, set_self. rewrite goto_step_run.
    intros [= _ <-]. unfold cursor_in_range in *. simpl. lia.
  - revert H. unfold last_step, mbind at 1, get_state. rewrite goto_step_run.
    intros [= _ <-]. unfold cursor_in_range, Protocol_len in *. simpl. lia.
  - revert H. unfold Protocol_set_data, set_self. intros [= _ <-]. exact HP.
Qed.

(** ** The list of a [SerializationError] *)

Lemma alter_record_twice idx (store : list exception_record) m p v m' p' v' :
  alter (fun r => ExceptionRecord (ex_step r) m' p' v') idx
    (alter (fun r => ExceptionRecord (ex_step r) m p v) idx store)
  = alter (fun r => ExceptionRecord (ex_step r) m' p' v') idx store.
Proof.
  apply list_eq. intros j. rewrite !list_lookup_alter.
  destruct (decide (idx = j)) as [->|Hne]; [|reflexivity].
  rewrite decide_True by reflexivity.
  destruct (store !! j); reflexivity.
Qed.

Lemma omap_replicate {A B} (g : A -> option B) (n : nat) (x : A) :
  omap g (replicate n x)
  = match g x with Some y => replicate n y | None => [] end.
Proof.
  induction n as [|n IH].
  - simpl. now destruct (g x).
  - cbn [replicate].
    change (omap g (x :: replicate n x))
      with (match g x with
            | Some y => y :: omap g (replicate n x)
            | None => omap g (replicate n x)
            end).
    rewrite IH. now destruct (g x).
Qed.

Lemma map_lookup_seq {A B} (g : option A -> B) (l : list A) :
  map (fun i => g (l !! i)) (seq 0 (length l)) = map (fun x => g (Some x)) l.
Proof.
  apply list_eq. intros i. rewrite !list_lookup_fmap.
  destruct (decide (i < length l)%nat) as [Hlt|Hge].
  - rewrite lookup_seq_lt by exact Hlt.
    destruct (lookup_lt_is_Some_2 _ _ Hlt) as [x Hx]. rewrite Hx. simpl.
    now rewrite Hx.
  - rewrite lookup_seq_ge by lia. rewrite lookup_ge_None_2 by lia. reflexivity.
Qed.

Section ExceptionListFacts.
Context {R : Type}.
Variable f : pyobj -> result R.


(** The inner loop: every failing plugin overwrites the entry of the step
    and appends one more reference to it. *)
Lemma scan_plugins_spec idx items store excs :
  scan_plugins f idx items store excs
  = (match last (failing_plugins f items) with
     | Some x =>
         alter (fun r => ExceptionRecord (ex_step r) x.2 (Some x.1.1)
                           (Some x.1.2)) idx store
     | None => store
     end,
     excs ++ replicate (length (failing_plugins f items)) idx).
Proof.
  revert store excs. induction items as [|[k v] items IH]; intros store excs.
  - simpl. now rewrite app_nil_r.
  - cbn [scan_plugins]. unfold failing_plugins. cbn [omap list_omap].
    fold (failing_plugins f items). cbn [fst snd].
    destruct (f v) as [r|e].
    + apply IH.
    + rewrite IH. rewrite last_cons. cbn [length replicate].
      rewrite <- app_assoc. cbn [app].
      destruct (last (failing_plugins f items)) as [x|]; [|reflexivity].
      now rewrite alter_record_twice.
Qed.

Variable top : pydict.
Variable steps : list pyobj.
Hypothesis Hsteps : dict_get "steps" top = Some (PyList steps).
Hypothesis Hdicts :
  forall i step_i, steps !! i = Some step_i -> exists kvs, step_i = PyDict kvs.

Let items_of (r : exception_record) : pydict :=
  match steps !! Z.to_nat (ex_step r) with
  | Some (PyDict kvs) => kvs
  | _ => []
  end.

Let final_rec (r : exception_record) : exception_record :=
  match last (failing_plugins f (items_of r)) with
  | Some x => ExceptionRecord (ex_step r) x.2 (Some x.1.1) (Some x.1.2)
  | None => r
  end.

Let cnt (r : exception_record) : nat :=
  length (failing_plugins f (items_of r)).

Let cnt_at (store : list exception_record) (idx : nat) : nat :=
  match store !! idx with Some r => cnt r | None => O end.

(** The outer loop over the entries at the positions [idxs]. *)
Lemma scan_steps_spec idxs :
  forall store excs,
    NoDup idxs ->
    (forall idx, idx ∈ idxs ->
       exists r, store !! idx = Some r
                 /\ 0 <= ex_step r < Z.of_nat (length steps)) ->
    exists store',
      scan_steps f (PyDict top) idxs store excs
      = Ok (store',
            excs ++ concat (map (fun idx => replicate (cnt_at store idx) idx)
                              idxs))
      /\ (forall idx, idx ∈ idxs -> store' !! idx = final_rec <$> store !! idx)
      /\ (forall j, j ∉ idxs -> store' !! j = store !! j).
Proof.
  induction idxs as [|idx idxs IH]; intros store excs Hnd Hvalid.
  - exists store. simpl. rewrite app_nil_r. split; [reflexivity|].
    split; [intros idx Hin; now apply elem_of_nil in Hin|reflexivity].
  - apply NoDup_cons in Hnd as [Hni Hnd].
    destruct (Hvalid idx) as (r & Hr & Hrange); [left|].
    assert (Hk : (Z.to_nat (ex_step r) < length steps)%nat) by lia.
    destruct (lookup_lt_is_Some_2 _ _ Hk) as [step_i Hstep].
    destruct (Hdicts _ _ Hstep) as [kvs ->].
    assert (Hget : list_getitem steps (ex_step r) = Ok (PyDict kvs)).
    { replace (ex_step r) with (Z.of_nat (Z.to_nat (ex_step r))) by lia.
      now apply list_getitem_nat. }
    assert (Hitems : items_of r = kvs) by (unfold items_of; now rewrite Hstep).
    cbn [scan_steps]. rewrite Hr. cbn [py_getitem bind].
    unfold dict_getitem. rewrite Hsteps. cbn [bind py_getitem_int].
    rewrite Hget. cbn [bind py_iteritems]. rewrite scan_plugins_spec.
    set (store1 := match last (failing_plugins f kvs) with
                   | Some x =>
                       alter (fun r => ExceptionRecord (ex_step r) x.2
                                         (Some x.1.1) (Some x.1.2)) idx store
                   | None => store
                   end).
    assert (Hother : forall j, j <> idx -> store1 !! j = store !! j).
    { intros j Hj. subst store1. destruct (last (failing_plugins f kvs));
        [|reflexivity]. apply list_lookup_alter_ne. congruence. }
    assert (Hsame : store1 !! idx = final_rec <$> store !! idx).
    { subst store1. rewrite Hr. cbn. unfold final_rec. rewrite Hitems.
      destruct (last (failing_plugins f kvs)); [|exact Hr].
      rewrite list_lookup_alter_eq, Hr. reflexivity. }
    destruct (IH store1 (excs ++ replicate (length (failing_plugins f kvs)) idx) Hnd)
      as (store' & Hrun & Hin & Hout).
    { intros j Hj. rewrite Hother by (intros ->; contradiction).
      apply Hvalid. now right. }
    exists store'. split; [|split].
    + rewrite Hrun. f_equal. f_equal. rewrite <- app_assoc. f_equal.
      cbn [map concat]. f_equal.
      * unfold cnt_at. rewrite Hr. unfold cnt. now rewrite Hitems.
      * f_equal. apply map_ext_in. intros j Hj. unfold cnt_at.
        rewrite Hother; [reflexivity|].
        intros ->. apply Hni. now apply list_elem_of_In.
    + intros j Hj. apply elem_of_cons in Hj as [->|Hj].
      * rewrite Hout by exact Hni. exact Hsame.
      * rewrite Hin by exact Hj. rewrite Hother; [reflexivity|].
        intros ->. contradiction.
    + intros j Hj. apply not_elem_of_cons in Hj as [Hne Hj].
      rewrite Hout by exact Hj. now apply Hother.
Qed.


Lemma omap_lookup_replicate (store : list exception_record) (c : nat -> nat) idxs :
  omap (fun i => store !! i) (concat (map (fun idx => replicate (c idx) idx) idxs))
  = concat (map (fun idx => match store !! idx with
                            | Some r => replicate (c idx) r
                            | None => []
                            end) idxs).
Proof.
  induction idxs as [|idx idxs IH]; [reflexivity|].
  cbn [map concat]. rewrite omap_app, IH. f_equal.
  apply (omap_replicate (fun i => store !! i)).
Qed.


(** The entries of the first loop, turned into those of the list. *)
Lemma found_steps_exceptions (l : list pyobj) (b : nat) :
  (forall i x, l !! i = Some x -> steps !! (b + i)%nat = Some x) ->
  concat (map (fun r => replicate (cnt r) (final_rec r))
            (omap (fun '(i, step_i) =>
                     match f step_i with
                     | Ok _ => None
                     | Raise e => Some (ExceptionRecord i (exn_str e) None None)
                     end)
               (imap (fun i x => (Z.of_nat (b + i), x)) l)))
  = concat (imap (fun i => step_exceptions f (b + i)) l).
Proof.
  revert b. induction l as [|x l IH]; intros b Hl; [reflexivity|].
  rewrite !imap_cons. cbn [omap list_omap concat].
  assert (Hx : steps !! b = Some x).
  { specialize (Hl 0%nat x eq_refl). now rewrite Nat.add_0_r in Hl. }
  assert (Htail :
    concat (map (fun r => replicate (cnt r) (final_rec r))
              (omap (fun '(i, step_i) =>
                       match f step_i with
                       | Ok _ => None
                       | Raise e => Some (ExceptionRecord i (exn_str e) None None)
                       end)
                 (imap ((fun i x => (Z.of_nat (b + i), x)) ∘ S) l)))
    = concat (imap ((fun i => step_exceptions f (b + i)) ∘ S) l)).
  { rewrite (imap_ext _ (fun i x => (Z.of_nat (S b + i), x)) l)
      by (intros; simpl; do 2 f_equal; lia).
    rewrite (imap_ext ((fun i => step_exceptions f (b + i)) ∘ S)
               (fun i => step_exceptions f (S b + i)) l)
      by (intros; simpl; f_equal; lia).
    apply IH. intros i y Hi. specialize (Hl (S i) y Hi).
    now replace (S b + i)%nat with (b + S i)%nat by lia. }
  rewrite Nat.add_0_r. destruct (Hdicts _ _ Hx) as [kvs ->].
  unfold step_exceptions at 1.
  destruct (f (PyDict kvs)) as [r|e].
  - rewrite Htail. reflexivity.
  - cbn [map concat]. rewrite Htail. f_equal.
    unfold cnt, final_rec, items_of. cbn [ex_step]. rewrite Nat2Z.id, Hx.
    destruct (last (failing_plugins f kvs)) as [y|] eqn:Hlast; [reflexivity|].
    apply last_None in Hlast. now rewrite Hlast.
Qed.

Lemma find_exception_steps_range r :
  r ∈ find_exception_steps f steps ->
  0 <= ex_step r < Z.of_nat (length steps).
Proof.
  unfold find_exception_steps, enumerate. intros Hin.
  apply list_elem_of_omap in Hin as ([i x] & Hin & Hr).
  apply elem_of_lookup_imap in Hin as (k & y & [= -> ->] & Hk).
  apply lookup_lt_Some in Hk.
  destruct (f y); [discriminate|]. injection Hr as <-. simpl. lia.
Qed.

(** The list of the error, step by step. *)
Lemma serialize_protocol_exceptions e :
  f (PyDict top) = Raise e ->
  serialize_protocol f (PyDict top)
  = Raise (SerializationError "Error serializing protocol."
             (concat (imap (step_exceptions f) steps))).
Proof.
  intros He. unfold serialize_protocol. rewrite He.
  cbn [py_getitem bind]. unfold dict_getitem. rewrite Hsteps.
  cbn [bind py_iter].
  destruct (scan_steps_spec (seq 0 (length (find_exception_steps f steps)))
              (find_exception_steps f steps) [])
    as (store' & Hrun & Hin & _).
  { apply NoDup_seq. }
  { intros idx Hidx. apply elem_of_seq in Hidx.
    destruct (lookup_lt_is_Some_2 (find_exception_steps f steps) idx) as [r Hr];
      [lia|].
    exists r. split; [exact Hr|]. apply find_exception_steps_range.
    eapply list_elem_of_lookup_2; eauto. }
  rewrite Hrun. cbn [bind fst snd app]. do 2 f_equal.
  rewrite omap_lookup_replicate.
  rewrite (map_ext_in _
             (fun idx => match find_exception_steps f steps !! idx with
                         | Some r => replicate (cnt r) (final_rec r)
                         | None => []
                         end)).
  2:{ intros idx Hidx. apply list_elem_of_In in Hidx.
      rewrite (Hin idx Hidx). unfold cnt_at.
      destruct (find_exception_steps f steps !! idx); reflexivity. }
  rewrite (map_lookup_seq (fun o => match o with
                                    | Some r => replicate (cnt r) (final_rec r)
                                    | None => []
                                    end)).
  unfold find_exception_steps, enumerate.
  apply (found_steps_exceptions steps 0). intros i x Hi. exact Hi.
Qed.
End ExceptionListFacts.

(** X7: on a protocol dictionary whose steps are dictionaries and on which
    the serialization function fails, [serialize_protocol] raises a
    [SerializationError] whose list is made step by step: a step on which
    the function fails adds one entry for each of its plugins on which the
    function fails, and all the entries of one step are the same record,
    which names the last of these plugins. *)
Theorem serialize_protocol_lists_last_failing_plugin {R}
    (f : pyobj -> result R) (protocol_dict : pyobj) (steps : list pyobj) :
  steps_are_dicts protocol_dict steps ->
  fails (f protocol_dict) ->
  serialize_protocol f protocol_dict
  = Raise (SerializationError "Error serializing protocol."
             (concat (imap (step_exceptions f) steps))).
Proof.
  intros (top & -> & Hsteps & Hdicts) [e He].
  exact (serialize_protocol_exceptions f top steps Hsteps Hdicts e He).
Qed.

Lemma failing_plugins_In {R} (f : pyobj -> result R) items p v msg :
  In (p, v, msg) (failing_plugins f items) ->
  In (p, v) items /\ fails (f v).
Proof.
  unfold failing_plugins. intros Hin. apply list_elem_of_In in Hin.
  apply list_elem_of_omap in Hin as ([k w] & Hin & Hf). simpl in Hf.
  destruct (f w) as [r|e] eqn:E; [discriminate|]. injection Hf as -> -> <-.
  split; [now apply list_elem_of_In|]. now exists e.
Qed.

Lemma last_In {A} (l : list A) (x : A) : last l = Some x -> In x l.
Proof.
  intros H. apply last_Some in H as [l' ->]. apply in_app_iff. right. now left.
Qed.

Lemma step_exceptions_In {R} (f : pyobj -> result R) i step_i r :
  In r (step_exceptions f i step_i) ->
  exists kvs p v,
    step_i = PyDict kvs /\ fails (f step_i)
    /\ ex_step r = Z.of_nat i /\ ex_plugin r = Some p /\ ex_data r = Some v
    /\ In (p, v) kvs /\ fails (f v).
Proof.
  unfold step_exceptions. destruct (f step_i) as [x|e] eqn:E; [intros []|].
  destruct step_i as [| | | | |kvs|]; try (intros []).
  destruct (last (failing_plugins f kvs)) as [[[p v] msg]|] eqn:Hlast; [|intros []].
  intros Hin. apply list_elem_of_In, elem_of_replicate in Hin as [-> _].
  apply last_In, failing_plugins_In in Hlast as [Hin Hf].
  exists kvs, p, v. repeat split; try assumption. now exists e.
Qed.

(** X8: every entry of the list names a plugin of a step whose payload
    does not serialize, in a step that does not serialize: the error never
    blames a payload on which the serialization function succeeds. *)
Theorem serialize_protocol_blames_failing_payloads_only {R}
    (f : pyobj -> result R) (protocol_dict : pyobj) (steps : list pyobj)
    (msg : string) (exceptions : list exception_record) :
  steps_are_dicts protocol_dict steps ->
  serialize_protocol f protocol_dict = Raise (SerializationError msg exceptions) ->
  forall r, In r exceptions ->
    exists i kvs p v,
      ex_step r = Z.of_nat i
      /\ steps !! i = Some (PyDict kvs)
      /\ fails (f (PyDict kvs))
      /\ ex_plugin r = Some p
      /\ ex_data r = Some v
      /\ In (p, v) kvs
      /\ fails (f v).
Proof.
  intros (top & -> & Hsteps & Hdicts) Hraise r Hr.
  destruct (f (PyDict top)) as [x|e] eqn:He.
  { rewrite (serialize_protocol_ok f _ x He) in Hraise. discriminate. }
  rewrite (serialize_protocol_exceptions f top steps Hsteps Hdicts e He) in Hraise.
  injection Hraise as _ <-.
  apply in_concat in Hr as (l & Hl & Hr).
  apply list_elem_of_In, elem_of_lookup_imap in Hl as (i & step_i & -> & Hi).
  apply step_exceptions_In in Hr
    as (kvs & p & v & -> & Hfs & Hs & Hp & Hd & Hin & Hf).
  exists i, kvs, p, v. repeat split; assumption.
Qed.

(** X9: when the serialization function fails on the dictionary and on
    none of its steps, the list of the error is empty, and the repair with
    that list returns the dictionary as it is. *)
Theorem serialize_protocol_header_failure_lists_nothing {R}
    (f : pyobj -> result R) (protocol_dict : pyobj) (steps : list pyobj) :
  steps_are_dicts protocol_dict steps ->
  fails (f protocol_dict) ->
  (forall step_i, In step_i steps -> succeeds (f step_i)) ->
  serialize_protocol f protocol_dict
  = Raise (SerializationError "Error serializing protocol." [])
  /\ protocol_dict_remove_exceptions protocol_dict [] false
     = (Ok (Some protocol_dict), protocol_dict).
Proof.
  intros (top & -> & Hsteps & Hdicts) [e He] Hok.
  split; [|reflexivity].
  rewrite (serialize_protocol_exceptions f top steps Hsteps Hdicts e He).
  do 2 f_equal.
  assert (Hnil : forall l, In l (imap (step_exceptions f) steps) -> l = []).
  { intros l Hl. apply list_elem_of_In, elem_of_lookup_imap in Hl
      as (i & step_i & -> & Hi).
    destruct (Hok step_i) as [x Hx].
    { apply list_elem_of_In. eapply list_elem_of_lookup_2; eauto. }
    unfold step_exceptions. now rewrite Hx. }
  induction (imap (step_exceptions f) steps) as [|l ls IH]; [reflexivity|].
  cbn [concat]. rewrite (Hnil l) by (now left). apply IH.
  intros l' Hl'. apply Hnil. now right.
Qed.

(** *** Repairing with the list of the error *)

Lemma concat_all_nil {A} (ls : list (list A)) :
  (forall l, In l ls -> l = []) -> concat ls = [].
Proof.
  induction ls as [|l ls IH]; intros Hnil; [reflexivity|].
  cbn [concat]. rewrite (Hnil l) by (now left). apply IH.
  intros l' Hl'. apply Hnil. now right.
Qed.

(** One turn of the repair on a protocol dictionary. *)
Lemma remove_exception_dict_present top steps (k : nat) kvs p r :
  dict_get "steps" top = Some (PyList steps) ->
  steps !! k = Some (PyDict kvs) ->
  In p (dict_keys kvs) ->
  ex_step r = Z.of_nat k ->
  ex_plugin r = Some p ->
  remove_exception dict_step_getter dict_plugin_data_getter
    dict_plugin_data_putback dict_step_putback (PyDict top) r
  = Ok (PyDict (dict_set "steps"
                  (PyList (<[k := PyDict (dict_remove p kvs)]> steps)) top)).
Proof.
  intros Hsteps Hk Hin Hs Hp.
  assert (Hlen : (k < length steps)%nat) by (eapply lookup_lt_Some; eauto).
  unfold remove_exception, dict_step_getter. rewrite Hs, Hp.
  cbn [py_getitem bind]. unfold dict_getitem. rewrite Hsteps.
  cbn [bind py_getitem_int]. rewrite (list_getitem_nat _ _ _ Hk).
  cbn [bind dict_plugin_data_getter]. unfold dict_del.
  rewrite (proj2 (dict_mem_true kvs p) Hin). cbn [bind].
  unfold dict_step_putback. rewrite Hsteps, (py_index_nat _ _ Hlen).
  reflexivity.
Qed.

Lemma remove_exception_dict_absent top steps (k : nat) kvs p r :
  dict_get "steps" top = Some (PyList steps) ->
  steps !! k = Some (PyDict kvs) ->
  ~ In p (dict_keys kvs) ->
  ex_step r = Z.of_nat k ->
  ex_plugin r = Some p ->
  remove_exception dict_step_getter dict_plugin_data_getter
    dict_plugin_data_putback dict_step_putback (PyDict top) r
  = Raise (Exn KeyError p).
Proof.
  intros Hsteps Hk Hni Hs Hp.
  unfold remove_exception, dict_step_getter. rewrite Hs, Hp.
  cbn [py_getitem bind]. unfold dict_getitem. rewrite Hsteps.
  cbn [bind py_getitem_int]. rewrite (list_getitem_nat _ _ _ Hk).
  cbn [bind dict_plugin_data_getter]. unfold dict_del.
  destruct (dict_mem p kvs) eqn:E; [|reflexivity].
  apply dict_mem_true in E. contradiction.
Qed.

Lemma not_In_dict_remove {V} (d : list (string * V)) k :
  NoDup (dict_keys d) -> ~ In k (dict_keys (dict_remove k d)).
Proof.
  induction d as [|[k0 v0] d IH]; simpl; [tauto|].
  intros Hnd. apply NoDup_cons in Hnd as [Hni Hnd].
  destruct (String.eqb_spec k k0) as [->|Hne].
  - intros H. apply Hni. now apply list_elem_of_In.
  - simpl. intros [E|H]; [congruence|]. now apply IH.
Qed.

(** X10: when the first step on which the serialization function fails has
    two plugins or more on which it fails, the list of the error holds the
    same record twice, and the repair with that list raises [KeyError] on
    the second of them: with [inplace] unset the dictionary is left as it
    is, with [inplace] set it has lost the plugin that the record names. *)
Theorem serialize_protocol_list_breaks_repair {R} (f : pyobj -> result R)
    (protocol_dict : pyobj) (steps : list pyobj) (k : nat) (kvs : pydict) :
  steps_are_dicts protocol_dict steps ->
  fails (f protocol_dict) ->
  (forall j step_j, (j < k)%nat -> steps !! j = Some step_j ->
                    succeeds (f step_j)) ->
  steps !! k = Some (PyDict kvs) ->
  fails (f (PyDict kvs)) ->
  NoDup (dict_keys kvs) ->
  (2 <= length (failing_plugins f kvs))%nat ->
  exists exceptions p repaired,
    serialize_protocol f protocol_dict
    = Raise (SerializationError "Error serializing protocol." exceptions)
    /\ protocol_dict_remove_exceptions protocol_dict exceptions false
       = (Raise (Exn KeyError p), protocol_dict)
    /\ protocol_dict_remove_exceptions protocol_dict exceptions true
       = (Raise (Exn KeyError p), repaired)
    /\ dict_step_getter repaired (Z.of_nat k) = Ok (PyDict (dict_remove p kvs)).
Proof.
  intros Hshape Hf Hbefore Hk [ek Hek] Hnd Htwo.
  pose proof Hshape as (top & -> & Hsteps & Hdicts). destruct Hf as [e He].
  assert (Hlen : (k < length steps)%nat) by (eapply lookup_lt_Some; eauto).
  destruct (last (failing_plugins f kvs)) as [[[p v] msg]|] eqn:Hlast.
  2:{ apply last_None in Hlast. rewrite Hlast in Htwo. simpl in Htwo. lia. }
  set (rec := ExceptionRecord (Z.of_nat k) msg (Some p) (Some v)).
  assert (Hlist : exists rest,
            concat (imap (step_exceptions f) steps) = rec :: rec :: rest).
  { rewrite <- (take_drop_middle steps k (PyDict kvs) Hk).
    rewrite imap_app, concat_app. rewrite concat_all_nil.
    2:{ intros l Hl. apply list_elem_of_In, elem_of_lookup_imap in Hl
          as (j & step_j & -> & Hj).
        apply lookup_take_Some in Hj as [Hj Hjk].
        destruct (Hbefore j step_j Hjk Hj) as [x Hx].
        unfold step_exceptions. now rewrite Hx. }
    rewrite imap_cons. cbn [concat app]. rewrite length_take, Nat.min_l by lia.
    rewrite Nat.add_0_r. unfold step_exceptions at 1. rewrite Hek, Hlast.
    cbn [fst snd]. fold rec.
    destruct (length (failing_plugins f kvs)) as [|[|n]]; try lia.
    cbn [replicate app]. eexists. reflexivity. }
  destruct Hlist as [rest Hlist].
  assert (Hin : In p (dict_keys kvs)).
  { apply last_In, failing_plugins_In in Hlast as [Hin _].
    eapply In_dict_keys; eauto. }
  set (steps1 := <[k := PyDict (dict_remove p kvs)]> steps).
  set (top1 := dict_set "steps" (PyList steps1) top).
  assert (Hfirst : remove_exception dict_step_getter dict_plugin_data_getter
                     dict_plugin_data_putback dict_step_putback (PyDict top) rec
                   = Ok (PyDict top1)).
  { now apply (remove_exception_dict_present top steps k kvs p). }
  assert (Hsteps1 : dict_get "steps" top1 = Some (PyList steps1))
    by apply dict_get_set_eq.
  assert (Hk1 : steps1 !! k = Some (PyDict (dict_remove p kvs)))
    by (now apply list_lookup_insert_eq).
  assert (Hsecond : remove_exception dict_step_getter dict_plugin_data_getter
                      dict_plugin_data_putback dict_step_putback (PyDict top1) rec
                    = Raise (Exn KeyError p)).
  { apply (remove_exception_dict_absent top1 steps1 k (dict_remove p kvs) p);
      try assumption; try reflexivity.
    now apply not_In_dict_remove. }
  exists (rec :: rec :: rest), p, (PyDict top1).
  split; [|split; [|split]].
  - rewrite <- Hlist. apply serialize_protocol_exceptions with (e := e); assumption.
  - unfold protocol_dict_remove_exceptions, _protocol_remove_exceptions.
    cbn [remove_exceptions_loop]. rewrite Hfirst, Hsecond. reflexivity.
  - unfold protocol_dict_remove_exceptions, _protocol_remove_exceptions.
    cbn [remove_exceptions_loop]. rewrite Hfirst, Hsecond. reflexivity.
  - unfold dict_step_getter. cbn [py_getitem bind]. unfold dict_getitem.
    rewrite Hsteps1. cbn [bind py_getitem_int]. now apply list_getitem_nat.
Qed.

(** ** Newline-delimited JSON on a stream *)

Section NdjsonFacts.
Variable class_of : string -> pyclass.
Variable pickle_loads : string -> result pyobj.
Variable json_dumps : pyobj -> result string.

(** The loop over the steps appends to the stream. *)
Lemma ndjson_steps_appends todo exceptions out :
  ndjson_steps json_dumps todo exceptions out
  = ((ndjson_steps json_dumps todo exceptions []).1,
     out ++ (ndjson_steps json_dumps todo exceptions []).2).
Proof.
  assert (Hgen : forall l excs pre out0,
            ndjson_steps json_dumps l excs (out0 ++ pre)
            = ((ndjson_steps json_dumps l excs pre).1,
               out0 ++ (ndjson_steps json_dumps l excs pre).2)).
  { induction l as [|[i step_i] l IH]; intros excs pre out0.
    - reflexivity.
    - cbn [ndjson_steps]. destruct (json_dumps step_i) as [line|e].
      + unfold mbind. rewrite <- app_assoc. apply IH.
      + unfold mbind, lift. destruct (py_iteritems step_i) as [items|e'];
          [apply IH|reflexivity]. }
  rewrite <- (app_nil_r out) at 1. apply Hgen.
Qed.

(** [protocol_to_ndjson] appends to the stream it is given. *)
Lemma protocol_to_ndjson_stream_appends protocol out :
  protocol_to_ndjson_stream class_of pickle_loads json_dumps protocol out
  = ((protocol_to_ndjson_stream class_of pickle_loads json_dumps protocol []).1,
     out ++ (protocol_to_ndjson_stream class_of pickle_loads json_dumps
               protocol []).2).
Proof.
  unfold protocol_to_ndjson_stream, mbind, lift.
  destruct (protocol_to_dict class_of pickle_loads protocol.1 protocol.2 true)
    as [d|e]; [|now rewrite app_nil_r].
  destruct (py_getitem d "steps") as [steps|e]; [|now rewrite app_nil_r].
  destruct (json_dumps _) as [header_line|e]; [|now rewrite app_nil_r].
  destruct (py_iter steps) as [steps_l|e]; [|reflexivity].
  rewrite (ndjson_steps_appends _ _ (out ++ [header_line])).
  rewrite (ndjson_steps_appends _ _ ([] ++ [header_line])).
  destruct (ndjson_steps json_dumps (enumerate steps_l) [] []) as [[excs|e] lines];
    cbn [fst snd]; [|now rewrite <- app_assoc].
  destruct excs; unfold ret, raise; now rewrite <- app_assoc.
Qed.
End NdjsonFacts.

(** X11: with a stream of the caller and [ignore_errors] set, [to_ndjson]
    writes twice: what the attempt that raised [SerializationError] wrote
    stays in the stream, and the lines of the repaired protocol follow it. *)
Theorem to_ndjson_keeps_the_failed_attempt_in_the_stream
    (class_of : string -> pyclass) (pickle_loads : string -> result pyobj)
    (json_dumps : pyobj -> result string)
    (protocol protocol_clean : protocol_graph) (stream lines1 lines2 : list string)
    (msg : string) (exceptions : list exception_record) (r2 : result unit) :
  protocol_to_ndjson_stream class_of pickle_loads json_dumps protocol []
  = (Raise (SerializationError msg exceptions), lines1) ->
  protocol_remove_exceptions protocol exceptions false
  = (Ok (Some protocol_clean), protocol) ->
  protocol_to_ndjson_stream class_of pickle_loads json_dumps protocol_clean []
  = (r2, lines2) ->
  to_ndjson class_of pickle_loads json_dumps protocol (Some stream) true
  = (match r2 with Ok _ => Ok None | Raise e => Raise e end,
     Some (stream ++ lines1 ++ lines2)).
Proof.
  intros H1 Hclean H2. unfold to_ndjson, protocol_to_ndjson.
  rewrite (protocol_to_ndjson_stream_appends _ _ _ protocol stream), H1.
  cbn [fst snd negb]. rewrite Hclean.
  rewrite (protocol_to_ndjson_stream_appends _ _ _ protocol_clean (stream ++ lines1)).
  rewrite H2. cbn [fst snd]. rewrite <- app_assoc. now destruct r2.
Qed.

(** ** Records of a log in memory *)

Lemma get_from_app data1 data2 name plugin_name :
  ExperimentLog_get_from (data1 ++ data2) name plugin_name
  = (let* a := ExperimentLog_get_from data1 name plugin_name in
     let* b := ExperimentLog_get_from data2 name plugin_name in
     Ok (a ++ b))%result.
Proof.
  induction data1 as [|d data1 IH]; simpl.
  - now destruct (ExperimentLog_get_from data2 name plugin_name).
  - rewrite IH.
    destruct (match dict_get plugin_name d with
              | Some (PyDict fields) =>
                  match dict_get name fields with
                  | Some v => Ok v
                  | None => Ok PyNone
                  end
              | Some _ => Raise (Exn AttributeError "object has no attribute 'keys'")
              | None => Ok PyNone
              end) as [x|e]; [|reflexivity]. simpl.
    destruct (ExperimentLog_get_from data1 name plugin_name); [|reflexivity]. simpl.
    destruct (ExperimentLog_get_from data2 name plugin_name); reflexivity.
Qed.

Lemma dict_set_set {V} (d : list (string * V)) k v v' :
  dict_set k v' (dict_set k v d) = dict_set k v' d.
Proof.
  induction d as [|[k0 v0] d IH]; simpl.
  - now rewrite String.eqb_refl.
  - destruct (String.eqb_spec k k0) as [->|Hne]; simpl.
    + now rewrite String.eqb_refl.
    + destruct (String.eqb_spec k k0); [contradiction|]. now rewrite IH.
Qed.

Lemma dict_set_id {V} (d : list (string * V)) k v :
  dict_get k d = Some v -> dict_set k v d = d.
Proof.
  induction d as [|[k0 v0] d IH]; simpl; [discriminate|].
  destruct (String.eqb_spec k k0) as [->|Hne].
  - now intros [= ->].
  - intros H. now rewrite IH.
Qed.

(** The assignments of [add_data] on the last record. *)
Lemma add_items_spec plugin_name items last fields :
  NoDup (dict_keys items) ->
  dict_get plugin_name last = Some (PyDict fields) ->
  exists fields',
    add_items plugin_name items last
    = Ok (dict_set plugin_name (PyDict fields') last)
    /\ forall k, dict_get k fields'
                 = match dict_get k items with
                   | Some v => Some v
                   | None => dict_get k fields
                   end.
Proof.
  revert last fields. induction items as [|[k0 v0] items IH];
    intros last fields Hnd Hlast.
  - exists fields. split; [|reflexivity]. simpl.
    now rewrite dict_set_id.
  - simpl in Hnd. apply NoDup_cons in Hnd as [Hni Hnd].
    cbn [add_items]. rewrite Hlast.
    destruct (IH (dict_set plugin_name (PyDict (dict_set k0 v0 fields)) last)
                (dict_set k0 v0 fields) Hnd) as (fields' & Hrun & Hget).
    { apply dict_get_set_eq. }
    exists fields'. split.
    + rewrite Hrun. now rewrite dict_set_set.
    + intros k. rewrite Hget. simpl.
      destruct (String.eqb_spec k k0) as [->|Hne].
      * assert (Hnone : dict_get k0 items = None).
        { apply dict_get_None. intros H. apply Hni. now apply list_elem_of_In. }
        rewrite Hnone. apply dict_get_set_eq.
      * destruct (dict_get k items); [reflexivity|]. now apply dict_get_set_ne.
Qed.

Lemma get_from_single record name plugin_name fields :
  dict_get plugin_name record = Some (PyDict fields) ->
  ExperimentLog_get_from [record] name plugin_name
  = Ok [match dict_get name fields with Some v => v | None => PyNone end].
Proof.
  intros H. simpl. rewrite H. now destruct (dict_get name fields).
Qed.

(** X12: what [add_data] stores, [get] reads: after [add_data] with the
    item [k: v] for a plugin, on a log on which [get] of [k] for that
    plugin returns, [get] returns the same list with [v] in the place of
    its last element, or [[v]] when the log had no record.  [add_data]
    appends a record only to a log without records. *)
Theorem add_data_then_get (l l' : ExperimentLog) (items : pydict)
    (plugin_name k : string) (v : pyobj) (before : list pyobj) :
  NoDup (dict_keys items) ->
  dict_get k items = Some v ->
  ExperimentLog_get l k plugin_name = Ok before ->
  ExperimentLog_add_data items plugin_name l = (Ok tt, l') ->
  ExperimentLog_get l' k plugin_name = Ok (removelast before ++ [v])
  /\ length (data l') = Nat.max 1 (length (data l)).
Proof.
  intros Hnd Hk Hget Hadd. unfold ExperimentLog_add_data in Hadd.
  set (data0 := match data l with [] => [[]] | d => d end) in *.
  assert (Hne : data0 <> []) by (subst data0; destruct (data l); discriminate).
  assert (Hsplit : data0 = removelast data0 ++ [List.last data0 []])
    by (now apply app_removelast_last).
  set (lastrec := List.last data0 []) in *.
  set (last1 := if dict_mem plugin_name lastrec then lastrec
                else dict_set plugin_name (PyDict []) lastrec) in *.
  assert (Hinit : exists vs, ExperimentLog_get_from (removelast data0) k plugin_name
                             = Ok vs /\ removelast before = vs).
  { unfold ExperimentLog_get in Hget. subst data0.
    destruct (data l) as [|d ds] eqn:Hd.
    - simpl in Hget. injection Hget as <-. exists []. split; reflexivity.
    - rewrite Hsplit in Hget. rewrite get_from_app in Hget.
      destruct (ExperimentLog_get_from (removelast (d :: ds)) k plugin_name)
        as [vs|e]; [|discriminate].
      cbn [bind] in Hget.
      destruct (ExperimentLog_get_from [lastrec] k plugin_name) as [b|e] eqn:Hb;
        [|discriminate].
      cbn [bind] in Hget. injection Hget as <-.
      exists vs. split; [reflexivity|].
      assert (Hone : exists x, b = [x]).
      { simpl in Hb.
        destruct (match dict_get plugin_name lastrec with
                  | Some (PyDict fields) =>
                      match dict_get k fields with
                      | Some v => Ok v
                      | None => Ok PyNone
                      end
                  | Some _ => Raise (Exn AttributeError "object has no attribute 'keys'")
                  | None => Ok PyNone
                  end) as [x|e]; [|discriminate].
        simpl in Hb. injection Hb as <-. now exists x. }
      destruct Hone as [x ->]. apply removelast_last. }
  destruct Hinit as (vs & Hvs & Hrl).
  assert (Hlast1 : exists fields, dict_get plugin_name last1 = Some (PyDict fields)
                                  \/ (exists w, dict_get plugin_name last1 = Some w
                                                /\ forall f, w <> PyDict f)).
  { subst last1. unfold dict_mem.
    destruct (dict_get plugin_name lastrec) as [w|] eqn:Hw.
    - destruct w; try (exists []; right; eexists; split; [exact Hw|discriminate]).
      exists kvs. now left.
    - exists []. left. apply dict_get_set_eq. }
  destruct Hlast1 as (fields & [Hf|(w & Hw & Hnd')]).
  - destruct (add_items_spec plugin_name items last1 fields Hnd Hf)
      as (fields' & Hrun & Hfields).
    rewrite Hrun in Hadd. injection Hadd as <-. cbn [data el_set_data].
    split.
    + unfold ExperimentLog_get. cbn [data el_set_data].
      rewrite get_from_app, Hvs. cbn [bind].
      rewrite (get_from_single _ k plugin_name fields') by apply dict_get_set_eq.
      rewrite Hfields, Hk. cbn [bind]. now rewrite Hrl.
    + rewrite length_app. simpl.
      assert (Hl0 : length data0 = S (length (removelast data0))).
      { rewrite Hsplit at 1. rewrite length_app. simpl. lia. }
      subst data0. destruct (data l); simpl in *; lia.
  - exfalso. destruct items as [|[k0 v0] items]; [discriminate|].
    cbn [add_items] in Hadd. rewrite Hw in Hadd.
    destruct w; try discriminate. now apply (Hnd' kvs).
Qed.

(** X13: on a log without records, the first [add_step] stores the time
    that [start_time] reads as the start time, in a record of its own, and
    every later [add_step] measures from that stored time, whatever the
    clock says when [start_time] is called again. *)
Theorem add_step_measures_from_the_stored_start_time
    (py_sub : pyobj -> pyobj -> result pyobj) (l : ExperimentLog)
    (now1 start now2 later step1 attempt1 step2 attempt2 t1 t2 : pyobj) :
  data l = [] ->
  py_truthy start = true ->
  py_sub now1 start = Ok t1 ->
  py_sub now2 start = Ok t2 ->
  (ExperimentLog_add_step py_sub now1 start step1 attempt1 ;;
   ExperimentLog_add_step py_sub now2 later step2 attempt2)%method l
  = (Ok tt,
     el_set_data
       [[("core", PyDict [("start time", start)])];
        [("core", PyDict [("step", step1); ("time", t1); ("attempt", attempt1)])];
        [("core", PyDict [("step", step2); ("time", t2); ("attempt", attempt2)])]]
       l).
Proof.
  intros Hdata Htrue H1 H2.
  destruct l as [d i u ver dat m fn]. simpl in Hdata. subst dat.
  unfold ExperimentLog_add_step, ExperimentLog_start_time, ExperimentLog_get,
    ExperimentLog_add_data, mbind, get_state, lift, ret.
  cbn. rewrite H1. cbn. rewrite Htrue. cbn. rewrite H2. reflexivity.
Qed.

(** ** The scan of the log directory *)

Section ScanFacts.
Variable int_of_name : string -> option Z.

Lemma scan_logs_app logs1 logs2 e :
  scan_logs int_of_name (logs1 ++ logs2) e
  = (let* e1 := scan_logs int_of_name logs1 e in
     scan_logs int_of_name logs2 e1)%result.
Proof.
  revert e. induction logs1 as [|[n d] logs1 IH]; intros e; [reflexivity|].
  cbn [app scan_logs]. destruct (int_of_name n) as [i|]; [|apply IH].
  destruct (e <=? i); [|apply IH]. destruct d; [reflexivity|apply IH].
Qed.

Lemma scan_logs_ge logs e r :
  scan_logs int_of_name logs e = Ok r -> e <= r.
Proof.
  revert e. induction logs as [|[n d] logs IH]; intros e; cbn [scan_logs].
  - intros [= <-]. lia.
  - destruct (int_of_name n) as [i|]; [|apply IH].
    destruct (Z.leb_spec e i) as [Hle|Hgt]; [|apply IH].
    destruct d as [|children]; [discriminate|].
    intros H. apply IH in H. destruct children; lia.
Qed.

(** The scan stays at or below a bound that is above every name. *)
Lemma scan_logs_bound logs e i :
  ids_are_directories int_of_name logs ->
  (forall j, In j (entry_ids int_of_name logs) -> j < i) ->
  e <= i ->
  exists e', scan_logs int_of_name logs e = Ok e' /\ e' <= i.
Proof.
  revert e. induction logs as [|[n d] logs IH]; intros e Hdirs Hbelow He.
  - exists e. split; [reflexivity|exact He].
  - assert (Hdirs' : ids_are_directories int_of_name logs).
    { intros n0 d0 i0 Hin. apply (Hdirs n0 d0 i0). now right. }
    rewrite entry_ids_cons in Hbelow. cbn [scan_logs].
    destruct (int_of_name n) as [j|] eqn:Hj.
    + assert (Hji : j < i) by (apply Hbelow; now left).
      assert (Hbelow' : forall j', In j' (entry_ids int_of_name logs) -> j' < i)
        by (intros j' Hj'; apply Hbelow; now right).
      destruct (Hdirs n d j (or_introl eq_refl) Hj) as [children ->].
      destruct (e <=? j); [|now apply IH].
      apply IH; [assumption|assumption|]. destruct children; lia.
    + now apply IH.
Qed.
End ScanFacts.

(** X14: when the construction of a log in a directory returns, a second
    construction, before anything is written to the directory of the new
    id, returns a log with the same id and leaves the log directory as the
    first one left it. *)
Theorem experiment_id_is_reused_while_its_directory_is_empty
    (int_of_name : string -> option Z) (str_of_int : Z -> string)
    (dir uuid1 uuid2 : string) (logs after : option listing)
    (log1 : ExperimentLog) :
  (forall i, 0 <= i -> int_of_name (str_of_int i) = Some i) ->
  ExperimentLog_init int_of_name str_of_int (Some dir) uuid1 logs
  = (Ok log1, after) ->
  exists log2,
    ExperimentLog_init int_of_name str_of_int (Some dir) uuid2 after
    = (Ok log2, after)
    /\ experiment_id log2 = experiment_id log1.
Proof.
  intros Hstr Hinit.
  unfold ExperimentLog_init, mbind, _get_next_id, ret in Hinit.
  set (entries := match logs with Some l => l | None => [] end) in *.
  destruct (scan_logs int_of_name entries 0) as [id1|e] eqn:Hscan; [|discriminate].
  injection Hinit as <- <-. cbn [experiment_id].
  assert (Hid : 0 <= id1) by (eapply scan_logs_ge; eauto).
  set (entries1 := if dict_mem (str_of_int id1) entries then entries
                   else entries ++ [(str_of_int id1, Dir [])]).
  assert (Hscan1 : scan_logs int_of_name entries1 0 = Ok id1).
  { subst entries1. destruct (dict_mem (str_of_int id1) entries); [exact Hscan|].
    rewrite scan_logs_app, Hscan. cbn [bind scan_logs].
    rewrite (Hstr id1 Hid), Z.leb_refl. reflexivity. }
  assert (Hmem : dict_mem (str_of_int id1) entries1 = true).
  { subst entries1. destruct (dict_mem (str_of_int id1) entries) eqn:E; [exact E|].
    apply dict_mem_true. unfold dict_keys. rewrite map_app. apply in_app_iff.
    right. now left. }
  unfold ExperimentLog_init, mbind, _get_next_id, ret.
  rewrite Hscan1, Hmem. eexists. split; reflexivity.
Qed.

(** X15: the scan lists whatever the log directory holds: a regular file
    named by an integer that is not negative and is above every integer
    name listed before it makes the construction of a log raise
    [OSError]; the log directory is left as it is. *)
Theorem integer_named_file_breaks_construction
    (int_of_name : string -> option Z) (str_of_int : Z -> string)
    (dir fresh_uuid name : string) (before rest : listing) (i : Z) :
  ids_are_directories int_of_name before ->
  (forall j, In j (entry_ids int_of_name before) -> j < i) ->
  0 <= i ->
  int_of_name name = Some i ->
  ExperimentLog_init int_of_name str_of_int (Some dir) fresh_uuid
    (Some (before ++ (name, File) :: rest))
  = (Raise (Exn OSError "Not a directory"),
     Some (before ++ (name, File) :: rest)).
Proof.
  intros Hdirs Hbelow Hi Hname.
  destruct (scan_logs_bound int_of_name before 0 i Hdirs Hbelow Hi)
    as (e & He & Hle).
  unfold ExperimentLog_init, mbind, _get_next_id.
  rewrite scan_logs_app, He. cbn [bind scan_logs]. rewrite Hname.
  replace (e <=? i) with true by (symmetry; now apply Z.leb_le).
  reflexivity.
Qed.

(** ** The upgrade of a log from below 0.1.0 *)

Lemma NoDup_dict_set {V} (d : list (string * V)) k v :
  NoDup (dict_keys d) -> NoDup (dict_keys (dict_set k v d)).
Proof.
  intros Hnd. destruct (in_dec string_dec k (dict_keys d)) as [Hin|Hni].
  - now rewrite dict_keys_set_present.
  - rewrite dict_keys_set_absent by exact Hni.
    apply NoDup_app. split; [exact Hnd|]. split.
    + intros x Hx Hx'. apply list_elem_of_In in Hx'. destruct Hx' as [<-|[]].
      apply Hni. now apply list_elem_of_In.
    + apply NoDup_singleton.
Qed.

Lemma In_dict_keys_set {V} (d : list (string * V)) k v k' :
  In k' (dict_keys (dict_set k v d)) -> k' = k \/ In k' (dict_keys d).
Proof.
  destruct (in_dec string_dec k (dict_keys d)) as [Hin|Hni].
  - rewrite dict_keys_set_present by exact Hin. now right.
  - rewrite dict_keys_set_absent by exact Hni. intros H.
    apply in_app_iff in H as [H|[<-|[]]]; [now right|now left].
Qed.

(** A reshaped record holds [core] and the name of the control board
    plugin, and no other key. *)
Lemma reshape_record_keys pickle_loads plugin_name items acc :
  NoDup (dict_keys acc) ->
  NoDup (dict_keys (reshape_record pickle_loads plugin_name items acc))
  /\ forall k,
      In k (dict_keys (reshape_record pickle_loads plugin_name items acc)) ->
      In k (dict_keys acc) \/ k = "core" \/ plugin_name = Some k.
Proof.
  revert acc. induction items as [|[k0 v0] items IH]; intros acc Hnd.
  - split; [exact Hnd|]. intros k Hk. now left.
  - cbn [reshape_record].
    destruct (match plugin_name with
              | Some p => if negb (String.eqb p "") && is_results_key k0
                          then Some p else None
              | None => None
              end) as [p|] eqn:Hleg.
    + assert (Hp : plugin_name = Some p).
      { destruct plugin_name as [q|]; [|discriminate].
        destruct (negb (String.eqb q "") && is_results_key k0); [|discriminate].
        congruence. }
      destruct (pickle_loads_obj pickle_loads v0) as [x|e]; [|now apply IH].
      destruct (IH (dict_set p (PyDict [(k0, x)]) acc)) as [Hnd' Hkeys];
        [now apply NoDup_dict_set|].
      split; [exact Hnd'|]. intros k Hk.
      destruct (Hkeys k Hk) as [Hin|[->|Hpk]]; [|tauto|tauto].
      apply In_dict_keys_set in Hin as [->|Hin]; tauto.
    + set (acc1 := if dict_mem "core" acc then acc
                   else dict_set "core" (PyDict []) acc).
      assert (Hnd1 : NoDup (dict_keys acc1)).
      { subst acc1. destruct (dict_mem "core" acc); [exact Hnd|].
        now apply NoDup_dict_set. }
      assert (Hk1 : forall k, In k (dict_keys acc1) -> In k (dict_keys acc) \/ k = "core").
      { subst acc1. intros k. destruct (dict_mem "core" acc); [tauto|].
        intros H. apply In_dict_keys_set in H as [->|H]; tauto. }
      destruct (dict_get "core" acc1) as [[]|].
      all: try (destruct (IH acc1 Hnd1) as [Hnd' Hkeys];
                split; [exact Hnd'|]; intros k Hk;
                destruct (Hkeys k Hk) as [Hin|[->|Hpk]]; [|tauto|tauto];
                destruct (Hk1 k Hin); tauto).
      destruct (IH (dict_set "core" (PyDict (dict_set k0 v0 kvs)) acc1))
        as [Hnd' Hkeys]; [now apply NoDup_dict_set|].
      split; [exact Hnd'|]. intros k Hk.
      destruct (Hkeys k Hk) as [Hin|[->|Hpk]]; [|tauto|tauto].
      apply In_dict_keys_set in Hin as [->|Hin]; [tauto|].
      destruct (Hk1 k Hin); tauto.
Qed.

(** The serialization of a record leaves strings under its keys. *)
Lemma dump_record_strings yaml_dump items acc acc' :
  NoDup (dict_keys acc) ->
  dump_record yaml_dump items acc = Ok acc' ->
  dict_keys acc' = dict_keys (fold_left (fun a kv => dict_set kv.1 PyNone a) items acc)
  /\ forall k x, In (k, x) acc' ->
       (exists y, x = PyStr y) \/ (In (k, x) acc /\ ~ In k (dict_keys items)).
Proof.
  revert acc. induction items as [|[k0 x0] items IH]; intros acc Hnd.
  - intros [= <-]. split; [reflexivity|]. intros k x Hin. right. tauto.
  - cbn [dump_record]. destruct (yaml_dump x0) as [y|e]; [|discriminate].
    cbn [bind]. intros Hrun.
    destruct (IH (dict_set k0 (PyStr y) acc)) as [Hkeys Hstr];
      [now apply NoDup_dict_set|exact Hrun|].
    split.
    + rewrite Hkeys. cbn [fold_left fst snd]. clear.
      assert (Hgen : forall a b : pydict, dict_keys a = dict_keys b ->
                dict_keys (fold_left (fun a kv => dict_set kv.1 PyNone a) items a)
                = dict_keys (fold_left (fun a kv => dict_set kv.1 PyNone a) items b)).
      { induction items as [|[k1 x1] items IHi]; intros a b Hab; [exact Hab|].
        cbn [fold_left fst]. apply IHi.
        destruct (in_dec string_dec k1 (dict_keys a)) as [Hin|Hni].
        - rewrite !dict_keys_set_present; [exact Hab| |exact Hin]. now rewrite <- Hab.
        - rewrite !dict_keys_set_absent; [now rewrite Hab| |exact Hni].
          now rewrite <- Hab. }
      apply Hgen.
      destruct (in_dec string_dec k0 (dict_keys acc)) as [Hin|Hni].
      * rewrite !dict_keys_set_present by exact Hin. reflexivity.
      * rewrite !dict_keys_set_absent by exact Hni. reflexivity.
    + intros k x Hin. destruct (Hstr k x Hin) as [?|[Hin1 Hni]]; [now left|].
      apply In_dict_set_NoDup in Hin1 as [[-> ->]|[Hin1 Hne]]; [| |exact Hnd].
      * left. now exists y.
      * right. split; [exact Hin1|]. simpl. intros [E|E]; [congruence|contradiction].
Qed.

Lemma map_result_Forall2 {A B} (g : A -> result B) (l : list A) (l' : list B) :
  map_result g l = Ok l' -> Forall2 (fun x y => g x = Ok y) l l'.
Proof.
  revert l'. induction l as [|x l IH]; intros l'; simpl.
  - intros [= <-]. constructor.
  - destruct (g x) as [y|e] eqn:Hx; [|discriminate]. simpl.
    destruct (map_result g l) as [ys|e]; [|discriminate]. simpl.
    intros [= <-]. constructor; [exact Hx|now apply IH].
Qed.

(** X16: the upgrade of a log from below version 0.1.0 keeps the number
    of records; in every record it leaves the key [core] and, at most, the
    name of the control board plugin, with YAML strings under them; the log
    gets a new uuid, empty metadata and the class version. *)
Theorem legacy_log_upgrade_shape
    (pickle_loads : string -> result pyobj) (yaml_dump : pyobj -> result string)
    (fresh_uuid vstr : string) (v : Version) (plugin_name : option string)
    (l l1 : ExperimentLog) :
  el_version l = Some vstr ->
  Version_fromstring vstr = Ok v ->
  Version_ltb v (mkVersion 0 1 0) = true ->
  legacy_plugin_name (data l) None = Ok plugin_name ->
  ExperimentLog_upgrade pickle_loads yaml_dump fresh_uuid l = (Ok tt, l1) ->
  length (data l1) = length (data l)
  /\ el_version l1 = Some el_class_version
  /\ uuid l1 = Some fresh_uuid
  /\ metadata l1 = Some []
  /\ forall record k x, In record (data l1) -> In (k, x) record ->
       (k = "core" \/ plugin_name = Some k) /\ exists y, x = PyStr y.
Proof.
  intros Hv Hparse Hlt Hpn Hup.
  assert (Hlt2 : Version_ltb v (mkVersion 0 2 0) = true)
    by (apply (Version_ltb_trans v (mkVersion 0 1 0)); [exact Hlt|reflexivity]).
  assert (Hlt3 : Version_ltb v (mkVersion 0 3 0) = true)
    by (apply (Version_ltb_trans v (mkVersion 0 1 0)); [exact Hlt|reflexivity]).
  unfold ExperimentLog_upgrade, mbind, get_state, ret, lift in Hup.
  rewrite Hv, Hparse, el_class_version_parses in Hup.
  rewrite (Version_ltb_not_gtb _ _ Hlt3), Hlt, Hlt2, Hlt3, Hpn in Hup.
  destruct (map_result _ _) as [new_data|e] eqn:Hmap; [|discriminate].
  injection Hup as <-. cbn.
  apply map_result_Forall2 in Hmap.
  split; [|split; [reflexivity|split; [reflexivity|split; [reflexivity|]]]].
  - apply Forall2_length in Hmap. rewrite length_map in Hmap. now symmetry.
  - intros record k x Hrec Hin.
    apply list_elem_of_In, list_elem_of_lookup_1 in Hrec as [i Hi].
    destruct (Forall2_lookup_r _ _ _ _ _ Hmap Hi) as (shaped & Hshaped & Hdump).
    rewrite list_lookup_fmap in Hshaped.
    destruct (data l !! i) as [r0|]; [|discriminate].
    injection Hshaped as <-.
    destruct (reshape_record_keys pickle_loads plugin_name r0 []) as [Hnd Hkeys];
      [constructor|].
    destruct (dump_record_strings yaml_dump _ _ _ Hnd Hdump) as [Hk Hstr].
    destruct (Hstr k x Hin) as [Hy|[Hin0 Hni]].
    + split; [|exact Hy].
      assert (Hkk : In k (dict_keys record)) by (eapply In_dict_keys; eauto).
      rewrite Hk in Hkk.
      assert (Hsame : forall (items a : pydict),
                (forall q, In q (dict_keys items) -> In q (dict_keys a)) ->
                dict_keys (fold_left (fun a kv => dict_set kv.1 PyNone a) items a)
                = dict_keys a).
      { clear. induction items as [|[k1 x1] items IH]; intros a Hsub; [reflexivity|].
        cbn [fold_left fst]. rewrite IH.
        - apply dict_keys_set_present. apply Hsub. now left.
        - intros q Hq. rewrite dict_keys_set_present by (apply Hsub; now left).
          apply Hsub. now right. }
      rewrite Hsame in Hkk by auto.
      destruct (Hkeys k Hkk) as [[]|H]; exact H.
    + exfalso. apply Hni. eapply In_dict_keys; eauto.
Qed.

(** ** Repairing a protocol with the list of [protocol_to_ndjson] *)

Lemma In_dict_keys_remove_ne {V} (d : list (string * V)) k k' :
  In k' (dict_keys d) -> k' <> k -> In k' (dict_keys (dict_remove k d)).
Proof.
  induction d as [|[k0 v0] d IH]; simpl; [tauto|].
  intros [->|Hin] Hne.
  - destruct (String.eqb_spec k k'); [congruence|]. now left.
  - destruct (String.eqb_spec k k0); [exact Hin|]. right. now apply IH.
Qed.

(** The loop of the repair on a protocol whose steps are distinct objects
    returns when the entries are distinct and each names a plugin that its
    step holds. *)
Lemma remove_exceptions_loop_returns (p : Protocol) exceptions :
  NoDup (steps p) ->
  forall hp,
    NoDup (map (fun r => (ex_step r, ex_plugin r)) exceptions) ->
    (forall step, step ∈ steps p ->
       exists st, hp !! step = Some st
                  /\ NoDup (dict_keys (step_plugin_data st))) ->
    (forall r, In r exceptions -> names_a_plugin (p, hp) r) ->
    exists hp',
      remove_exceptions_loop Protocol_step_getter Protocol_plugin_data_getter
        Protocol_plugin_data_putback Protocol_step_putback (p, hp) exceptions
      = ((p, hp'), None).
Proof.
  intros Hnds. induction exceptions as [|r rest IH]; intros hp Hnd Hsteps Hok.
  - exists hp. reflexivity.
  - cbn [map] in Hnd. apply NoDup_cons in Hnd as [Hni Hnd].
    destruct (Hok r (or_introl eq_refl)) as (i & step & st & k & Hi & Hstep & Hst & Hk & Hin).
    cbn [fst snd] in Hstep, Hst.
    assert (Hrm : remove_exception Protocol_step_getter Protocol_plugin_data_getter
                    Protocol_plugin_data_putback Protocol_step_putback (p, hp) r
                  = Ok (p, <[step := mkStep (dict_remove k (step_plugin_data st))]> hp)).
    { unfold remove_exception, Protocol_step_getter. cbn [fst snd].
      rewrite Hi, (list_getitem_nat _ _ _ Hstep). cbn [bind]. rewrite Hst.
      cbn [bind Protocol_plugin_data_getter fst snd]. rewrite Hk. cbn [bind].
      unfold dict_del. rewrite (proj2 (dict_mem_true _ _) Hin). reflexivity. }
    cbn [remove_exceptions_loop]. rewrite Hrm.
    apply IH; [exact Hnd| |].
    + intros step' Hstep'. destruct (decide (step' = step)) as [->|Hne].
      * eexists. split.
        -- apply list_lookup_insert_eq. eapply lookup_lt_Some; eauto.
        -- cbn. destruct (Hsteps step Hstep') as (st' & Hst' & Hnd').
           rewrite Hst in Hst'. injection Hst' as <-.
           now apply NoDup_dict_remove.
      * rewrite list_lookup_insert_ne by congruence. now apply Hsteps.
    + intros r' Hr'.
      destruct (Hok r' (or_intror Hr')) as (i' & step' & st' & k' & Hi' & Hstep' & Hst' & Hk' & Hin').
      cbn [fst snd] in Hstep', Hst'.
      destruct (decide (step' = step)) as [->|Hne].
      * assert (i' = i) by exact (NoDup_lookup _ _ _ _ Hnds Hstep' Hstep). subst i'.
        rewrite Hst in Hst'. injection Hst' as <-.
        assert (Hkk : k' <> k).
        { intros ->. apply Hni. apply list_elem_of_In. apply in_map_iff.
          exists r'. split; [|exact Hr']. now rewrite Hi, Hi', Hk, Hk'. }
        exists i, step, (mkStep (dict_remove k (step_plugin_data st))), k'.
        cbn [fst snd step_plugin_data].
        split; [exact Hi'|]. split; [exact Hstep|]. split.
        { apply list_lookup_insert_eq. eapply lookup_lt_Some; eauto. }
        split; [exact Hk'|]. now apply In_dict_keys_remove_ne.
      * exists i', step', st', k'. cbn [fst snd].
        split; [exact Hi'|]. split; [exact Hstep'|]. split.
        { rewrite list_lookup_insert_ne by congruence. exact Hst'. }
        split; [exact Hk'|exact Hin'].
Qed.

Section NdjsonListFacts.
Variable json_dumps : pyobj -> result string.

(** The loop over the steps, when the steps are dictionaries. *)
Lemma ndjson_steps_exceptions (l : list pyobj) (b : nat) exceptions out :
  (forall x, In x l -> exists kvs, x = PyDict kvs) ->
  exists lines,
    ndjson_steps json_dumps (imap (fun i x => (Z.of_nat (b + i), x)) l)
      exceptions out
    = (Ok (exceptions
           ++ concat (imap (fun i => ndjson_failures json_dumps (b + i)) l)),
       lines).
Proof.
  revert b exceptions out. induction l as [|x l IH]; intros b exceptions out Hd.
  - exists out. simpl. now rewrite app_nil_r.
  - rewrite !imap_cons. cbn [ndjson_steps concat].
    destruct (Hd x (or_introl eq_refl)) as [kvs ->].
    rewrite Nat.add_0_r.
    rewrite (imap_ext _ (fun i x => (Z.of_nat (S b + i), x)) l)
      by (intros; simpl; do 2 f_equal; lia).
    rewrite (imap_ext ((fun i => ndjson_failures json_dumps (b + i)) ∘ S)
               (fun i => ndjson_failures json_dumps (S b + i)) l)
      by (intros; simpl; f_equal; lia).
    unfold ndjson_failures at 1.
    destruct (json_dumps (PyDict kvs)) as [line|e].
    + unfold mbind. apply IH. intros y Hy. apply Hd. now right.
    + unfold mbind, lift. cbn [py_iteritems].
      destruct (IH (S b) (exceptions ++ ndjson_step_exceptions json_dumps (Z.of_nat b) kvs)
                  out) as [lines Hl]; [intros y Hy; apply Hd; now right|].
      exists lines. rewrite Hl, <- app_assoc. reflexivity.
Qed.

Lemma ndjson_step_exceptions_In i kvs r :
  In r (ndjson_step_exceptions json_dumps i kvs) ->
  ex_step r = i /\ exists k, ex_plugin r = Some k /\ In k (dict_keys kvs).
Proof.
  unfold ndjson_step_exceptions. intros Hin.
  apply list_elem_of_In, list_elem_of_omap in Hin as ([k v] & Hin & Hr).
  cbn [fst snd] in Hr. destruct (json_dumps v); [discriminate|].
  injection Hr as <-. split; [reflexivity|]. exists k. split; [reflexivity|].
  apply list_elem_of_In in Hin. eapply In_dict_keys; eauto.
Qed.

Lemma ndjson_step_exceptions_NoDup i kvs :
  NoDup (dict_keys kvs) ->
  NoDup (map (fun r => (ex_step r, ex_plugin r))
           (ndjson_step_exceptions json_dumps i kvs)).
Proof.
  induction kvs as [|[k v] kvs IH]; intros Hnd; [constructor|].
  cbn [dict_keys map] in Hnd. apply NoDup_cons in Hnd as [Hni Hnd].
  unfold ndjson_step_exceptions. cbn [omap list_omap fst snd].
  fold (ndjson_step_exceptions json_dumps i kvs).
  destruct (json_dumps v) as [line|e]; [now apply IH|].
  cbn [map]. apply NoDup_cons. split; [|now apply IH].
  intros Hin. apply list_elem_of_In, in_map_iff in Hin as (r & Heq & Hr).
  apply ndjson_step_exceptions_In in Hr as (_ & k' & Hk' & Hin').
  cbn in Heq. rewrite Hk' in Heq. injection Heq as _ ->.
  apply Hni. now apply list_elem_of_In.
Qed.

Lemma ndjson_failures_In i step_i r :
  In r (ndjson_failures json_dumps i step_i) ->
  exists kvs, step_i = PyDict kvs /\ ex_step r = Z.of_nat i
              /\ exists k, ex_plugin r = Some k /\ In k (dict_keys kvs).
Proof.
  unfold ndjson_failures. destruct (json_dumps step_i); [intros []|].
  destruct step_i; try (intros []). intros Hin.
  apply ndjson_step_exceptions_In in Hin as [Hs Hk]. eauto.
Qed.

(** The entries of the list are distinct. *)
Lemma ndjson_failures_NoDup (sds : list pydict) (b : nat) :
  Forall (fun sd => NoDup (dict_keys sd)) sds ->
  NoDup (map (fun r => (ex_step r, ex_plugin r))
           (concat (imap (fun i => ndjson_failures json_dumps (b + i))
                      (map PyDict sds)))).
Proof.
  revert b. induction sds as [|sd sds IH]; intros b Hnd; [constructor|].
  apply Forall_cons in Hnd as [Hnd0 Hnd].
  cbn [map]. rewrite imap_cons. cbn [concat]. rewrite map_app.
  rewrite (imap_ext ((fun i => ndjson_failures json_dumps (b + i)) ∘ S)
             (fun i => ndjson_failures json_dumps (S b + i)) (map PyDict sds))
    by (intros; simpl; f_equal; lia).
  apply NoDup_app. split; [|split; [|now apply IH]].
  - unfold ndjson_failures. destruct (json_dumps (PyDict sd)); [constructor|].
    now apply ndjson_step_exceptions_NoDup.
  - intros pair Hhead Htail.
    apply list_elem_of_In, in_map_iff in Hhead as (r & <- & Hr).
    apply list_elem_of_In, in_map_iff in Htail as (r' & Heq & Hr').
    apply ndjson_failures_In in Hr as (_ & _ & Hs & _).
    apply in_concat in Hr' as (l & Hl & Hr').
    apply list_elem_of_In, elem_of_lookup_imap in Hl as (j & y & -> & _).
    apply ndjson_failures_In in Hr' as (_ & _ & Hs' & _).
    injection Heq as Heq _. rewrite Hs, Hs', Nat.add_0_r in Heq. lia.
Qed.
End NdjsonListFacts.

Lemma collect_to_dict_keys class_of items updates :
  collect_to_dict class_of items = Ok updates ->
  forall k, In k (dict_keys updates) -> In k (dict_keys items).
Proof.
  revert updates. induction items as [|[k0 v0] items IH]; intros updates; simpl.
  - intros [= <-] k [].
  - destruct (to_dict_method class_of v0) as [[d|e]|]; simpl.
    + destruct (collect_to_dict class_of items) as [rest|e]; [|discriminate].
      simpl. intros [= <-] k [<-|Hk]; [now left|right; now apply (IH rest)].
    + discriminate.
    + intros H k Hk. right. now apply (IH updates).
Qed.

(** The dictionary that [protocol_to_dict] returns: one dictionary for each
    step, keyed by the plugins of the step, in sorted order. *)
Lemma protocol_to_dict_steps class_of pickle_loads (p : Protocol)
    (hp : list Step) d :
  protocol_to_dict class_of pickle_loads p hp true = Ok d ->
  exists sds v,
    d = PyDict [("name", name p); ("version", PyStr v);
                ("steps", PyList (map PyDict sds));
                ("plugin_data", PyDict (plugin_data p))]
    /\ Forall2 (fun step sd =>
                  exists st, hp !! step = Some st
                             /\ dict_keys sd
                                = sorted_str (dict_keys (step_plugin_data st)))
         (steps p) sds.
Proof.
  unfold protocol_to_dict.
  destruct (map_result _ (steps p)) as [sd0s|e] eqn:H1; [|discriminate].
  cbn [bind].
  destruct (map_result _ sd0s) as [sds|e] eqn:H2; [|discriminate].
  cbn [bind]. destruct (version p) as [v|]; [|discriminate]. cbn [bind].
  intros [= <-]. exists sds, v. split; [reflexivity|].
  apply map_result_Forall2 in H1. apply map_result_Forall2 in H2.
  clear -H1 H2. revert sds H2.
  induction H1 as [|step sd0 stepsl sd0s' Hstep _ IH]; intros sds H2.
  - inversion H2. constructor.
  - inversion H2 as [|? sd ? sds' Hsd Hrest]; subst. constructor; [|now apply IH].
    destruct (hp !! step) as [st|]; [|discriminate]. injection Hstep as <-.
    exists st. split; [reflexivity|].
    destruct (collect_to_dict class_of (step_to_dict pickle_loads true st))
      as [ups|e] eqn:Hups; [|discriminate].
    cbn [bind] in Hsd. injection Hsd as <-.
    rewrite apply_updates_keys by (now apply (collect_to_dict_keys class_of _ ups)).
    unfold step_to_dict, Step_plugins.
    apply (dict_keys_map_keys (fun k => Step_get_data st k)).
Qed.

(** X17: when [protocol_to_ndjson] has written the header line of a
    protocol whose steps are distinct objects, it returns or raises a
    [SerializationError], and the repair of the protocol with the list of
    that error returns: every entry of the list names another plugin that
    its step holds. *)
Theorem ndjson_error_list_repairs
    (class_of : string -> pyclass) (pickle_loads : string -> result pyobj)
    (json_dumps : pyobj -> result string)
    (p : Protocol) (hp : list Step) (top : pydict) (header_line : string) :
  NoDup (steps p) ->
  (forall step st, step ∈ steps p -> hp !! step = Some st ->
                   NoDup (dict_keys (step_plugin_data st))) ->
  protocol_to_dict class_of pickle_loads p hp true = Ok (PyDict top) ->
  json_dumps (PyDict (dict_remove "steps" top)) = Ok header_line ->
  exists r lines,
    protocol_to_ndjson_stream class_of pickle_loads json_dumps (p, hp) []
    = (r, lines)
    /\ (r = Ok tt
        \/ exists exceptions hp',
             r = Raise (SerializationError "Error serializing protocol."
                          exceptions)
             /\ protocol_remove_exceptions (p, hp) exceptions false
                = (Ok (Some (p, hp')), (p, hp))).
Proof.
  intros Hnds Hkeys Hdict Hheader.
  destruct (protocol_to_dict_steps _ _ _ _ _ Hdict) as (sds & v & Htop & Hsds).
  injection Htop as ->.
  unfold protocol_to_ndjson_stream. cbn [fst snd].
  unfold mbind at 1, lift. rewrite Hdict.
  unfold mbind at 1. cbn [py_getitem dict_getitem dict_get String.eqb Ascii.eqb
                            Bool.eqb].
  unfold mbind at 1. rewrite Hheader.
  unfold mbind at 1. unfold mbind at 1. cbn [py_iter].
  unfold mbind at 1. unfold enumerate.
  destruct (ndjson_steps_exceptions json_dumps (map PyDict sds) 0 [] ([] ++ [header_line]))
    as [lines Hl].
  { intros x Hx. apply in_map_iff in Hx as (sd & <- & _). now exists sd. }
  cbn [Nat.add] in Hl. rewrite Hl. cbn [app].
  set (excs := concat (imap (fun i => ndjson_failures json_dumps i) (map PyDict sds))).
  destruct excs as [|r0 rest] eqn:Hexcs.
  { eexists _, _. split; [reflexivity|]. now left. }
  eexists _, _. split; [reflexivity|]. right.
  assert (Hall : forall step, step ∈ steps p ->
            exists st, hp !! step = Some st
                       /\ NoDup (dict_keys (step_plugin_data st))).
  { intros step Hstep. apply list_elem_of_lookup_1 in Hstep as [i Hi].
    destruct (Forall2_lookup_l _ _ _ _ _ Hsds Hi) as (sd & _ & st & Hst & _).
    exists st. split; [exact Hst|]. apply (Hkeys step st); [|exact Hst].
    eapply list_elem_of_lookup_2; eauto. }
  destruct (remove_exceptions_loop_returns p (r0 :: rest) Hnds hp) as [hp' Hloop].
  - rewrite <- Hexcs. subst excs.
    apply (ndjson_failures_NoDup json_dumps sds 0).
    apply Forall_forall. intros sd Hsd.
    apply list_elem_of_lookup_1 in Hsd as [i Hi].
    destruct (Forall2_lookup_r _ _ _ _ _ Hsds Hi) as (step & Hstep & st & Hst & Hk).
    rewrite Hk. rewrite sorted_str_perm.
    apply (Hkeys step st); [|exact Hst]. eapply list_elem_of_lookup_2; eauto.
  - exact Hall.
  - intros r Hr. rewrite <- Hexcs in Hr. subst excs.
    apply in_concat in Hr as (l & Hl' & Hr).
    apply list_elem_of_In, elem_of_lookup_imap in Hl' as (i & y & -> & Hy).
    apply ndjson_failures_In in Hr as (kvs & -> & Hs & k & Hk & Hin).
    rewrite list_lookup_fmap in Hy.
    destruct (sds !! i) as [sd|] eqn:Hsd; [|discriminate]. injection Hy as ->.
    destruct (Forall2_lookup_r _ _ _ _ _ Hsds Hsd) as (step & Hstep & st & Hst & Hkk).
    exists i, step, st, k. cbn [fst snd].
    split; [exact Hs|]. split; [exact Hstep|]. split; [exact Hst|].
    split; [exact Hk|].
    rewrite Hkk in Hin. apply list_elem_of_In in Hin.
    rewrite sorted_str_perm in Hin. now apply list_elem_of_In.
  - exists (r0 :: rest), hp'. split; [reflexivity|].
    unfold protocol_remove_exceptions, _protocol_remove_exceptions.
    rewrite Hloop. reflexivity.
Qed.

(** ** Payloads that do not unpickle, in [protocol_to_dict] *)

(** The dictionaries of the steps, for either value of [loaded]. *)
Lemma protocol_to_dict_step_dicts class_of pickle_loads (p : Protocol)
    (hp : list Step) loaded d :
  protocol_to_dict class_of pickle_loads p hp loaded = Ok d ->
  exists sds,
    py_getitem d "steps" = Ok (PyList (map PyDict sds))
    /\ Forall2 (fun step sd =>
                  exists st, hp !! step = Some st
                             /\ sd = decode_record (to_dict_value class_of)
                                       (step_to_dict pickle_loads loaded st)
                                       (step_to_dict pickle_loads loaded st))
         (steps p) sds.
Proof.
  unfold protocol_to_dict.
  destruct (map_result _ (steps p)) as [sd0s|e] eqn:H1; [|discriminate].
  cbn [bind].
  destruct (map_result _ sd0s) as [sds|e] eqn:H2; [|discriminate].
  cbn [bind]. destruct (version p) as [v|]; [|discriminate]. cbn [bind].
  intros [= <-]. exists sds. split; [reflexivity|].
  apply map_result_Forall2 in H1. apply map_result_Forall2 in H2.
  clear -H1 H2. revert sds H2.
  induction H1 as [|step sd0 stepsl sd0s' Hstep _ IH]; intros sds H2.
  - inversion H2. constructor.
  - inversion H2 as [|? sd ? sds' Hsd Hrest]; subst. constructor; [|now apply IH].
    destruct (hp !! step) as [st|]; [|discriminate]. injection Hstep as <-.
    exists st. split; [reflexivity|].
    destruct (collect_to_dict class_of (step_to_dict pickle_loads loaded st))
      as [ups|e] eqn:Hups; [|discriminate].
    cbn [bind] in Hsd. injection Hsd as <-.
    now apply collect_to_dict_run.
Qed.

(** X18: [to_dict] of a protocol that was not loaded (its payloads are
    still pickled) puts [None] in the place of every payload that does not
    unpickle; the plugin keeps its place in the dictionary of the step. *)
Theorem to_dict_of_unloaded_protocol_drops_bad_pickles
    (class_of : string -> pyclass) (pickle_loads : string -> result pyobj)
    (p : Protocol) (hp : list Step) (d : pyobj)
    (i : nat) (step : ref) (st : Step) (k : string) (v : pyobj) :
  protocol_to_dict class_of pickle_loads p hp false = Ok d ->
  steps p !! i = Some step ->
  hp !! step = Some st ->
  NoDup (dict_keys (step_plugin_data st)) ->
  dict_get k (step_plugin_data st) = Some v ->
  fails (pickle_loads_obj pickle_loads v) ->
  exists sds sd,
    py_getitem d "steps" = Ok (PyList (map PyDict sds))
    /\ sds !! i = Some sd
    /\ dict_get k sd = Some PyNone.
Proof.
  intros Hdict Hstep Hst Hnd Hk [e He].
  destruct (protocol_to_dict_step_dicts _ _ _ _ _ _ Hdict) as (sds & Hget & Hsds).
  destruct (Forall2_lookup_l _ _ _ _ _ Hsds Hstep) as (sd & Hsd & st' & Hst' & ->).
  rewrite Hst in Hst'. injection Hst' as <-.
  exists sds. eexists. split; [exact Hget|]. split; [exact Hsd|].
  assert (Hkeys : dict_keys (step_to_dict pickle_loads false st)
                  = sorted_str (dict_keys (step_plugin_data st))).
  { unfold step_to_dict, Step_plugins.
    apply (dict_keys_map_keys
             (fun k => safe_pickle_loads pickle_loads (Step_get_data st k))). }
  assert (Hnd0 : NoDup (dict_keys (step_to_dict pickle_loads false st))).
  { rewrite Hkeys. now rewrite sorted_str_perm. }
  destruct (decode_record_self (to_dict_value class_of) _ Hnd0) as [_ Hg].
  rewrite (Hg k PyNone); [reflexivity|].
  unfold step_to_dict, Step_plugins.
  rewrite (dict_get_map_keys
             (fun k => safe_pickle_loads pickle_loads (Step_get_data st k))).
  rewrite decide_True.
  - unfold Step_get_data, safe_pickle_loads. now rewrite Hk, He.
  - rewrite sorted_str_perm. apply list_elem_of_In.
    apply dict_get_In in Hk. eapply In_dict_keys; eauto.
Qed.

(** ** What [protocol_from_dict] accepts *)

Lemma collect_from_dict_contains class_of import_module items acc found :
  collect_from_dict class_of import_module items acc = Ok found ->
  forall k v, In (k, v) items -> exists b, py_contains class_of "__class__" v = Ok b.
Proof.
  revert acc found. induction items as [|[k0 v0] items IH]; intros acc found;
    [intros _ k v []|].
  cbn [collect_from_dict].
  destruct (py_contains class_of "__class__" v0) as [b|e] eqn:Hc; [|discriminate].
  cbn [bind]. intros H k v [[= <- <-]|Hin]; [now exists b|].
  destruct b.
  - destruct (py_pop class_of "__class__" v0) as [popped|e]; [|discriminate]. cbn [bind] in H.
    destruct (lookup_class import_module popped.1) as [c|e]; [|discriminate].
    cbn [bind] in H. destruct (cls_from_dict c) as [g|].
    + destruct (g popped.2) as [obj|e]; [|discriminate]. cbn [bind] in H.
      destruct (collect_from_dict class_of import_module items _) as [rest|e] eqn:Hrest;
        [|discriminate].
      eapply IH; eauto.
    + eapply IH; eauto.
  - eapply IH; eauto.
Qed.

Lemma convert_steps_inv class_of import_module refs (hp hp' : list Step) :
  NoDup refs ->
  convert_steps class_of import_module refs hp = (Ok tt, hp') ->
  forall (r : ref), r ∈ refs ->
    exists st found,
      hp !! r = Some st
      /\ collect_from_dict class_of import_module (step_plugin_data st)
           (step_plugin_data st) = Ok found.
Proof.
  revert hp. induction refs as [|r0 refs IH]; intros hp Hnd Hrun r Hr.
  - now apply elem_of_nil in Hr.
  - apply NoDup_cons in Hnd as [Hni Hnd]. cbn [convert_steps] in Hrun.
    unfold mbind at 1, get_state in Hrun.
    destruct (hp !! r0) as [st0|] eqn:Hst0; [|discriminate].
    unfold mbind at 1, lift in Hrun.
    destruct (collect_from_dict class_of import_module (step_plugin_data st0)
                (step_plugin_data st0)) as [found|e] eqn:Hc; [|discriminate].
    unfold mbind at 1, put_state in Hrun.
    apply elem_of_cons in Hr as [->|Hr].
    + now exists st0, found.
    + destruct (IH _ Hnd Hrun r Hr) as (st & found' & Hst & Hc').
      exists st, found'. split; [|exact Hc'].
      rewrite list_lookup_insert_ne in Hst by (intros ->; contradiction).
      exact Hst.
Qed.

Lemma alloc_steps_are_dicts l (hp : list Step) rs hp1 :
  alloc_steps l hp = (Ok rs, hp1) -> exists sds, l = map PyDict sds.
Proof.
  revert hp rs hp1. induction l as [|x l IH]; intros hp rs hp1.
  - intros _. now exists [].
  - cbn [alloc_steps]. unfold mbind at 1, lift.
    destruct (py_iteritems x) as [items|e] eqn:Hx; [|discriminate].
    unfold mbind at 1, heap_alloc. unfold mbind at 1.
    destruct (alloc_steps l _) as [[rs'|e] hp2] eqn:E; [|discriminate].
    intros _. destruct (IH _ _ _ E) as [sds ->].
    destruct x; try discriminate. now exists (kvs :: sds).
Qed.

(** When [protocol_from_dict] returns, the test for the key [__class__]
    has returned on every payload of every step of the dictionary. *)
Lemma protocol_from_dict_tests_payloads class_of import_module protocol_dict
    (hp hp' : list Step) (p : Protocol) :
  protocol_from_dict class_of import_module protocol_dict hp = (Ok p, hp') ->
  exists sds,
    py_getitem protocol_dict "steps" = Ok (PyList (map PyDict sds))
    /\ forall sd k v, In sd sds -> In (k, v) sd ->
         exists b, py_contains class_of "__class__" v = Ok b.
Proof.
  intros H. pose proof H as H0.
  apply protocol_from_dict_steps in H0 as (steps_l & Hget & _).
  revert H. unfold protocol_from_dict.
  destruct (validate_protocol protocol_dict); [|discriminate]. cbn [negb].
  unfold mbind at 1, lift.
  destruct (py_getitem protocol_dict "name") as [nm|e]; [|discriminate].
  unfold mbind at 1, heap_alloc. unfold mbind at 1.
  destruct (py_getitem protocol_dict "version") as [ver|e]; [|discriminate].
  destruct (negb _); [discriminate|].
  unfold mbind at 1. rewrite Hget. unfold mbind at 1. cbn [py_iter].
  unfold mbind at 1.
  destruct (alloc_steps steps_l _) as [[rs|e] hp1] eqn:E; [|discriminate].
  destruct (alloc_steps_are_dicts _ _ _ _ E) as [sds ->].
  rewrite alloc_steps_dicts in E. injection E as <- <-.
  unfold mbind at 1.
  destruct (convert_steps class_of import_module _ _) as [[[]|e] hp2] eqn:Hconv;
    [|discriminate].
  intros _. exists sds. split; [reflexivity|].
  intros sd k v Hsd Hin.
  apply list_elem_of_In, list_elem_of_lookup_1 in Hsd as [i Hi].
  assert (Hlt : (i < length sds)%nat) by (eapply lookup_lt_Some; eauto).
  destruct (convert_steps_inv _ _ _ _ _ (NoDup_seq _ _) Hconv
              (length (hp ++ [mkStep []]) + i)%nat)
    as (st & found & Hst & Hc).
  { apply elem_of_seq. lia. }
  rewrite lookup_app_r in Hst by lia.
  replace (length (hp ++ [mkStep []]) + i - length (hp ++ [mkStep []]))%nat
    with i in Hst by lia.
  rewrite list_lookup_fmap, Hi in Hst. injection Hst as <-.
  exact (collect_from_dict_contains _ _ _ _ _ Hc k v Hin).
Qed.

(** X19: [protocol_from_dict] raises on a dictionary in which some step
    holds a payload that is [None], a boolean or a number, or an instance of
    a class without a membership test: the test for the key [__class__]
    raises on such a payload, and nothing catches it.  So the dictionary
    that [protocol_to_dict] gives with [loaded=False] for a step with an
    unreadable pickle, which holds [None] in its place, is not read back. *)
Theorem from_dict_raises_on_a_payload_without_membership
    (class_of : string -> pyclass)
    (import_module : string -> option (string -> option pyclass))
    (protocol_dict : pyobj) (steps_l : list pyobj) (sd : pydict)
    (k : string) (v : pyobj) (hp : list Step) :
  py_getitem protocol_dict "steps" = Ok (PyList steps_l) ->
  In (PyDict sd) steps_l ->
  In (k, v) sd ->
  no_membership_test class_of v ->
  exists e hp',
    protocol_from_dict class_of import_module protocol_dict hp = (Raise e, hp').
Proof.
  intros Hsteps Hsd Hin Hv.
  destruct (protocol_from_dict class_of import_module protocol_dict hp)
    as [[p|e] hp'] eqn:H; [exfalso|eauto].
  apply protocol_from_dict_tests_payloads in H as (sds & Hget & Hall).
  rewrite Hsteps in Hget. injection Hget as ->.
  apply in_map_iff in Hsd as (sd' & [= ->] & Hsd').
  destruct (Hall sd k v Hsd' Hin) as [b Hb].
  destruct v; cbn in Hv, Hb; try discriminate; try contradiction.
  rewrite Hv in Hb. discriminate.
Qed.

(** ** Saving and loading a protocol *)

Lemma for_each_ext {St A} (l : list A) (body1 body2 : A -> M St unit) s :
  (forall x s0, In x l -> body1 x s0 = body2 x s0) ->
  for_each l body1 s = for_each l body2 s.
Proof.
  revert s. induction l as [|x l IH]; intros s Hext; [reflexivity|].
  cbn [for_each]. unfold mbind. rewrite (Hext x s) by (now left).
  destruct (body2 x s) as [[[]|e] s1]; [|reflexivity].
  apply IH. intros y s0 Hy. apply Hext. now right.
Qed.

Section ProtocolSaveFacts.
Variable pickle_dumps : pyobj -> result string.

(** The loop of [save] over the protocol-wide plugin data. *)
Lemma save_plugin_data_run items (s : pstate) :
  (forall k v, In (k, v) items -> succeeds (pickle_dumps v)) ->
  for_each items
    (fun kv => (let! y := lift (pickle_dumps kv.2) in
                Protocol_set_data kv.1 (PyStr y))%method) s
  = (Ok tt,
     mkPstate
       (set_plugin_data
          (decode_record (encode_payload pickle_dumps) items (plugin_data (self s)))
          (self s))
       (heap s) (signals s)).
Proof.
  intros Hok. rewrite <- load_plugin_data_run. apply for_each_ext.
  intros [k v] s0 Hin. destruct (Hok k v Hin) as [y Hy].
  unfold mbind, lift, encode_payload. cbn [fst snd]. now rewrite Hy.
Qed.

(** The loop of [save] over the plugins of the step that [r] names. *)
Lemma save_step_run r items (s : pstate) st :
  heap s !! r = Some st ->
  (forall k v, In (k, v) items -> succeeds (pickle_dumps v)) ->
  for_each items
    (fun kv => (let! y := lift (pickle_dumps kv.2) in
                Step_set_data r kv.1 (PyStr y))%method) s
  = (Ok tt,
     mkPstate (self s)
       (<[r := mkStep (decode_record (encode_payload pickle_dumps) items
                         (step_plugin_data st))]> (heap s))
       (signals s)).
Proof.
  intros Hst Hok. rewrite <- (load_step_run _ r items s st Hst).
  apply for_each_ext. intros [k v] s0 Hin. destruct (Hok k v Hin) as [y Hy].
  unfold mbind at 1, lift, encode_payload. cbn [fst snd]. now rewrite Hy.
Qed.

(** The loop of [save] over the steps. *)
Lemma save_steps_run todo (s : pstate) :
  NoDup todo ->
  (forall r, r ∈ todo ->
     exists st, heap s !! r = Some st
                /\ forall k v, In (k, v) (step_plugin_data st) ->
                               succeeds (pickle_dumps v)) ->
  for_each todo
    (fun step => (let! st := deref step in
                  for_each (step_plugin_data st)
                    (fun kv => let! y := lift (pickle_dumps kv.2) in
                               Step_set_data step kv.1 (PyStr y)))%method) s
  = (Ok tt,
     mkPstate (self s)
       (decode_steps (encode_payload pickle_dumps) todo (heap s)) (signals s)).
Proof.
  revert s. induction todo as [|r todo IH]; intros s Hnd Hok.
  - simpl. now rewrite pstate_eta.
  - apply NoDup_cons in Hnd as [Hni Hnd].
    destruct (Hok r) as (st & Hst & Hst_ok); [left|].
    cbn [for_each]. unfold mbind at 1. unfold mbind at 1, deref. rewrite Hst.
    rewrite (save_step_run r _ s st Hst Hst_ok).
    rewrite IH; [|exact Hnd|].
    + cbn [self heap signals]. unfold decode_steps. cbn [fold_left].
      now rewrite Hst.
    + intros r' Hr'. cbn [heap].
      rewrite list_lookup_insert_ne by (intros ->; contradiction).
      apply Hok. now right.
Qed.

Lemma Protocol_save_payloads_run (s : pstate) :
  NoDup (steps (self s)) ->
  (forall k v, In (k, v) (plugin_data (self s)) -> succeeds (pickle_dumps v)) ->
  (forall r, r ∈ steps (self s) ->
     exists st, heap s !! r = Some st
                /\ forall k v, In (k, v) (step_plugin_data st) ->
                               succeeds (pickle_dumps v)) ->
  Protocol_save_payloads pickle_dumps s
  = (Ok tt,
     mkPstate
       (set_plugin_data
          (decode_record (encode_payload pickle_dumps) (plugin_data (self s))
             (plugin_data (self s)))
          (self s))
       (decode_steps (encode_payload pickle_dumps) (steps (self s)) (heap s))
       (signals s)).
Proof.
  intros Hnd Hpd Hsteps. unfold Protocol_save_payloads.
  unfold mbind at 1, get_state. unfold mbind at 1.
  rewrite (save_plugin_data_run _ s Hpd).
  rewrite save_steps_run; [reflexivity|exact Hnd|exact Hsteps].
Qed.
End ProtocolSaveFacts.

(** A record encoded and decoded again is the record. *)
Lemma decode_encode_record (enc dec : pyobj -> option pyobj) (record : pydict) :
  NoDup (dict_keys record) ->
  (forall k v, In (k, v) record -> exists x, enc v = Some x /\ dec x = Some v) ->
  decode_record dec (decode_record enc record record)
    (decode_record enc record record)
  = record.
Proof.
  intros Hnd Hrt.
  destruct (decode_record_self enc record Hnd) as [Hk Hg].
  assert (Hnd' : NoDup (dict_keys (decode_record enc record record)))
    by (now rewrite Hk).
  destruct (decode_record_self dec _ Hnd') as [Hk' Hg'].
  apply dict_ext.
  - now rewrite Hk', Hk.
  - now rewrite Hk', Hk.
  - intros k. destruct (dict_get k record) as [v|] eqn:Hv.
    + rewrite (Hg' k _ (Hg k v Hv)).
      destruct (Hrt k v (dict_get_In _ _ _ Hv)) as (x & Hx & Hdx).
      unfold decoded_or_raw. rewrite Hx, Hdx. reflexivity.
    + apply dict_get_None. rewrite Hk', Hk. now apply dict_get_None.
Qed.

Lemma decode_encode_steps (enc dec : pyobj -> option pyobj) (steps : list ref)
    (hp : list Step) :
  NoDup steps ->
  (forall r, r ∈ steps ->
     exists st, hp !! r = Some st
                /\ NoDup (dict_keys (step_plugin_data st))
                /\ forall k v, In (k, v) (step_plugin_data st) ->
                               exists x, enc v = Some x /\ dec x = Some v) ->
  decode_steps dec steps (decode_steps enc steps hp) = hp.
Proof.
  intros Hnd Hok. apply list_eq. intros i.
  destruct (decide (i ∈ steps)) as [Hin|Hni].
  - destruct (Hok i Hin) as (st & Hst & Hndk & Hrt).
    rewrite (decode_steps_lookup dec steps _ i _ Hnd Hin
               (decode_steps_lookup enc steps hp i st Hnd Hin Hst)).
    cbn [step_plugin_data]. rewrite (decode_encode_record enc dec _ Hndk Hrt).
    rewrite Hst. now destruct st.
  - now rewrite !decode_steps_other.
Qed.

(** X20: a protocol at the class version whose steps are distinct objects,
    whose payloads [pickle] writes and reads back, and whose pickled copy
    the file pickle writes and reads back, is saved to a file whose
    extension is not [.json], from which [load] returns the protocol with
    the same steps and payloads; only the file name is set. *)
Theorem Protocol_save_then_load_restores
    (pickle_loads yaml_load : string -> result pyobj)
    (pickle_dumps yaml_dump : pyobj -> result string)
    (pickle_load_file yaml_load_file : string -> result file_object)
    (pickle_dump_file yaml_dump_file : file_object -> result string)
    (path_ext : string -> string) (json_load : string -> result pyobj)
    (class_of : string -> pyclass)
    (import_module : string -> option (string -> option pyclass))
    (filename vstr : string) (fs : files) (p : Protocol) (hp : list Step) :
  str_lower (path_ext filename) <> ".json" ->
  version p = Some vstr ->
  Version_fromstring vstr = Ok (mkVersion 0 2 0) ->
  NoDup (steps p) ->
  NoDup (dict_keys (plugin_data p)) ->
  (forall k v, In (k, v) (plugin_data p) ->
               exists y, pickle_dumps v = Ok y /\ pickle_loads y = Ok v) ->
  (forall r, r ∈ steps p ->
     exists st, hp !! r = Some st
                /\ NoDup (dict_keys (step_plugin_data st))
                /\ forall k v, In (k, v) (step_plugin_data st) ->
                     exists y, pickle_dumps v = Ok y /\ pickle_loads y = Ok v) ->
  (forall s1,
      Protocol_save_payloads pickle_dumps (mkPstate (set_filename None p) hp [])
      = (Ok tt, s1) ->
      exists content,
        pickle_dump_file (FProtocol false (self s1) (heap s1)) = Ok content
        /\ pickle_load_file content = Ok (FProtocol false (self s1) (heap s1))) ->
  exists fs',
    Protocol_save pickle_dumps pickle_dump_file yaml_dump_file p hp filename
      "pickle" fs
    = (Ok tt, fs')
    /\ Protocol_load pickle_loads yaml_load yaml_dump pickle_load_file
         yaml_load_file path_ext json_load class_of import_module fs' filename
       = Ok (set_filename (Some filename) p, hp).
Proof.
  intros Hext Hver Hparse Hnd Hndpd Hpd Hsteps Hfile.
  apply String.eqb_neq in Hext.
  set (enc := encode_payload pickle_dumps).
  assert (Hsave : Protocol_save_payloads pickle_dumps
                    (mkPstate (set_filename None p) hp [])
                  = (Ok tt,
                     mkPstate
                       (set_plugin_data
                          (decode_record enc (plugin_data p) (plugin_data p))
                          (set_filename None p))
                       (decode_steps enc (steps p) hp) [])).
  { rewrite Protocol_save_payloads_run; [reflexivity|exact Hnd| |].
    - intros k v Hin. destruct (Hpd k v Hin) as (y & Hy & _). now exists y.
    - intros r Hr. destruct (Hsteps r Hr) as (st & Hst & _ & Hrt).
      exists st. split; [exact Hst|]. intros k v Hin.
      destruct (Hrt k v Hin) as (y & Hy & _). now exists y. }
  destruct (Hfile _ Hsave) as (content & Hdump & Hundump).
  cbn [self heap] in Hdump, Hundump.
  exists (dict_set filename content fs). split.
  - unfold Protocol_save. rewrite Hsave. cbn [self heap]. cbn [String.eqb Ascii.eqb Bool.eqb].
    rewrite Hdump. reflexivity.
  - unfold Protocol_load. rewrite Hext.
    unfold Protocol_load_serialized, read_file. rewrite dict_get_set_eq.
    cbn [bind]. unfold load_file_object. rewrite Hundump.
    unfold Protocol_before_upgrade.
    cbn [version set_filename set_plugin_data]. rewrite Hver.
    set (out := set_filename (Some filename)
                  (set_plugin_data (decode_record enc (plugin_data p) (plugin_data p))
                     (set_filename None p))).
    assert (Hup : Protocol_upgrade yaml_dump
                    (mkPstate out (decode_steps enc (steps p) hp) [])
                  = (Ok tt, mkPstate out (decode_steps enc (steps p) hp) [])).
    { unfold Protocol_upgrade, mbind, get_state, ret, lift. cbn [self version out
        set_filename set_plugin_data].
      rewrite Hver, Hparse, class_version_parses. reflexivity. }
    unfold mbind at 1. rewrite Hup.
    rewrite Protocol_load_payloads_run.
    2:{ cbn [self heap]. rewrite decode_steps_length.
        apply Forall_forall. intros r Hr.
        destruct (Hsteps r) as (st & Hst & _); [exact Hr|].
        eapply lookup_lt_Some; eauto. }
    cbn [self heap signals plugin_data steps out set_filename set_plugin_data].
    f_equal. f_equal.
    + rewrite decode_encode_record; [now destruct p|exact Hndpd|].
      intros k v Hin. destruct (Hpd k v Hin) as (y & Hy & Hl).
      exists (PyStr y). unfold enc, encode_payload, decode_payload. cbn.
      now rewrite Hy, Hl.
    + apply decode_encode_steps; [exact Hnd|].
      intros r Hr. destruct (Hsteps r Hr) as (st & Hst & Hndk & Hrt).
      exists st. split; [exact Hst|]. split; [exact Hndk|].
      intros k v Hin. destruct (Hrt k v Hin) as (y & Hy & Hl).
      exists (PyStr y). unfold enc, encode_payload, decode_step_payload. cbn.
      now rewrite Hy, Hl.
Qed.

(** X21: [save] with a format that is neither [pickle] nor [yaml] raises
    [TypeError].  [Protocol.save] has by then opened the file for writing:
    the file exists and is empty, whatever it held.  [ExperimentLog.save]
    raises on the first plugin of the first record, before it opens the
    file: the files are left as they are. *)
Theorem save_with_unknown_format
    (pickle_dumps yaml_dump : pyobj -> result string)
    (pickle_dump_file yaml_dump_file : file_object -> result string)
    (path_join : string -> string -> string) (path_parent : string -> string)
    (str_of_id : option Z -> string)
    (filename format : string) (fs : files) :
  format <> "pickle" ->
  format <> "yaml" ->
  (forall (p : Protocol) (hp : list Step) s1,
      Protocol_save_payloads pickle_dumps (mkPstate (set_filename None p) hp [])
      = (Ok tt, s1) ->
      Protocol_save pickle_dumps pickle_dump_file yaml_dump_file p hp filename
        format fs
      = (Raise (Exn TypeError ""), dict_set filename "" fs))
  /\ (forall (l : ExperimentLog) k v items rest,
        data l = ((k, v) :: items) :: rest ->
        ExperimentLog_save pickle_dumps yaml_dump pickle_dump_file yaml_dump_file
          path_join path_parent str_of_id l (Some filename) format fs
        = (Raise (Exn TypeError ""), fs)).
Proof.
  intros Hp Hy.
  assert (Ep : String.eqb format "pickle" = false) by (now apply String.eqb_neq).
  assert (Ey : String.eqb format "yaml" = false) by (now apply String.eqb_neq).
  split.
  - intros p hp s1 Hsave. unfold Protocol_save. rewrite Hsave, Ep, Ey. reflexivity.
  - intros l k v items rest Hdata. unfold ExperimentLog_save. rewrite Hdata.
    cbn [map_result save_record]. rewrite Ep, Ey. reflexivity.
Qed.

(** X22: a protocol file written before the version attribute existed, whose
    extension is not [.json], whose steps are distinct objects and whose
    payloads [yaml] writes and reads back as texts that are not pickles, is
    loaded with every payload as it was on file; the protocol is raised to
    the class version, its attempt counter is set to 0 and its file name is
    set. *)
Theorem Protocol_load_of_a_legacy_file
    (pickle_loads yaml_load : string -> result pyobj)
    (yaml_dump : pyobj -> result string)
    (pickle_load_file yaml_load_file : string -> result file_object)
    (path_ext : string -> string) (json_load : string -> result pyobj)
    (class_of : string -> pyclass)
    (import_module : string -> option (string -> option pyclass))
    (filename content : string) (fs : files) (legacy_class : bool)
    (p : Protocol) (hp : list Step) :
  str_lower (path_ext filename) <> ".json" ->
  read_file fs filename = Ok content ->
  pickle_load_file content = Ok (FProtocol legacy_class p hp) ->
  version p = None ->
  NoDup (steps p) ->
  NoDup (dict_keys (plugin_data p)) ->
  (forall k v, In (k, v) (plugin_data p) ->
     exists y, yaml_dump v = Ok y /\ fails (pickle_loads y)
               /\ yaml_load y = Ok v) ->
  (forall r, r ∈ steps p ->
     exists st, hp !! r = Some st
                /\ NoDup (dict_keys (step_plugin_data st))
                /\ forall k v, In (k, v) (step_plugin_data st) ->
                     exists y, yaml_dump v = Ok y /\ fails (pickle_loads y)
                               /\ yaml_load
                                    (str_replace
                                       "!!python/object:gui.dmf_device_controller."
                                       "!!python/object:microdrop.gui.dmf_device_controller."
                                       y) = Ok v) ->
  Protocol_load pickle_loads yaml_load yaml_dump pickle_load_file yaml_load_file
    path_ext json_load class_of import_module fs filename
  = Ok (set_version (Some class_version)
          (set_current_step_attempt 0 (set_filename (Some filename) p)),
        hp).
Proof.
  intros Hext Hread Hfile Hver Hnd Hndpd Hpd Hsteps.
  apply String.eqb_neq in Hext.
  set (enc := encode_payload yaml_dump).
  unfold Protocol_load. rewrite Hext.
  unfold Protocol_load_serialized. rewrite Hread. cbn [bind].
  unfold load_file_object. rewrite Hfile.
  unfold Protocol_before_upgrade.
  cbn [version set_filename]. rewrite Hver.
  set (out := set_version (Some (Version_str (mkVersion 0 0 0)))
                (set_filename (Some filename) p)).
  set (up := set_version (Some (Version_str (mkVersion 0 2 0)))
               (set_current_step_attempt 0
                  (set_version (Some (Version_str (mkVersion 0 1 0)))
                     (set_plugin_data
                        (decode_record enc (plugin_data p) (plugin_data p)) out)))).
  assert (Hup : Protocol_upgrade yaml_dump (mkPstate out hp [])
                = (Ok tt, mkPstate up (decode_steps enc (steps p) hp) [])).
  { unfold Protocol_upgrade. unfold mbind at 1, get_state.
    cbn [self version out set_version set_filename].
    unfold mbind at 1, ret. unfold mbind at 1, lift.
    replace (Version_fromstring (Version_str (mkVersion 0 0 0)))
      with (Ok (mkVersion 0 0 0)) by reflexivity.
    unfold mbind at 1. rewrite class_version_parses.
    cbn [Version_gtb Version_ltb Version_compare major minor micro Nat.compare].
    unfold mbind at 1. unfold mbind at 1.
    cbn [plugin_data steps].
    rewrite (save_plugin_data_run yaml_dump).
    2:{ intros k v Hin. destruct (Hpd k v Hin) as (y & Hy & _). now exists y. }
    unfold mbind at 1. rewrite (save_steps_run yaml_dump); [|exact Hnd|].
    2:{ intros r Hr. destruct (Hsteps r Hr) as (st & Hst & _ & Hrt).
        exists st. split; [exact Hst|]. intros k v Hin.
        destruct (Hrt k v Hin) as (y & Hy & _). now exists y. }
    reflexivity. }
  unfold mbind at 1. rewrite Hup.
  rewrite Protocol_load_payloads_run.
  2:{ cbn [self heap]. rewrite decode_steps_length.
      apply Forall_forall. intros r Hr.
      destruct (Hsteps r) as (st & Hst & _); [exact Hr|].
      eapply lookup_lt_Some; eauto. }
  cbn [self heap signals plugin_data steps up out set_filename set_plugin_data
         set_version set_current_step_attempt].
  f_equal. f_equal.
  - rewrite decode_encode_record; [now destruct p|exact Hndpd|].
    intros k v Hin. destruct (Hpd k v Hin) as (y & Hy & [e He] & Hl).
    exists (PyStr y). unfold enc, encode_payload, decode_payload. cbn.
    now rewrite Hy, He, Hl.
  - apply decode_encode_steps; [exact Hnd|].
    intros r Hr. destruct (Hsteps r Hr) as (st & Hst & Hndk & Hrt).
    exists st. split; [exact Hst|]. split; [exact Hndk|].
    intros k v Hin. destruct (Hrt k v Hin) as (y & Hy & [e He] & Hl).
    exists (PyStr y). unfold enc, encode_payload, decode_step_payload. cbn.
    now rewrite Hy, He, Hl.
Qed.

(** ** Whether a log is empty *)

(** Whether [get] returns depends on the records and the plugin, not on the
    name asked for. *)
Lemma get_from_returns_for_any_name data name name' plugin_name vs :
  ExperimentLog_get_from data name plugin_name = Ok vs ->
  exists vs', ExperimentLog_get_from data name' plugin_name = Ok vs'.
Proof.
  revert vs. induction data as [|d data IH]; intros vs; simpl.
  - intros _. now exists [].
  - destruct (dict_get plugin_name d) as [[]|]; simpl; try discriminate.
    all: destruct (ExperimentLog_get_from data name plugin_name) as [rest|e];
      simpl; try (destruct (dict_get name kvs); discriminate); try discriminate.
    all: destruct (IH rest eq_refl) as [rest' ->].
    all: try (destruct (dict_get name' kvs)); simpl; eexists; reflexivity.
Qed.

Lemma get_from_prefix data1 data2 name plugin_name vs :
  ExperimentLog_get_from (data1 ++ data2) name plugin_name = Ok vs ->
  exists vs1, ExperimentLog_get_from data1 name plugin_name = Ok vs1.
Proof.
  rewrite get_from_app.
  destruct (ExperimentLog_get_from data1 name plugin_name); [eauto|discriminate].
Qed.

Lemma filter_is_not_none_last (vs : list pyobj) (x : pyobj) :
  x <> PyNone -> List.filter is_not_none (vs ++ [x]) <> [].
Proof.
  intros Hx H.
  assert (Hin : In x (List.filter is_not_none (vs ++ [x]))).
  { apply filter_In. split; [apply in_app_iff; right; now left|].
    destruct x; try reflexivity. contradiction. }
  rewrite H in Hin. destruct Hin.
Qed.

(** What [start_time] leaves: records on which [get] returns for the
    plugin [core]. *)
Lemma start_time_keeps_get now (l l1 : ExperimentLog) t :
  ExperimentLog_start_time now l = (Ok t, l1) ->
  exists vs, ExperimentLog_get_from (data l1) "step" "core" = Ok vs.
Proof.
  unfold ExperimentLog_start_time, mbind, get_state, lift, ExperimentLog_get.
  destruct (ExperimentLog_get_from (data l) "start time" "core") as [vs0|e] eqn:Hget;
    [|discriminate].
  destruct (List.find py_truthy vs0).
  - intros [= _ <-]. eapply get_from_returns_for_any_name; eauto.
  - unfold ExperimentLog_add_data.
    set (data0 := match data l with [] => [[]] | d => d end) in *.
    set (lastrec := List.last data0 []).
    set (last1 := if dict_mem "core" lastrec then lastrec
                  else dict_set "core" (PyDict []) lastrec).
    destruct (add_items "core" [("start time", now)] last1) as [last2|e] eqn:Hadd;
      [|discriminate].
    unfold ret. intros [= _ <-]. cbn [data el_set_data].
    assert (Hinit : exists vs1, ExperimentLog_get_from (removelast data0)
                                  "step" "core" = Ok vs1).
    { subst data0. destruct (data l) as [|d ds] eqn:Hd; [now exists []|].
      rewrite (app_removelast_last (l:=d :: ds) []) in Hget by discriminate.
      apply get_from_prefix in Hget as [vs1 Hvs1].
      eapply get_from_returns_for_any_name; eauto. }
    destruct Hinit as [vs1 Hvs1].
    cbn [add_items] in Hadd.
    destruct (dict_get "core" last1) as [[]|] eqn:Hcore; try discriminate.
    injection Hadd as <-.
    rewrite get_from_app, Hvs1. cbn [bind].
    rewrite (get_from_single _ "step" "core" (dict_set "start time" now kvs))
      by apply dict_get_set_eq.
    cbn [bind]. eexists; reflexivity.
Qed.

(** X23: after an [add_step] that returns, with a step number that is not
    [None], the log is not empty, whatever its directory holds; a log
    without records whose directory holds nothing is empty. *)
Theorem log_is_not_empty_after_add_step
    (listdir : string -> result (list string))
    (path_join : string -> string -> string) (str_of_id : option Z -> string)
    (py_sub : pyobj -> pyobj -> result pyobj) :
  (forall (l l' : ExperimentLog) now now' step_number attempt log_path entries,
      ExperimentLog_add_step py_sub now now' step_number attempt l = (Ok tt, l') ->
      step_number <> PyNone ->
      get_log_path path_join str_of_id l' = Ok log_path ->
      listdir log_path = Ok entries ->
      ExperimentLog_empty listdir path_join str_of_id l' = Ok false)
  /\ (forall (l : ExperimentLog) log_path,
        data l = [] ->
        get_log_path path_join str_of_id l = Ok log_path ->
        listdir log_path = Ok [] ->
        ExperimentLog_empty listdir path_join str_of_id l = Ok true).
Proof.
  split.
  - intros l l' now now' step_number attempt log_path entries Hadd Hstep Hpath Hls.
    unfold ExperimentLog_empty. rewrite Hpath. cbn [bind]. rewrite Hls. cbn [bind].
    destruct entries; [|reflexivity].
    revert Hadd. unfold ExperimentLog_add_step. unfold mbind at 1.
    destruct (ExperimentLog_start_time now' l) as [[t|e] l1] eqn:Hstart;
      [|discriminate].
    unfold mbind, lift. destruct (py_sub now t) as [elapsed|e]; [|discriminate].
    intros [= <-]. unfold ExperimentLog_get. cbn [data el_set_data].
    destruct (start_time_keeps_get _ _ _ _ Hstart) as [vs Hvs].
    rewrite get_from_app, Hvs. cbn.
    destruct (List.filter is_not_none (vs ++ [step_number])) eqn:Hf; [|reflexivity].
    exfalso. eapply filter_is_not_none_last; eauto.
  - intros l log_path Hdata Hpath Hls.
    unfold ExperimentLog_empty, ExperimentLog_get.
    rewrite Hpath. cbn [bind]. rewrite Hls, Hdata. reflexivity.
Qed.

(** ** Loading a protocol from JSON *)


(** ** Instances *)

Lemma delete_step_cursor_rule_witness :
  exists s',
    delete_step 0 demo_three_steps = (Ok tt, s')
    /\ steps (self s') = [1%nat; 2%nat]
    /\ heap s' = heap demo_three_steps
    /\ current_step_number (self s') = -1.
Proof. apply (delete_step_cursor_rule demo_three_steps 0); simpl; lia. Defined.

Lemma insert_steps_count_shares_one_step_witness :
  exists s',
    insert_steps (Some 1) (Some 2) None demo_three_steps = (Ok tt, s')
    /\ steps (self s') = [0%nat; 3%nat; 3%nat; 1%nat; 2%nat]
    /\ heap s' = heap demo_three_steps ++ [mkStep []]
    /\ current_step_number (self s') = 2
    /\ forall (j k : nat) plugin_name v,
        (1 <= j < 1 + 2)%nat -> (1 <= k < 1 + 2)%nat ->
        exists r_j r_k s'' st,
          steps (self s') !! j = Some r_j
          /\ steps (self s') !! k = Some r_k
          /\ Step_set_data r_j plugin_name v s' = (Ok tt, s'')
          /\ heap s'' !! r_k = Some st
          /\ Step_get_data st plugin_name = v.
Proof.
  apply (insert_steps_count_shares_one_step demo_three_steps 1 2). simpl. lia.
Defined.

Lemma delete_steps_leaves_the_other_steps_witness :
  exists s',
    delete_steps [2; 0; 1] demo_four_steps = (Ok tt, s')
    /\ steps (self s') = [3%nat]
    /\ heap s' = heap demo_four_steps
    /\ length (steps (self s')) = 1%nat.
Proof.
  apply (delete_steps_leaves_the_other_steps demo_four_steps [0; 1; 2]).
  - nodup_keys.
  - repeat constructor; simpl; lia.
  - simpl. lia.
  - apply perm_trans with [0; 2; 1]; [apply perm_skip, perm_swap|apply perm_swap].
Defined.

Lemma next_step_copy_is_independent_witness :
  exists s' s'' r_copy,
    next_step 2 demo_single_step = (Ok tt, s')
    /\ steps (self s') = [r_copy; 0%nat]
    /\ (let! cur := current_step in Step_set_data cur "b" (PyStr "w"))%method s'
       = (Ok tt, s'')
    /\ heap s'' !! r_copy = Some (mkStep [("a", PyStr "u")])
    /\ heap s'' !! 0%nat
       = Some (mkStep [("a", PyStr "u"); ("b", PyStr "w")]).
Proof.
  apply (next_step_copy_is_independent demo_single_step 0 [] 0%nat
           (mkStep [("a", PyStr "u")]) "b" (PyStr "w")); reflexivity.
Defined.

Lemma cursor_stays_on_a_step_witness :
  cursor_in_range (next_step 2 demo_single_step).2.
Proof.
  apply (cursor_stays_on_a_step (next_step 2) demo_single_step
           (next_step 2 demo_single_step).2 (next_step 2 demo_single_step).1).
  - constructor.
  - unfold cursor_in_range. simpl. lia.
  - reflexivity.
Defined.

Lemma demo_two_bad_shape :
  steps_are_dicts demo_two_bad
    [PyDict [("a", PyObj "numpy.ndarray" []); ("b", PyInt 2);
             ("c", PyObj "pandas.Series" [])]].
Proof.
  eexists. split; [reflexivity|]. split; [reflexivity|].
  intros [|i] step_i [= <-]. eexists; reflexivity.
Qed.

Lemma serialize_protocol_lists_last_failing_plugin_witness :
  serialize_protocol plain_encoder demo_two_bad
  = Raise (SerializationError "Error serializing protocol."
             [ExceptionRecord 0 "is not JSON serializable" (Some "c")
                (Some (PyObj "pandas.Series" []));
              ExceptionRecord 0 "is not JSON serializable" (Some "c")
                (Some (PyObj "pandas.Series" []))]).
Proof.
  apply (serialize_protocol_lists_last_failing_plugin plain_encoder demo_two_bad
           [PyDict [("a", PyObj "numpy.ndarray" []); ("b", PyInt 2);
                    ("c", PyObj "pandas.Series" [])]]).
  - exact demo_two_bad_shape.
  - eexists. reflexivity.
Defined.

Lemma serialize_protocol_blames_failing_payloads_only_witness :
  exists i kvs p v,
    ex_step (ExceptionRecord 0 "is not JSON serializable" (Some "c")
               (Some (PyObj "pandas.Series" []))) = Z.of_nat i
    /\ [PyDict [("a", PyObj "numpy.ndarray" []); ("b", PyInt 2);
                ("c", PyObj "pandas.Series" [])]] !! i = Some (PyDict kvs)
    /\ fails (plain_encoder (PyDict kvs))
    /\ ex_plugin (ExceptionRecord 0 "is not JSON serializable" (Some "c")
                    (Some (PyObj "pandas.Series" []))) = Some p
    /\ ex_data (ExceptionRecord 0 "is not JSON serializable" (Some "c")
                  (Some (PyObj "pandas.Series" []))) = Some v
    /\ In (p, v) kvs
    /\ fails (plain_encoder v).
Proof.
  apply (serialize_protocol_blames_failing_payloads_only plain_encoder
           demo_two_bad _ "Error serializing protocol."
           [ExceptionRecord 0 "is not JSON serializable" (Some "c")
              (Some (PyObj "pandas.Series" []));
            ExceptionRecord 0 "is not JSON serializable" (Some "c")
              (Some (PyObj "pandas.Series" []))]).
  - exact demo_two_bad_shape.
  - reflexivity.
  - now left.
Defined.

Lemma serialize_protocol_header_failure_lists_nothing_witness :
  serialize_protocol plain_encoder demo_header_only_bad
  = Raise (SerializationError "Error serializing protocol." [])
  /\ protocol_dict_remove_exceptions demo_header_only_bad [] false
     = (Ok (Some demo_header_only_bad), demo_header_only_bad).
Proof.
  apply (serialize_protocol_header_failure_lists_nothing plain_encoder
           demo_header_only_bad [PyDict [("a", PyInt 1)]]).
  - eexists. split; [reflexivity|]. split; [reflexivity|].
    intros [|i] step_i [= <-]. eexists; reflexivity.
  - eexists. reflexivity.
  - intros step_i [<-|[]]. eexists. reflexivity.
Defined.

Lemma serialize_protocol_list_breaks_repair_witness :
  exists exceptions p repaired,
    serialize_protocol plain_encoder demo_two_bad
    = Raise (SerializationError "Error serializing protocol." exceptions)
    /\ protocol_dict_remove_exceptions demo_two_bad exceptions false
       = (Raise (Exn KeyError p), demo_two_bad)
    /\ protocol_dict_remove_exceptions demo_two_bad exceptions true
       = (Raise (Exn KeyError p), repaired)
    /\ dict_step_getter repaired 0
       = Ok (PyDict (dict_remove p [("a", PyObj "numpy.ndarray" []);
                                    ("b", PyInt 2);
                                    ("c", PyObj "pandas.Series" [])])).
Proof.
  apply (serialize_protocol_list_breaks_repair plain_encoder demo_two_bad
           [PyDict [("a", PyObj "numpy.ndarray" []); ("b", PyInt 2);
                    ("c", PyObj "pandas.Series" [])]] 0).
  - exact demo_two_bad_shape.
  - eexists. reflexivity.
  - intros j step_j Hj. lia.
  - reflexivity.
  - eexists. reflexivity.
  - nodup_keys.
  - simpl. lia.
Defined.

Lemma to_ndjson_keeps_the_failed_attempt_in_the_stream_witness :
  to_ndjson plain_classes scalar_pickle_loads demo_json_dumps
    demo_ndjson_protocol (Some ["# protocol"]) true
  = (Ok None,
     Some ["# protocol"; "{name,version,plugin_data}"; "{a}";
           "{name,version,plugin_data}"; "{a}"; "{b}"]).
Proof.
  apply (to_ndjson_keeps_the_failed_attempt_in_the_stream plain_classes
           scalar_pickle_loads demo_json_dumps demo_ndjson_protocol
           (demo_ndjson_protocol.1,
            [mkStep [("a", PyStr "u")]; mkStep [("b", PyStr "w")]])
           ["# protocol"]
           ["{name,version,plugin_data}"; "{a}"]
           ["{name,version,plugin_data}"; "{a}"; "{b}"]
           "Error serializing protocol."
           [ExceptionRecord 1 "is not JSON serializable" (Some "bad")
              (Some (PyObj "numpy.ndarray" []))]
           (Ok tt)); reflexivity.
Defined.

Lemma add_data_then_get_witness :
  ExperimentLog_get
    (el_set_data
       [[("core", PyDict [("step", PyInt 0)])];
        [("core", PyDict [("step", PyInt 1)]);
         ("dmf", PyDict [("voltage", PyInt 100)])]]
       demo_memory_log)
    "voltage" "dmf"
  = Ok [PyNone; PyInt 100]
  /\ length
       (data
          (el_set_data
             [[("core", PyDict [("step", PyInt 0)])];
              [("core", PyDict [("step", PyInt 1)]);
               ("dmf", PyDict [("voltage", PyInt 100)])]]
             demo_memory_log))
     = Nat.max 1 2.
Proof.
  apply (add_data_then_get demo_memory_log _ [("voltage", PyInt 100)] "dmf"
           "voltage" (PyInt 100) [PyNone; PyNone]).
  - nodup_keys.
  - reflexivity.
  - reflexivity.
  - reflexivity.
Defined.

Lemma add_step_measures_from_the_stored_start_time_witness :
  (ExperimentLog_add_step int_sub (PyInt 105) (PyInt 100) (PyInt 0) (PyInt 0) ;;
   ExperimentLog_add_step int_sub (PyInt 130) (PyInt 125) (PyInt 1) (PyInt 0))
    %method demo_empty_log
  = (Ok tt,
     el_set_data
       [[("core", PyDict [("start time", PyInt 100)])];
        [("core", PyDict [("step", PyInt 0); ("time", PyInt 5);
                          ("attempt", PyInt 0)])];
        [("core", PyDict [("step", PyInt 1); ("time", PyInt 30);
                          ("attempt", PyInt 0)])]]
       demo_empty_log).
Proof.
  apply (add_step_measures_from_the_stored_start_time int_sub demo_empty_log
           (PyInt 105) (PyInt 100) (PyInt 130) (PyInt 125)); reflexivity.
Defined.

Lemma parse_nat_str (n : nat) : parse_nat (nat_str n) = Some n.
Proof.
  unfold parse_nat, nat_str.
  destruct (NilEmpty.string_of_uint (Nat.to_uint n)) eqn:E.
  - exfalso. pose proof (NilEmpty.usu (Nat.to_uint n)) as H. rewrite E in H.
    simpl in H. injection H as H.
    pose proof (Unsigned.of_to n) as Hn. rewrite <- H in Hn. simpl in Hn.
    subst n. discriminate.
  - rewrite <- E, NilEmpty.usu. simpl. f_equal. apply Unsigned.of_to.
Qed.

Lemma decimal_name_str (i : Z) : 0 <= i -> decimal_name (decimal_str i) = Some i.
Proof.
  intros Hi. unfold decimal_name, decimal_str.
  replace (i <? 0) with false by (symmetry; apply Z.ltb_ge; lia).
  rewrite parse_nat_str. simpl. f_equal. lia.
Qed.

Lemma experiment_id_is_reused_while_its_directory_is_empty_witness :
  exists log2,
    ExperimentLog_init decimal_name decimal_str (Some "logs") "u-2"
      (Some [("0", Dir ["data"]); ("1", Dir [])])
    = (Ok log2, Some [("0", Dir ["data"]); ("1", Dir [])])
    /\ experiment_id log2 = Some 1.
Proof.
  apply (experiment_id_is_reused_while_its_directory_is_empty decimal_name
           decimal_str "logs" "u-1" "u-2" (Some [("0", Dir ["data"])])
           (Some [("0", Dir ["data"]); ("1", Dir [])])
           (mkExperimentLog (Some "logs") (Some 1) (Some "u-1")
              (Some el_class_version) [] (Some []) None)).
  - exact decimal_name_str.
  - reflexivity.
Defined.

Lemma integer_named_file_breaks_construction_witness :
  ExperimentLog_init decimal_name decimal_str (Some "logs") "u-1"
    (Some ([("0", Dir ["data"])] ++ ("7", File) :: [("notes", File)]))
  = (Raise (Exn OSError "Not a directory"),
     Some ([("0", Dir ["data"])] ++ ("7", File) :: [("notes", File)])).
Proof.
  apply (integer_named_file_breaks_construction decimal_name decimal_str "logs"
           "u-1" "7" [("0", Dir ["data"])] [("notes", File)] 7).
  - intros n d i [[= <- <-]|[]] _. eexists; reflexivity.
  - intros j Hj. vm_compute in Hj. destruct Hj as [<-|[]]. lia.
  - lia.
  - reflexivity.
Defined.

Lemma legacy_log_upgrade_shape_witness :
  length (data demo_upgraded_log) = length (data demo_old_log)
  /\ el_version demo_upgraded_log = Some el_class_version
  /\ uuid demo_upgraded_log = Some "u-1"
  /\ metadata demo_upgraded_log = Some []
  /\ forall record k x,
      In record (data demo_upgraded_log) -> In (k, x) record ->
      (k = "core" \/ Some "wheelerlab.dmf_control_board_1.2" = Some k)
      /\ exists y, x = PyStr y.
Proof.
  apply (legacy_log_upgrade_shape scalar_pickle_loads scalar_yaml_dump "u-1"
           "0.0.0" (mkVersion 0 0 0) (Some "wheelerlab.dmf_control_board_1.2")
           demo_old_log demo_upgraded_log); reflexivity.
Defined.

Lemma ndjson_error_list_repairs_witness :
  exists r lines,
    protocol_to_ndjson_stream plain_classes scalar_pickle_loads demo_json_dumps
      demo_ndjson_protocol []
    = (r, lines)
    /\ (r = Ok tt
        \/ exists exceptions hp',
             r = Raise (SerializationError "Error serializing protocol."
                          exceptions)
             /\ protocol_remove_exceptions demo_ndjson_protocol exceptions false
                = (Ok (Some (demo_ndjson_protocol.1, hp')),
                   demo_ndjson_protocol)).
Proof.
  apply (ndjson_error_list_repairs plain_classes scalar_pickle_loads
           demo_json_dumps demo_ndjson_protocol.1 demo_ndjson_protocol.2
           demo_ndjson_dict "{name,version,plugin_data}").
  - nodup_keys.
  - intros step st Hstep. simpl in Hstep.
    apply elem_of_cons in Hstep as [->|Hstep];
      [|apply elem_of_cons in Hstep as [->|Hstep];
        [|now apply elem_of_nil in Hstep]];
      intros [= <-]; nodup_keys.
  - reflexivity.
  - reflexivity.
Defined.

Lemma to_dict_of_unloaded_protocol_drops_bad_pickles_witness :
  exists sds sd,
    py_getitem
      (PyDict [("name", PyStr "demo"); ("version", PyStr "0.2.0");
               ("steps", PyList [PyDict [("a", PyStr "u"); ("bad", PyNone)]]);
               ("plugin_data", PyDict [("app", PyStr "Sx")])])
      "steps"
    = Ok (PyList (map PyDict sds))
    /\ sds !! 0%nat = Some sd
    /\ dict_get "bad" sd = Some PyNone.
Proof.
  apply (to_dict_of_unloaded_protocol_drops_bad_pickles plain_classes
           scalar_pickle_loads demo_corrupt_protocol
           [mkStep [("a", PyStr "Su"); ("bad", PyStr "garbage")]] _ 0 0%nat
           (mkStep [("a", PyStr "Su"); ("bad", PyStr "garbage")]) "bad"
           (PyStr "garbage")).
  - reflexivity.
  - reflexivity.
  - reflexivity.
  - nodup_keys.
  - reflexivity.
  - eexists. reflexivity.
Defined.

Lemma from_dict_raises_on_a_payload_without_membership_witness :
  exists e hp',
    protocol_from_dict plain_classes no_modules demo_none_payload_dict []
    = (Raise e, hp').
Proof.
  apply (from_dict_raises_on_a_payload_without_membership plain_classes
           no_modules demo_none_payload_dict [PyDict [("a", PyNone)]]
           [("a", PyNone)] "a" PyNone []).
  - reflexivity.
  - now left.
  - now left.
  - exact I.
Defined.

Lemma Protocol_save_then_load_restores_witness :
  exists fs',
    Protocol_save scalar_pickle_dumps demo_pickle_dump_file demo_pickle_dump_file
      demo_scalar_protocol demo_scalar_steps "demo.protocol" "pickle" []
    = (Ok tt, fs')
    /\ Protocol_load scalar_pickle_loads scalar_yaml_load scalar_yaml_dump
         demo_pickle_load_saved_protocol demo_yaml_load_file posix_ext no_json
         plain_classes no_modules fs' "demo.protocol"
       = Ok (set_filename (Some "demo.protocol") demo_scalar_protocol,
             demo_scalar_steps).
Proof.
  apply (Protocol_save_then_load_restores scalar_pickle_loads scalar_yaml_load
           scalar_pickle_dumps scalar_yaml_dump demo_pickle_load_saved_protocol
           demo_yaml_load_file demo_pickle_dump_file demo_pickle_dump_file
           posix_ext no_json plain_classes no_modules
           "demo.protocol" "0.2.0" [] demo_scalar_protocol demo_scalar_steps).
  - vm_compute. discriminate.
  - reflexivity.
  - reflexivity.
  - nodup_keys.
  - nodup_keys.
  - intros k v [[= <- <-]|[]]. eexists; split; reflexivity.
  - intros r Hr. simpl in Hr.
    apply elem_of_cons in Hr as [->|Hr];
      [|apply elem_of_cons in Hr as [->|Hr]; [|now apply elem_of_nil in Hr]];
      (eexists; split; [reflexivity|]; split; [nodup_keys|]);
      intros k v [[= <- <-]|[]]; eexists; split; reflexivity.
  - intros s1 H. vm_compute in H. injection H as <-.
    exists "<saved>". split; reflexivity.
Defined.

Lemma save_with_unknown_format_witness :
  (forall (p : Protocol) (hp : list Step) s1,
      Protocol_save_payloads scalar_pickle_dumps
        (mkPstate (set_filename None p) hp [])
      = (Ok tt, s1) ->
      Protocol_save scalar_pickle_dumps demo_pickle_dump_file
        demo_pickle_dump_file p hp "demo.protocol" "json" demo_files
      = (Raise (Exn TypeError ""), dict_set "demo.protocol" "" demo_files))
  /\ (forall (l : ExperimentLog) k v items rest,
        data l = ((k, v) :: items) :: rest ->
        ExperimentLog_save scalar_pickle_dumps scalar_yaml_dump
          demo_pickle_dump_file demo_pickle_dump_file posix_join posix_parent
          id_str l (Some "demo.protocol") "json" demo_files
        = (Raise (Exn TypeError ""), demo_files)).
Proof.
  apply (save_with_unknown_format scalar_pickle_dumps scalar_yaml_dump
           demo_pickle_dump_file demo_pickle_dump_file posix_join posix_parent
           id_str "demo.protocol" "json" demo_files); discriminate.
Defined.

Lemma Protocol_load_of_a_legacy_file_witness :
  Protocol_load scalar_pickle_loads scalar_yaml_load scalar_yaml_dump
    demo_pickle_load_legacy demo_yaml_load_file posix_ext no_json
    plain_classes no_modules [("old.protocol", "<old>")] "old.protocol"
  = Ok (set_version (Some class_version)
          (set_current_step_attempt 0
             (set_filename (Some "old.protocol") demo_legacy_protocol)),
        demo_scalar_steps).
Proof.
  apply (Protocol_load_of_a_legacy_file scalar_pickle_loads scalar_yaml_load
           scalar_yaml_dump demo_pickle_load_legacy demo_yaml_load_file
           posix_ext no_json plain_classes no_modules
           "old.protocol" "<old>" [("old.protocol", "<old>")] true
           demo_legacy_protocol demo_scalar_steps).
  - vm_compute. discriminate.
  - reflexivity.
  - reflexivity.
  - reflexivity.
  - nodup_keys.
  - nodup_keys.
  - intros k v [[= <- <-]|[]]. eexists. split; [reflexivity|].
    split; [eexists; reflexivity|reflexivity].
  - intros r Hr. simpl in Hr.
    apply elem_of_cons in Hr as [->|Hr];
      [|apply elem_of_cons in Hr as [->|Hr]; [|now apply elem_of_nil in Hr]];
      (eexists; split; [reflexivity|]; split; [nodup_keys|]);
      intros k v [[= <- <-]|[]]; eexists; (split; [reflexivity|]);
      (split; [eexists; reflexivity|reflexivity]).
Defined.

Lemma log_is_not_empty_after_add_step_witness :
  ExperimentLog_empty (fun _ => Ok []) posix_join id_str
    (ExperimentLog_add_step int_sub (PyInt 5) (PyInt 3) (PyInt 0) (PyInt 0)
       demo_empty_log).2 = Ok false
  /\ ExperimentLog_empty (fun _ => Ok []) posix_join id_str demo_empty_log
     = Ok true.
Proof.
  split.
  - apply (proj1 (log_is_not_empty_after_add_step (fun _ => Ok []) posix_join
                    id_str int_sub)
             demo_empty_log _ (PyInt 5) (PyInt 3) (PyInt 0) (PyInt 0)
             "logs/0" []).
    + vm_compute. reflexivity.
    + discriminate.
    + vm_compute. reflexivity.
    + reflexivity.
  - apply (proj2 (log_is_not_empty_after_add_step (fun _ => Ok []) posix_join
                    id_str int_sub)
             demo_empty_log "logs/0").
    + reflexivity.
    + vm_compute. reflexivity.
    + reflexivity.
Defined.

